(** * MQTT client of the GSM-AT library: a shallow embedding

    The development follows [gsm_mqtt_client.c]: the packet encoder, the
    request table, the streaming parser, the inbound dispatcher, the
    transport callbacks and the application API.  Integers of the C code are
    values of [Z] with the wrap-around of their width written out; bytes are
    values of [Z] in [0, 256); a C string is a [string] read up to its first
    NUL character. *)

From Stdlib Require Import String Ascii ZArith Lia Bool List.
From Equations Require Import Equations.
Import ListNotations.
Local Open Scope Z_scope.

(** ** Integer conversions of the C code *)

Definition GSM_U8 (x : Z) : Z := x mod 256.
Definition GSM_U16 (x : Z) : Z := x mod 65536.
Definition GSM_U32 (x : Z) : Z := x mod 4294967296.
Definition GSM_MIN (x y : Z) : Z := if x <? y then x else y.

(** [x << n] on a 32-bit operand.  C defines the shift for a count below 32
    only; for a larger count the count is taken modulo 32, as the shift
    instruction of the compiled code does.  The result is kept in 32 bits. *)
Definition shl32 (x n : Z) : Z := GSM_U32 (Z.shiftl x (n mod 32)).

(** [!!x] of the C code. *)
Definition bool_norm (x : Z) : Z := if x =? 0 then 0 else 1.

Definition zlen {A : Type} (l : list A) : Z := Z.of_nat (length l).

(** Byte [i] of a memory region seen as a list; outside the region the read is
    undefined in C and yields 0 here. *)
Definition byte_at (l : list Z) (i : Z) : Z :=
  if i <? 0 then 0 else nth (Z.to_nat i) l 0.

(** [len] bytes of a region starting at offset [off]. *)
Definition slice (l : list Z) (off len : Z) : list Z :=
  firstn (Z.to_nat len) (skipn (Z.to_nat off) l).

Fixpoint store_at (l : list Z) (i : nat) (v : Z) : list Z :=
  match l, i with
  | [], _ => []
  | _ :: t, O => v :: t
  | h :: t, S j => h :: store_at t j v
  end.

(** A value together with the proof that it is what was evaluated: lets a
    loop keep the fact that its test succeeded. *)
Definition inspect {A : Type} (x : A) : {y : A | x = y} := exist _ x eq_refl.

(** ** C strings *)

Definition byte_of_ascii (a : ascii) : Z := Z.of_N (N_of_ascii a).

Fixpoint str_bytes (s : string) : list Z :=
  match s with
  | EmptyString => []
  | String a s' =>
      if byte_of_ascii a =? 0 then [] else byte_of_ascii a :: str_bytes s'
  end.

Definition strlen (s : string) : Z := zlen (str_bytes s).

(** ** Result codes, states and events *)

(** The result codes the client returns; [gsmPARERR] is what a failed
    GSM_ASSERT makes the enclosing function return. *)
Inductive gsmr_t : Type := gsmOK | gsmERR | gsmPARERR | gsmERRMEM | gsmCLOSED.

Definition gsmr_eqb (a b : gsmr_t) : bool :=
  match a, b with
  | gsmOK, gsmOK | gsmERR, gsmERR | gsmPARERR, gsmPARERR
  | gsmERRMEM, gsmERRMEM | gsmCLOSED, gsmCLOSED => true
  | _, _ => false
  end.

(** The five state names the client code uses. *)
Inductive gsm_mqtt_state_t : Type :=
| GSM_MQTT_CONN_DISCONNECTED
| GSM_MQTT_CONN_CONNECTING
| GSM_MQTT_CONN_DISCONNECTING
| GSM_MQTT_CONNECTING
| GSM_MQTT_CONNECTED.

Definition state_eqb (a b : gsm_mqtt_state_t) : bool :=
  match a, b with
  | GSM_MQTT_CONN_DISCONNECTED, GSM_MQTT_CONN_DISCONNECTED
  | GSM_MQTT_CONN_CONNECTING, GSM_MQTT_CONN_CONNECTING
  | GSM_MQTT_CONN_DISCONNECTING, GSM_MQTT_CONN_DISCONNECTING
  | GSM_MQTT_CONNECTING, GSM_MQTT_CONNECTING
  | GSM_MQTT_CONNECTED, GSM_MQTT_CONNECTED => true
  | _, _ => false
  end.

(** Connection status carried by the CONNECT event: the return code byte of
    a CONNACK, or the failure of the TCP connection. *)
Inductive gsm_mqtt_conn_status_t : Type :=
| CONN_STATUS (code : Z)
| GSM_MQTT_CONN_STATUS_TCP_FAILED.

Definition GSM_MQTT_CONN_STATUS_ACCEPTED : gsm_mqtt_conn_status_t := CONN_STATUS 0.

Definition conn_status_accepted (s : gsm_mqtt_conn_status_t) : bool :=
  match s with
  | CONN_STATUS c => c =? 0
  | GSM_MQTT_CONN_STATUS_TCP_FAILED => false
  end.

(** The event handed to the application callback [evt_fn]. *)
Inductive gsm_mqtt_evt_t : Type :=
| GSM_MQTT_EVT_CONNECT (status : gsm_mqtt_conn_status_t)
| GSM_MQTT_EVT_DISCONNECT (is_accepted : bool)
| GSM_MQTT_EVT_PUBLISH (arg : Z) (res : gsmr_t)
| GSM_MQTT_EVT_PUBLISH_RECV (topic : list Z) (topic_len : Z)
    (payload : list Z) (payload_len : Z) (dup qos : Z)
| GSM_MQTT_EVT_SUBSCRIBE (arg : Z) (res : gsmr_t)
| GSM_MQTT_EVT_UNSUBSCRIBE (arg : Z) (res : gsmr_t)
| GSM_MQTT_EVT_KEEP_ALIVE.

(** Message types. *)
Definition MQTT_MSG_TYPE_CONNECT : Z := 0x01.
Definition MQTT_MSG_TYPE_CONNACK : Z := 0x02.
Definition MQTT_MSG_TYPE_PUBLISH : Z := 0x03.
Definition MQTT_MSG_TYPE_PUBACK : Z := 0x04.
Definition MQTT_MSG_TYPE_PUBREC : Z := 0x05.
Definition MQTT_MSG_TYPE_PUBREL : Z := 0x06.
Definition MQTT_MSG_TYPE_PUBCOMP : Z := 0x07.
Definition MQTT_MSG_TYPE_SUBSCRIBE : Z := 0x08.
Definition MQTT_MSG_TYPE_SUBACK : Z := 0x09.
Definition MQTT_MSG_TYPE_UNSUBSCRIBE : Z := 0x0A.
Definition MQTT_MSG_TYPE_UNSUBACK : Z := 0x0B.
Definition MQTT_MSG_TYPE_PINGREQ : Z := 0x0C.
Definition MQTT_MSG_TYPE_PINGRESP : Z := 0x0D.
Definition MQTT_MSG_TYPE_DISCONNECT : Z := 0x0E.

Definition MQTT_FLAG_CONNECT_USERNAME : Z := 0x80.
Definition MQTT_FLAG_CONNECT_PASSWORD : Z := 0x40.
Definition MQTT_FLAG_CONNECT_WILL : Z := 0x04.
Definition MQTT_FLAG_CONNECT_CLEAN_SESSION : Z := 0x02.

Definition MQTT_PARSER_STATE_INIT : Z := 0x00.
Definition MQTT_PARSER_STATE_CALC_REM_LEN : Z := 0x01.
Definition MQTT_PARSER_STATE_READ_REM : Z := 0x02.

Definition MQTT_RCV_GET_PACKET_TYPE (d : Z) : Z := Z.land (Z.shiftr d 4) 0x0F.
Definition MQTT_RCV_GET_PACKET_QOS (d : Z) : Z := Z.land (Z.shiftr d 1) 0x03.
Definition MQTT_RCV_GET_PACKET_DUP (d : Z) : Z := Z.land (Z.shiftr d 3) 0x01.

Definition MQTT_REQUEST_FLAG_IN_USE : Z := 0x01.
Definition MQTT_REQUEST_FLAG_PENDING : Z := 0x02.
Definition MQTT_REQUEST_FLAG_SUBSCRIBE : Z := 0x04.
Definition MQTT_REQUEST_FLAG_UNSUBSCRIBE : Z := 0x08.

Definition GSM_MQTT_QOS_EXACTLY_ONCE : Z := 2.

(** A C condition [x & flag]. *)
Definition has_flag (x flag : Z) : bool := negb (Z.land x flag =? 0).

(** ** The ring transmit buffer *)

(** Modelled from the spec: the ring buffer [gsm_buff_t] and its operations
    (gsm_buff_write, gsm_buff_get_free, the linear read view, gsm_buff_skip,
    gsm_buff_reset) live in the library core, outside these sources.  The
    buffer is a bounded byte queue: [buff_data] holds the unread bytes in
    order, [buff_r] is the read cursor inside the [buff_size] cells, and the
    write cursor is [buff_r] plus the number of unread bytes, modulo the
    size. *)
Record gsm_buff_t : Type := {
  buff_size : Z;
  buff_r : Z;
  buff_data : list Z
}.

Definition gsm_buff_get_free (b : gsm_buff_t) : Z :=
  buff_size b - zlen (buff_data b).

(** [write(bytes)]: the bytes actually written are bounded by the free space. *)
Definition gsm_buff_write (b : gsm_buff_t) (data : list Z) : gsm_buff_t :=
  {| buff_size := buff_size b;
     buff_r := buff_r b;
     buff_data := buff_data b ++ firstn (Z.to_nat (gsm_buff_get_free b)) data |}.

(** Length of the contiguous readable region: up to the end of the cells. *)
Definition gsm_buff_get_linear_block_read_length (b : gsm_buff_t) : Z :=
  Z.min (zlen (buff_data b)) (buff_size b - buff_r b).

Definition gsm_buff_get_linear_block_read (b : gsm_buff_t) : list Z :=
  firstn (Z.to_nat (gsm_buff_get_linear_block_read_length b)) (buff_data b).

(** [skip(n)]: advance the read cursor over bytes the transport accepted. *)
Definition gsm_buff_skip (b : gsm_buff_t) (n : Z) : gsm_buff_t :=
  let k := Z.min n (zlen (buff_data b)) in
  {| buff_size := buff_size b;
     buff_r := if buff_size b =? 0 then 0 else (buff_r b + k) mod buff_size b;
     buff_data := skipn (Z.to_nat k) (buff_data b) |}.

Definition gsm_buff_reset (b : gsm_buff_t) : gsm_buff_t :=
  {| buff_size := buff_size b; buff_r := 0; buff_data := [] |}.

Definition gsm_buff_init (size : Z) : gsm_buff_t :=
  {| buff_size := size; buff_r := 0; buff_data := [] |}.

(** ** Connection info, requests and the client structure *)

Record gsm_mqtt_client_info_t : Type := {
  info_id : string;
  user : option string;
  pass : option string;
  keep_alive : Z;
  will_topic : option string;
  will_message : option string;
  will_qos : Z
}.

Record gsm_mqtt_request_t : Type := {
  status : Z;
  packet_id : Z;
  arg : Z;
  expected_sent_len : Z;
  timeout_start_time : Z
}.

Definition request_zero : gsm_mqtt_request_t :=
  {| status := 0; packet_id := 0; arg := 0; expected_sent_len := 0;
     timeout_start_time := 0 |}.

Definition set_status (v : Z) (r : gsm_mqtt_request_t) : gsm_mqtt_request_t :=
  {| status := v; packet_id := packet_id r; arg := arg r;
     expected_sent_len := expected_sent_len r;
     timeout_start_time := timeout_start_time r |}.

Definition set_expected_sent_len (v : Z) (r : gsm_mqtt_request_t) : gsm_mqtt_request_t :=
  {| status := status r; packet_id := packet_id r; arg := arg r;
     expected_sent_len := v; timeout_start_time := timeout_start_time r |}.

Definition set_timeout_start_time (v : Z) (r : gsm_mqtt_request_t) : gsm_mqtt_request_t :=
  {| status := status r; packet_id := packet_id r; arg := arg r;
     expected_sent_len := expected_sent_len r; timeout_start_time := v |}.

(** The client structure.  [requests] has GSM_CFG_MQTT_MAX_REQUESTS entries;
    [rx_buff] is the memory [rx_buff] points to and [rx_buff_len] the length
    the client believes it has.  The event descriptor [evt] and the callback
    [evt_fn] are not fields: each call of the callback is recorded with the
    event it is given. *)
Record gsm_mqtt_client_t : Type := {
  conn : bool;
  info : option gsm_mqtt_client_info_t;
  conn_state : gsm_mqtt_state_t;
  poll_time : Z;
  tx_buff : gsm_buff_t;
  is_sending : Z;
  sent_total : Z;
  written_total : Z;
  last_packet_id : Z;
  requests : list gsm_mqtt_request_t;
  rx_buff : list Z;
  rx_buff_len : Z;
  parser_state : Z;
  msg_hdr_byte : Z;
  msg_rem_len : Z;
  msg_rem_len_mult : Z;
  msg_curr_pos : Z;
  client_arg : Z
}.

Definition set_conn (v : bool) (c : gsm_mqtt_client_t) : gsm_mqtt_client_t :=
  {| conn := v; info := info c; conn_state := conn_state c; poll_time := poll_time c;
     tx_buff := tx_buff c; is_sending := is_sending c; sent_total := sent_total c;
     written_total := written_total c; last_packet_id := last_packet_id c; requests :=
     requests c; rx_buff := rx_buff c; rx_buff_len := rx_buff_len c; parser_state :=
     parser_state c; msg_hdr_byte := msg_hdr_byte c; msg_rem_len := msg_rem_len c;
     msg_rem_len_mult := msg_rem_len_mult c; msg_curr_pos := msg_curr_pos c; client_arg :=
     client_arg c |}.

Definition set_info (v : option gsm_mqtt_client_info_t) (c : gsm_mqtt_client_t) : gsm_mqtt_client_t :=
  {| conn := conn c; info := v; conn_state := conn_state c; poll_time := poll_time c;
     tx_buff := tx_buff c; is_sending := is_sending c; sent_total := sent_total c;
     written_total := written_total c; last_packet_id := last_packet_id c; requests :=
     requests c; rx_buff := rx_buff c; rx_buff_len := rx_buff_len c; parser_state :=
     parser_state c; msg_hdr_byte := msg_hdr_byte c; msg_rem_len := msg_rem_len c;
     msg_rem_len_mult := msg_rem_len_mult c; msg_curr_pos := msg_curr_pos c; client_arg :=
     client_arg c |}.

Definition set_conn_state (v : gsm_mqtt_state_t) (c : gsm_mqtt_client_t) : gsm_mqtt_client_t :=
  {| conn := conn c; info := info c; conn_state := v; poll_time := poll_time c; tx_buff :=
     tx_buff c; is_sending := is_sending c; sent_total := sent_total c; written_total :=
     written_total c; last_packet_id := last_packet_id c; requests := requests c; rx_buff :=
     rx_buff c; rx_buff_len := rx_buff_len c; parser_state := parser_state c; msg_hdr_byte
     := msg_hdr_byte c; msg_rem_len := msg_rem_len c; msg_rem_len_mult := msg_rem_len_mult
     c; msg_curr_pos := msg_curr_pos c; client_arg := client_arg c |}.

Definition set_poll_time (v : Z) (c : gsm_mqtt_client_t) : gsm_mqtt_client_t :=
  {| conn := conn c; info := info c; conn_state := conn_state c; poll_time := v; tx_buff :=
     tx_buff c; is_sending := is_sending c; sent_total := sent_total c; written_total :=
     written_total c; last_packet_id := last_packet_id c; requests := requests c; rx_buff :=
     rx_buff c; rx_buff_len := rx_buff_len c; parser_state := parser_state c; msg_hdr_byte
     := msg_hdr_byte c; msg_rem_len := msg_rem_len c; msg_rem_len_mult := msg_rem_len_mult
     c; msg_curr_pos := msg_curr_pos c; client_arg := client_arg c |}.

Definition set_tx_buff (v : gsm_buff_t) (c : gsm_mqtt_client_t) : gsm_mqtt_client_t :=
  {| conn := conn c; info := info c; conn_state := conn_state c; poll_time := poll_time c;
     tx_buff := v; is_sending := is_sending c; sent_total := sent_total c; written_total :=
     written_total c; last_packet_id := last_packet_id c; requests := requests c; rx_buff :=
     rx_buff c; rx_buff_len := rx_buff_len c; parser_state := parser_state c; msg_hdr_byte
     := msg_hdr_byte c; msg_rem_len := msg_rem_len c; msg_rem_len_mult := msg_rem_len_mult
     c; msg_curr_pos := msg_curr_pos c; client_arg := client_arg c |}.

Definition set_is_sending (v : Z) (c : gsm_mqtt_client_t) : gsm_mqtt_client_t :=
  {| conn := conn c; info := info c; conn_state := conn_state c; poll_time := poll_time c;
     tx_buff := tx_buff c; is_sending := v; sent_total := sent_total c; written_total :=
     written_total c; last_packet_id := last_packet_id c; requests := requests c; rx_buff :=
     rx_buff c; rx_buff_len := rx_buff_len c; parser_state := parser_state c; msg_hdr_byte
     := msg_hdr_byte c; msg_rem_len := msg_rem_len c; msg_rem_len_mult := msg_rem_len_mult
     c; msg_curr_pos := msg_curr_pos c; client_arg := client_arg c |}.

Definition set_sent_total (v : Z) (c : gsm_mqtt_client_t) : gsm_mqtt_client_t :=
  {| conn := conn c; info := info c; conn_state := conn_state c; poll_time := poll_time c;
     tx_buff := tx_buff c; is_sending := is_sending c; sent_total := v; written_total :=
     written_total c; last_packet_id := last_packet_id c; requests := requests c; rx_buff :=
     rx_buff c; rx_buff_len := rx_buff_len c; parser_state := parser_state c; msg_hdr_byte
     := msg_hdr_byte c; msg_rem_len := msg_rem_len c; msg_rem_len_mult := msg_rem_len_mult
     c; msg_curr_pos := msg_curr_pos c; client_arg := client_arg c |}.

Definition set_written_total (v : Z) (c : gsm_mqtt_client_t) : gsm_mqtt_client_t :=
  {| conn := conn c; info := info c; conn_state := conn_state c; poll_time := poll_time c;
     tx_buff := tx_buff c; is_sending := is_sending c; sent_total := sent_total c;
     written_total := v; last_packet_id := last_packet_id c; requests := requests c; rx_buff
     := rx_buff c; rx_buff_len := rx_buff_len c; parser_state := parser_state c;
     msg_hdr_byte := msg_hdr_byte c; msg_rem_len := msg_rem_len c; msg_rem_len_mult :=
     msg_rem_len_mult c; msg_curr_pos := msg_curr_pos c; client_arg := client_arg c |}.

Definition set_last_packet_id (v : Z) (c : gsm_mqtt_client_t) : gsm_mqtt_client_t :=
  {| conn := conn c; info := info c; conn_state := conn_state c; poll_time := poll_time c;
     tx_buff := tx_buff c; is_sending := is_sending c; sent_total := sent_total c;
     written_total := written_total c; last_packet_id := v; requests := requests c; rx_buff
     := rx_buff c; rx_buff_len := rx_buff_len c; parser_state := parser_state c;
     msg_hdr_byte := msg_hdr_byte c; msg_rem_len := msg_rem_len c; msg_rem_len_mult :=
     msg_rem_len_mult c; msg_curr_pos := msg_curr_pos c; client_arg := client_arg c |}.

Definition set_requests (v : list gsm_mqtt_request_t) (c : gsm_mqtt_client_t) : gsm_mqtt_client_t :=
  {| conn := conn c; info := info c; conn_state := conn_state c; poll_time := poll_time c;
     tx_buff := tx_buff c; is_sending := is_sending c; sent_total := sent_total c;
     written_total := written_total c; last_packet_id := last_packet_id c; requests := v;
     rx_buff := rx_buff c; rx_buff_len := rx_buff_len c; parser_state := parser_state c;
     msg_hdr_byte := msg_hdr_byte c; msg_rem_len := msg_rem_len c; msg_rem_len_mult :=
     msg_rem_len_mult c; msg_curr_pos := msg_curr_pos c; client_arg := client_arg c |}.

Definition set_rx_buff (v : list Z) (c : gsm_mqtt_client_t) : gsm_mqtt_client_t :=
  {| conn := conn c; info := info c; conn_state := conn_state c; poll_time := poll_time c;
     tx_buff := tx_buff c; is_sending := is_sending c; sent_total := sent_total c;
     written_total := written_total c; last_packet_id := last_packet_id c; requests :=
     requests c; rx_buff := v; rx_buff_len := rx_buff_len c; parser_state := parser_state c;
     msg_hdr_byte := msg_hdr_byte c; msg_rem_len := msg_rem_len c; msg_rem_len_mult :=
     msg_rem_len_mult c; msg_curr_pos := msg_curr_pos c; client_arg := client_arg c |}.

Definition set_rx_buff_len (v : Z) (c : gsm_mqtt_client_t) : gsm_mqtt_client_t :=
  {| conn := conn c; info := info c; conn_state := conn_state c; poll_time := poll_time c;
     tx_buff := tx_buff c; is_sending := is_sending c; sent_total := sent_total c;
     written_total := written_total c; last_packet_id := last_packet_id c; requests :=
     requests c; rx_buff := rx_buff c; rx_buff_len := v; parser_state := parser_state c;
     msg_hdr_byte := msg_hdr_byte c; msg_rem_len := msg_rem_len c; msg_rem_len_mult :=
     msg_rem_len_mult c; msg_curr_pos := msg_curr_pos c; client_arg := client_arg c |}.

Definition set_parser_state (v : Z) (c : gsm_mqtt_client_t) : gsm_mqtt_client_t :=
  {| conn := conn c; info := info c; conn_state := conn_state c; poll_time := poll_time c;
     tx_buff := tx_buff c; is_sending := is_sending c; sent_total := sent_total c;
     written_total := written_total c; last_packet_id := last_packet_id c; requests :=
     requests c; rx_buff := rx_buff c; rx_buff_len := rx_buff_len c; parser_state := v;
     msg_hdr_byte := msg_hdr_byte c; msg_rem_len := msg_rem_len c; msg_rem_len_mult :=
     msg_rem_len_mult c; msg_curr_pos := msg_curr_pos c; client_arg := client_arg c |}.

Definition set_msg_hdr_byte (v : Z) (c : gsm_mqtt_client_t) : gsm_mqtt_client_t :=
  {| conn := conn c; info := info c; conn_state := conn_state c; poll_time := poll_time c;
     tx_buff := tx_buff c; is_sending := is_sending c; sent_total := sent_total c;
     written_total := written_total c; last_packet_id := last_packet_id c; requests :=
     requests c; rx_buff := rx_buff c; rx_buff_len := rx_buff_len c; parser_state :=
     parser_state c; msg_hdr_byte := v; msg_rem_len := msg_rem_len c; msg_rem_len_mult :=
     msg_rem_len_mult c; msg_curr_pos := msg_curr_pos c; client_arg := client_arg c |}.

Definition set_msg_rem_len (v : Z) (c : gsm_mqtt_client_t) : gsm_mqtt_client_t :=
  {| conn := conn c; info := info c; conn_state := conn_state c; poll_time := poll_time c;
     tx_buff := tx_buff c; is_sending := is_sending c; sent_total := sent_total c;
     written_total := written_total c; last_packet_id := last_packet_id c; requests :=
     requests c; rx_buff := rx_buff c; rx_buff_len := rx_buff_len c; parser_state :=
     parser_state c; msg_hdr_byte := msg_hdr_byte c; msg_rem_len := v; msg_rem_len_mult :=
     msg_rem_len_mult c; msg_curr_pos := msg_curr_pos c; client_arg := client_arg c |}.

Definition set_msg_rem_len_mult (v : Z) (c : gsm_mqtt_client_t) : gsm_mqtt_client_t :=
  {| conn := conn c; info := info c; conn_state := conn_state c; poll_time := poll_time c;
     tx_buff := tx_buff c; is_sending := is_sending c; sent_total := sent_total c;
     written_total := written_total c; last_packet_id := last_packet_id c; requests :=
     requests c; rx_buff := rx_buff c; rx_buff_len := rx_buff_len c; parser_state :=
     parser_state c; msg_hdr_byte := msg_hdr_byte c; msg_rem_len := msg_rem_len c;
     msg_rem_len_mult := v; msg_curr_pos := msg_curr_pos c; client_arg := client_arg c |}.

Definition set_msg_curr_pos (v : Z) (c : gsm_mqtt_client_t) : gsm_mqtt_client_t :=
  {| conn := conn c; info := info c; conn_state := conn_state c; poll_time := poll_time c;
     tx_buff := tx_buff c; is_sending := is_sending c; sent_total := sent_total c;
     written_total := written_total c; last_packet_id := last_packet_id c; requests :=
     requests c; rx_buff := rx_buff c; rx_buff_len := rx_buff_len c; parser_state :=
     parser_state c; msg_hdr_byte := msg_hdr_byte c; msg_rem_len := msg_rem_len c;
     msg_rem_len_mult := msg_rem_len_mult c; msg_curr_pos := v; client_arg := client_arg c |}.

Definition set_client_arg (v : Z) (c : gsm_mqtt_client_t) : gsm_mqtt_client_t :=
  {| conn := conn c; info := info c; conn_state := conn_state c; poll_time := poll_time c;
     tx_buff := tx_buff c; is_sending := is_sending c; sent_total := sent_total c;
     written_total := written_total c; last_packet_id := last_packet_id c; requests :=
     requests c; rx_buff := rx_buff c; rx_buff_len := rx_buff_len c; parser_state :=
     parser_state c; msg_hdr_byte := msg_hdr_byte c; msg_rem_len := msg_rem_len c;
     msg_rem_len_mult := msg_rem_len_mult c; msg_curr_pos := msg_curr_pos c; client_arg := v |}.


(** ** The environment and the world around the client *)

(** What the code calls but does not define: the transport ([gsm_conn_send],
    [gsm_conn_close], [gsm_conn_start]), the network state, the system time,
    the allocator and the configured poll interval in milliseconds.  The
    answer to a call may depend on how many calls came before.
    [env_mem_malloc i] is the byte found at offset [i] of the block that
    [gsm_mem_malloc] returns: the allocator does not initialise it. *)
Record env_t : Type := {
  env_conn_send : nat -> gsmr_t;
  env_conn_close : nat -> gsmr_t;
  env_conn_start : nat -> gsmr_t;
  env_network_is_attached : nat -> bool;
  env_sys_now : nat -> Z;
  env_mem_malloc : nat -> Z;
  GSM_CFG_CONN_POLL_INTERVAL : Z
}.

(** Calls that leave the client.  [Dispatch] records a call of
    [mqtt_process_incoming_message] with the header byte, the remaining
    length and the bytes of the frame it is given; [Discard] records the
    warning the parser logs when it drops a frame too big for the rx buffer. *)
Inductive output : Type :=
| CallEvtFn (e : gsm_mqtt_evt_t)
| CallConnSend (data : list Z) (res : gsmr_t)
| CallConnClose (res : gsmr_t)
| CallConnStart (host : string) (port : Z) (res : gsmr_t)
| CallConnRecved
| Dispatch (hdr rem_len : Z) (payload : list Z)
| Discard (hdr rem_len : Z).

(** [log] holds the calls made so far, newest first. *)
Record world : Type := {
  cl : gsm_mqtt_client_t;
  log : list output;
  env : env_t;
  clock : nat
}.

Definition trace (w : world) : list output := rev (log w).

Definition set_cl (c : gsm_mqtt_client_t) (w : world) : world :=
  {| cl := c; log := log w; env := env w; clock := clock w |}.

Definition on_cl (f : gsm_mqtt_client_t -> gsm_mqtt_client_t) (w : world) : world :=
  set_cl (f (cl w)) w.

Definition emit (o : output) (w : world) : world :=
  {| cl := cl w; log := o :: log w; env := env w; clock := clock w |}.

Definition tick (w : world) : world :=
  {| cl := cl w; log := log w; env := env w; clock := S (clock w) |}.

Definition evt_fn (e : gsm_mqtt_evt_t) (w : world) : world := emit (CallEvtFn e) w.

Definition gsm_conn_send (data : list Z) (w : world) : gsmr_t * world :=
  let res := env_conn_send (env w) (clock w) in
  (res, tick (emit (CallConnSend data res) w)).

Definition gsm_conn_close (w : world) : gsmr_t * world :=
  let res := env_conn_close (env w) (clock w) in
  (res, tick (emit (CallConnClose res) w)).

Definition gsm_conn_start (host : string) (port : Z) (w : world) : gsmr_t * world :=
  let res := env_conn_start (env w) (clock w) in
  (res, tick (emit (CallConnStart host port res) w)).

Definition gsm_network_is_attached (w : world) : bool * world :=
  (env_network_is_attached (env w) (clock w), tick w).

Definition gsm_sys_now (w : world) : Z * world :=
  (env_sys_now (env w) (clock w), tick w).

(** ** Packet ids *)

Definition create_packet_id (c : gsm_mqtt_client_t) : Z * gsm_mqtt_client_t :=
  let c := set_last_packet_id (GSM_U16 (last_packet_id c + 1)) c in
  let c := if last_packet_id c =? 0 then set_last_packet_id 1 c else c in
  (last_packet_id c, c).

(** ** The request table *)

(** A pointer to a request is its index in [requests]. *)
Fixpoint update_request (l : list gsm_mqtt_request_t) (i : nat)
    (f : gsm_mqtt_request_t -> gsm_mqtt_request_t) : list gsm_mqtt_request_t :=
  match l, i with
  | [], _ => []
  | r :: t, O => f r :: t
  | r :: t, S j => r :: update_request t j f
  end.

Definition get_request (c : gsm_mqtt_client_t) (i : nat) : gsm_mqtt_request_t :=
  nth i (requests c) request_zero.

(** The loop of [request_create]: first entry without the IN_USE flag. *)
Fixpoint find_not_in_use (l : list gsm_mqtt_request_t) : option nat :=
  match l with
  | [] => None
  | r :: t =>
      if negb (has_flag (status r) MQTT_REQUEST_FLAG_IN_USE) then Some O
      else option_map S (find_not_in_use t)
  end.

Definition request_create (c : gsm_mqtt_client_t) (pkt_id : Z) (a : Z)
  : option nat * gsm_mqtt_client_t :=
  match find_not_in_use (requests c) with
  | Some i =>
      (Some i,
       set_requests
         (update_request (requests c) i
            (fun r => {| status := MQTT_REQUEST_FLAG_IN_USE; packet_id := pkt_id;
                         arg := a; expected_sent_len := expected_sent_len r;
                         timeout_start_time := timeout_start_time r |})) c)
  | None => (None, c)
  end.

Definition request_delete (c : gsm_mqtt_client_t) (i : nat) : gsm_mqtt_client_t :=
  set_requests (update_request (requests c) i (set_status 0)) c.

Definition request_set_pending (w : world) (i : nat) : world :=
  let '(now, w) := gsm_sys_now w in
  on_cl (fun c =>
    set_requests
      (update_request (requests c) i
         (fun r => set_status (Z.lor (status r) MQTT_REQUEST_FLAG_PENDING)
                     (set_timeout_start_time now r))) c) w.

(** The loop of [request_get_pending]; [pkt_id] is an [int32_t], [-1] matches
    every pending request. *)
Fixpoint find_pending (l : list gsm_mqtt_request_t) (pkt_id : Z) : option nat :=
  match l with
  | [] => None
  | r :: t =>
      if has_flag (status r) MQTT_REQUEST_FLAG_PENDING
         && ((pkt_id =? -1) || (packet_id r =? GSM_U16 pkt_id))
      then Some O
      else option_map S (find_pending t pkt_id)
  end.

Definition request_get_pending (c : gsm_mqtt_client_t) (pkt_id : Z) : option nat :=
  find_pending (requests c) pkt_id.

(** Number of requests with the PENDING flag: what the loops that drain the
    table count down. *)
Definition pending_count (l : list gsm_mqtt_request_t) : nat :=
  length (filter (fun r => has_flag (status r) MQTT_REQUEST_FLAG_PENDING) l).

Definition request_send_err_callback (w : world) (st : Z) (a : Z) : world :=
  if has_flag st MQTT_REQUEST_FLAG_SUBSCRIBE then
    evt_fn (GSM_MQTT_EVT_SUBSCRIBE a gsmERR) w
  else if has_flag st MQTT_REQUEST_FLAG_UNSUBSCRIBE then
    evt_fn (GSM_MQTT_EVT_UNSUBSCRIBE a gsmERR) w
  else
    evt_fn (GSM_MQTT_EVT_PUBLISH a gsmERR) w.

(** ** Writing to the output buffer *)

Definition tx_write (c : gsm_mqtt_client_t) (data : list Z) : gsm_mqtt_client_t :=
  set_tx_buff (gsm_buff_write (tx_buff c) data) c.

(** The [do ... while (rem_len)] loop of [write_fixed_header]; [rem_len] is
    unsigned, so the loop goes on while the shifted value is positive. *)
Equations? write_rem_len (c : gsm_mqtt_client_t) (rem_len : Z) : gsm_mqtt_client_t
  by wf (Z.to_nat rem_len) lt :=
  write_rem_len c rem_len
    with Z_lt_dec 0 (Z.shiftr rem_len 7) => {
    | left _ :=
        write_rem_len
          (tx_write c [GSM_U8 (Z.lor (Z.land rem_len 0x7F)
                                 (if 0x7F <? rem_len then 0x80 else 0))])
          (Z.shiftr rem_len 7);
    | right _ :=
        tx_write c [GSM_U8 (Z.lor (Z.land rem_len 0x7F)
                              (if 0x7F <? rem_len then 0x80 else 0))] }.
Proof.
  rewrite Z.shiftr_div_pow2 in * by lia.
  change (2 ^ 7) with 128 in *.
  assert (0 < rem_len) by (destruct (Z_lt_dec 0 rem_len); [assumption|];
    exfalso; assert (rem_len / 128 <= 0) by (apply Z.div_le_upper_bound; lia); lia).
  assert (rem_len / 128 < rem_len) by (apply Z.div_lt; lia).
  lia.
Qed.

Definition write_fixed_header (c : gsm_mqtt_client_t) (type dup qos retain rem_len : Z)
  : gsm_mqtt_client_t :=
  let dup := GSM_U8 dup in
  let retain := GSM_U8 retain in
  let rem_len := GSM_U16 rem_len in
  let b := GSM_U8 (Z.lor (Z.lor (Z.lor (Z.shiftl (GSM_U8 type) 4)
                                       (Z.shiftl (GSM_U8 (bool_norm dup)) 3))
                                (Z.shiftl (Z.land (GSM_U8 qos) 0x03) 1))
                         (GSM_U8 (bool_norm retain))) in
  let c := tx_write c [b] in
  write_rem_len c rem_len.

Definition write_u8 (c : gsm_mqtt_client_t) (num : Z) : gsm_mqtt_client_t :=
  tx_write c [GSM_U8 num].

Definition write_u16 (c : gsm_mqtt_client_t) (num : Z) : gsm_mqtt_client_t :=
  let num := GSM_U16 num in
  let c := write_u8 c (GSM_U8 (Z.shiftr num 8)) in
  write_u8 c (GSM_U8 (Z.land num 0xFF)).

(** [data] is the memory behind the pointer; [len] bytes of it are written. *)
Definition write_data (c : gsm_mqtt_client_t) (data : list Z) (len : Z) : gsm_mqtt_client_t :=
  tx_write c (firstn (Z.to_nat len) data).

(** The loop of [output_check_enough_memory] on the 16-bit [total_len]. *)
Equations? count_rem_len (total_len rem_len : Z) : Z by wf (Z.to_nat rem_len) lt :=
  count_rem_len total_len rem_len
    with Z_lt_dec 0 (Z.shiftr rem_len 7) => {
    | left _ := count_rem_len (GSM_U16 (total_len + 1)) (Z.shiftr rem_len 7);
    | right _ := GSM_U16 (total_len + 1) }.
Proof.
  rewrite Z.shiftr_div_pow2 in * by lia.
  change (2 ^ 7) with 128 in *.
  assert (0 < rem_len) by (destruct (Z_lt_dec 0 rem_len); [assumption|];
    exfalso; assert (rem_len / 128 <= 0) by (apply Z.div_le_upper_bound; lia); lia).
  assert (rem_len / 128 < rem_len) by (apply Z.div_lt; lia).
  lia.
Qed.

Definition output_check_enough_memory (c : gsm_mqtt_client_t) (rem_len : Z) : Z :=
  let rem_len := GSM_U16 rem_len in
  let total_len := GSM_U16 (rem_len + 1) in
  let total_len := count_rem_len total_len rem_len in
  if total_len <=? GSM_U16 (gsm_buff_get_free (tx_buff c)) then total_len else 0.

Definition write_string (c : gsm_mqtt_client_t) (str : list Z) (len : Z) : gsm_mqtt_client_t :=
  let len := GSM_U16 len in
  let c := write_u16 c len in
  tx_write c (firstn (Z.to_nat len) str).

(** ** Handing data to the transport *)

Definition send_data (w : world) : world :=
  if negb (is_sending (cl w) =? 0) then w
  else
    let len := gsm_buff_get_linear_block_read_length (tx_buff (cl w)) in
    if 0 <? len then
      let '(res, w) := gsm_conn_send (gsm_buff_get_linear_block_read (tx_buff (cl w))) w in
      if gsmr_eqb res gsmOK then
        on_cl (fun c => set_is_sending 1 (set_written_total (GSM_U32 (written_total c + len)) c)) w
      else w
    else
      on_cl (fun c => set_tx_buff (gsm_buff_reset (tx_buff c)) c) w.

Definition write_ack_rec_rel_resp (w : world) (msg_type pkt_id qos : Z) : Z * world :=
  if negb (output_check_enough_memory (cl w) 2 =? 0) then
    let w := on_cl (fun c => write_fixed_header c msg_type 0 qos 0 2) w in
    let w := on_cl (fun c => write_u16 c pkt_id) w in
    let w := send_data w in
    (1, w)
  else (0, w).

Definition mqtt_close (w : world) : gsmr_t * world :=
  if negb (state_eqb (conn_state (cl w)) GSM_MQTT_CONN_DISCONNECTED)
     && negb (state_eqb (conn_state (cl w)) GSM_MQTT_CONN_DISCONNECTING)
  then
    let '(res, w) := gsm_conn_close w in
    if gsmr_eqb res gsmOK
    then (res, on_cl (set_conn_state GSM_MQTT_CONN_DISCONNECTING) w)
    else (res, w)
  else (gsmERR, w).

(** ** Subscribe and unsubscribe *)

Definition sub_unsub (w : world) (topic : string) (qos a sub : Z) : Z * world :=
  let len_topic := GSM_U16 (strlen topic) in
  if len_topic =? 0 then (0, w)
  else
    let rem_len := GSM_U32 (2 + len_topic + 2) in
    let rem_len := if negb (sub =? 0) then GSM_U32 (rem_len + 1) else rem_len in
    if state_eqb (conn_state (cl w)) GSM_MQTT_CONNECTED
       && negb (output_check_enough_memory (cl w) rem_len =? 0)
    then
      let '(pkt_id, c) := create_packet_id (cl w) in
      let '(request, c) := request_create c pkt_id a in
      let w := set_cl c w in
      match request with
      | Some i =>
          let w := on_cl (fun c =>
            write_fixed_header c
              (if negb (sub =? 0) then MQTT_MSG_TYPE_SUBSCRIBE else MQTT_MSG_TYPE_UNSUBSCRIBE)
              0 1 0 rem_len) w in
          let w := on_cl (fun c => write_u16 c pkt_id) w in
          let w := on_cl (fun c => write_string c (str_bytes topic) len_topic) w in
          let w :=
            if negb (sub =? 0)
            then on_cl (fun c =>
                   write_u8 c (GSM_MIN (GSM_U8 qos) (GSM_U8 GSM_MQTT_QOS_EXACTLY_ONCE))) w
            else w in
          let w := on_cl (fun c =>
            set_requests
              (update_request (requests c) i
                 (fun r => set_status
                    (Z.lor (status r)
                       (if negb (sub =? 0) then MQTT_REQUEST_FLAG_SUBSCRIBE
                        else MQTT_REQUEST_FLAG_UNSUBSCRIBE)) r)) c) w in
          let w := request_set_pending w i in
          let w := send_data w in
          (1, w)
      | None => (0, w)
      end
    else (0, w).

(** ** The inbound dispatcher *)

(** An access of the dispatcher to the rx buffer: the byte [rx_buff[off]] is
    read, or the [len] bytes from [&rx_buff[off]] on are handed to the
    application in an event, as the topic and the payload of a received
    PUBLISH are. *)
Inductive rx_access : Type :=
| RxRead (off : Z)
| RxRegion (off len : Z).

(** The dispatcher reaches the rx buffer through [rx_read] and [rx_region]
    only; a computation returns its value together with the accesses it
    made, in the order of the code. *)
Definition rx_m (A : Type) : Type := (A * list rx_access)%type.

Definition rx_ret {A : Type} (a : A) : rx_m A := (a, []).

Definition rx_bind {A B : Type} (m : rx_m A) (f : A -> rx_m B) : rx_m B :=
  (fst (f (fst m)), snd m ++ snd (f (fst m))).

Notation "x <- m ;; k" := (rx_bind m (fun x => k))
  (at level 61, m at next level, right associativity).

Definition rx_read (c : gsm_mqtt_client_t) (off : Z) : rx_m Z :=
  (byte_at (rx_buff c) off, [RxRead off]).

Definition rx_region (c : gsm_mqtt_client_t) (off len : Z) : rx_m (list Z) :=
  (slice (rx_buff c) off len, [RxRegion off len]).

(** [rx_buff[off] << 8 | rx_buff[off + 1]] in 16 bits. *)
Definition rx_read_u16 (c : gsm_mqtt_client_t) (off : Z) : rx_m Z :=
  hi <- rx_read c off ;;
  lo <- rx_read c (off + 1) ;;
  rx_ret (GSM_U16 (Z.lor (Z.shiftl hi 8) lo)).

(** The value [rx_read_u16] returns. *)
Definition rx_u16 (c : gsm_mqtt_client_t) (off : Z) : Z :=
  GSM_U16 (Z.lor (Z.shiftl (byte_at (rx_buff c) off) 8) (byte_at (rx_buff c) (off + 1))).

(** The body of [mqtt_process_incoming_message], every [rx_buff[...]] of the
    code an [rx_read] and the two pointers of the PUBLISH_RECV event an
    [rx_region] each.  The [Dispatch] entry of the log is not a call of the
    code: it records with which frame the function was entered. *)
Definition mqtt_process_incoming_message_rx (w : world) : rx_m (Z * world) :=
  let w := emit (Dispatch (msg_hdr_byte (cl w)) (msg_rem_len (cl w))
                   (firstn (Z.to_nat (msg_rem_len (cl w))) (rx_buff (cl w)))) w in
  let msg_type := MQTT_RCV_GET_PACKET_TYPE (msg_hdr_byte (cl w)) in
  if msg_type =? MQTT_MSG_TYPE_CONNACK then
    code <- rx_read (cl w) 1 ;;
    let err := CONN_STATUS code in
    if state_eqb (conn_state (cl w)) GSM_MQTT_CONNECTING then
      let w := if conn_status_accepted err
               then on_cl (set_conn_state GSM_MQTT_CONNECTED) w else w in
      rx_ret (1, evt_fn (GSM_MQTT_EVT_CONNECT err) w)
    else rx_ret (1, w)
  else if msg_type =? MQTT_MSG_TYPE_PUBLISH then
    let qos := MQTT_RCV_GET_PACKET_QOS (msg_hdr_byte (cl w)) in
    let dup := MQTT_RCV_GET_PACKET_DUP (msg_hdr_byte (cl w)) in
    topic_len <- rx_read_u16 (cl w) 0 ;;
    let topic := 2 in
    let data := topic + topic_len in
    pkt_id <- (if 0 <? qos then rx_read_u16 (cl w) (2 + topic_len) else rx_ret 0) ;;
    let data := if 0 <? qos then data + 2 else data in
    let data_len := GSM_U16 (msg_rem_len (cl w) - data) in
    let w :=
      if 0 <? qos then
        let resp_msg_type :=
          if qos =? 1 then MQTT_MSG_TYPE_PUBACK else MQTT_MSG_TYPE_PUBREC in
        snd (write_ack_rec_rel_resp w resp_msg_type pkt_id qos)
      else w in
    topic_bytes <- rx_region (cl w) topic topic_len ;;
    payload <- rx_region (cl w) data data_len ;;
    rx_ret (1, evt_fn (GSM_MQTT_EVT_PUBLISH_RECV topic_bytes topic_len
                         payload data_len dup qos) w)
  else if msg_type =? MQTT_MSG_TYPE_PINGRESP then
    rx_ret (1, evt_fn GSM_MQTT_EVT_KEEP_ALIVE w)
  else if (msg_type =? MQTT_MSG_TYPE_SUBACK) || (msg_type =? MQTT_MSG_TYPE_UNSUBACK)
          || (msg_type =? MQTT_MSG_TYPE_PUBREC) || (msg_type =? MQTT_MSG_TYPE_PUBREL)
          || (msg_type =? MQTT_MSG_TYPE_PUBACK) || (msg_type =? MQTT_MSG_TYPE_PUBCOMP)
  then
    pkt_id <- rx_read_u16 (cl w) 0 ;;
    if msg_type =? MQTT_MSG_TYPE_PUBREC then
      rx_ret (1, snd (write_ack_rec_rel_resp w MQTT_MSG_TYPE_PUBREL pkt_id 1))
    else if msg_type =? MQTT_MSG_TYPE_PUBREL then
      rx_ret (1, snd (write_ack_rec_rel_resp w MQTT_MSG_TYPE_PUBCOMP pkt_id 0))
    else
      match request_get_pending (cl w) pkt_id with
      | Some i =>
          let request := get_request (cl w) i in
          if (msg_type =? MQTT_MSG_TYPE_SUBACK) || (msg_type =? MQTT_MSG_TYPE_UNSUBACK)
          then
            code <- rx_read (cl w) 2 ;;
            let res := if code <? 3 then gsmOK else gsmERR in
            let w :=
              if msg_type =? MQTT_MSG_TYPE_SUBACK
              then evt_fn (GSM_MQTT_EVT_SUBSCRIBE (arg request) res) w
              else evt_fn (GSM_MQTT_EVT_UNSUBSCRIBE (arg request) res) w in
            rx_ret (1, on_cl (fun c => request_delete c i) w)
          else
            let w := evt_fn (GSM_MQTT_EVT_PUBLISH (arg request) gsmOK) w in
            rx_ret (1, on_cl (fun c => request_delete c i) w)
      | None => rx_ret (1, w)
      end
  else rx_ret (0, w).

(** What the dispatcher returns and does. *)
Definition mqtt_process_incoming_message (w : world) : Z * world :=
  fst (mqtt_process_incoming_message_rx w).

(** Where it looks at the rx buffer while it does so. *)
Definition rx_accesses (w : world) : list rx_access :=
  snd (mqtt_process_incoming_message_rx w).

(** ** The streaming parser *)

(** A received packet buffer is the chain of its linear blocks, which
    [gsm_pbuf_get_linear_addr] hands out in order. *)
Definition gsm_pbuf_t : Type := list (list Z).

(** One turn of the [for] loop on the byte [ch = d[idx]], with [rest] the
    bytes of the block after it.  The second component is the number of
    bytes the turn adds to [idx] on the in-place path.  The remaining length
    is accumulated in 32 bits by the shift [shl32], whose count [7 * mult]
    reaches 35 at the sixth length byte. *)
Definition parser_step (w : world) (ch : Z) (rest : list Z) : world * Z :=
  let st := parser_state (cl w) in
  if st =? MQTT_PARSER_STATE_INIT then
    (on_cl (fun c =>
       set_parser_state MQTT_PARSER_STATE_CALC_REM_LEN
         (set_msg_curr_pos 0 (set_msg_rem_len_mult 0 (set_msg_rem_len 0
            (set_msg_hdr_byte ch c))))) w, 0)
  else if st =? MQTT_PARSER_STATE_CALC_REM_LEN then
    let w := on_cl (fun c =>
      set_msg_rem_len_mult (GSM_U8 (msg_rem_len_mult c + 1))
        (set_msg_rem_len
           (GSM_U32 (Z.lor (msg_rem_len c)
                       (shl32 (Z.land ch 0x7F) (7 * msg_rem_len_mult c)))) c)) w in
    if Z.land ch 0x80 =? 0 then
      if 0 <? msg_rem_len (cl w) then
        if msg_rem_len (cl w) <? zlen rest + 1 then
          let tmp_ptr := rx_buff (cl w) in
          let tmp_len := rx_buff_len (cl w) in
          let w := on_cl (fun c => set_rx_buff_len (msg_rem_len c) (set_rx_buff rest c)) w in
          let w := snd (mqtt_process_incoming_message w) in
          let w := on_cl (fun c =>
            set_parser_state MQTT_PARSER_STATE_INIT
              (set_rx_buff_len tmp_len (set_rx_buff tmp_ptr c))) w in
          (w, msg_rem_len (cl w))
        else
          (on_cl (set_parser_state MQTT_PARSER_STATE_READ_REM) w, 0)
      else
        let w := snd (mqtt_process_incoming_message w) in
        (on_cl (set_parser_state MQTT_PARSER_STATE_INIT) w, 0)
    else (w, 0)
  else if st =? MQTT_PARSER_STATE_READ_REM then
    let w :=
      if msg_curr_pos (cl w) <? rx_buff_len (cl w)
      then on_cl (fun c =>
             set_rx_buff (store_at (rx_buff c) (Z.to_nat (msg_curr_pos c)) ch) c) w
      else w in
    let w := on_cl (fun c => set_msg_curr_pos (GSM_U32 (msg_curr_pos c + 1)) c) w in
    if msg_curr_pos (cl w) =? msg_rem_len (cl w) then
      let w :=
        if msg_curr_pos (cl w) <=? rx_buff_len (cl w)
        then snd (mqtt_process_incoming_message w)
        else emit (Discard (msg_hdr_byte (cl w)) (msg_rem_len (cl w))) w in
      (on_cl (set_parser_state MQTT_PARSER_STATE_INIT) w, 0)
    else (w, 0)
  else
    (on_cl (set_parser_state MQTT_PARSER_STATE_INIT) w, 0).

(** The [for] loop over one linear block [d]. *)
Equations? parse_block (w : world) (d : list Z) : world by wf (length d) lt :=
  parse_block w [] := w;
  parse_block w (ch :: rest) :=
    parse_block (fst (parser_step w ch rest))
                (skipn (Z.to_nat (snd (parser_step w ch rest))) rest).
Proof.
  rewrite length_skipn. simpl. lia.
Qed.

Definition mqtt_parse_incoming (w : world) (pbuf : gsm_pbuf_t) : Z * world :=
  (0, fold_left parse_block pbuf w).

(** ** Transport callbacks *)

Definition opt_bytes (s : option string) : list Z :=
  match s with Some s => str_bytes s | None => [] end.

Definition mqtt_connected_cb (w : world) : world :=
  match info (cl w) with
  | None => w
  | Some inf =>
      let flags := MQTT_FLAG_CONNECT_CLEAN_SESSION in
      let rem_len := 10 in
      let len_id := GSM_U16 (strlen (info_id inf)) in
      let rem_len := GSM_U16 (rem_len + (len_id + 2)) in
      let has_will :=
        match will_topic inf, will_message inf with
        | Some _, Some _ => true
        | _, _ => false
        end in
      let flags :=
        if has_will then
          GSM_U8 (Z.lor (GSM_U8 (Z.lor flags MQTT_FLAG_CONNECT_WILL))
                    (Z.shiftl (GSM_MIN (GSM_U8 (will_qos inf)) 2) 3))
        else flags in
      let len_will_topic :=
        if has_will then GSM_U16 (zlen (opt_bytes (will_topic inf))) else 0 in
      let len_will_message :=
        if has_will then GSM_U16 (zlen (opt_bytes (will_message inf))) else 0 in
      let rem_len :=
        if has_will
        then GSM_U16 (GSM_U16 (rem_len + (len_will_topic + 2)) + (len_will_message + 2))
        else rem_len in
      let flags :=
        match user inf with
        | Some _ => GSM_U8 (Z.lor flags MQTT_FLAG_CONNECT_USERNAME)
        | None => flags
        end in
      let len_user :=
        match user inf with Some u => GSM_U16 (strlen u) | None => 0 end in
      let rem_len :=
        match user inf with
        | Some _ => GSM_U16 (rem_len + (len_user + 2))
        | None => rem_len
        end in
      let flags :=
        match pass inf with
        | Some _ => GSM_U8 (Z.lor flags MQTT_FLAG_CONNECT_PASSWORD)
        | None => flags
        end in
      let len_pass :=
        match pass inf with Some p => GSM_U16 (strlen p) | None => 0 end in
      let rem_len :=
        match pass inf with
        | Some _ => GSM_U16 (rem_len + (len_pass + 2))
        | None => rem_len
        end in
      if output_check_enough_memory (cl w) rem_len =? 0 then w
      else
        let c := cl w in
        let c := write_fixed_header c MQTT_MSG_TYPE_CONNECT 0 0 0 rem_len in
        let c := write_string c (str_bytes "MQTT") 4 in
        let c := write_u8 c 4 in
        let c := write_u8 c flags in
        let c := write_u16 c (keep_alive inf) in
        let c := write_string c (str_bytes (info_id inf)) len_id in
        let c :=
          if has_flag flags MQTT_FLAG_CONNECT_WILL then
            let c := write_string c (opt_bytes (will_topic inf)) len_will_topic in
            write_string c (opt_bytes (will_message inf)) len_will_message
          else c in
        let c :=
          if has_flag flags MQTT_FLAG_CONNECT_USERNAME
          then write_string c (opt_bytes (user inf)) len_user else c in
        let c :=
          if has_flag flags MQTT_FLAG_CONNECT_PASSWORD
          then write_string c (opt_bytes (pass inf)) len_pass else c in
        let c := set_parser_state MQTT_PARSER_STATE_INIT c in
        let c := set_poll_time 0 c in
        let c := set_conn_state GSM_MQTT_CONNECTING c in
        send_data (set_cl c w)
  end.

Definition mqtt_data_recv_cb (w : world) (pbuf : gsm_pbuf_t) : Z * world :=
  let w := on_cl (set_poll_time 0) w in
  let w := snd (mqtt_parse_incoming w pbuf) in
  (1, emit CallConnRecved w).

(** If a request is found pending, dropping it leaves fewer pending ones. *)
Lemma pending_count_delete (l : list gsm_mqtt_request_t) (pkt_id : Z) (i : nat) :
  find_pending l pkt_id = Some i ->
  (pending_count (update_request l i (set_status 0)) < pending_count l)%nat.
Proof.
  unfold pending_count. revert i.
  induction l as [|r t IH]; intros i H; simpl in H; [discriminate|].
  destruct (has_flag (status r) MQTT_REQUEST_FLAG_PENDING) eqn:Hp; simpl in H.
  - destruct ((pkt_id =? -1) || (packet_id r =? GSM_U16 pkt_id)).
    + injection H as <-. simpl. rewrite Hp. simpl. lia.
    + destruct (find_pending t pkt_id) as [j|] eqn:Hj; [|discriminate].
      injection H as <-. simpl. rewrite Hp. simpl.
      specialize (IH j eq_refl). lia.
  - destruct (find_pending t pkt_id) as [j|] eqn:Hj; [|discriminate].
    injection H as <-. simpl. rewrite Hp. specialize (IH j eq_refl). lia.
Qed.

(** The [while] loop of [mqtt_data_sent_cb] over the pending requests with
    packet id 0. *)
Equations? sent_requests_loop (w : world) : world
  by wf (pending_count (requests (cl w))) lt :=
  sent_requests_loop w with inspect (request_get_pending (cl w) 0) => {
    | exist _ (Some i) _ :=
        if expected_sent_len (get_request (cl w) i) <=? sent_total (cl w) then
          sent_requests_loop
            (evt_fn (GSM_MQTT_EVT_PUBLISH (arg (get_request (cl w) i)) gsmOK)
               (on_cl (fun c => request_delete c i) w))
        else w;
    | exist _ None _ := w }.
Proof.
  simpl. eapply pending_count_delete. eassumption.
Qed.

Definition mqtt_data_sent_cb (w : world) (sent_len : Z) (successful : bool) : Z * world :=
  let w := on_cl (set_is_sending 0) w in
  let w := on_cl (fun c => set_sent_total (GSM_U32 (sent_total c + sent_len)) c) w in
  let w := on_cl (set_poll_time 0) w in
  if negb successful then (0, snd (mqtt_close w))
  else
    let w := on_cl (fun c => set_tx_buff (gsm_buff_skip (tx_buff c) sent_len) c) w in
    let w := sent_requests_loop w in
    (1, send_data w).

Definition mqtt_poll_cb (w : world) : Z * world :=
  let w := on_cl (fun c => set_poll_time (GSM_U32 (poll_time c + 1)) c) w in
  if state_eqb (conn_state (cl w)) GSM_MQTT_CONN_DISCONNECTING then (0, w)
  else
    match info (cl w) with
    | None => (1, w)
    | Some inf =>
        if negb (keep_alive inf =? 0)
           && (GSM_U32 (keep_alive inf * 1000)
                 <=? GSM_U32 (poll_time (cl w) * GSM_CFG_CONN_POLL_INTERVAL (env w)))
        then
          if negb (output_check_enough_memory (cl w) 0 =? 0) then
            let w := on_cl (fun c => write_fixed_header c MQTT_MSG_TYPE_PINGREQ 0 0 0 0) w in
            let w := send_data w in
            (1, on_cl (set_poll_time 0) w)
          else (1, w)
        else (1, w)
    end.

(** The [while] loop of [mqtt_closed_cb] over all pending requests. *)
Equations? closed_requests_loop (w : world) : world
  by wf (pending_count (requests (cl w))) lt :=
  closed_requests_loop w with inspect (request_get_pending (cl w) (-1)) => {
    | exist _ (Some i) _ :=
        closed_requests_loop
          (request_send_err_callback (on_cl (fun c => request_delete c i) w)
             (status (get_request (cl w) i)) (arg (get_request (cl w) i)));
    | exist _ None _ := w }.
Proof.
  unfold request_send_err_callback.
  repeat match goal with |- context [if ?b then _ else _] => destruct b end;
    simpl; eapply pending_count_delete; eassumption.
Qed.

Definition mqtt_closed_cb (w : world) (res : bool) (forced : Z) : Z * world :=
  let state := conn_state (cl w) in
  let w := on_cl (set_conn_state GSM_MQTT_CONN_DISCONNECTED) w in
  let w := evt_fn (GSM_MQTT_EVT_DISCONNECT
                     (state_eqb state GSM_MQTT_CONNECTED
                      || state_eqb state GSM_MQTT_CONN_DISCONNECTING)) w in
  let w := on_cl (set_conn false) w in
  let w := closed_requests_loop w in
  let w := on_cl (fun c => set_requests (map (fun _ => request_zero) (requests c)) c) w in
  let w := on_cl (fun c => set_is_sending 0 (set_sent_total 0 (set_written_total 0 c))) w in
  let w := on_cl (set_parser_state MQTT_PARSER_STATE_INIT) w in
  let w := on_cl (fun c => set_tx_buff (gsm_buff_reset (tx_buff c)) c) w in
  (1, w).

(** Events of the connection, as [mqtt_conn_cb] receives them. *)
Inductive gsm_evt_t : Type :=
| GSM_EVT_CONN_ERROR
| GSM_EVT_CONN_ACTIVE
| GSM_EVT_CONN_RECV (pbuf : gsm_pbuf_t)
| GSM_EVT_CONN_SEND (length : Z) (result : gsmr_t)
| GSM_EVT_CONN_POLL
| GSM_EVT_CONN_CLOSE (result : gsmr_t) (forced : Z)
| GSM_EVT_OTHER.

(** The callback for a connection whose argument is this client. *)
Definition mqtt_conn_cb (w : world) (evt : gsm_evt_t) : gsmr_t * world :=
  match evt with
  | GSM_EVT_CONN_ERROR =>
      let w := on_cl (set_conn_state GSM_MQTT_CONN_DISCONNECTED) w in
      (gsmOK, evt_fn (GSM_MQTT_EVT_CONNECT GSM_MQTT_CONN_STATUS_TCP_FAILED) w)
  | GSM_EVT_CONN_ACTIVE => (gsmOK, mqtt_connected_cb w)
  | GSM_EVT_CONN_RECV pbuf => (gsmOK, snd (mqtt_data_recv_cb w pbuf))
  | GSM_EVT_CONN_SEND len res => (gsmOK, snd (mqtt_data_sent_cb w len (gsmr_eqb res gsmOK)))
  | GSM_EVT_CONN_POLL => (gsmOK, snd (mqtt_poll_cb w))
  | GSM_EVT_CONN_CLOSE res forced => (gsmOK, snd (mqtt_closed_cb w (gsmr_eqb res gsmOK) forced))
  | GSM_EVT_OTHER => (gsmOK, w)
  end.

(** ** The application API *)

(** A client after a successful [gsm_mqtt_client_new]: the structure is
    zeroed and the two buffers are allocated; the rx buffer comes from
    [gsm_mem_malloc] and holds whatever the block held.  [max_requests]
    stands for GSM_CFG_MQTT_MAX_REQUESTS. *)
Definition gsm_mqtt_client_new (e : env_t) (max_requests : nat)
    (tx_buff_len rx_buff_len : Z) : gsm_mqtt_client_t :=
  {| conn := false; info := None; conn_state := GSM_MQTT_CONN_DISCONNECTED;
     poll_time := 0; tx_buff := gsm_buff_init tx_buff_len; is_sending := 0;
     sent_total := 0; written_total := 0; last_packet_id := 0;
     requests := repeat request_zero max_requests;
     rx_buff := map (fun i => GSM_U8 (env_mem_malloc e i)) (seq 0 (Z.to_nat rx_buff_len));
     rx_buff_len := rx_buff_len;
     parser_state := 0; msg_hdr_byte := 0; msg_rem_len := 0; msg_rem_len_mult := 0;
     msg_curr_pos := 0; client_arg := 0 |}.

(** [host] and [inf] are [None] for a NULL pointer; [port] is a gsm_port_t,
    16 bits wide.  The function starts with four GSM_ASSERT guards, on the
    client, the host, the port and the connection info, in this order.  The
    macro and the port type come from the library core, outside these
    sources: a guard that fails makes the function return gsmPARERR at
    once, before anything is called or changed.  The first guard,
    [client != NULL], holds of every client of this embedding. *)
Definition gsm_mqtt_client_connect (w : world) (host : option string) (port : Z)
    (inf : option gsm_mqtt_client_info_t) : gsmr_t * world :=
  let port := GSM_U16 port in
  match host with
  | None => (gsmPARERR, w)
  | Some host =>
      if negb (0 <? port) then (gsmPARERR, w)
      else
        match inf with
        | None => (gsmPARERR, w)
        | Some inf =>
            let '(attached, w) := gsm_network_is_attached w in
            if attached && state_eqb (conn_state (cl w)) GSM_MQTT_CONN_DISCONNECTED then
              let w := on_cl (set_info (Some inf)) w in
              let '(res, w) := gsm_conn_start host port w in
              if gsmr_eqb res gsmOK
              then (res, on_cl (fun c =>
                           set_conn_state GSM_MQTT_CONN_CONNECTING (set_conn true c)) w)
              else (res, w)
            else (gsmERR, w)
        end
  end.

Definition gsm_mqtt_client_disconnect (w : world) : gsmr_t * world :=
  if negb (state_eqb (conn_state (cl w)) GSM_MQTT_CONN_DISCONNECTED)
     && negb (state_eqb (conn_state (cl w)) GSM_MQTT_CONN_DISCONNECTING)
  then mqtt_close w
  else (gsmERR, w).

Definition gsm_mqtt_client_subscribe (w : world) (topic : string) (qos a : Z)
  : gsmr_t * world :=
  let '(r, w) := sub_unsub w topic qos a 1 in
  (if r =? 1 then gsmOK else gsmERR, w).

Definition gsm_mqtt_client_unsubscribe (w : world) (topic : string) (a : Z)
  : gsmr_t * world :=
  let '(r, w) := sub_unsub w topic 0 a 0 in
  (if r =? 1 then gsmOK else gsmERR, w).

(** [payload] is [None] for a NULL pointer, else the memory behind it. *)
Definition gsm_mqtt_client_publish (w : world) (topic : string)
    (payload : option (list Z)) (payload_len qos retain a : Z) : gsmr_t * world :=
  let payload_len := GSM_U16 payload_len in
  let retain := GSM_U8 retain in
  let qos_u8 := GSM_U8 qos in
  let len_topic := GSM_U16 (strlen topic) in
  if len_topic =? 0 then (gsmERR, w)
  else
    let rem_len :=
      GSM_U32 (2 + len_topic + (match payload with Some _ => payload_len | None => 0 end)) in
    let rem_len := if 0 <? qos_u8 then GSM_U32 (rem_len + 2) else rem_len in
    if negb (state_eqb (conn_state (cl w)) GSM_MQTT_CONNECTED) then (gsmCLOSED, w)
    else
      let raw_len := output_check_enough_memory (cl w) rem_len in
      if negb (raw_len =? 0) then
        let '(pkt_id, c) :=
          if 0 <? qos_u8 then create_packet_id (cl w) else (0, cl w) in
        let '(request, c) := request_create c pkt_id a in
        let w := set_cl c w in
        match request with
        | Some i =>
            let w := on_cl (fun c =>
              set_requests
                (update_request (requests c) i
                   (set_expected_sent_len (GSM_U32 (written_total c + raw_len))))
                c) w in
            let w := on_cl (fun c =>
              write_fixed_header c MQTT_MSG_TYPE_PUBLISH 0
                (GSM_MIN qos_u8 (GSM_U8 GSM_MQTT_QOS_EXACTLY_ONCE)) retain rem_len) w in
            let w := on_cl (fun c => write_string c (str_bytes topic) len_topic) w in
            let w := if negb (qos_u8 =? 0) then on_cl (fun c => write_u16 c pkt_id) w else w in
            let w :=
              match payload with
              | Some data =>
                  if negb (payload_len =? 0)
                  then on_cl (fun c => write_data c data payload_len) w else w
              | None => w
              end in
            let w := request_set_pending w i in
            let w := send_data w in
            (gsmOK, w)
        | None => (gsmERRMEM, w)
        end
      else (gsmERRMEM, w).


Definition gsm_mqtt_client_set_arg (w : world) (a : Z) : world :=
  on_cl (set_client_arg a) w.

Definition gsm_mqtt_client_get_arg (w : world) : Z := client_arg (cl w).

(** ** Scenarios *)

(** A transport that accepts every request, with the network attached, a
    poll interval of 500 ms and an allocator whose blocks hold the bytes
    A5, A6, A7, ... *)
Definition env_ok : env_t :=
  {| env_conn_send := fun _ => gsmOK;
     env_conn_close := fun _ => gsmOK;
     env_conn_start := fun _ => gsmOK;
     env_network_is_attached := fun _ => true;
     env_sys_now := fun n => Z.of_nat n;
     env_mem_malloc := fun i => 0xA5 + Z.of_nat i;
     GSM_CFG_CONN_POLL_INTERVAL := 500 |}.

Definition world_new (e : env_t) (max_requests : nat) (tx_len rx_len : Z) : world :=
  {| cl := gsm_mqtt_client_new e max_requests tx_len rx_len; log := []; env := e;
     clock := O |}.

(** Forget the calls recorded so far. *)
Definition clear_log (w : world) : world :=
  {| cl := cl w; log := []; env := env w; clock := clock w |}.

Definition info_c1 : gsm_mqtt_client_info_t :=
  {| info_id := "c1"; user := None; pass := None; keep_alive := 60;
     will_topic := None; will_message := None; will_qos := 0 |}.

(** After [connect], while the transport connects. *)
Definition w_tcp_connecting : world :=
  clear_log (snd (gsm_mqtt_client_connect (world_new env_ok 8 256 256)
                   (Some "broker"%string) 1883 (Some info_c1))).

(** After the transport's ACTIVE event. *)
Definition w_connecting : world :=
  snd (mqtt_conn_cb w_tcp_connecting GSM_EVT_CONN_ACTIVE).

(** After the CONNACK [20 02 00 00] and the completion of the CONNECT write. *)
Definition w_connected : world :=
  let w := snd (mqtt_conn_cb w_connecting (GSM_EVT_CONN_RECV [[0x20; 0x02; 0x00; 0x00]])) in
  clear_log (snd (mqtt_conn_cb w (GSM_EVT_CONN_SEND 16 gsmOK))).




(** A client whose rx buffer holds four bytes. *)
Definition w_small_rx : world := world_new env_ok 8 64 4.

(** Two QoS-1 publishes (packet ids 1 and 2) and one subscribe (packet id 3)
    pending on a connected client. *)
Definition w_three_pending : world :=
  let w := snd (gsm_mqtt_client_publish w_connected "a/b" (Some [0x68; 0x69]) 2 1 0 11) in
  let w := snd (gsm_mqtt_client_publish w "a/b" (Some [0x68; 0x69]) 2 1 0 12) in
  clear_log (snd (gsm_mqtt_client_subscribe w "a/b" 1 13)).

(** A QoS-1 publish of "hi" on "a/b", and the same done [n] times. *)
Definition publish_hi (w : world) : world :=
  snd (gsm_mqtt_client_publish w "a/b" (Some [0x68; 0x69]) 2 1 0 0).

(** Eight publishes fill the request table with packet ids 1..8; 65,527
    further attempts find the table full but each takes a packet id, so the
    last id is 0xFFFF; the PUBACK for id 2 then frees a request, and the next
    publish is given the id 1. *)
Definition w_ids_wrapped : world :=
  let w := Nat.iter 8 publish_hi w_connected in
  let w := Nat.iter (Z.to_nat 65527) publish_hi w in
  let w := snd (mqtt_conn_cb w (GSM_EVT_CONN_RECV [[0x40; 0x02; 0x00; 0x02]])) in
  publish_hi w.

(** A QoS-0 publish on topic "a" of a payload of 65,535 bytes. *)
Definition publish_big : gsmr_t * world :=
  gsm_mqtt_client_publish w_connected "a" (Some (repeat 0x41 (Z.to_nat 65535))) 65535 0 0 0.

(** ** Pure views of the encoder, used to state what it writes *)

Definition tx_data (c : gsm_mqtt_client_t) : list Z := buff_data (tx_buff c).
Definition tx_free (c : gsm_mqtt_client_t) : Z := gsm_buff_get_free (tx_buff c).

(** The first byte [write_fixed_header] computes; [dup] and [retain] are
    uint8_t parameters, narrowed at the call. *)
Definition fixed_header_byte (type dup qos retain : Z) : Z :=
  GSM_U8 (Z.lor (Z.lor (Z.lor (Z.shiftl (GSM_U8 type) 4)
                              (Z.shiftl (GSM_U8 (bool_norm (GSM_U8 dup))) 3))
                       (Z.shiftl (Z.land (GSM_U8 qos) 0x03) 1))
                (GSM_U8 (bool_norm (GSM_U8 retain)))).

(** The dispatcher with the record of its accesses left out: the value of
    [mqtt_process_incoming_message], by [process_unfold]. *)
Definition dispatch_result (w : world) : Z * world :=
  let w := emit (Dispatch (msg_hdr_byte (cl w)) (msg_rem_len (cl w))
                   (firstn (Z.to_nat (msg_rem_len (cl w))) (rx_buff (cl w)))) w in
  let msg_type := MQTT_RCV_GET_PACKET_TYPE (msg_hdr_byte (cl w)) in
  if msg_type =? MQTT_MSG_TYPE_CONNACK then
    let err := CONN_STATUS (byte_at (rx_buff (cl w)) 1) in
    if state_eqb (conn_state (cl w)) GSM_MQTT_CONNECTING then
      let w := if conn_status_accepted err
               then on_cl (set_conn_state GSM_MQTT_CONNECTED) w else w in
      (1, evt_fn (GSM_MQTT_EVT_CONNECT err) w)
    else (1, w)
  else if msg_type =? MQTT_MSG_TYPE_PUBLISH then
    let qos := MQTT_RCV_GET_PACKET_QOS (msg_hdr_byte (cl w)) in
    let dup := MQTT_RCV_GET_PACKET_DUP (msg_hdr_byte (cl w)) in
    let topic_len := rx_u16 (cl w) 0 in
    let topic := 2 in
    let data := topic + topic_len in
    let pkt_id := if 0 <? qos then rx_u16 (cl w) (2 + topic_len) else 0 in
    let data := if 0 <? qos then data + 2 else data in
    let data_len := GSM_U16 (msg_rem_len (cl w) - data) in
    let w :=
      if 0 <? qos then
        let resp_msg_type :=
          if qos =? 1 then MQTT_MSG_TYPE_PUBACK else MQTT_MSG_TYPE_PUBREC in
        snd (write_ack_rec_rel_resp w resp_msg_type pkt_id qos)
      else w in
    (1, evt_fn (GSM_MQTT_EVT_PUBLISH_RECV
                  (slice (rx_buff (cl w)) topic topic_len) topic_len
                  (slice (rx_buff (cl w)) data data_len) data_len dup qos) w)
  else if msg_type =? MQTT_MSG_TYPE_PINGRESP then
    (1, evt_fn GSM_MQTT_EVT_KEEP_ALIVE w)
  else if (msg_type =? MQTT_MSG_TYPE_SUBACK) || (msg_type =? MQTT_MSG_TYPE_UNSUBACK)
          || (msg_type =? MQTT_MSG_TYPE_PUBREC) || (msg_type =? MQTT_MSG_TYPE_PUBREL)
          || (msg_type =? MQTT_MSG_TYPE_PUBACK) || (msg_type =? MQTT_MSG_TYPE_PUBCOMP)
  then
    let pkt_id := rx_u16 (cl w) 0 in
    if msg_type =? MQTT_MSG_TYPE_PUBREC then
      (1, snd (write_ack_rec_rel_resp w MQTT_MSG_TYPE_PUBREL pkt_id 1))
    else if msg_type =? MQTT_MSG_TYPE_PUBREL then
      (1, snd (write_ack_rec_rel_resp w MQTT_MSG_TYPE_PUBCOMP pkt_id 0))
    else
      match request_get_pending (cl w) pkt_id with
      | Some i =>
          let request := get_request (cl w) i in
          let w :=
            if (msg_type =? MQTT_MSG_TYPE_SUBACK) || (msg_type =? MQTT_MSG_TYPE_UNSUBACK)
            then
              let res := if byte_at (rx_buff (cl w)) 2 <? 3 then gsmOK else gsmERR in
              if msg_type =? MQTT_MSG_TYPE_SUBACK
              then evt_fn (GSM_MQTT_EVT_SUBSCRIBE (arg request) res) w
              else evt_fn (GSM_MQTT_EVT_UNSUBSCRIBE (arg request) res) w
            else
              evt_fn (GSM_MQTT_EVT_PUBLISH (arg request) gsmOK) w in
          (1, on_cl (fun c => request_delete c i) w)
      | None => (1, w)
      end
  else (0, w).

(** The byte one turn of the remaining-length loop computes. *)
Definition rem_len_byte (r : Z) : Z :=
  GSM_U8 (Z.lor (Z.land r 0x7F) (if 0x7F <? r then 0x80 else 0)).

(** The bytes the remaining-length loop of [write_fixed_header] writes, in
    order: the same loop with the writes collected. *)
Equations? rem_len_bytes (rem_len : Z) : list Z by wf (Z.to_nat rem_len) lt :=
  rem_len_bytes rem_len
    with Z_lt_dec 0 (Z.shiftr rem_len 7) => {
    | left _ := rem_len_byte rem_len :: rem_len_bytes (Z.shiftr rem_len 7);
    | right _ := [rem_len_byte rem_len] }.
Proof.
  rewrite Z.shiftr_div_pow2 in * by lia.
  change (2 ^ 7) with 128 in *.
  assert (0 < rem_len) by (destruct (Z_lt_dec 0 rem_len); [assumption|];
    exfalso; assert (rem_len / 128 <= 0) by (apply Z.div_le_upper_bound; lia); lia).
  assert (rem_len / 128 < rem_len) by (apply Z.div_lt; lia).
  lia.
Qed.

(** The two bytes [write_u16] writes. *)
Definition u16_bytes (n : Z) : list Z :=
  [GSM_U8 (GSM_U8 (Z.shiftr (GSM_U16 n) 8)); GSM_U8 (GSM_U8 (Z.land (GSM_U16 n) 0xFF))].

(** *** The parser on its own

    The fields [mqtt_parse_incoming] works on, and the parser as a machine
    over these fields alone; it is shown below to be what [parse_block]
    does to them. *)
Record pstate : Type := {
  p_state : Z;
  p_hdr : Z;
  p_rem : Z;
  p_mult : Z;
  p_pos : Z;
  p_rx : list Z;
  p_rxlen : Z
}.

Definition parser_view (c : gsm_mqtt_client_t) : pstate :=
  {| p_state := parser_state c; p_hdr := msg_hdr_byte c; p_rem := msg_rem_len c;
     p_mult := msg_rem_len_mult c; p_pos := msg_curr_pos c; p_rx := rx_buff c;
     p_rxlen := rx_buff_len c |}.

(** What the parser does with a complete frame. *)
Inductive pevent : Type :=
| PDispatch (hdr rem_len : Z) (payload : list Z)
| PDiscard (hdr rem_len : Z).

(** The parser's decisions in a log, newest first. *)
Fixpoint pevents (l : list output) : list pevent :=
  match l with
  | [] => []
  | Dispatch h r p :: l' => PDispatch h r p :: pevents l'
  | Discard h r :: l' => PDiscard h r :: pevents l'
  | _ :: l' => pevents l'
  end.

Definition pure_step (s : pstate) (ch : Z) (rest : list Z) : pstate * list pevent * Z :=
  if p_state s =? MQTT_PARSER_STATE_INIT then
    ({| p_state := MQTT_PARSER_STATE_CALC_REM_LEN; p_hdr := ch; p_rem := 0; p_mult := 0;
        p_pos := 0; p_rx := p_rx s; p_rxlen := p_rxlen s |}, [], 0)
  else if p_state s =? MQTT_PARSER_STATE_CALC_REM_LEN then
    let rem := GSM_U32 (Z.lor (p_rem s) (shl32 (Z.land ch 0x7F) (7 * p_mult s))) in
    let mult := GSM_U8 (p_mult s + 1) in
    let next st :=
      {| p_state := st; p_hdr := p_hdr s; p_rem := rem; p_mult := mult;
         p_pos := p_pos s; p_rx := p_rx s; p_rxlen := p_rxlen s |} in
    if Z.land ch 0x80 =? 0 then
      if 0 <? rem then
        if rem <? zlen rest + 1 then
          (next MQTT_PARSER_STATE_INIT,
           [PDispatch (p_hdr s) rem (firstn (Z.to_nat rem) rest)], rem)
        else (next MQTT_PARSER_STATE_READ_REM, [], 0)
      else
        (next MQTT_PARSER_STATE_INIT,
         [PDispatch (p_hdr s) rem (firstn (Z.to_nat rem) (p_rx s))], 0)
    else (next MQTT_PARSER_STATE_CALC_REM_LEN, [], 0)
  else if p_state s =? MQTT_PARSER_STATE_READ_REM then
    let rx :=
      if p_pos s <? p_rxlen s then store_at (p_rx s) (Z.to_nat (p_pos s)) ch
      else p_rx s in
    let pos := GSM_U32 (p_pos s + 1) in
    let next st :=
      {| p_state := st; p_hdr := p_hdr s; p_rem := p_rem s; p_mult := p_mult s;
         p_pos := pos; p_rx := rx; p_rxlen := p_rxlen s |} in
    if pos =? p_rem s then
      (next MQTT_PARSER_STATE_INIT,
       [if pos <=? p_rxlen s
        then PDispatch (p_hdr s) (p_rem s) (firstn (Z.to_nat (p_rem s)) rx)
        else PDiscard (p_hdr s) (p_rem s)], 0)
    else (next MQTT_PARSER_STATE_READ_REM, [], 0)
  else
    ({| p_state := MQTT_PARSER_STATE_INIT; p_hdr := p_hdr s; p_rem := p_rem s;
        p_mult := p_mult s; p_pos := p_pos s; p_rx := p_rx s; p_rxlen := p_rxlen s |},
     [], 0).

(** The machine over one block; the decisions are collected newest first. *)
Equations? pure_block (sa : pstate * list pevent) (d : list Z) : pstate * list pevent
  by wf (length d) lt :=
  pure_block sa [] := sa;
  pure_block sa (ch :: rest) :=
    pure_block (fst (fst (pure_step (fst sa) ch rest)),
                rev (snd (fst (pure_step (fst sa) ch rest))) ++ snd sa)
               (skipn (Z.to_nat (snd (pure_step (fst sa) ch rest))) rest).
Proof.
  rewrite length_skipn. simpl. lia.
Qed.

(** The machine fed one byte per block. *)
Definition pure_bytes (sa : pstate * list pevent) (d : list Z) : pstate * list pevent :=
  fold_left (fun sa b => pure_block sa [b]) d sa.

(** The machine fed a chain of blocks. *)
Definition pure_feed (sa : pstate * list pevent) (chunks : list (list Z))
  : pstate * list pevent :=
  fold_left pure_block chunks sa.

Definition is_discard (e : pevent) : bool :=
  match e with PDiscard _ _ => true | PDispatch _ _ _ => false end.

Definition is_dispatch (e : pevent) : bool := negb (is_discard e).

(** The parser is between frames or inside one it started itself: the rx
    buffer has the length the client believes it has, the write position is
    a 32-bit value, and while the remaining length is being read nothing has
    been stored yet. *)
Definition parser_ok (s : pstate) : Prop :=
  zlen (p_rx s) = p_rxlen s /\
  0 <= p_pos s < 4294967296 /\
  (p_state s = MQTT_PARSER_STATE_CALC_REM_LEN -> p_pos s = 0).

(** Two parser states that go on alike: between frames only the buffer
    length matters; inside a frame the header, the lengths and the position
    agree, and so do the bytes stored so far. *)
Definition peq (s t : pstate) : Prop :=
  p_rxlen s = p_rxlen t /\ p_state s = p_state t /\
  (p_state s = MQTT_PARSER_STATE_INIT \/
   (p_hdr s = p_hdr t /\ p_rem s = p_rem t /\ p_mult s = p_mult t /\
    p_pos s = p_pos t /\
    (p_state s = MQTT_PARSER_STATE_CALC_REM_LEN \/
     firstn (Z.to_nat (p_pos s)) (p_rx s) = firstn (Z.to_nat (p_pos s)) (p_rx t)))).

(** The remaining length after the byte [ch] of the length field. *)
Definition next_rem (s : pstate) (ch : Z) : Z :=
  GSM_U32 (Z.lor (p_rem s) (shl32 (Z.land ch 0x7F) (7 * p_mult s))).

(** The byte [ch] ends the length field and the whole frame is in the block. *)
Definition in_place (s : pstate) (ch : Z) (rest : list Z) : bool :=
  negb (p_state s =? MQTT_PARSER_STATE_INIT)
  && (p_state s =? MQTT_PARSER_STATE_CALC_REM_LEN)
  && (Z.land ch 0x80 =? 0)
  && (0 <? next_rem s ch)
  && (next_rem s ch <? zlen rest + 1).

(** Frames the parser dropped, in a log. *)
Fixpoint discards (l : list output) : list (Z * Z) :=
  match l with
  | [] => []
  | Discard h r :: l' => (h, r) :: discards l'
  | _ :: l' => discards l'
  end.

(** *** Reading a log *)

(** Data handed to the transport, in the order of the list. *)
Fixpoint sends (t : list output) : list (list Z) :=
  match t with
  | [] => []
  | CallConnSend d _ :: t' => d :: sends t'
  | _ :: t' => sends t'
  end.

(** Events given to the application callback, in the order of the list. *)
Fixpoint events (t : list output) : list gsm_mqtt_evt_t :=
  match t with
  | [] => []
  | CallEvtFn e :: t' => e :: events t'
  | _ :: t' => events t'
  end.

(** Messages given to the dispatcher, in the order of the list. *)
Fixpoint dispatches (t : list output) : list (Z * Z * list Z) :=
  match t with
  | [] => []
  | Dispatch h r p :: t' => (h, r, p) :: dispatches t'
  | _ :: t' => dispatches t'
  end.

(** The dispatched messages among the parser's decisions. *)
Fixpoint pdispatches (l : list pevent) : list (Z * Z * list Z) :=
  match l with
  | [] => []
  | PDispatch h r p :: l' => (h, r, p) :: pdispatches l'
  | PDiscard _ _ :: l' => pdispatches l'
  end.

(** The stream handed to the parser chunk by chunk, each chunk a received
    buffer of one linear block. *)
Definition feed_chunks (w : world) (chunks : list (list Z)) : world :=
  fold_left (fun w c => snd (mqtt_parse_incoming w [c])) chunks w.

(** *** Acknowledgements *)




(** A transmit buffer in a state its operations keep: the read cursor inside
    the cells and no more unread bytes than cells. *)
Definition buff_ok (b : gsm_buff_t) : Prop :=
  0 <= buff_r b < buff_size b /\ zlen (buff_data b) <= buff_size b.

(** *** Requests *)

Definition is_pending (r : gsm_mqtt_request_t) : bool :=
  has_flag (status r) MQTT_REQUEST_FLAG_PENDING.

(** The failure event [request_send_err_callback] gives for a request. *)
Definition err_event (r : gsm_mqtt_request_t) : gsm_mqtt_evt_t :=
  if has_flag (status r) MQTT_REQUEST_FLAG_SUBSCRIBE then GSM_MQTT_EVT_SUBSCRIBE (arg r) gsmERR
  else if has_flag (status r) MQTT_REQUEST_FLAG_UNSUBSCRIBE
       then GSM_MQTT_EVT_UNSUBSCRIBE (arg r) gsmERR
       else GSM_MQTT_EVT_PUBLISH (arg r) gsmERR.

(** The packet id of the call number [n] (from 0) of the generator. *)
Fixpoint packet_id_seq (c : gsm_mqtt_client_t) (n : nat) : Z :=
  match n with
  | O => fst (create_packet_id c)
  | S k => packet_id_seq (snd (create_packet_id c)) k
  end.

(** *** Sizes *)

(** The raw size of a packet with remaining length [rem_len]: the header
    byte, the bytes of the remaining length and the rest. *)
Definition raw_len (rem_len : Z) : Z := rem_len + 1 + zlen (rem_len_bytes rem_len).

(** The remaining length [gsm_mqtt_client_publish] computes. *)
Definition publish_rem_len (topic : string) (payload : option (list Z))
    (payload_len qos : Z) : Z :=
  2 + GSM_U16 (strlen topic)
  + (match payload with Some _ => GSM_U16 payload_len | None => 0 end)
  + (if 0 <? GSM_U8 qos then 2 else 0).

(** Every request of the table is in use. *)
Definition table_full (c : gsm_mqtt_client_t) : bool :=
  forallb (fun r => has_flag (status r) MQTT_REQUEST_FLAG_IN_USE) (requests c).

(** *** Reads of the rx buffer *)

(** The offsets [off], ..., [off + len - 1]. *)
Definition offsets (off len : Z) : list Z :=
  map (fun k => off + Z.of_nat k) (seq 0 (Z.to_nat len)).

(** The offsets an access touches. *)
Definition access_offsets (a : rx_access) : list Z :=
  match a with
  | RxRead off => [off]
  | RxRegion off len => offsets off len
  end.

(** The offsets of [rx_buff] a run of the dispatcher touches. *)
Definition rx_offsets (w : world) : list Z := flat_map access_offsets (rx_accesses w).

(** The accesses of the dispatcher written out by message type, to be
    compared with [rx_accesses]: the return code of a CONNACK; for a PUBLISH
    the two bytes of the topic length, the two bytes of the packet id when
    the QoS is not 0, then the topic and the payload handed to the
    application; the packet id of the six acknowledgements and, for a SUBACK
    or UNSUBACK whose packet id a pending request has, the return code. *)
Definition rx_reads (c : gsm_mqtt_client_t) : list rx_access :=
  let msg_type := MQTT_RCV_GET_PACKET_TYPE (msg_hdr_byte c) in
  if msg_type =? MQTT_MSG_TYPE_CONNACK then [RxRead 1]
  else if msg_type =? MQTT_MSG_TYPE_PUBLISH then
    let qos := MQTT_RCV_GET_PACKET_QOS (msg_hdr_byte c) in
    let topic_len := rx_u16 c 0 in
    let topic := 2 in
    let data := topic + topic_len in
    let data := if 0 <? qos then data + 2 else data in
    let data_len := GSM_U16 (msg_rem_len c - data) in
    [RxRead 0; RxRead 1]
      ++ (if 0 <? qos then [RxRead (2 + topic_len); RxRead (2 + topic_len + 1)] else [])
      ++ [RxRegion topic topic_len; RxRegion data data_len]
  else if msg_type =? MQTT_MSG_TYPE_PINGRESP then []
  else if (msg_type =? MQTT_MSG_TYPE_SUBACK) || (msg_type =? MQTT_MSG_TYPE_UNSUBACK)
  then
    [RxRead 0; RxRead 1]
      ++ match request_get_pending c (rx_u16 c 0) with
         | Some _ => [RxRead 2]
         | None => []
         end
  else if (msg_type =? MQTT_MSG_TYPE_PUBREC) || (msg_type =? MQTT_MSG_TYPE_PUBREL)
          || (msg_type =? MQTT_MSG_TYPE_PUBACK) || (msg_type =? MQTT_MSG_TYPE_PUBCOMP)
  then [RxRead 0; RxRead 1]
  else [].

(** The frame given to the dispatcher is the first [msg_rem_len] bytes of
    [rx_buff]. *)
Definition in_frame (c : gsm_mqtt_client_t) (i : Z) : Prop := 0 <= i < msg_rem_len c.

(** Modelled from the spec: the remaining length asked of a frame of each
    type before it is dispatched, 2 for CONNACK, PUBACK, PUBREC, PUBREL and
    PUBCOMP, 3 for SUBACK and UNSUBACK, 2 + topic length (+ 2 when the QoS is
    not 0) for PUBLISH.  The code has no such check. *)
Definition required_rem_len (c : gsm_mqtt_client_t) : Z :=
  let msg_type := MQTT_RCV_GET_PACKET_TYPE (msg_hdr_byte c) in
  if (msg_type =? MQTT_MSG_TYPE_CONNACK) || (msg_type =? MQTT_MSG_TYPE_PUBACK)
     || (msg_type =? MQTT_MSG_TYPE_PUBREC) || (msg_type =? MQTT_MSG_TYPE_PUBREL)
     || (msg_type =? MQTT_MSG_TYPE_PUBCOMP)
  then 2
  else if (msg_type =? MQTT_MSG_TYPE_SUBACK) || (msg_type =? MQTT_MSG_TYPE_UNSUBACK)
  then 3
  else if msg_type =? MQTT_MSG_TYPE_PUBLISH then
    2 + rx_u16 c 0 + (if 0 <? MQTT_RCV_GET_PACKET_QOS (msg_hdr_byte c) then 2 else 0)
  else 0.

(** The remaining length the accesses of the code need: that of
    [required_rem_len], but 2 for a SUBACK or UNSUBACK whose packet id no
    pending request has, since the return code is then not read. *)
Definition needed_rem_len (c : gsm_mqtt_client_t) : Z :=
  let msg_type := MQTT_RCV_GET_PACKET_TYPE (msg_hdr_byte c) in
  if (msg_type =? MQTT_MSG_TYPE_SUBACK) || (msg_type =? MQTT_MSG_TYPE_UNSUBACK) then
    match request_get_pending c (rx_u16 c 0) with
    | Some _ => 3
    | None => 2
    end
  else required_rem_len c.

(** The calls of a log, without the marks of the dispatcher and of the
    parser. *)
Definition is_call (o : output) : bool :=
  match o with
  | Dispatch _ _ _ | Discard _ _ => false
  | _ => true
  end.

Definition calls (t : list output) : list output := filter is_call t.

(** Two worlds that differ in the content of the rx buffer and in the marks
    of their logs only. *)
Definition agree_but_rx (w1 w2 : world) : Prop :=
  cl w1 = set_rx_buff (rx_buff (cl w1)) (cl w2) /\
  calls (log w1) = calls (log w2) /\
  env w1 = env w2 /\
  clock w1 = clock w2.

(** *** The byte counters *)

(** The bytes the transport has accepted since the connection last closed
    (the DISCONNECT event is given at the close callback only), as an
    unbounded number. *)
Fixpoint handed (t : list output) : Z :=
  match t with
  | [] => 0
  | CallConnSend d r :: t' => (if gsmr_eqb r gsmOK then zlen d else 0) + handed t'
  | CallEvtFn (GSM_MQTT_EVT_DISCONNECT _) :: _ => 0
  | _ :: t' => handed t'
  end.

(** The length of the newest write the transport accepted. *)
Fixpoint last_send (t : list output) : Z :=
  match t with
  | [] => 0
  | CallConnSend d r :: t' => if gsmr_eqb r gsmOK then zlen d else last_send t'
  | _ :: t' => last_send t'
  end.

(** The length of the write in flight: the transport owes a SEND event for
    it. *)
Definition in_flight (w : world) : Z :=
  if is_sending (cl w) =? 0 then 0 else last_send (log w).

Definition counters_ok (w : world) : Prop :=
  written_total (cl w) = handed (log w) /\
  0 <= sent_total (cl w) /\
  sent_total (cl w) + in_flight w <= written_total (cl w).

(** From [w] to [w'] the transport has accepted more bytes, and the counters
    stay right as long as their count fits 32 bits. *)
Definition advances (w w' : world) : Prop :=
  handed (log w) <= handed (log w') /\
  (counters_ok w -> handed (log w') < 4294967296 -> counters_ok w').

(** Functions on the client that keep [is_sending], [sent_total] and [written_total]. *)
Definition keeps (f : gsm_mqtt_client_t -> gsm_mqtt_client_t) : Prop :=
  forall c, is_sending (f c) = is_sending c /\
            sent_total (f c) = sent_total c /\
            written_total (f c) = written_total c.

(** Outputs that are neither a write nor the event of the close callback. *)
Definition quiet (o : output) : bool :=
  match o with
  | CallConnSend _ _ => false
  | CallEvtFn (GSM_MQTT_EVT_DISCONNECT _) => false
  | _ => true
  end.

(** The calls of the application and the events of the transport. *)
Inductive operation : Type :=
| OpConnect (host : option string) (port : Z) (inf : option gsm_mqtt_client_info_t)
| OpDisconnect
| OpSubscribe (topic : string) (qos a : Z)
| OpUnsubscribe (topic : string) (a : Z)
| OpPublish (topic : string) (payload : option (list Z)) (payload_len qos retain a : Z)
| OpEvt (evt : gsm_evt_t).

Definition step (w : world) (o : operation) : world :=
  match o with
  | OpConnect host port inf => snd (gsm_mqtt_client_connect w host port inf)
  | OpDisconnect => snd (gsm_mqtt_client_disconnect w)
  | OpSubscribe topic qos a => snd (gsm_mqtt_client_subscribe w topic qos a)
  | OpUnsubscribe topic a => snd (gsm_mqtt_client_unsubscribe w topic a)
  | OpPublish topic payload payload_len qos retain a =>
      snd (gsm_mqtt_client_publish w topic payload payload_len qos retain a)
  | OpEvt evt => snd (mqtt_conn_cb w evt)
  end.

(** What the transport keeps to: a SEND event answers the write in flight and
    reports no more bytes than that write had. *)
Definition valid_operation (w : world) (o : operation) : Prop :=
  match o with
  | OpEvt (GSM_EVT_CONN_SEND len _) =>
      is_sending (cl w) <> 0 /\ 0 <= len <= last_send (log w)
  | _ => True
  end.

Definition is_close (o : operation) : bool :=
  match o with
  | OpEvt (GSM_EVT_CONN_CLOSE _ _) => true
  | _ => false
  end.

(** The states of a client from its creation on, with a transport that keeps
    to [valid_operation] and accepts fewer than 2^32 bytes between two
    closes. *)
Inductive reachable : world -> Prop :=
| reachable_new (e : env_t) (max_requests : nat) (tx_len rx_len : Z) :
    reachable (world_new e max_requests tx_len rx_len)
| reachable_step (w : world) (o : operation) :
    reachable w -> valid_operation w o ->
    handed (log (step w o)) < 4294967296 ->
    reachable (step w o).

(** A run of operations, and a short session: connect, the transport comes
    up, the broker accepts, one QoS-1 publish. *)
Definition run (w : world) (ops : list operation) : world := fold_left step ops w.

Definition session : list operation :=
  [OpConnect (Some "broker"%string) 1883 (Some info_c1);
   OpEvt GSM_EVT_CONN_ACTIVE;
   OpEvt (GSM_EVT_CONN_RECV [[0x20; 0x02; 0x00; 0x00]]);
   OpEvt (GSM_EVT_CONN_SEND 16 gsmOK);
   OpPublish "a/b" (Some [0x68; 0x69]) 2 1 0 0].

(** ** Packets as byte strings *)

(** The bytes the writes of [gsm_mqtt_client_publish] put into the transmit
    buffer, in order, for the packet id [pkt_id]. *)
Definition publish_packet (topic : string) (payload : option (list Z))
    (payload_len qos retain pkt_id : Z) : list Z :=
  fixed_header_byte MQTT_MSG_TYPE_PUBLISH 0
    (GSM_MIN (GSM_U8 qos) (GSM_U8 GSM_MQTT_QOS_EXACTLY_ONCE)) (GSM_U8 retain)
  :: rem_len_bytes (GSM_U16 (publish_rem_len topic payload payload_len qos))
  ++ u16_bytes (GSM_U16 (strlen topic))
  ++ firstn (Z.to_nat (GSM_U16 (strlen topic))) (str_bytes topic)
  ++ (if 0 <? GSM_U8 qos then u16_bytes pkt_id else [])
  ++ match payload with
     | Some data => firstn (Z.to_nat (GSM_U16 payload_len)) data
     | None => []
     end.

(** The remaining length [sub_unsub] computes. *)
Definition sub_unsub_rem_len (topic : string) (sub : Z) : Z :=
  2 + GSM_U16 (strlen topic) + 2 + (if sub =? 0 then 0 else 1).

(** The bytes the writes of [sub_unsub] put into the transmit buffer. *)
Definition sub_unsub_packet (topic : string) (qos sub pkt_id : Z) : list Z :=
  fixed_header_byte
    (if sub =? 0 then MQTT_MSG_TYPE_UNSUBSCRIBE else MQTT_MSG_TYPE_SUBSCRIBE) 0 1 0
  :: rem_len_bytes (GSM_U16 (sub_unsub_rem_len topic sub))
  ++ u16_bytes pkt_id
  ++ u16_bytes (GSM_U16 (strlen topic))
  ++ firstn (Z.to_nat (GSM_U16 (strlen topic))) (str_bytes topic)
  ++ (if sub =? 0 then [] else [GSM_U8 (GSM_MIN (GSM_U8 qos) (GSM_U8 GSM_MQTT_QOS_EXACTLY_ONCE))]).

(** ** Requests *)

(** The request is pending with the packet id [p]. *)
Definition pending_with (p : Z) (r : gsm_mqtt_request_t) : bool :=
  is_pending r && (packet_id r =? p).

Definition in_use (r : gsm_mqtt_request_t) : bool :=
  has_flag (status r) MQTT_REQUEST_FLAG_IN_USE.

(** ** Frames *)

(** The parser on a frame that lies whole in the received block, after the
    header byte [h] and a length field of [mult] bytes giving [rem]: the
    dispatcher runs with [rx_buff] pointing at the frame in the block
    ([frame] is the block from the first byte of the frame on), then the
    rx buffer of the client is put back and the parser returns to its
    initial state. *)
Definition frame_dispatch (w : world) (h rem mult : Z) (frame : list Z) : world :=
  on_cl (fun c =>
     set_parser_state MQTT_PARSER_STATE_INIT
       (set_rx_buff_len (rx_buff_len (cl w)) (set_rx_buff (rx_buff (cl w)) c)))
    (snd (mqtt_process_incoming_message
       (on_cl (fun c =>
          set_rx_buff_len rem (set_rx_buff frame
            (set_msg_rem_len_mult mult (set_msg_rem_len rem
               (set_parser_state MQTT_PARSER_STATE_CALC_REM_LEN
                  (set_msg_curr_pos 0 (set_msg_hdr_byte h c))))))) w))).

(** Message types a client has no use for. *)
Definition ignored_type (t : Z) : bool :=
  negb ((t =? MQTT_MSG_TYPE_CONNACK) || (t =? MQTT_MSG_TYPE_PUBLISH)
        || (t =? MQTT_MSG_TYPE_PUBACK) || (t =? MQTT_MSG_TYPE_PUBREC)
        || (t =? MQTT_MSG_TYPE_PUBREL) || (t =? MQTT_MSG_TYPE_PUBCOMP)
        || (t =? MQTT_MSG_TYPE_SUBACK) || (t =? MQTT_MSG_TYPE_UNSUBACK)
        || (t =? MQTT_MSG_TYPE_PINGRESP)).

(** The log of [w'] is the log of [w] with further calls added. *)
Definition grows (w w' : world) : Prop := exists l, log w' = l ++ log w.

(** ** Completion of publishes without acknowledgement *)

(** The longest initial part of [l] whose elements satisfy [f]. *)
Fixpoint take_while {A : Type} (f : A -> bool) (l : list A) : list A :=
  match l with
  | [] => []
  | x :: t => if f x then x :: take_while f t else []
  end.

(** ** The CONNECT packet *)

(** A string field of a packet: two bytes of length, then the bytes. *)
Definition string_field (s : list Z) : list Z := u16_bytes (zlen s) ++ s.

(** A will is sent when both its topic and its message are given. *)
Definition has_will (inf : gsm_mqtt_client_info_t) : bool :=
  match will_topic inf, will_message inf with
  | Some _, Some _ => true
  | _, _ => false
  end.




(** ** The connection state *)

(** What a received block can do to the connection state: nothing, or the
    step from CONNECTING to CONNECTED. *)
Definition connack_move (s s' : gsm_mqtt_state_t) : Prop :=
  s' = s \/ (s = GSM_MQTT_CONNECTING /\ s' = GSM_MQTT_CONNECTED).

(** ** Keep-alive *)


(** ** Frames on the wire *)

(** A frame with header byte [fst f] and body [snd f] as it is received:
    the header byte, the length of the body as the encoder writes it, the
    body. *)
Definition frame_bytes (f : Z * list Z) : list Z :=
  fst f :: rem_len_bytes (zlen (snd f)) ++ snd f.

(** The dropped frames among the parser's decisions. *)
Fixpoint pdiscards (l : list pevent) : list (Z * Z) :=
  match l with
  | [] => []
  | PDiscard h r :: l' => (h, r) :: pdiscards l'
  | PDispatch _ _ _ :: l' => pdiscards l'
  end.

(** ** A long run of publishes *)

(** A publish of "hi" on "a/b" with QoS 0, a packet of 9 bytes. *)
Definition publish_hi_qos0 : operation := OpPublish "a/b" (Some [0x68; 0x69]) 2 0 0 0.

(** The publish, and the report of the transport that its 9 bytes are sent. *)
Definition publish_sent : list operation :=
  [publish_hi_qos0; OpEvt (GSM_EVT_CONN_SEND 9 gsmOK)].

(** The client is connected as in [session], then publishes [n] times, the
    transport reporting each packet as sent before the next one. *)
Definition long_run (n : nat) : list operation :=
  firstn 4 session ++ concat (repeat publish_sent n).

(** The number of publishes after which 4,294,967,290 bytes are written. *)
Definition wrap_cycles : nat := Z.to_nat 477218586.

(** The client between two publishes of [long_run]: connected, nothing in
    flight, the tx buffer empty and reset, both counters at [total], no
    request in use. *)
Definition idle (total : Z) (w : world) : Prop :=
  conn_state (cl w) = GSM_MQTT_CONNECTED /\
  is_sending (cl w) = 0 /\
  tx_buff (cl w) = gsm_buff_init 256 /\
  sent_total (cl w) = total /\
  written_total (cl w) = total /\
  (exists r, requests (cl w) = r :: repeat request_zero 7 /\ status r = 0) /\
  env w = env_ok.
(** * Properties *)

(** ** Lists and bits *)

Lemma zlen_app {A : Type} (x y : list A) : zlen (x ++ y) = zlen x + zlen y.
Proof. unfold zlen. rewrite length_app. lia. Qed.

Lemma zlen_nonneg {A : Type} (x : list A) : 0 <= zlen x.
Proof. unfold zlen. lia. Qed.

Lemma zlen_firstn (n : Z) (x : list Z) :
  zlen (firstn (Z.to_nat n) x) = Z.max 0 (Z.min n (zlen x)).
Proof. unfold zlen. rewrite length_firstn. lia. Qed.

Lemma testbit_above (a i n : Z) : 0 <= n <= i -> 0 <= a < 2 ^ n -> Z.testbit a i = false.
Proof.
  intros Hi Ha. destruct (Z.eq_dec a 0) as [->|Hne]; [apply Z.bits_0|].
  apply Z.bits_above_log2; [lia|].
  apply Z.lt_le_trans with n; [|lia].
  apply Z.log2_lt_pow2; lia.
Qed.

(** An "or" of two values in disjoint bit ranges is their sum. *)
Lemma lor_shiftl_add (a b n : Z) :
  0 <= n -> 0 <= a < 2 ^ n -> Z.lor a (Z.shiftl b n) = a + b * 2 ^ n.
Proof.
  intros Hn Ha.
  assert (Hd : Z.land a (Z.shiftl b n) = 0).
  { apply Z.bits_inj'. intros i Hi.
    rewrite Z.land_spec, Z.bits_0.
    destruct (Z_lt_dec i n).
    - rewrite Z.shiftl_spec_low by lia. apply andb_false_r.
    - rewrite (testbit_above a i n) by lia. reflexivity. }
  rewrite <- Z.lxor_lor, <- Z.add_nocarry_lxor, Z.shiftl_mul_pow2 by (assumption || lia).
  reflexivity.
Qed.

Lemma land_127 (x : Z) : Z.land x 127 = x mod 128.
Proof. change 127 with (Z.ones 7). rewrite Z.land_ones by lia. reflexivity. Qed.

Lemma land_128_low (x : Z) : 0 <= x < 128 -> Z.land x 128 = 0.
Proof.
  intros H. apply Z.bits_inj'. intros i Hi.
  rewrite Z.land_spec, Z.bits_0.
  destruct (Z.eq_dec i 7) as [->|Hne].
  - rewrite (testbit_above x 7 7) by lia. reflexivity.
  - change 128 with (2 ^ 7). rewrite Z.pow2_bits_false by lia. apply andb_false_r.
Qed.

Lemma shiftr_7 (x : Z) : Z.shiftr x 7 = x / 128.
Proof. rewrite Z.shiftr_div_pow2 by lia. reflexivity. Qed.

(** ** The transmit buffer *)

Lemma gsm_buff_write_app (b : gsm_buff_t) (x y : list Z) :
  gsm_buff_write (gsm_buff_write b x) y = gsm_buff_write b (x ++ y).
Proof.
  unfold gsm_buff_write, gsm_buff_get_free. cbn.
  f_equal. rewrite <- app_assoc. f_equal.
  rewrite firstn_app. f_equal. f_equal.
  rewrite zlen_app, zlen_firstn. unfold zlen. lia.
Qed.

Lemma tx_write_app (c : gsm_mqtt_client_t) (x y : list Z) :
  tx_write (tx_write c x) y = tx_write c (x ++ y).
Proof.
  unfold tx_write. cbn. rewrite gsm_buff_write_app. reflexivity.
Qed.

Lemma tx_write_nil (c : gsm_mqtt_client_t) : tx_write c [] = c.
Proof.
  unfold tx_write, gsm_buff_write. rewrite firstn_nil, app_nil_r.
  destruct c as [? ? ? ? [? ? ?] ? ? ? ? ? ? ? ? ? ? ? ? ?]. reflexivity.
Qed.

Lemma tx_data_write (c : gsm_mqtt_client_t) (d : list Z) :
  tx_data (tx_write c d) = tx_data c ++ firstn (Z.to_nat (tx_free c)) d.
Proof. reflexivity. Qed.

Lemma tx_data_write_fits (c : gsm_mqtt_client_t) (d : list Z) :
  zlen d <= tx_free c -> tx_data (tx_write c d) = tx_data c ++ d.
Proof.
  intros H. rewrite tx_data_write. f_equal. apply firstn_all2. unfold zlen in H. lia.
Qed.

Lemma tx_free_write_fits (c : gsm_mqtt_client_t) (d : list Z) :
  zlen d <= tx_free c -> tx_free (tx_write c d) = tx_free c - zlen d.
Proof.
  intros H. unfold tx_free, gsm_buff_get_free. cbn.
  rewrite zlen_app. fold (tx_free c).
  rewrite firstn_all2 by (unfold zlen in H; lia).
  unfold tx_free, gsm_buff_get_free. lia.
Qed.

(** ** The encoder writes the bytes of its pure view *)

Lemma write_rem_len_step (c : gsm_mqtt_client_t) (r : Z) :
  write_rem_len c r =
  if 0 <? Z.shiftr r 7
  then write_rem_len (tx_write c [rem_len_byte r]) (Z.shiftr r 7)
  else tx_write c [rem_len_byte r].
Proof.
  rewrite (write_rem_len_equation_1 c r).
  destruct (Z_lt_dec 0 (Z.shiftr r 7)) as [H|H]; simpl.
  - pose proof (proj2 (Z.ltb_lt _ _) H) as E. rewrite E. reflexivity.
  - pose proof (proj2 (Z.ltb_nlt _ _) H) as E. rewrite E. reflexivity.
Qed.

Lemma rem_len_bytes_step (r : Z) :
  rem_len_bytes r =
  if 0 <? Z.shiftr r 7
  then rem_len_byte r :: rem_len_bytes (Z.shiftr r 7)
  else [rem_len_byte r].
Proof.
  rewrite (rem_len_bytes_equation_1 r).
  destruct (Z_lt_dec 0 (Z.shiftr r 7)) as [H|H]; simpl.
  - pose proof (proj2 (Z.ltb_lt _ _) H) as E. rewrite E. reflexivity.
  - pose proof (proj2 (Z.ltb_nlt _ _) H) as E. rewrite E. reflexivity.
Qed.

Lemma count_rem_len_step (t r : Z) :
  count_rem_len t r =
  if 0 <? Z.shiftr r 7
  then count_rem_len (GSM_U16 (t + 1)) (Z.shiftr r 7)
  else GSM_U16 (t + 1).
Proof.
  rewrite (count_rem_len_equation_1 t r).
  destruct (Z_lt_dec 0 (Z.shiftr r 7)) as [H|H]; simpl.
  - pose proof (proj2 (Z.ltb_lt _ _) H) as E. rewrite E. reflexivity.
  - pose proof (proj2 (Z.ltb_nlt _ _) H) as E. rewrite E. reflexivity.
Qed.

Lemma write_rem_len_bytes (c : gsm_mqtt_client_t) (r : Z) :
  write_rem_len c r = tx_write c (rem_len_bytes r).
Proof.
  funelim (write_rem_len c r).
  - rewrite H, tx_write_app. rewrite (rem_len_bytes_step rem_len).
    rewrite (proj2 (Z.ltb_lt _ _) l). reflexivity.
  - rewrite (rem_len_bytes_step rem_len).
    rewrite (proj2 (Z.ltb_nlt _ _) n). reflexivity.
Qed.

Lemma write_fixed_header_bytes (c : gsm_mqtt_client_t) (type dup qos retain rem_len : Z) :
  write_fixed_header c type dup qos retain rem_len =
  tx_write c (fixed_header_byte type dup qos retain :: rem_len_bytes (GSM_U16 rem_len)).
Proof.
  unfold write_fixed_header. cbv zeta.
  rewrite write_rem_len_bytes, tx_write_app. reflexivity.
Qed.

Lemma write_u8_bytes (c : gsm_mqtt_client_t) (n : Z) : write_u8 c n = tx_write c [GSM_U8 n].
Proof. reflexivity. Qed.

Lemma write_u16_bytes (c : gsm_mqtt_client_t) (n : Z) : write_u16 c n = tx_write c (u16_bytes n).
Proof. unfold write_u16, write_u8. cbv zeta. rewrite tx_write_app. reflexivity. Qed.

Lemma write_string_bytes (c : gsm_mqtt_client_t) (s : list Z) (len : Z) :
  write_string c s len =
  tx_write c (u16_bytes (GSM_U16 len) ++ firstn (Z.to_nat (GSM_U16 len)) s).
Proof. unfold write_string. cbv zeta. rewrite write_u16_bytes, tx_write_app. reflexivity. Qed.

(** ** The dispatcher without its record of accesses *)

Lemma process_unfold (w : world) : mqtt_process_incoming_message w = dispatch_result w.
Proof.
  unfold mqtt_process_incoming_message, mqtt_process_incoming_message_rx, dispatch_result,
    rx_u16.
  cbv zeta.
  repeat match goal with
         | |- fst (if ?b then _ else _) = _ => destruct b
         | |- fst (rx_bind _ _) = _ =>
             unfold rx_bind at 1; cbn [fst snd rx_read_u16 rx_read rx_region rx_bind rx_ret]
         | |- fst (match ?o with Some _ => _ | None => _ end) = _ => destruct o
         | |- context [0 <? MQTT_RCV_GET_PACKET_QOS ?h] =>
             destruct (0 <? MQTT_RCV_GET_PACKET_QOS h)
         end;
    reflexivity.
Qed.

(** ** The 32-bit shift within its defined range *)

Lemma U32_lor (a b : Z) : GSM_U32 (Z.lor a b) = Z.lor (GSM_U32 a) (GSM_U32 b).
Proof.
  unfold GSM_U32. change 4294967296 with (2 ^ 32).
  rewrite <- !Z.land_ones by lia. apply Z.land_lor_distr_l.
Qed.

Lemma U32_lor_shl32 (a x n : Z) :
  0 <= n < 32 -> GSM_U32 (Z.lor a (shl32 x n)) = GSM_U32 (Z.lor a (Z.shiftl x n)).
Proof.
  intros Hn. unfold shl32. rewrite Z.mod_small by lia.
  rewrite !U32_lor. unfold GSM_U32. rewrite Z.mod_mod by lia. reflexivity.
Qed.

Ltac shl_small :=
  rewrite ?U32_lor_shl32 by (vm_compute; split; [discriminate | reflexivity]).

(** ** What the dispatcher leaves alone *)

Ltac split_ifs :=
  repeat match goal with
         | |- context [if ?b then _ else _] => destruct b
         | |- context [match ?x with Some _ => _ | None => _ end] => destruct x
         end.

Lemma send_data_parser_view (w : world) :
  parser_view (cl (send_data w)) = parser_view (cl w).
Proof. unfold send_data, gsm_conn_send. split_ifs; reflexivity. Qed.

Lemma send_data_pevents (w : world) : pevents (log (send_data w)) = pevents (log w).
Proof. unfold send_data, gsm_conn_send. split_ifs; reflexivity. Qed.

Lemma write_ack_parser_view (w : world) (t p q : Z) :
  parser_view (cl (snd (write_ack_rec_rel_resp w t p q))) = parser_view (cl w).
Proof.
  unfold write_ack_rec_rel_resp. split_ifs; [|reflexivity].
  cbn [snd]. rewrite send_data_parser_view.
  cbn [on_cl set_cl cl]. rewrite write_fixed_header_bytes, write_u16_bytes. reflexivity.
Qed.

Lemma write_ack_pevents (w : world) (t p q : Z) :
  pevents (log (snd (write_ack_rec_rel_resp w t p q))) = pevents (log w).
Proof.
  unfold write_ack_rec_rel_resp. split_ifs; [|reflexivity].
  cbn [snd]. rewrite send_data_pevents. reflexivity.
Qed.

Lemma process_parser_view (w : world) :
  parser_view (cl (snd (mqtt_process_incoming_message w))) = parser_view (cl w).
Proof.
  rewrite process_unfold. unfold dispatch_result. cbv zeta.
  split_ifs; cbn [snd]; unfold evt_fn;
    cbn [emit cl on_cl set_cl]; rewrite ?write_ack_parser_view; reflexivity.
Qed.

Lemma process_pevents (w : world) :
  pevents (log (snd (mqtt_process_incoming_message w))) =
  PDispatch (msg_hdr_byte (cl w)) (msg_rem_len (cl w))
    (firstn (Z.to_nat (msg_rem_len (cl w))) (rx_buff (cl w))) :: pevents (log w).
Proof.
  rewrite process_unfold. unfold dispatch_result. cbv zeta.
  split_ifs; cbn [snd]; unfold evt_fn;
    cbn [emit cl log on_cl set_cl pevents]; rewrite ?write_ack_pevents; reflexivity.
Qed.

(** ** The parser of the client is the parser on its own *)

Lemma pstate_eq (a b : pstate) :
  p_state a = p_state b -> p_hdr a = p_hdr b -> p_rem a = p_rem b ->
  p_mult a = p_mult b -> p_pos a = p_pos b -> p_rx a = p_rx b ->
  p_rxlen a = p_rxlen b -> a = b.
Proof. destruct a, b; cbn; intros; subst; reflexivity. Qed.

Ltac proj_cbn_in H :=
  cbn [parser_view p_state p_hdr p_rem p_mult p_pos p_rx p_rxlen
       cl log env clock on_cl set_cl emit tick
       conn info conn_state poll_time tx_buff is_sending sent_total written_total
       last_packet_id requests rx_buff rx_buff_len parser_state msg_hdr_byte
       msg_rem_len msg_rem_len_mult msg_curr_pos client_arg
       set_conn set_info set_conn_state set_poll_time set_tx_buff set_is_sending
       set_sent_total set_written_total set_last_packet_id set_requests set_rx_buff
       set_rx_buff_len set_parser_state set_msg_hdr_byte set_msg_rem_len
       set_msg_rem_len_mult set_msg_curr_pos set_client_arg] in H.

Ltac proj_cbn :=
  cbn [parser_view p_state p_hdr p_rem p_mult p_pos p_rx p_rxlen
       cl log env clock on_cl set_cl emit tick fst snd
       conn info conn_state poll_time tx_buff is_sending sent_total written_total
       last_packet_id requests rx_buff rx_buff_len parser_state msg_hdr_byte
       msg_rem_len msg_rem_len_mult msg_curr_pos client_arg
       set_conn set_info set_conn_state set_poll_time set_tx_buff set_is_sending
       set_sent_total set_written_total set_last_packet_id set_requests set_rx_buff
       set_rx_buff_len set_parser_state set_msg_hdr_byte set_msg_rem_len
       set_msg_rem_len_mult set_msg_curr_pos set_client_arg].

Ltac use_process :=
  match goal with |- context [mqtt_process_incoming_message ?x] =>
    let Hv := fresh "Hv" in let He := fresh "He" in
    pose proof (process_parser_view x) as Hv;
    pose proof (process_pevents x) as He;
    generalize dependent (snd (mqtt_process_incoming_message x)); intros w1 Hv He;
    cbn [on_cl set_cl cl log msg_rem_len set_parser_state set_rx_buff_len set_rx_buff
         set_msg_rem_len_mult set_msg_rem_len set_msg_curr_pos msg_hdr_byte rx_buff
         rx_buff_len msg_curr_pos msg_rem_len_mult parser_state] in *;
    pose proof (f_equal p_state Hv) as H1; pose proof (f_equal p_hdr Hv) as H2;
    pose proof (f_equal p_rem Hv) as H3; pose proof (f_equal p_mult Hv) as H4;
    pose proof (f_equal p_pos Hv) as H5; pose proof (f_equal p_rx Hv) as H6;
    pose proof (f_equal p_rxlen Hv) as H7;
    proj_cbn_in H1; proj_cbn_in H2; proj_cbn_in H3; proj_cbn_in H4;
    proj_cbn_in H5; proj_cbn_in H6; proj_cbn_in H7
  end.

Lemma parser_step_pure (w : world) (ch : Z) (rest : list Z) :
  parser_view (cl (fst (parser_step w ch rest))) =
    fst (fst (pure_step (parser_view (cl w)) ch rest)) /\
  pevents (log (fst (parser_step w ch rest))) =
    rev (snd (fst (pure_step (parser_view (cl w)) ch rest))) ++ pevents (log w) /\
  snd (parser_step w ch rest) = snd (pure_step (parser_view (cl w)) ch rest).
Proof.
  unfold parser_step, pure_step. cbv zeta.
  cbn [parser_view p_state p_hdr p_rem p_mult p_pos p_rx p_rxlen].
  destruct (parser_state (cl w) =? MQTT_PARSER_STATE_INIT); [repeat split|].
  destruct (parser_state (cl w) =? MQTT_PARSER_STATE_CALC_REM_LEN) eqn:Ec.
  - cbn [on_cl set_cl cl msg_rem_len set_msg_rem_len_mult set_msg_rem_len].
    set (rem := GSM_U32 _).
    destruct (Z.land ch 128 =? 0).
    2: { split; [|split; reflexivity].
         apply pstate_eq; proj_cbn; try reflexivity. apply Z.eqb_eq. exact Ec. }
    destruct (0 <? rem); [destruct (rem <? zlen rest + 1)|].
    + cbn [fst snd]. use_process.
      split; [|split].
      * apply pstate_eq; proj_cbn; try subst rem; try subst pos; congruence.
      * rewrite He. reflexivity.
      * exact H3.
    + repeat split.
    + cbn [fst snd]. use_process.
      split; [|split; [|reflexivity]].
      * apply pstate_eq; proj_cbn; try subst rem; try subst pos; congruence.
      * rewrite He. reflexivity.
  - destruct (parser_state (cl w) =? MQTT_PARSER_STATE_READ_REM) eqn:Er; [|repeat split].
    destruct (msg_curr_pos (cl w) <? rx_buff_len (cl w));
      cbn [on_cl set_cl cl msg_curr_pos msg_rem_len set_msg_curr_pos set_rx_buff rx_buff_len];
      set (pos := GSM_U32 _);
      (destruct (pos =? msg_rem_len (cl w));
       [|split; [|split; reflexivity];
         apply pstate_eq; proj_cbn; try reflexivity; apply Z.eqb_eq; exact Er]);
      (destruct (pos <=? rx_buff_len (cl w)); [|repeat split]);
      cbn [fst snd]; use_process;
      (split; [|split; [|reflexivity]]);
      [ apply pstate_eq; proj_cbn; try subst rem; try subst pos; congruence | rewrite He; reflexivity
      | apply pstate_eq; proj_cbn; try subst rem; try subst pos; congruence | rewrite He; reflexivity ].
Qed.

Lemma parse_block_pure (w : world) (d : list Z) :
  (parser_view (cl (parse_block w d)), pevents (log (parse_block w d))) =
  pure_block (parser_view (cl w), pevents (log w)) d.
Proof.
  funelim (parse_block w d).
  - rewrite pure_block_equation_1. reflexivity.
  - rewrite pure_block_equation_2. cbn [fst snd].
    destruct (parser_step_pure w ch rest) as (Hv & He & Hk).
    rewrite <- Hv, <- He, <- Hk. exact H.
Qed.

Lemma parse_feed_pure (chunks : list (list Z)) (w : world) :
  (parser_view (cl (fold_left parse_block chunks w)),
   pevents (log (fold_left parse_block chunks w))) =
  pure_feed (parser_view (cl w), pevents (log w)) chunks.
Proof.
  revert w. induction chunks as [|c cs IH]; intros w; [reflexivity|].
  cbn [fold_left pure_feed]. rewrite IH, parse_block_pure. reflexivity.
Qed.

(** ** The parser on its own: blocks against single bytes *)

(** Decisions already taken do not influence the machine. *)
Lemma pure_block_acc (d : list Z) (s : pstate) (acc : list pevent) :
  pure_block (s, acc) d =
  (fst (pure_block (s, []) d), snd (pure_block (s, []) d) ++ acc).
Proof.
  remember (length d) as n eqn:Hn. revert d s acc Hn.
  induction n as [n IH] using lt_wf_ind. intros d s acc Hn.
  destruct d as [|ch rest].
  - rewrite !pure_block_equation_1. reflexivity.
  - rewrite !pure_block_equation_2. cbn [fst snd].
    set (st := pure_step s ch rest).
    assert (Hlt : (length (skipn (Z.to_nat (snd st)) rest) < n)%nat)
      by (rewrite length_skipn; subst n; simpl; lia).
    rewrite (IH _ Hlt _ (fst (fst st)) (rev (snd (fst st)) ++ acc) eq_refl).
    rewrite (IH _ Hlt _ (fst (fst st)) (rev (snd (fst st)) ++ []) eq_refl).
    cbn [fst snd]. rewrite app_nil_r, app_assoc. reflexivity.
Qed.

Lemma pure_bytes_acc (d : list Z) (s : pstate) (acc : list pevent) :
  pure_bytes (s, acc) d =
  (fst (pure_bytes (s, []) d), snd (pure_bytes (s, []) d) ++ acc).
Proof.
  revert s acc. induction d as [|b d IH]; intros s acc; [reflexivity|].
  unfold pure_bytes in *. cbn [fold_left].
  rewrite (pure_block_acc [b] s acc).
  rewrite IH. symmetry. rewrite (surjective_pairing (pure_block (s, []) [b])) at 1 2.
  rewrite IH. cbn [fst snd]. rewrite app_assoc. reflexivity.
Qed.

Lemma pure_bytes_app (d1 d2 : list Z) (sa : pstate * list pevent) :
  pure_bytes sa (d1 ++ d2) = pure_bytes (pure_bytes sa d1) d2.
Proof. unfold pure_bytes. apply fold_left_app. Qed.

Lemma pure_block_single (s : pstate) (acc : list pevent) (b : Z) :
  pure_block (s, acc) [b] =
  (fst (fst (pure_step s b [])), rev (snd (fst (pure_step s b []))) ++ acc).
Proof.
  rewrite pure_block_equation_2. cbn [fst snd].
  rewrite skipn_nil, pure_block_equation_1. reflexivity.
Qed.

Lemma length_store_at (l : list Z) (i : nat) (v : Z) : length (store_at l i v) = length l.
Proof.
  revert i. induction l as [|h t IH]; intros [|i]; simpl; auto.
Qed.

Lemma firstn_store_at (l : list Z) (i : nat) (v : Z) :
  (i < length l)%nat -> firstn (S i) (store_at l i v) = firstn i l ++ [v].
Proof.
  revert i. induction l as [|h t IH]; intros [|i] H; simpl in *; try lia.
  - reflexivity.
  - f_equal. apply IH. lia.
Qed.

Lemma pure_step_slow (s : pstate) (ch : Z) (rest : list Z) :
  in_place s ch rest = false -> pure_step s ch rest = pure_step s ch [].
Proof.
  unfold in_place, pure_step, next_rem. cbv zeta.
  destruct (p_state s =? MQTT_PARSER_STATE_INIT); [reflexivity|].
  destruct (p_state s =? MQTT_PARSER_STATE_CALC_REM_LEN); [|reflexivity].
  destruct (Z.land ch 128 =? 0); [|reflexivity].
  set (rem := GSM_U32 _).
  destruct (0 <? rem) eqn:E0; [|reflexivity].
  cbn [negb andb]. intros ->.
  apply Z.ltb_lt in E0.
  replace (rem <? zlen (@nil Z) + 1) with false; [reflexivity|].
  symmetry. apply Z.ltb_ge. unfold zlen. simpl. lia.
Qed.

Lemma pure_step_in_place (s : pstate) (ch : Z) (rest : list Z) :
  in_place s ch rest = true ->
  p_state s = MQTT_PARSER_STATE_CALC_REM_LEN /\
  0 < next_rem s ch <= zlen rest /\
  pure_step s ch rest =
    ({| p_state := MQTT_PARSER_STATE_INIT; p_hdr := p_hdr s; p_rem := next_rem s ch;
        p_mult := GSM_U8 (p_mult s + 1); p_pos := p_pos s; p_rx := p_rx s;
        p_rxlen := p_rxlen s |},
     [PDispatch (p_hdr s) (next_rem s ch) (firstn (Z.to_nat (next_rem s ch)) rest)],
     next_rem s ch) /\
  pure_step s ch [] =
    ({| p_state := MQTT_PARSER_STATE_READ_REM; p_hdr := p_hdr s; p_rem := next_rem s ch;
        p_mult := GSM_U8 (p_mult s + 1); p_pos := p_pos s; p_rx := p_rx s;
        p_rxlen := p_rxlen s |}, [], 0).
Proof.
  unfold in_place, pure_step. cbv zeta. fold (next_rem s ch).
  destruct (p_state s =? MQTT_PARSER_STATE_INIT); [discriminate|].
  destruct (p_state s =? MQTT_PARSER_STATE_CALC_REM_LEN) eqn:Ec; [|discriminate].
  destruct (Z.land ch 128 =? 0); [|discriminate].
  destruct (0 <? next_rem s ch) eqn:E0; [|discriminate].
  destruct (next_rem s ch <? zlen rest + 1) eqn:E1; [|discriminate].
  intros _. apply Z.eqb_eq in Ec. apply Z.ltb_lt in E0, E1.
  repeat split; try lia.
  replace (next_rem s ch <? zlen (@nil Z) + 1) with false; [reflexivity|].
  symmetry. apply Z.ltb_ge. unfold zlen. simpl. lia.
Qed.

Ltac peq_fin :=
  unfold peq, parser_ok; cbn; repeat split; auto; try lia; try discriminate;
  try (right; repeat split; auto; lia).

(** A byte fed on its own keeps two like states alike, with the same decisions. *)
Lemma pure_step_peq (s t : pstate) (ch : Z) :
  peq s t -> parser_ok s -> parser_ok t ->
  snd (fst (pure_step s ch [])) = snd (fst (pure_step t ch [])) /\
  peq (fst (fst (pure_step s ch []))) (fst (fst (pure_step t ch []))) /\
  parser_ok (fst (fst (pure_step s ch []))) /\
  parser_ok (fst (fst (pure_step t ch []))).
Proof.
  intros (Hl & Hst & Hf) (Hls & Hps & Hcs) (Hlt & Hpt & Hct).
  unfold pure_step. cbv zeta. rewrite <- Hst, <- Hl.
  destruct (p_state s =? MQTT_PARSER_STATE_INIT) eqn:Ei.
  { cbn [fst snd]. peq_fin. }
  apply Z.eqb_neq in Ei.
  destruct Hf as [Hf|(Hh & Hr & Hm & Hp & Hx)]; [contradiction|].
  rewrite <- Hh, <- Hr, <- Hm, <- Hp.
  destruct (p_state s =? MQTT_PARSER_STATE_CALC_REM_LEN) eqn:Ec.
  { apply Z.eqb_eq in Ec. fold (next_rem s ch).
    destruct (Z.land ch 128 =? 0).
    - destruct (0 <? next_rem s ch) eqn:E0.
      + apply Z.ltb_lt in E0.
        replace (next_rem s ch <? zlen (@nil Z) + 1) with false
          by (symmetry; apply Z.ltb_ge; unfold zlen; simpl; lia).
        cbn [fst snd]. unfold peq, parser_ok. cbn.
        rewrite (Hcs Ec). peq_fin.
      + cbn [fst snd]. apply Z.ltb_ge in E0.
        assert (Z.to_nat (next_rem s ch) = O) as -> by lia.
        peq_fin.
    - cbn [fst snd]. peq_fin. }
  destruct (p_state s =? MQTT_PARSER_STATE_READ_REM) eqn:Er.
  2: { cbn [fst snd]. peq_fin. }
  apply Z.eqb_eq in Er.
  destruct Hx as [Hx|Hx]; [rewrite Er in Hx; discriminate|].
  set (rs := if p_pos s <? p_rxlen s then store_at (p_rx s) (Z.to_nat (p_pos s)) ch else p_rx s).
  set (rt := if p_pos s <? p_rxlen s then store_at (p_rx t) (Z.to_nat (p_pos s)) ch else p_rx t).
  set (pos := GSM_U32 (p_pos s + 1)).
  assert (Hlens : zlen rs = p_rxlen s).
  { subst rs. destruct (p_pos s <? p_rxlen s); auto. unfold zlen. rewrite length_store_at. exact Hls. }
  assert (Hlent : zlen rt = p_rxlen s).
  { subst rt. destruct (p_pos s <? p_rxlen s); [|lia]. unfold zlen. rewrite length_store_at. fold (zlen (p_rx t)). lia. }
  assert (Hpos : 0 <= pos < 4294967296) by (subst pos; unfold GSM_U32; apply Z.mod_pos_bound; lia).
  assert (Hpre : firstn (Z.to_nat pos) rs = firstn (Z.to_nat pos) rt).
  { subst pos rs rt. unfold GSM_U32.
    destruct (Z.eq_dec (p_pos s + 1) 4294967296) as [Hw|Hw].
    - rewrite Hw. reflexivity.
    - rewrite Z.mod_small by lia.
      replace (Z.to_nat (p_pos s + 1)) with (S (Z.to_nat (p_pos s))) by lia.
      destruct (p_pos s <? p_rxlen s) eqn:Elt.
      + apply Z.ltb_lt in Elt. unfold zlen in Hls, Hlt.
        rewrite !firstn_store_at by lia. rewrite Hx. reflexivity.
      + apply Z.ltb_ge in Elt. unfold zlen in Hls, Hlt.
        rewrite firstn_all2 in Hx by lia.
        rewrite (firstn_all2 (p_rx t)) in Hx by lia. rewrite Hx. reflexivity. }
  destruct (pos =? p_rem s) eqn:Ee.
  - apply Z.eqb_eq in Ee. cbn [fst snd].
    split; [|peq_fin].
    rewrite <- Ee, Hpre. reflexivity.
  - cbn [fst snd]. peq_fin.
Qed.

(** From the start of the payload, bytes fed one at a time end in one
    decision: the frame is dispatched whole if it fits the rx buffer and
    dropped otherwise. *)
Lemma read_rem_run (l : list Z) :
  forall (t : pstate) (pre : list Z) (acc : list pevent),
  l <> [] ->
  p_state t = MQTT_PARSER_STATE_READ_REM ->
  zlen (p_rx t) = p_rxlen t ->
  p_pos t = zlen pre ->
  p_rem t = zlen pre + zlen l ->
  p_rem t < 4294967296 ->
  firstn (Z.to_nat (Z.min (zlen pre) (p_rxlen t))) (p_rx t) =
    firstn (Z.to_nat (Z.min (zlen pre) (p_rxlen t))) pre ->
  exists t',
    pure_bytes (t, acc) l =
      (t', (if p_rem t <=? p_rxlen t
            then PDispatch (p_hdr t) (p_rem t) (pre ++ l)
            else PDiscard (p_hdr t) (p_rem t)) :: acc) /\
    p_state t' = MQTT_PARSER_STATE_INIT /\
    p_rxlen t' = p_rxlen t /\
    parser_ok t'.
Proof.
  induction l as [|b l IH]; intros t pre acc Hne Hst Hlen Hpos Hrem Hlt Hpre; [congruence|].
  unfold pure_bytes. cbn [fold_left]. rewrite pure_block_single.
  fold (pure_bytes (fst (fst (pure_step t b [])), rev (snd (fst (pure_step t b []))) ++ acc) l).
  unfold pure_step. cbv zeta. rewrite Hst.
  change (MQTT_PARSER_STATE_READ_REM =? MQTT_PARSER_STATE_INIT) with false.
  change (MQTT_PARSER_STATE_READ_REM =? MQTT_PARSER_STATE_CALC_REM_LEN) with false.
  change (MQTT_PARSER_STATE_READ_REM =? MQTT_PARSER_STATE_READ_REM) with true.
  cbv iota.
  pose proof (zlen_nonneg pre) as Hp0. pose proof (zlen_nonneg l) as Hl0.
  assert (Hzl : zlen (b :: l) = zlen l + 1) by (unfold zlen; simpl length; lia).
  rewrite Hzl in Hrem.
  unfold GSM_U32. rewrite Hpos. rewrite (Z.mod_small (zlen pre + 1)) by lia.
  set (rx' := if zlen pre <? p_rxlen t
              then store_at (p_rx t) (Z.to_nat (zlen pre)) b else p_rx t).
  assert (Hlen' : zlen rx' = p_rxlen t).
  { subst rx'. destruct (zlen pre <? p_rxlen t); auto.
    unfold zlen. rewrite length_store_at. exact Hlen. }
  assert (Hpre' : firstn (Z.to_nat (Z.min (zlen pre + 1) (p_rxlen t))) rx' =
                  firstn (Z.to_nat (Z.min (zlen pre + 1) (p_rxlen t))) (pre ++ [b])).
  { subst rx'. destruct (zlen pre <? p_rxlen t) eqn:E.
    - apply Z.ltb_lt in E. rewrite Z.min_l in * by lia.
      replace (Z.to_nat (zlen pre + 1)) with (S (length pre)) by (unfold zlen; lia).
      replace (Z.to_nat (zlen pre)) with (length pre) in * by (unfold zlen; lia).
      rewrite firstn_store_at by (unfold zlen in *; lia).
      rewrite Hpre, firstn_all. rewrite firstn_all2 by (rewrite length_app; simpl; lia).
      reflexivity.
    - apply Z.ltb_ge in E. rewrite Z.min_r in * by lia.
      rewrite Hpre. rewrite firstn_app.
      replace (Z.to_nat (p_rxlen t) - length pre)%nat with O by (unfold zlen in *; lia).
      rewrite firstn_O, app_nil_r. reflexivity. }
  destruct l as [|b' l'].
  - (* last byte of the frame *)
    assert (Hz : zlen (@nil Z) = 0) by reflexivity. rewrite Hz in Hrem.
    replace (zlen pre + 1 =? p_rem t) with true by (symmetry; apply Z.eqb_eq; lia).
    cbn [fst snd rev app pure_bytes fold_left].
    eexists. split; [apply f_equal2; [reflexivity|]|split; [reflexivity|split; [reflexivity|]]].
    + f_equal.
      replace (zlen pre + 1) with (p_rem t) by lia.
      destruct (p_rem t <=? p_rxlen t) eqn:E; [|reflexivity].
      apply Z.leb_le in E. f_equal.
      rewrite Z.min_l in Hpre' by lia.
      replace (p_rem t) with (zlen pre + 1) by lia.
      rewrite Hpre'. apply firstn_all2. rewrite length_app. simpl. unfold zlen. lia.
    + unfold parser_ok. cbn. repeat split; try lia; try discriminate.
  - (* more bytes to come *)
    assert (Hz : zlen (b' :: l') = zlen l' + 1) by (unfold zlen; simpl length; lia).
    pose proof (zlen_nonneg l') as Hl0'.
    rewrite Hz in Hrem.
    replace (zlen pre + 1 =? p_rem t) with false by (symmetry; apply Z.eqb_neq; lia).
    cbn [fst snd rev app].
    match goal with |- context [pure_bytes (?t1, acc) _] =>
      destruct (IH t1 (pre ++ [b]) acc) as (t' & Hrun & Hs' & Hl' & Hok')
    end; cbn [p_state p_rx p_rxlen p_pos p_rem p_hdr]; auto; try congruence.
    + rewrite zlen_app. change (zlen [b]) with 1. lia.
    + rewrite zlen_app, Hz. change (zlen [b]) with 1. lia.
    + rewrite zlen_app. replace (zlen [b]) with 1 by reflexivity. exact Hpre'.
    + exists t'. cbn [p_state p_rx p_rxlen p_pos p_rem p_hdr] in *.
      rewrite Hrun. rewrite <- app_assoc. cbn [app].
      split; [reflexivity|]. split; [assumption|]. split; assumption.
Qed.

Lemma in_place_peq (s t : pstate) (ch : Z) (rest : list Z) :
  peq s t -> in_place s ch rest = true -> in_place t ch rest = true.
Proof.
  intros (Hl & Hst & Hf) H. unfold in_place, next_rem in *. rewrite <- Hst.
  destruct (p_state s =? MQTT_PARSER_STATE_INIT) eqn:Ei; [discriminate|].
  apply Z.eqb_neq in Ei.
  destruct Hf as [Hf|(Hh & Hr & Hm & Hp & Hx)]; [contradiction|].
  rewrite <- Hr, <- Hm. exact H.
Qed.

Lemma forallb_app_true {A : Type} (f : A -> bool) (x y : list A) :
  forallb f (x ++ y) = true -> forallb f x = true /\ forallb f y = true.
Proof. rewrite forallb_app. apply andb_prop. Qed.

Lemma next_rem_bound (s : pstate) (ch : Z) : 0 <= next_rem s ch < 4294967296.
Proof. unfold next_rem, GSM_U32. apply Z.mod_pos_bound. lia. Qed.

Lemma pure_step_nil_skip (s : pstate) (ch : Z) : snd (pure_step s ch []) = 0.
Proof.
  unfold pure_step. cbv zeta.
  destruct (p_state s =? MQTT_PARSER_STATE_INIT); [reflexivity|].
  destruct (p_state s =? MQTT_PARSER_STATE_CALC_REM_LEN).
  - destruct (Z.land ch 128 =? 0); [|reflexivity].
    destruct (0 <? _) eqn:E0; [|reflexivity].
    destruct (_ <? zlen [] + 1) eqn:E1; [|reflexivity].
    apply Z.ltb_lt in E0, E1. change (zlen (@nil Z)) with 0 in E1. lia.
  - destruct (p_state s =? MQTT_PARSER_STATE_READ_REM); [|reflexivity].
    destruct (_ =? p_rem s); reflexivity.
Qed.

(** A block and the same bytes fed one at a time give the same decisions,
    as long as the bytes fed one at a time have no frame dropped. *)
Lemma block_vs_bytes (n : nat) :
  forall (d : list Z) (s t : pstate),
  (length d <= n)%nat ->
  peq s t -> parser_ok s -> parser_ok t ->
  forallb is_dispatch (snd (pure_bytes (t, []) d)) = true ->
  snd (pure_block (s, []) d) = snd (pure_bytes (t, []) d) /\
  peq (fst (pure_block (s, []) d)) (fst (pure_bytes (t, []) d)) /\
  parser_ok (fst (pure_block (s, []) d)) /\
  parser_ok (fst (pure_bytes (t, []) d)).
Proof.
  induction n as [n IH] using lt_wf_ind.
  intros d s t Hn Hpeq Hs Ht Hnd.
  destruct d as [|ch rest].
  { rewrite pure_block_equation_1. cbn. auto. }
  rewrite pure_block_equation_2. cbn [fst snd].
  unfold pure_bytes in Hnd |- *. cbn [fold_left] in Hnd |- *.
  rewrite pure_block_single in Hnd |- *.
  fold (pure_bytes (fst (fst (pure_step t ch [])), rev (snd (fst (pure_step t ch []))) ++ [])
          rest) in Hnd |- *.
  rewrite pure_bytes_acc in Hnd |- *. rewrite pure_block_acc.
  cbn [fst snd] in Hnd |- *. rewrite !app_nil_r in *.
  apply forallb_app_true in Hnd as [Hnd1 Hnd2].
  destruct (in_place s ch rest) eqn:Hip.
  - (* the whole frame is in the block *)
    pose proof (in_place_peq _ _ _ _ Hpeq Hip) as Hipt.
    destruct (pure_step_in_place _ _ _ Hip) as (Hcs & Hrs & Hfs & _).
    destruct (pure_step_in_place _ _ _ Hipt) as (Hct & Hrt & _ & Hft).
    rewrite Hfs. rewrite Hft in Hnd1, Hnd2 |- *. cbn [fst snd rev app] in *.
    destruct Hpeq as (Hl & Hst & Hf).
    destruct Hf as [Hf|(Hh & Hr & Hm & Hp & Hx)]; [rewrite Hcs in Hf; discriminate|].
    assert (Hnr : next_rem t ch = next_rem s ch) by (unfold next_rem; congruence).
    rewrite Hnr in *.
    set (r := next_rem s ch) in *.
    pose proof (next_rem_bound s ch) as Hb. fold r in Hb.
    destruct Hs as (Hls & Hps & Hcs'). destruct Ht as (Hlt & Hpt & Hct').
    match type of Hnd1 with context [pure_bytes (?tR, []) rest] =>
      assert (Hsplit : pure_bytes (tR, []) rest =
                       pure_bytes (pure_bytes (tR, []) (firstn (Z.to_nat r) rest))
                                  (skipn (Z.to_nat r) rest))
        by (rewrite <- pure_bytes_app, firstn_skipn; reflexivity)
    end.
    rewrite Hsplit in Hnd1 |- *. clear Hsplit.
    match type of Hnd1 with context [pure_bytes (?tR, []) (firstn _ _)] =>
      destruct (@read_rem_run (firstn (Z.to_nat r) rest) tR [] [])
        as (t' & Hrun & Hs' & Hl' & Hok')
    end; cbn [p_state p_rx p_rxlen p_pos p_rem p_hdr]; auto.
    + intros E. apply (f_equal (@length Z)) in E. rewrite length_firstn in E.
      simpl in E. unfold zlen in Hrs. lia.
    + change (zlen (@nil Z)) with 0. rewrite zlen_firstn. lia.
    + lia.
    + replace (Z.to_nat (Z.min (zlen (@nil Z)) (p_rxlen t))) with O
        by (change (zlen (@nil Z)) with 0; lia).
      reflexivity.
    + cbn [p_state p_rx p_rxlen p_pos p_rem p_hdr] in *.
      rewrite Hrun in Hnd1 |- *.
      rewrite pure_bytes_acc in Hnd1 |- *. cbn [fst snd] in Hnd1 |- *.
      apply forallb_app_true in Hnd1 as [Hnd3 Hnd4].
      destruct (r <=? p_rxlen t) eqn:Efit; [|cbn in Hnd4; discriminate].
      assert (Hlt' : (length (skipn (Z.to_nat r) rest) < n)%nat).
      { rewrite length_skipn. simpl in Hn. unfold zlen in Hrs. lia. }
      match goal with |- context [pure_block (?sI, []) _] =>
        destruct (IH _ Hlt' (skipn (Z.to_nat r) rest) sI t' (le_n _))
          as (He & Hq & Ho1 & Ho2)
      end; auto.
      * unfold peq. cbn. rewrite Hs', Hl'. auto.
      * unfold parser_ok. cbn. repeat split; auto; try lia; discriminate.
      * rewrite He, <- Hh, app_nil_r. auto.
  - (* one more byte of a frame *)
    rewrite (pure_step_slow _ _ _ Hip).
    destruct (pure_step_peq _ _ ch Hpeq Hs Ht) as (He & Hq & Ho1 & Ho2).
    assert (Hlt' : (length rest < n)%nat) by (simpl in Hn; lia).
    rewrite pure_step_nil_skip. cbn [Z.to_nat skipn].
    destruct (IH _ Hlt' rest _ _ (le_n _) Hq Ho1 Ho2 Hnd1) as (He' & Hq' & Ho1' & Ho2').
    rewrite He', He. auto.
Qed.

Lemma pure_feed_acc (chunks : list (list Z)) (s : pstate) (acc : list pevent) :
  pure_feed (s, acc) chunks =
  (fst (pure_feed (s, []) chunks), snd (pure_feed (s, []) chunks) ++ acc).
Proof.
  revert s acc. induction chunks as [|c cs IH]; intros s acc; [reflexivity|].
  unfold pure_feed in *. cbn [fold_left].
  rewrite (pure_block_acc c s acc).
  rewrite IH. symmetry. rewrite (surjective_pairing (pure_block (s, []) c)) at 1 2.
  rewrite IH. cbn [fst snd]. rewrite app_assoc. reflexivity.
Qed.

Lemma peq_refl (s : pstate) : peq s s.
Proof. unfold peq. repeat split. right. repeat split. right. reflexivity. Qed.

(** Any split of a stream into blocks gives the decisions of the stream fed
    one byte at a time, as long as the latter drops no frame. *)
Lemma feed_vs_bytes (chunks : list (list Z)) :
  forall (s t : pstate),
  peq s t -> parser_ok s -> parser_ok t ->
  forallb is_dispatch (snd (pure_bytes (t, []) (concat chunks))) = true ->
  snd (pure_feed (s, []) chunks) = snd (pure_bytes (t, []) (concat chunks)) /\
  peq (fst (pure_feed (s, []) chunks)) (fst (pure_bytes (t, []) (concat chunks))) /\
  parser_ok (fst (pure_feed (s, []) chunks)) /\
  parser_ok (fst (pure_bytes (t, []) (concat chunks))).
Proof.
  induction chunks as [|c cs IH]; intros s t Hpeq Hs Ht Hnd.
  { cbn. auto. }
  cbn [concat] in Hnd |- *. rewrite pure_bytes_app in Hnd |- *.
  unfold pure_feed. cbn [fold_left]. fold (pure_feed (pure_block (s, []) c) cs).
  rewrite (surjective_pairing (pure_block (s, []) c)).
  rewrite (surjective_pairing (pure_bytes (t, []) c)) in Hnd |- *.
  rewrite pure_feed_acc. rewrite pure_bytes_acc in Hnd |- *. cbn [fst snd] in Hnd |- *.
  apply forallb_app_true in Hnd as [Hnd1 Hnd2].
  destruct (block_vs_bytes (length c) c s t (le_n _) Hpeq Hs Ht Hnd2) as (He & Hq & Ho1 & Ho2).
  destruct (IH _ _ Hq Ho1 Ho2 Hnd1) as (He' & Hq' & Ho1' & Ho2').
  rewrite He, He'. auto.
Qed.

Lemma pure_feed_singletons (d : list Z) (sa : pstate * list pevent) :
  pure_feed sa (map (fun b => [b]) d) = pure_bytes sa d.
Proof.
  revert sa. induction d as [|b d IH]; intros sa; [reflexivity|].
  unfold pure_feed, pure_bytes in *. cbn [map fold_left]. apply IH.
Qed.

Lemma feed_chunks_blocks (chunks : list (list Z)) (w : world) :
  feed_chunks w chunks = fold_left parse_block chunks w.
Proof.
  revert w. induction chunks as [|c cs IH]; intros w; [reflexivity|].
  unfold feed_chunks in *. cbn [fold_left]. rewrite IH. reflexivity.
Qed.

Lemma pevents_app (x y : list output) : pevents (x ++ y) = pevents x ++ pevents y.
Proof.
  induction x as [|o x IH]; [reflexivity|].
  destruct o; cbn; rewrite IH; reflexivity.
Qed.

Lemma pevents_rev (l : list output) : pevents (rev l) = rev (pevents l).
Proof.
  induction l as [|o l IH]; [reflexivity|].
  cbn [rev]. rewrite pevents_app, IH. destruct o; cbn; rewrite ?app_nil_r; reflexivity.
Qed.

Lemma dispatches_pevents (l : list output) : dispatches l = pdispatches (pevents l).
Proof.
  induction l as [|o l IH]; [reflexivity|]. destruct o; cbn; rewrite IH; reflexivity.
Qed.

Lemma discards_none (l : list output) :
  discards l = [] -> forallb is_dispatch (pevents l) = true.
Proof.
  induction l as [|o l IH]; [reflexivity|]. destruct o; cbn; auto. discriminate.
Qed.

Lemma feed_chunks_pevents (chunks : list (list Z)) (w : world) :
  pevents (log (feed_chunks w chunks)) =
  snd (pure_feed (parser_view (cl w), []) chunks) ++ pevents (log w).
Proof.
  rewrite feed_chunks_blocks.
  pose proof (parse_feed_pure chunks w) as H.
  rewrite pure_feed_acc in H. injection H as _ H. exact H.
Qed.

(** Under the two conditions, the messages dispatched do not depend on how
    the stream is split. *)
Lemma chunking_dispatches (w : world) (chunks : list (list Z)) :
  parser_ok (parser_view (cl w)) ->
  discards (log (feed_chunks (clear_log w) (map (fun b => [b]) (concat chunks)))) = [] ->
  dispatches (trace (feed_chunks w chunks)) =
  dispatches (trace (feed_chunks w [concat chunks])).
Proof.
  intros Hok Hnd. apply discards_none in Hnd.
  rewrite feed_chunks_pevents, pure_feed_singletons in Hnd.
  cbn [clear_log cl log pevents] in Hnd. rewrite app_nil_r in Hnd.
  unfold trace. rewrite !dispatches_pevents, !pevents_rev, !feed_chunks_pevents.
  destruct (feed_vs_bytes chunks _ _ (peq_refl _) Hok Hok Hnd) as (He & _).
  assert (Hnd' : forallb is_dispatch
            (snd (pure_bytes (parser_view (cl w), []) (concat [concat chunks]))) = true)
    by (cbn [concat]; rewrite app_nil_r; exact Hnd).
  destruct (feed_vs_bytes [concat chunks] _ _ (peq_refl _) Hok Hok Hnd') as (He' & _).
  cbn [concat] in He'. rewrite app_nil_r in He'.
  rewrite He, He'. reflexivity.
Qed.

(** ** The remaining-length codec *)

Lemma rem_len_byte_low (v : Z) : 0 <= v <= 127 -> rem_len_byte v = v.
Proof.
  intros H. unfold rem_len_byte, GSM_U8.
  replace (127 <? v) with false by (symmetry; apply Z.ltb_ge; lia).
  rewrite Z.lor_0_r, land_127. rewrite (Z.mod_small v 128) by lia. apply Z.mod_small. lia.
Qed.

Lemma rem_len_byte_high (v : Z) : 127 < v -> rem_len_byte v = v mod 128 + 128.
Proof.
  intros H. unfold rem_len_byte, GSM_U8.
  replace (127 <? v) with true by (symmetry; apply Z.ltb_lt; lia).
  rewrite land_127. change 128 with (Z.shiftl 1 7) at 2.
  pose proof (Z.mod_pos_bound v 128 ltac:(lia)) as Hm.
  rewrite lor_shiftl_add by (change (2 ^ 7) with 128; lia).
  change (2 ^ 7) with 128. apply Z.mod_small. lia.
Qed.

Lemma rem_len_bytes_1 (v : Z) : 0 <= v <= 127 -> rem_len_bytes v = [v].
Proof.
  intros H. rewrite rem_len_bytes_step, shiftr_7.
  replace (0 <? v / 128) with false
    by (symmetry; apply Z.ltb_ge; rewrite Z.div_small by lia; lia).
  rewrite rem_len_byte_low by lia. reflexivity.
Qed.

Lemma rem_len_bytes_2 (v : Z) :
  128 <= v <= 16383 -> rem_len_bytes v = [v mod 128 + 128; v / 128].
Proof.
  intros H. rewrite rem_len_bytes_step, shiftr_7.
  assert (1 <= v / 128 <= 127) by (Z.div_mod_to_equations; lia).
  replace (0 <? v / 128) with true by (symmetry; apply Z.ltb_lt; lia).
  rewrite rem_len_byte_high by lia. rewrite rem_len_bytes_1 by lia. reflexivity.
Qed.

Lemma rem_len_bytes_3 (v : Z) :
  16384 <= v <= 2097151 ->
  rem_len_bytes v = [v mod 128 + 128; (v / 128) mod 128 + 128; v / 16384].
Proof.
  intros H. rewrite rem_len_bytes_step, shiftr_7.
  assert (128 <= v / 128 <= 16383) by (Z.div_mod_to_equations; lia).
  replace (0 <? v / 128) with true by (symmetry; apply Z.ltb_lt; lia).
  rewrite rem_len_byte_high by lia. rewrite rem_len_bytes_2 by lia.
  rewrite Z.div_div by lia. reflexivity.
Qed.

Lemma land_128_high (b : Z) : 128 <= b < 256 -> Z.land b 128 = 128.
Proof.
  intros H. replace b with ((b - 128) + 1 * 2 ^ 7) by (change (2 ^ 7) with 128; lia).
  rewrite <- lor_shiftl_add by (change (2 ^ 7) with 128; lia).
  rewrite Z.land_lor_distr_l, land_128_low by lia. reflexivity.
Qed.

(** What the machine does with one byte of the length field. *)
Lemma pure_step_length_more (s : pstate) (b : Z) (rest : list Z) :
  p_state s = MQTT_PARSER_STATE_CALC_REM_LEN -> 128 <= b < 256 ->
  pure_step s b rest =
    ({| p_state := MQTT_PARSER_STATE_CALC_REM_LEN; p_hdr := p_hdr s; p_rem := next_rem s b;
        p_mult := GSM_U8 (p_mult s + 1); p_pos := p_pos s; p_rx := p_rx s;
        p_rxlen := p_rxlen s |}, [], 0).
Proof.
  intros Hs Hb. unfold pure_step. cbv zeta. rewrite Hs.
  change (MQTT_PARSER_STATE_CALC_REM_LEN =? MQTT_PARSER_STATE_INIT) with false.
  change (MQTT_PARSER_STATE_CALC_REM_LEN =? MQTT_PARSER_STATE_CALC_REM_LEN) with true.
  cbv iota. rewrite land_128_high by lia. reflexivity.
Qed.

Lemma pure_step_length_last (s : pstate) (b : Z) :
  p_state s = MQTT_PARSER_STATE_CALC_REM_LEN -> 0 <= b < 128 ->
  pure_step s b [] =
    ({| p_state := if 0 <? next_rem s b then MQTT_PARSER_STATE_READ_REM
                   else MQTT_PARSER_STATE_INIT;
        p_hdr := p_hdr s; p_rem := next_rem s b;
        p_mult := GSM_U8 (p_mult s + 1); p_pos := p_pos s; p_rx := p_rx s;
        p_rxlen := p_rxlen s |},
     if 0 <? next_rem s b then []
     else [PDispatch (p_hdr s) (next_rem s b) (firstn (Z.to_nat (next_rem s b)) (p_rx s))],
     0).
Proof.
  intros Hs Hb. unfold pure_step. cbv zeta. rewrite Hs. fold (next_rem s b).
  change (MQTT_PARSER_STATE_CALC_REM_LEN =? MQTT_PARSER_STATE_INIT) with false.
  change (MQTT_PARSER_STATE_CALC_REM_LEN =? MQTT_PARSER_STATE_CALC_REM_LEN) with true.
  cbv iota. rewrite land_128_low by lia. cbn [Z.eqb].
  destruct (0 <? next_rem s b) eqn:E; [|reflexivity].
  apply Z.ltb_lt in E.
  replace (next_rem s b <? zlen (@nil Z) + 1) with false; [reflexivity|].
  symmetry. apply Z.ltb_ge. change (zlen (@nil Z)) with 0. lia.
Qed.

Lemma pure_step_header (s : pstate) (h : Z) (rest : list Z) :
  p_state s = MQTT_PARSER_STATE_INIT ->
  pure_step s h rest =
    ({| p_state := MQTT_PARSER_STATE_CALC_REM_LEN; p_hdr := h; p_rem := 0; p_mult := 0;
        p_pos := 0; p_rx := p_rx s; p_rxlen := p_rxlen s |}, [], 0).
Proof. intros Hs. unfold pure_step. rewrite Hs. reflexivity. Qed.

(** After a header byte, the parser reads back the value the encoder wrote. *)
Lemma decode_rem_len_bytes (s : pstate) (h v : Z) :
  p_state s = MQTT_PARSER_STATE_INIT -> 0 <= v <= 65535 ->
  p_rem (fst (pure_block (s, []) (h :: rem_len_bytes v))) = v /\
  p_hdr (fst (pure_block (s, []) (h :: rem_len_bytes v))) = h /\
  p_state (fst (pure_block (s, []) (h :: rem_len_bytes v))) =
    (if v =? 0 then MQTT_PARSER_STATE_INIT else MQTT_PARSER_STATE_READ_REM).
Proof.
  intros Hs Hv.
  rewrite pure_block_equation_2, pure_step_header by assumption.
  cbn [fst snd Z.to_nat skipn rev app].
  pose proof (Z.mod_pos_bound v 128 ltac:(lia)) as Hm.
  destruct (Z_le_dec v 127) as [H1|H1]; [|destruct (Z_le_dec v 16383) as [H2|H2]].
  - rewrite rem_len_bytes_1 by lia.
    rewrite pure_block_single, pure_step_length_last by (cbn; auto; lia).
    cbn [fst snd p_rem p_hdr p_state].
    assert (Hr : forall x, next_rem {| p_state := MQTT_PARSER_STATE_CALC_REM_LEN; p_hdr := h;
                 p_rem := 0; p_mult := 0; p_pos := 0; p_rx := p_rx s; p_rxlen := x |} v = v).
    { intros x. unfold next_rem. cbn [p_rem p_mult]. shl_small. unfold GSM_U32.
      rewrite Z.lor_0_l, land_127, Z.shiftl_0_r, !Z.mod_small by lia. reflexivity. }
    rewrite !Hr. repeat split.
    destruct (Z.eq_dec v 0) as [->|Hne]; [reflexivity|].
    replace (0 <? v) with true by (symmetry; apply Z.ltb_lt; lia).
    replace (v =? 0) with false by (symmetry; apply Z.eqb_neq; lia). reflexivity.
  - rewrite rem_len_bytes_2 by lia.
    assert (1 <= v / 128 <= 127)
      by (Z.div_mod_to_equations; lia).
    rewrite pure_block_equation_2, pure_step_length_more by (cbn; auto; lia).
    cbn [fst snd Z.to_nat skipn rev app].
    rewrite pure_block_single, pure_step_length_last by (cbn; auto; lia).
    cbn [fst snd p_rem p_hdr p_state].
    unfold next_rem. cbn [p_rem p_mult]. shl_small. unfold GSM_U32, GSM_U8.
    rewrite Z.lor_0_l, !land_127, Z.shiftl_0_r.
    replace ((v mod 128 + 128) mod 128) with (v mod 128)
      by (rewrite <- Z.add_mod_idemp_r, Z.add_0_r, Z.mod_mod by lia; reflexivity).
    rewrite (Z.mod_small (v mod 128)) by lia.
    rewrite (Z.mod_small (v / 128)) by lia.
    change ((0 + 1) mod 256) with 1. change (7 * 1) with 7.
    rewrite lor_shiftl_add by (change (2 ^ 7) with 128; lia).
    change (2 ^ 7) with 128.
    replace (v mod 128 + v / 128 * 128) with v by (rewrite (Z.div_mod v 128) at 1; lia).
    rewrite Z.mod_small by lia.
    replace (0 <? v) with true by (symmetry; apply Z.ltb_lt; lia).
    replace (v =? 0) with false by (symmetry; apply Z.eqb_neq; lia). auto.
  - rewrite rem_len_bytes_3 by lia.
    assert (128 <= v / 128 <= 511)
      by (Z.div_mod_to_equations; lia).
    assert (1 <= v / 16384 <= 3)
      by (Z.div_mod_to_equations; lia).
    pose proof (Z.mod_pos_bound (v / 128) 128 ltac:(lia)) as Hm2.
    rewrite pure_block_equation_2, pure_step_length_more by (cbn; auto; lia).
    cbn [fst snd Z.to_nat skipn rev app].
    rewrite pure_block_equation_2, pure_step_length_more by (cbn; auto; lia).
    cbn [fst snd Z.to_nat skipn rev app].
    rewrite pure_block_single, pure_step_length_last by (cbn; auto; lia).
    cbn [fst snd p_rem p_hdr p_state].
    unfold next_rem. cbn [p_rem p_mult]. shl_small. unfold GSM_U32, GSM_U8.
    rewrite Z.lor_0_l, !land_127, Z.shiftl_0_r.
    replace ((v mod 128 + 128) mod 128) with (v mod 128)
      by (rewrite <- Z.add_mod_idemp_r, Z.add_0_r, Z.mod_mod by lia; reflexivity).
    replace (((v / 128) mod 128 + 128) mod 128) with ((v / 128) mod 128)
      by (rewrite <- Z.add_mod_idemp_r, Z.add_0_r, Z.mod_mod by lia; reflexivity).
    rewrite (Z.mod_small (v mod 128)) by lia.
    rewrite (Z.mod_small (v / 16384)) by lia.
    change ((0 + 1) mod 256) with 1. change ((1 + 1) mod 256) with 2.
    change (7 * 1) with 7. change (7 * 2) with 14.
    rewrite (lor_shiftl_add (v mod 128)) by (change (2 ^ 7) with 128; lia).
    change (2 ^ 7) with 128.
    rewrite (Z.mod_small (v mod 128 + _)) by lia.
    rewrite lor_shiftl_add by (change (2 ^ 14) with 16384; lia).
    change (2 ^ 14) with 16384.
    assert (Hv3 : v mod 128 + (v / 128) mod 128 * 128 + v / 16384 * 16384 = v).
    { replace (v / 16384) with (v / 128 / 128)
        by (rewrite Z.div_div by lia; reflexivity).
      Z.div_mod_to_equations. lia. }
    rewrite Hv3. rewrite Z.mod_small by lia.
    replace (0 <? v) with true by (symmetry; apply Z.ltb_lt; lia).
    replace (v =? 0) with false by (symmetry; apply Z.eqb_neq; lia). auto.
Qed.

(** ** Acknowledgements *)

Lemma send_data_tx_data (w : world) :
  buff_ok (tx_buff (cl w)) -> tx_data (cl (send_data w)) = tx_data (cl w).
Proof.
  intros (Hr & Hd). unfold send_data, gsm_conn_send.
  destruct (negb (is_sending (cl w) =? 0)); [reflexivity|].
  destruct (0 <? _) eqn:E.
  - destruct (gsmr_eqb _ _); reflexivity.
  - apply Z.ltb_ge in E. unfold gsm_buff_get_linear_block_read_length in E.
    unfold tx_data. cbn.
    destruct (buff_data (tx_buff (cl w))); [reflexivity|].
    unfold zlen in E. simpl length in E. lia.
Qed.

Lemma count_rem_len_small (t r : Z) : 0 <= r <= 127 -> count_rem_len t r = GSM_U16 (t + 1).
Proof.
  intros H. rewrite count_rem_len_step, shiftr_7, Z.div_small by lia. reflexivity.
Qed.


Lemma buff_ok_write (b : gsm_buff_t) (d : list Z) :
  buff_ok b -> buff_ok (gsm_buff_write b d).
Proof.
  intros (Hr & Hd). unfold buff_ok, gsm_buff_write, gsm_buff_get_free. cbn.
  split; [assumption|]. rewrite zlen_app, zlen_firstn.
  pose proof (zlen_nonneg d). lia.
Qed.



Lemma land_3_bound (x : Z) : 0 <= Z.land x 3 <= 3.
Proof.
  replace (Z.land x 3) with (x mod 4)
    by (change 3 with (Z.ones 2); rewrite Z.land_ones by lia; reflexivity).
  pose proof (Z.mod_pos_bound x 4 ltac:(lia)). lia.
Qed.

Lemma land_15_bound (x : Z) : 0 <= Z.land x 15 <= 15.
Proof.
  replace (Z.land x 15) with (x mod 16)
    by (change 15 with (Z.ones 4); rewrite Z.land_ones by lia; reflexivity).
  pose proof (Z.mod_pos_bound x 16 ltac:(lia)). lia.
Qed.

Lemma rx_u16_bound (c : gsm_mqtt_client_t) (off : Z) : 0 <= rx_u16 c off <= 65535.
Proof.
  unfold rx_u16, GSM_U16.
  match goal with |- _ <= ?x mod _ <= _ => pose proof (Z.mod_pos_bound x 65536 ltac:(lia)) end.
  lia.
Qed.





(** ** Close fanout *)

Lemma closed_requests_loop_step (w : world) :
  closed_requests_loop w =
  match request_get_pending (cl w) (-1) with
  | Some i =>
      closed_requests_loop
        (request_send_err_callback (on_cl (fun c => request_delete c i) w)
           (status (get_request (cl w) i)) (arg (get_request (cl w) i)))
  | None => w
  end.
Proof.
  rewrite closed_requests_loop_equation_1.
  destruct (inspect (request_get_pending (cl w) (-1))) as [[i|] e].
  - rewrite closed_requests_loop_clause_1_equation_1. rewrite e. reflexivity.
  - rewrite closed_requests_loop_clause_1_equation_2. rewrite e. reflexivity.
Qed.

Lemma sent_requests_loop_step (w : world) :
  sent_requests_loop w =
  match request_get_pending (cl w) 0 with
  | Some i =>
      if expected_sent_len (get_request (cl w) i) <=? sent_total (cl w) then
        sent_requests_loop
          (evt_fn (GSM_MQTT_EVT_PUBLISH (arg (get_request (cl w) i)) gsmOK)
             (on_cl (fun c => request_delete c i) w))
      else w
  | None => w
  end.
Proof.
  rewrite sent_requests_loop_equation_1.
  destruct (inspect (request_get_pending (cl w) 0)) as [[i|] e].
  - rewrite sent_requests_loop_clause_1_equation_1. rewrite e. reflexivity.
  - rewrite sent_requests_loop_clause_1_equation_2. rewrite e. reflexivity.
Qed.

Lemma events_app (x y : list output) : events (x ++ y) = events x ++ events y.
Proof.
  induction x as [|o x IH]; [reflexivity|].
  destruct o; cbn; rewrite IH; reflexivity.
Qed.


Lemma events_map_evt (l : list gsm_mqtt_evt_t) : events (map CallEvtFn l) = l.
Proof. induction l as [|e l IH]; [reflexivity|]. cbn. rewrite IH. reflexivity. Qed.

Lemma find_pending_any_split (l : list gsm_mqtt_request_t) (i : nat) :
  find_pending l (-1) = Some i ->
  exists l1 r l2,
    l = l1 ++ r :: l2 /\ length l1 = i /\
    filter is_pending l1 = [] /\ is_pending r = true.
Proof.
  revert i. induction l as [|r t IH]; intros i H; [discriminate|].
  cbn [find_pending] in H. change (-1 =? -1) with true in H. cbn [orb] in H.
  rewrite andb_true_r in H. fold (is_pending r) in H.
  destruct (is_pending r) eqn:Ep.
  - injection H as <-. exists [], r, t. auto.
  - destruct (find_pending t (-1)) as [j|]; [|discriminate].
    injection H as <-.
    destruct (IH j eq_refl) as (l1 & r' & l2 & -> & Hl & Hf & Hp).
    exists (r :: l1), r', l2. cbn. rewrite Ep, Hl. auto.
Qed.

Lemma find_pending_any_none (l : list gsm_mqtt_request_t) :
  find_pending l (-1) = None -> filter is_pending l = [].
Proof.
  induction l as [|r t IH]; intros H; [reflexivity|].
  cbn [find_pending] in H. change (-1 =? -1) with true in H. cbn [orb] in H.
  rewrite andb_true_r in H. fold (is_pending r) in H.
  cbn. destruct (is_pending r); [discriminate|].
  destruct (find_pending t (-1)); [discriminate|]. auto.
Qed.

Lemma update_request_at (l1 l2 : list gsm_mqtt_request_t) (r : gsm_mqtt_request_t)
    (f : gsm_mqtt_request_t -> gsm_mqtt_request_t) :
  update_request (l1 ++ r :: l2) (length l1) f = l1 ++ f r :: l2.
Proof. induction l1 as [|x l1 IH]; cbn; [reflexivity|]. rewrite IH. reflexivity. Qed.

Lemma get_request_at (c : gsm_mqtt_client_t) (l1 l2 : list gsm_mqtt_request_t)
    (r : gsm_mqtt_request_t) :
  requests c = l1 ++ r :: l2 -> get_request c (length l1) = r.
Proof.
  intros H. unfold get_request. rewrite H, app_nth2 by lia.
  rewrite Nat.sub_diag. reflexivity.
Qed.

Lemma request_send_err_callback_log (w : world) (r : gsm_mqtt_request_t) :
  request_send_err_callback w (status r) (arg r) = emit (CallEvtFn (err_event r)) w.
Proof.
  unfold request_send_err_callback, err_event, evt_fn.
  destruct (has_flag (status r) MQTT_REQUEST_FLAG_SUBSCRIBE); [reflexivity|].
  destruct (has_flag (status r) MQTT_REQUEST_FLAG_UNSUBSCRIBE); reflexivity.
Qed.

Lemma is_pending_cleared (r : gsm_mqtt_request_t) : is_pending (set_status 0 r) = false.
Proof. reflexivity. Qed.

(** The loop of the close callback gives every pending request its failure
    event, in table order, and touches nothing but the table. *)
Lemma closed_requests_loop_log (n : nat) :
  forall w, pending_count (requests (cl w)) = n ->
  log (closed_requests_loop w) =
    rev (map (fun r => CallEvtFn (err_event r)) (filter is_pending (requests (cl w))))
    ++ log w /\
  cl (closed_requests_loop w) = set_requests (requests (cl (closed_requests_loop w))) (cl w).
Proof.
  induction n as [n IH] using lt_wf_ind. intros w Hn.
  rewrite closed_requests_loop_step.
  unfold request_get_pending.
  destruct (find_pending (requests (cl w)) (-1)) as [i|] eqn:Hf.
  - destruct (find_pending_any_split _ _ Hf) as (l1 & r & l2 & Hl & Hi & Hnone & Hp).
    subst i. rewrite (get_request_at _ _ _ _ Hl).
    rewrite request_send_err_callback_log.
    pose proof (pending_count_delete _ _ _ Hf) as Hlt.
    match goal with |- context [closed_requests_loop ?w1] =>
      destruct (IH _ (eq_ind _ (fun k => (_ < k)%nat) Hlt _ Hn) w1 eq_refl) as (H1 & H2)
    end.
    rewrite H1. cbn [emit cl log on_cl set_cl request_delete requests set_requests] in *.
    rewrite Hl, update_request_at. rewrite !filter_app. cbn [filter].
    rewrite Hnone, Hp, is_pending_cleared. cbn [app map rev].
    rewrite <- app_assoc. split; [reflexivity|].
    rewrite H2 at 1. destruct (cl w); reflexivity.
  - rewrite (find_pending_any_none _ Hf). split; [reflexivity|].
    destruct (cl w); reflexivity.
Qed.

(** ** The dispatcher looks at the rx buffer through its accesses only *)

Lemma agree_but_rx_intro (c : gsm_mqtt_client_t) (b : list Z) (l1 l2 : list output)
    (e : env_t) (k : nat) :
  calls l1 = calls l2 ->
  agree_but_rx {| cl := set_rx_buff b c; log := l1; env := e; clock := k |}
               {| cl := c; log := l2; env := e; clock := k |}.
Proof. intros H. repeat split. exact H. Qed.

Lemma agree_but_rx_elim (w1 w2 : world) :
  agree_but_rx w1 w2 ->
  exists b l1, calls l1 = calls (log w2) /\
    w1 = {| cl := set_rx_buff b (cl w2); log := l1; env := env w2; clock := clock w2 |}.
Proof.
  intros (Hc & Hl & He & Hk). exists (rx_buff (cl w1)), (log w1). split; [exact Hl|].
  destruct w1 as [c1 l1 e1 k1]. cbn in *. subst e1 k1. rewrite <- Hc. reflexivity.
Qed.

Ltac agree_fin Hl :=
  unfold agree_but_rx, calls in *; proj_cbn; cbn [filter is_call]; rewrite ?Hl;
  repeat split; reflexivity.

Lemma send_data_agree (w1 w2 : world) :
  agree_but_rx w1 w2 -> agree_but_rx (send_data w1) (send_data w2).
Proof.
  intros H. apply agree_but_rx_elim in H. destruct H as (b & l1 & Hl & ->).
  destruct w2 as [c l2 e k]. cbn [cl log env clock] in *.
  unfold send_data, gsm_conn_send. cbv zeta. proj_cbn.
  destruct (negb (is_sending c =? 0)); [agree_fin Hl|].
  destruct (0 <? _); [destruct (gsmr_eqb _ _)|]; agree_fin Hl.
Qed.

Lemma write_ack_agree (w1 w2 : world) (t p q : Z) :
  agree_but_rx w1 w2 ->
  fst (write_ack_rec_rel_resp w1 t p q) = fst (write_ack_rec_rel_resp w2 t p q) /\
  agree_but_rx (snd (write_ack_rec_rel_resp w1 t p q)) (snd (write_ack_rec_rel_resp w2 t p q)).
Proof.
  intros H. unfold write_ack_rec_rel_resp. cbv zeta.
  assert (E : output_check_enough_memory (cl w1) 2 = output_check_enough_memory (cl w2) 2).
  { destruct H as (Hc & _). rewrite Hc. reflexivity. }
  rewrite E. destruct (negb _); cbn [fst snd]; [|split; [reflexivity|exact H]].
  split; [reflexivity|]. apply send_data_agree.
  apply agree_but_rx_elim in H. destruct H as (b & l1 & Hl & ->).
  unfold agree_but_rx, on_cl. cbn [set_cl cl log env clock].
  rewrite !write_fixed_header_bytes, !write_u16_bytes.
  unfold tx_write. agree_fin Hl.
Qed.

Lemma slice_ext (l1 l2 : list Z) (off len : Z) :
  length l1 = length l2 -> 0 <= off ->
  (forall i, In i (offsets off len) -> byte_at l1 i = byte_at l2 i) ->
  slice l1 off len = slice l2 off len.
Proof.
  intros Hlen Hoff H. unfold slice.
  apply (nth_ext _ _ 0 0).
  - rewrite !length_firstn, !length_skipn, Hlen. reflexivity.
  - intros n Hn. rewrite length_firstn in Hn.
    rewrite !nth_firstn.
    destruct (n <? Z.to_nat len)%nat eqn:E; [|reflexivity].
    apply Nat.ltb_lt in E. rewrite !nth_skipn.
    specialize (H (off + Z.of_nat n)).
    unfold byte_at in H.
    replace (off + Z.of_nat n <? 0) with false in H by (symmetry; apply Z.ltb_ge; lia).
    replace (Z.to_nat (off + Z.of_nat n)) with (Z.to_nat off + n)%nat in H by lia.
    apply H. unfold offsets. apply in_map_iff. exists n. split; [reflexivity|].
    apply in_seq. lia.
Qed.

Lemma rx_u16_ext (c1 c2 : gsm_mqtt_client_t) (off : Z) :
  byte_at (rx_buff c1) off = byte_at (rx_buff c2) off ->
  byte_at (rx_buff c1) (off + 1) = byte_at (rx_buff c2) (off + 1) ->
  rx_u16 c1 off = rx_u16 c2 off.
Proof. intros H1 H2. unfold rx_u16. rewrite H1, H2. reflexivity. Qed.

Lemma evt_fn_agree (w1 w2 : world) (e : gsm_mqtt_evt_t) :
  agree_but_rx w1 w2 -> agree_but_rx (evt_fn e w1) (evt_fn e w2).
Proof.
  intros H. apply agree_but_rx_elim in H. destruct H as (b & l1 & Hl & ->).
  unfold evt_fn. agree_fin Hl.
Qed.

Lemma write_ack_rx_buff (w : world) (t p q : Z) :
  rx_buff (cl (snd (write_ack_rec_rel_resp w t p q))) = rx_buff (cl w).
Proof. exact (f_equal p_rx (write_ack_parser_view w t p q)). Qed.

(** The accesses the dispatcher records are those of [rx_reads]. *)
Lemma rx_accesses_eq (w : world) : rx_accesses w = rx_reads (cl w).
Proof.
  unfold rx_accesses, mqtt_process_incoming_message_rx, rx_reads, rx_u16. cbv zeta.
  cbn [emit cl].
  pose proof (land_15_bound (Z.shiftr (msg_hdr_byte (cl w)) 4)) as Hty.
  unfold MQTT_RCV_GET_PACKET_TYPE in *.
  set (ty := Z.land (Z.shiftr (msg_hdr_byte (cl w)) 4) 15) in *.
  assert (Hty' : ty = 0 \/ ty = 1 \/ ty = 2 \/ ty = 3 \/ ty = 4 \/ ty = 5 \/ ty = 6 \/
                 ty = 7 \/ ty = 8 \/ ty = 9 \/ ty = 10 \/ ty = 11 \/ ty = 12 \/ ty = 13 \/
                 ty = 14 \/ ty = 15) by lia.
  clearbody ty.
  repeat (destruct Hty' as [->|Hty']); try subst ty;
    cbn [Z.eqb Pos.eqb orb MQTT_MSG_TYPE_CONNACK MQTT_MSG_TYPE_PUBLISH MQTT_MSG_TYPE_PINGRESP
         MQTT_MSG_TYPE_SUBACK MQTT_MSG_TYPE_UNSUBACK MQTT_MSG_TYPE_PUBREC
         MQTT_MSG_TYPE_PUBREL MQTT_MSG_TYPE_PUBACK MQTT_MSG_TYPE_PUBCOMP];
    cbn [fst snd rx_read_u16 rx_read rx_region rx_bind rx_ret app];
    try reflexivity;
    repeat match goal with
           | |- context [state_eqb ?a ?b] => destruct (state_eqb a b)
           | |- context [0 <? MQTT_RCV_GET_PACKET_QOS ?h] =>
               destruct (0 <? MQTT_RCV_GET_PACKET_QOS h)
           | |- context [request_get_pending ?c ?p] => destruct (request_get_pending c p)
           end;
    cbn [fst snd rx_read_u16 rx_read rx_region rx_bind rx_ret app];
    reflexivity.
Qed.

Lemma in_rx_offsets (w : world) (a : rx_access) (i : Z) :
  In a (rx_reads (cl w)) -> In i (access_offsets a) -> In i (rx_offsets w).
Proof.
  intros Ha Hi. unfold rx_offsets. rewrite rx_accesses_eq.
  apply in_flat_map. exists a. split; assumption.
Qed.

(** Two runs of the dispatcher from worlds that differ in the rx buffer
    only, and there not at the offsets the second run touches, return the
    same value, make the same calls and leave the same client apart from
    the rx buffer. *)
Lemma process_reads_only (w1 w2 : world) :
  agree_but_rx w1 w2 ->
  length (rx_buff (cl w1)) = length (rx_buff (cl w2)) ->
  (forall i, In i (rx_offsets w2) ->
             byte_at (rx_buff (cl w1)) i = byte_at (rx_buff (cl w2)) i) ->
  fst (mqtt_process_incoming_message w1) = fst (mqtt_process_incoming_message w2) /\
  agree_but_rx (snd (mqtt_process_incoming_message w1))
               (snd (mqtt_process_incoming_message w2)).
Proof.
  intros H Hlen Hb0.
  assert (Hb : forall a i, In a (rx_reads (cl w2)) -> In i (access_offsets a) ->
                 byte_at (rx_buff (cl w1)) i = byte_at (rx_buff (cl w2)) i).
  { intros a i Ha Hi. apply Hb0. apply (in_rx_offsets w2 a i Ha Hi). }
  clear Hb0.
  apply agree_but_rx_elim in H. destruct H as (b & l1 & Hl & ->).
  destruct w2 as [c l2 e k]. cbn [cl log env clock rx_buff set_rx_buff] in *.
  unfold rx_reads in Hb. cbv zeta in Hb.
  rewrite !process_unfold. unfold dispatch_result. cbv zeta.
  cbn [emit cl msg_hdr_byte msg_rem_len set_rx_buff conn_state].
  pose proof (land_15_bound (Z.shiftr (msg_hdr_byte c) 4)) as Hty.
  pose proof (land_3_bound (Z.shiftr (msg_hdr_byte c) 1)) as Hq.
  unfold MQTT_RCV_GET_PACKET_TYPE, MQTT_RCV_GET_PACKET_QOS in *.
  set (ty := Z.land (Z.shiftr (msg_hdr_byte c) 4) 15) in *.
  set (qos := Z.land (Z.shiftr (msg_hdr_byte c) 1) 3) in *.
  assert (Hty' : ty = 0 \/ ty = 1 \/ ty = 2 \/ ty = 3 \/ ty = 4 \/ ty = 5 \/ ty = 6 \/
                 ty = 7 \/ ty = 8 \/ ty = 9 \/ ty = 10 \/ ty = 11 \/ ty = 12 \/ ty = 13 \/
                 ty = 14 \/ ty = 15) by lia.
  clearbody ty qos.
  assert (E16 : (forall a i, In a [RxRead 0; RxRead 1] -> In i (access_offsets a) ->
                   byte_at b i = byte_at (rx_buff c) i) ->
                rx_u16 (set_rx_buff b c) 0 = rx_u16 c 0).
  { intros Hr. apply rx_u16_ext; cbn [rx_buff set_rx_buff].
    - apply (Hr (RxRead 0)); cbn; auto.
    - apply (Hr (RxRead 1)); cbn; auto. }
  repeat (destruct Hty' as [->|Hty']); try subst ty;
    cbn [Z.eqb Pos.eqb orb MQTT_MSG_TYPE_CONNACK MQTT_MSG_TYPE_PUBLISH MQTT_MSG_TYPE_PINGRESP
         MQTT_MSG_TYPE_SUBACK MQTT_MSG_TYPE_UNSUBACK MQTT_MSG_TYPE_PUBREC
         MQTT_MSG_TYPE_PUBREL MQTT_MSG_TYPE_PUBACK MQTT_MSG_TYPE_PUBCOMP] in *;
    try (split; [reflexivity | unfold evt_fn; agree_fin Hl]).
  - (* CONNACK *)
    cbn [rx_buff set_rx_buff]. rewrite (Hb (RxRead 1) 1) by (cbn; auto).
    destruct (state_eqb _ _); [destruct (conn_status_accepted _)|];
      (split; [reflexivity | unfold evt_fn; agree_fin Hl]).
  - (* PUBLISH *)
    rewrite !E16 by (intros a i Ha Hi; apply (Hb a i); [apply in_or_app; left; exact Ha|exact Hi]).
    set (tl := rx_u16 c 0) in *.
    pose proof (rx_u16_bound c 0) as Htl. fold tl in Htl.
    destruct (0 <? qos) eqn:E0.
    + assert (Ep : rx_u16 (set_rx_buff b c) (2 + tl) = rx_u16 c (2 + tl)).
      { apply rx_u16_ext; cbn [rx_buff set_rx_buff].
        - apply (Hb (RxRead (2 + tl))); cbn; auto.
        - apply (Hb (RxRead (2 + tl + 1))); cbn; auto. }
      rewrite Ep. rewrite !write_ack_rx_buff. cbn [emit cl rx_buff set_rx_buff fst snd].
      rewrite (slice_ext b (rx_buff c) 2 tl), (slice_ext b (rx_buff c) (2 + tl + 2)); try lia;
        try exact Hlen.
      * split; [reflexivity|]. apply evt_fn_agree, write_ack_agree. agree_fin Hl.
      * intros i Hi. apply (Hb (RxRegion (2 + tl + 2) (GSM_U16 (msg_rem_len c - (2 + tl + 2)))));
          cbn; auto 10.
      * intros i Hi. apply (Hb (RxRegion 2 tl)); cbn; auto 10.
    + cbn [emit cl rx_buff set_rx_buff fst snd].
      rewrite (slice_ext b (rx_buff c) 2 tl), (slice_ext b (rx_buff c) (2 + tl)); try lia;
        try exact Hlen.
      * split; [reflexivity|]. apply evt_fn_agree. agree_fin Hl.
      * intros i Hi. apply (Hb (RxRegion (2 + tl) (GSM_U16 (msg_rem_len c - (2 + tl)))));
          cbn; auto 10.
      * intros i Hi. apply (Hb (RxRegion 2 tl)); cbn; auto 10.
  - (* PUBACK *)
    rewrite !E16 by exact Hb.
    change (request_get_pending (set_rx_buff b c) (rx_u16 c 0))
      with (request_get_pending c (rx_u16 c 0)).
    destruct (request_get_pending c _);
      (split; [reflexivity | unfold evt_fn, request_delete, get_request; agree_fin Hl]).
  - (* PUBREC *)
    rewrite !E16 by exact Hb. cbn [fst snd].
    split; [reflexivity|]. apply write_ack_agree. agree_fin Hl.
  - (* PUBREL *)
    rewrite !E16 by exact Hb. cbn [fst snd].
    split; [reflexivity|]. apply write_ack_agree. agree_fin Hl.
  - (* PUBCOMP *)
    rewrite !E16 by exact Hb.
    change (request_get_pending (set_rx_buff b c) (rx_u16 c 0))
      with (request_get_pending c (rx_u16 c 0)).
    destruct (request_get_pending c _);
      (split; [reflexivity | unfold evt_fn, request_delete, get_request; agree_fin Hl]).
  - (* SUBACK *)
    rewrite !E16 by (intros a i Ha Hi; apply (Hb a i); [apply in_or_app; left; exact Ha|exact Hi]).
    change (request_get_pending (set_rx_buff b c) (rx_u16 c 0))
      with (request_get_pending c (rx_u16 c 0)).
    destruct (request_get_pending c _).
    + cbn [rx_buff set_rx_buff]. rewrite (Hb (RxRead 2) 2) by (cbn; auto).
      split; [reflexivity | unfold evt_fn, request_delete, get_request; agree_fin Hl].
    + split; [reflexivity | agree_fin Hl].
  - (* UNSUBACK *)
    rewrite !E16 by (intros a i Ha Hi; apply (Hb a i); [apply in_or_app; left; exact Ha|exact Hi]).
    change (request_get_pending (set_rx_buff b c) (rx_u16 c 0))
      with (request_get_pending c (rx_u16 c 0)).
    destruct (request_get_pending c _).
    + cbn [rx_buff set_rx_buff]. rewrite (Hb (RxRead 2) 2) by (cbn; auto).
      split; [reflexivity | unfold evt_fn, request_delete, get_request; agree_fin Hl].
    + split; [reflexivity | agree_fin Hl].
Qed.

(** ** The byte counters *)

Lemma handed_nonneg (t : list output) : 0 <= handed t.
Proof.
  induction t as [|o t IH]; cbn; [lia|].
  destruct o as [e| d r | | | | |]; try exact IH.
  - destruct e; try exact IH. lia.
  - pose proof (zlen_nonneg d). destruct (gsmr_eqb r gsmOK); lia.
Qed.

Lemma last_send_nonneg (t : list output) : 0 <= last_send t.
Proof.
  induction t as [|o t IH]; cbn; [lia|].
  destruct o as [e| d r | | | | |]; try exact IH.
  pose proof (zlen_nonneg d). destruct (gsmr_eqb r gsmOK); lia.
Qed.

Lemma advances_refl (w : world) : advances w w.
Proof. split; [lia | auto]. Qed.

Lemma advances_trans (w1 w2 w3 : world) :
  advances w1 w2 -> advances w2 w3 -> advances w1 w3.
Proof.
  intros (H1 & H2) (H3 & H4). split; [lia|].
  intros Hok Hb. apply H4; [apply H2; [exact Hok | lia] | exact Hb].
Qed.

(** A step that leaves the three fields and the writes of the log alone. *)
Lemma advances_same (w w' : world) :
  is_sending (cl w') = is_sending (cl w) ->
  sent_total (cl w') = sent_total (cl w) ->
  written_total (cl w') = written_total (cl w) ->
  handed (log w') = handed (log w) ->
  last_send (log w') = last_send (log w) ->
  advances w w'.
Proof.
  intros H1 H2 H3 H4 H5. split; [lia|].
  unfold counters_ok, in_flight. rewrite H1, H2, H3, H4, H5. auto.
Qed.

Lemma adv_on_cl (w x : world) (f : gsm_mqtt_client_t -> gsm_mqtt_client_t) :
  keeps f -> advances w x -> advances w (on_cl f x).
Proof.
  intros Hk H. apply (advances_trans _ _ _ H).
  destruct (Hk (cl x)) as (H1 & H2 & H3).
  apply advances_same; cbn [on_cl set_cl cl log]; auto.
Qed.

Lemma adv_set_cl (w x : world) (c : gsm_mqtt_client_t) :
  is_sending c = is_sending (cl x) ->
  sent_total c = sent_total (cl x) ->
  written_total c = written_total (cl x) ->
  advances w x -> advances w (set_cl c x).
Proof.
  intros H1 H2 H3 H. apply (advances_trans _ _ _ H).
  apply advances_same; cbn [set_cl cl log]; auto.
Qed.

Lemma adv_emit (w x : world) (o : output) :
  quiet o = true -> advances w x -> advances w (emit o x).
Proof.
  intros Hq H. apply (advances_trans _ _ _ H).
  apply advances_same; cbn [emit cl log]; auto.
  - destruct o as [e| | | | | |]; try discriminate; try reflexivity.
    destruct e; try discriminate; reflexivity.
  - destruct o as [e| | | | | |]; try discriminate; reflexivity.
Qed.

Lemma adv_evt_fn (w x : world) (e : gsm_mqtt_evt_t) :
  quiet (CallEvtFn e) = true -> advances w x -> advances w (evt_fn e x).
Proof. intros Hq H. unfold evt_fn. apply adv_emit; assumption. Qed.

Lemma adv_tick (w x : world) : advances w x -> advances w (tick x).
Proof.
  intros H. apply (advances_trans _ _ _ H). apply advances_same; reflexivity.
Qed.

Lemma keeps_tx_write (d : list Z) : keeps (fun c => tx_write c d).
Proof. intros c. repeat split. Qed.

Lemma keeps_write_fixed_header (t dup q r rem : Z) :
  keeps (fun c => write_fixed_header c t dup q r rem).
Proof. intros c. rewrite write_fixed_header_bytes. repeat split. Qed.

Lemma keeps_write_u8 (n : Z) : keeps (fun c => write_u8 c n).
Proof. intros c. repeat split. Qed.

Lemma keeps_write_u16 (n : Z) : keeps (fun c => write_u16 c n).
Proof. intros c. rewrite write_u16_bytes. repeat split. Qed.

Lemma keeps_write_string (s : list Z) (n : Z) : keeps (fun c => write_string c s n).
Proof. intros c. rewrite write_string_bytes. repeat split. Qed.

Lemma keeps_write_data (s : list Z) (n : Z) : keeps (fun c => write_data c s n).
Proof. intros c. repeat split. Qed.

Lemma zlen_linear_block (b : gsm_buff_t) :
  0 < gsm_buff_get_linear_block_read_length b ->
  zlen (gsm_buff_get_linear_block_read b) = gsm_buff_get_linear_block_read_length b.
Proof.
  unfold gsm_buff_get_linear_block_read, gsm_buff_get_linear_block_read_length, zlen.
  intros H. rewrite length_firstn. lia.
Qed.

Lemma send_data_advances (w : world) : advances w (send_data w).
Proof.
  unfold send_data, gsm_conn_send. cbv zeta.
  destruct (negb (is_sending (cl w) =? 0)) eqn:Es; [apply advances_refl|].
  apply negb_false_iff, Z.eqb_eq in Es.
  destruct (0 <? _) eqn:El.
  2: { apply adv_on_cl; [intros c; repeat split | apply advances_refl]. }
  apply Z.ltb_lt in El. pose proof (zlen_linear_block _ El) as Hz.
  set (len := gsm_buff_get_linear_block_read_length (tx_buff (cl w))) in *.
  set (d := gsm_buff_get_linear_block_read (tx_buff (cl w))) in *.
  destruct (gsmr_eqb (env_conn_send (env w) (clock w)) gsmOK) eqn:Er.
  - split.
    + cbn [on_cl set_cl tick emit log handed]. rewrite Er. lia.
    + unfold counters_ok, in_flight.
      cbn [on_cl set_cl tick emit log cl handed last_send is_sending sent_total
           written_total set_is_sending set_written_total].
      rewrite Er, Es. cbn [Z.eqb]. intros (H1 & H2 & H3) Hb. rewrite Z.add_0_r in H3.
      pose proof (handed_nonneg (log w)).
      unfold GSM_U32. rewrite Z.mod_small by lia. lia.
  - apply adv_tick. apply advances_same; cbn [emit cl log handed last_send]; try reflexivity;
      rewrite Er; reflexivity.
Qed.

Lemma adv_send_data (w x : world) : advances w x -> advances w (send_data x).
Proof. intros H. apply (advances_trans _ _ _ H), send_data_advances. Qed.

Lemma adv_write_ack (w x : world) (t p q : Z) :
  advances w x -> advances w (snd (write_ack_rec_rel_resp x t p q)).
Proof.
  intros H. unfold write_ack_rec_rel_resp. cbv zeta.
  destruct (negb _); cbn [snd]; [|exact H].
  apply adv_send_data, adv_on_cl; [apply keeps_write_u16|].
  apply adv_on_cl; [apply keeps_write_fixed_header | exact H].
Qed.

Ltac adv_step :=
  match goal with
  | |- advances ?w ?w => apply advances_refl
  | |- advances _ (fst (_, _)) => cbn [fst]
  | |- advances _ (snd (_, _)) => cbn [snd]
  | |- advances _ (send_data _) => apply adv_send_data
  | |- advances _ (snd (write_ack_rec_rel_resp _ _ _ _)) => apply adv_write_ack
  | |- advances _ (evt_fn _ _) => apply adv_evt_fn; [reflexivity|]
  | |- advances _ (emit _ _) => apply adv_emit; [reflexivity|]
  | |- advances _ (tick _) => apply adv_tick
  | |- advances _ (on_cl _ _) =>
      apply adv_on_cl;
      [first [ apply keeps_write_fixed_header | apply keeps_write_u16 | apply keeps_write_u8
             | apply keeps_write_string | apply keeps_write_data
             | intros ?; repeat split; reflexivity ]|]
  | |- advances _ (if ?b then _ else _) => destruct b
  | |- advances _ (snd (if ?b then _ else _)) => destruct b
  | |- advances _ (fst (if ?b then _ else _)) => destruct b
  | |- advances _ (match ?x with Some _ => _ | None => _ end) => destruct x
  | |- advances _ (snd (match ?x with Some _ => _ | None => _ end)) => destruct x
  end.

Lemma process_advances (w x : world) :
  advances w x -> advances w (snd (mqtt_process_incoming_message x)).
Proof.
  intros H. rewrite process_unfold. unfold dispatch_result. cbv zeta.
  repeat adv_step; exact H.
Qed.

Lemma parser_step_advances (w x : world) (ch : Z) (rest : list Z) :
  advances w x -> advances w (fst (parser_step x ch rest)).
Proof.
  intros H. unfold parser_step. cbv zeta.
  repeat first [ adv_step | apply process_advances ]; exact H.
Qed.

Lemma parse_block_advances (d : list Z) :
  forall w x, advances w x -> advances w (parse_block x d).
Proof.
  remember (length d) as n eqn:Hn. revert d Hn.
  induction n as [n IH] using lt_wf_ind. intros d Hn w x H.
  destruct d as [|ch rest].
  - rewrite parse_block_equation_1. exact H.
  - rewrite parse_block_equation_2.
    apply (IH (length (skipn (Z.to_nat (snd (parser_step x ch rest))) rest))).
    + subst n. rewrite length_skipn. cbn. lia.
    + reflexivity.
    + apply parser_step_advances. exact H.
Qed.

Lemma parse_incoming_advances (pbuf : gsm_pbuf_t) :
  forall w x, advances w x -> advances w (snd (mqtt_parse_incoming x pbuf)).
Proof.
  unfold mqtt_parse_incoming. cbn [snd].
  induction pbuf as [|d t IH]; intros w x H; cbn [fold_left]; [exact H|].
  apply IH, parse_block_advances, H.
Qed.

Lemma data_recv_advances (w : world) (pbuf : gsm_pbuf_t) :
  advances w (snd (mqtt_data_recv_cb w pbuf)).
Proof.
  unfold mqtt_data_recv_cb. cbv zeta. cbn [snd].
  apply adv_emit; [reflexivity|]. apply parse_incoming_advances.
  repeat adv_step.
Qed.

Lemma connected_advances (w : world) : advances w (mqtt_connected_cb w).
Proof.
  unfold mqtt_connected_cb. destruct (info (cl w)) as [inf|]; [|apply advances_refl].
  cbv zeta. destruct (output_check_enough_memory _ _ =? 0); [apply advances_refl|].
  apply adv_send_data, adv_set_cl; try apply advances_refl;
    repeat match goal with |- context [if ?b then _ else _] => destruct b end;
    rewrite ?write_string_bytes, ?write_u16_bytes, ?write_fixed_header_bytes;
    reflexivity.
Qed.

Lemma poll_advances (w : world) : advances w (snd (mqtt_poll_cb w)).
Proof.
  unfold mqtt_poll_cb. cbv zeta. repeat adv_step.
Qed.

Lemma adv_mqtt_close (w x : world) : advances w x -> advances w (snd (mqtt_close x)).
Proof.
  intros H. unfold mqtt_close, gsm_conn_close. cbv zeta. repeat adv_step; exact H.
Qed.

Lemma sent_requests_loop_advances (n : nat) :
  forall w x, pending_count (requests (cl x)) = n ->
  advances w x -> advances w (sent_requests_loop x).
Proof.
  induction n as [n IH] using lt_wf_ind. intros w x Hn H.
  rewrite sent_requests_loop_step. unfold request_get_pending.
  destruct (find_pending (requests (cl x)) 0) as [i|] eqn:Hf; [|exact H].
  destruct (_ <=? _); [|exact H].
  pose proof (pending_count_delete _ _ _ Hf) as Hlt.
  eapply (IH _ (eq_ind _ (fun k => (_ < k)%nat) Hlt _ Hn)); [reflexivity|].
  repeat adv_step. exact H.
Qed.

Lemma data_sent_advances (w : world) (len : Z) (successful : bool) :
  is_sending (cl w) <> 0 -> 0 <= len <= last_send (log w) ->
  advances w (snd (mqtt_data_sent_cb w len successful)).
Proof.
  intros Hs Hlen. unfold mqtt_data_sent_cb. cbv zeta.
  set (w1 := on_cl (set_poll_time 0) _).
  assert (H1 : advances w w1).
  { subst w1. split; [cbn [on_cl set_cl log]; lia|].
    unfold counters_ok, in_flight.
    cbn [on_cl set_cl log cl is_sending sent_total written_total set_poll_time
         set_sent_total set_is_sending].
    apply Z.eqb_neq in Hs. rewrite Hs. cbn [Z.eqb].
    intros (Ha & Hb & Hc) Hd. unfold GSM_U32. rewrite Z.mod_small by lia. lia. }
  clearbody w1.
  destruct (negb successful); cbn [snd].
  - apply adv_mqtt_close. exact H1.
  - apply adv_send_data. eapply sent_requests_loop_advances; [reflexivity|].
    repeat adv_step. exact H1.
Qed.

Lemma handed_quiet_app (l t : list output) :
  Forall (fun o => quiet o = true) l -> handed (l ++ t) = handed t.
Proof.
  induction 1 as [|o l Ho _ IH]; [reflexivity|].
  cbn [app]. destruct o as [e| | | | | |]; try discriminate; cbn [handed]; try exact IH.
  destruct e; try discriminate; exact IH.
Qed.

Lemma closed_counters_ok (w : world) (res : bool) (forced : Z) :
  counters_ok (snd (mqtt_closed_cb w res forced)).
Proof.
  unfold mqtt_closed_cb. cbv zeta. cbn [snd].
  match goal with |- context [closed_requests_loop ?w1] =>
    destruct (closed_requests_loop_log _ w1 eq_refl) as (Hl & Hc);
    set (w2 := closed_requests_loop w1) in *
  end.
  cbn [on_cl set_cl cl log evt_fn emit requests set_conn set_conn_state] in Hl.
  unfold counters_ok, in_flight.
  cbn [on_cl set_cl cl log is_sending sent_total written_total set_tx_buff
       set_parser_state set_is_sending set_sent_total set_written_total set_requests].
  rewrite Hl, handed_quiet_app.
  - cbn. lia.
  - apply Forall_rev, Forall_map, Forall_forall. intros r _.
    unfold err_event. repeat match goal with |- context [if ?b then _ else _] => destruct b end;
      reflexivity.
Qed.

Lemma connect_advances (w : world) (host : option string) (port : Z)
    (inf : option gsm_mqtt_client_info_t) :
  advances w (snd (gsm_mqtt_client_connect w host port inf)).
Proof.
  unfold gsm_mqtt_client_connect, gsm_network_is_attached, gsm_conn_start. cbv zeta.
  destruct host as [host|]; [|apply advances_refl].
  destruct (negb _); [apply advances_refl|].
  destruct inf as [inf|]; [|apply advances_refl].
  repeat adv_step.
Qed.

Lemma disconnect_advances (w : world) : advances w (snd (gsm_mqtt_client_disconnect w)).
Proof.
  unfold gsm_mqtt_client_disconnect.
  destruct (_ && _); [apply adv_mqtt_close|]; apply advances_refl.
Qed.

Lemma create_packet_id_keeps (c : gsm_mqtt_client_t) :
  is_sending (snd (create_packet_id c)) = is_sending c /\
  sent_total (snd (create_packet_id c)) = sent_total c /\
  written_total (snd (create_packet_id c)) = written_total c.
Proof.
  unfold create_packet_id. cbv zeta. cbn [snd].
  destruct (last_packet_id _ =? 0); repeat split.
Qed.

Lemma request_create_keeps (c : gsm_mqtt_client_t) (p a : Z) :
  is_sending (snd (request_create c p a)) = is_sending c /\
  sent_total (snd (request_create c p a)) = sent_total c /\
  written_total (snd (request_create c p a)) = written_total c.
Proof.
  unfold request_create. destruct (find_not_in_use (requests c)); repeat split.
Qed.

Lemma adv_request_set_pending (w x : world) (i : nat) :
  advances w x -> advances w (request_set_pending x i).
Proof.
  intros H. unfold request_set_pending, gsm_sys_now. repeat adv_step. exact H.
Qed.

Lemma sub_unsub_advances (w : world) (topic : string) (qos a sub : Z) :
  advances w (snd (sub_unsub w topic qos a sub)).
Proof.
  unfold sub_unsub. cbv zeta.
  destruct (_ =? 0); [apply advances_refl|].
  destruct (_ && _); [|apply advances_refl].
  destruct (create_packet_id_keeps (cl w)) as (H1 & H2 & H3).
  destruct (create_packet_id (cl w)) as [pkt_id c]. cbn [snd] in *.
  destruct (request_create_keeps c pkt_id a) as (H4 & H5 & H6).
  destruct (request_create c pkt_id a) as [[i|] c']; cbn [snd] in *.
  - apply adv_send_data, adv_request_set_pending.
    repeat adv_step; (apply adv_set_cl; [congruence | congruence | congruence | apply advances_refl]).
  - apply adv_set_cl; try congruence. apply advances_refl.
Qed.

Lemma subscribe_advances (w : world) (topic : string) (qos a : Z) :
  advances w (snd (gsm_mqtt_client_subscribe w topic qos a)).
Proof.
  unfold gsm_mqtt_client_subscribe.
  pose proof (sub_unsub_advances w topic qos a 1) as H.
  destruct (sub_unsub w topic qos a 1). exact H.
Qed.

Lemma unsubscribe_advances (w : world) (topic : string) (a : Z) :
  advances w (snd (gsm_mqtt_client_unsubscribe w topic a)).
Proof.
  unfold gsm_mqtt_client_unsubscribe.
  pose proof (sub_unsub_advances w topic 0 a 0) as H.
  destruct (sub_unsub w topic 0 a 0). exact H.
Qed.

Lemma publish_advances (w : world) (topic : string) (payload : option (list Z))
    (payload_len qos retain a : Z) :
  advances w (snd (gsm_mqtt_client_publish w topic payload payload_len qos retain a)).
Proof.
  unfold gsm_mqtt_client_publish. cbv zeta.
  destruct (_ =? 0); [apply advances_refl|].
  destruct (negb (state_eqb _ _)); [apply advances_refl|].
  destruct (negb (_ =? 0)); [|apply advances_refl].
  assert (Hc : forall pc : Z * gsm_mqtt_client_t,
             pc = (if 0 <? GSM_U8 qos then create_packet_id (cl w) else (0, cl w)) ->
             is_sending (snd pc) = is_sending (cl w) /\
             sent_total (snd pc) = sent_total (cl w) /\
             written_total (snd pc) = written_total (cl w)).
  { intros pc ->. destruct (0 <? GSM_U8 qos); [apply create_packet_id_keeps|repeat split]. }
  specialize (Hc _ eq_refl). destruct Hc as (H1 & H2 & H3).
  destruct (if 0 <? GSM_U8 qos then create_packet_id (cl w) else (0, cl w)) as [pkt_id c].
  cbn [snd] in *.
  destruct (request_create_keeps c pkt_id a) as (H4 & H5 & H6).
  destruct (request_create c pkt_id a) as [[i|] c']; cbn [snd] in *.
  - apply adv_send_data, adv_request_set_pending.
    repeat adv_step; (apply adv_set_cl; [congruence | congruence | congruence | apply advances_refl]).
  - apply adv_set_cl; try congruence. apply advances_refl.
Qed.

(** Every operation but the close callback lets the counters advance. *)
Lemma step_advances (w : world) (o : operation) :
  valid_operation w o -> is_close o = false -> advances w (step w o).
Proof.
  intros Hv Hc. destruct o as [host port inf| |topic qos a|topic a|topic p len qos r a|evt];
    cbn [step].
  - apply connect_advances.
  - apply disconnect_advances.
  - apply subscribe_advances.
  - apply unsubscribe_advances.
  - apply publish_advances.
  - destruct evt as [| |pbuf|len res| |res forced|]; cbn [mqtt_conn_cb snd];
      try discriminate.
    + repeat adv_step.
    + apply connected_advances.
    + apply data_recv_advances.
    + destruct Hv as (Hs & Hl). apply data_sent_advances; assumption.
    + apply poll_advances.
    + apply advances_refl.
Qed.

Lemma step_counters_ok (w : world) (o : operation) :
  counters_ok w -> valid_operation w o -> handed (log (step w o)) < 4294967296 ->
  counters_ok (step w o).
Proof.
  intros Hok Hv Hb. destruct (is_close o) eqn:Hc.
  - destruct o as [| | | | |evt]; try discriminate.
    destruct evt; try discriminate. cbn [step mqtt_conn_cb snd]. apply closed_counters_ok.
  - apply (step_advances w o Hv Hc); assumption.
Qed.

Lemma reachable_counters_ok (w : world) : reachable w -> counters_ok w.
Proof.
  induction 1 as [e n tx rx | w o Hr IH Hv Hb].
  - unfold counters_ok, in_flight. cbn. lia.
  - apply step_counters_ok; assumption.
Qed.

(** ** The claims on acknowledgements, chunking and the length codec *)




(** C4, as the code has it: from a parser between frames, or inside a frame
    it started itself, every split of a stream into chunks dispatches the
    same messages as the stream fed whole, provided no frame is bigger than
    the rx buffer (the stream fed one byte at a time has no frame dropped).
    The CONNACK 20 02 00 00 fed as 20 and then 02 00 00 is dispatched once. *)
Theorem parser_chunking_independent (w : world) (chunks : list (list Z)) :
  parser_ok (parser_view (cl w)) ->
  discards (log (feed_chunks (clear_log w) (map (fun b => [b]) (concat chunks)))) = [] ->
  dispatches (trace (feed_chunks w chunks)) =
    dispatches (trace (feed_chunks w [concat chunks])) /\
  dispatches (trace (feed_chunks (clear_log w_connecting) [[0x20]; [0x02; 0x00; 0x00]])) =
    [(0x20, 2, [0x00; 0x00])].
Proof.
  intros Hok Hnd. split; [apply chunking_dispatches; assumption|].
  vm_compute. reflexivity.
Qed.

Lemma parser_chunking_independent_witness :
  parser_ok (parser_view (cl w_connecting)) /\
  discards (log (feed_chunks (clear_log w_connecting)
                   (map (fun b => [b]) (concat [[0x20]; [0x02; 0x00; 0x00]])))) = [] /\
  dispatches (trace (feed_chunks w_connecting [[0x20]; [0x02; 0x00; 0x00]])) =
    dispatches (trace (feed_chunks w_connecting [concat [[0x20]; [0x02; 0x00; 0x00]]])).
Proof.
  assert (H1 : parser_ok (parser_view (cl w_connecting))).
  { unfold parser_ok. split; [vm_compute; reflexivity|]. split.
    - vm_compute. split; [discriminate|reflexivity].
    - intros _. vm_compute. reflexivity. }
  assert (H2 : discards (log (feed_chunks (clear_log w_connecting)
                 (map (fun b => [b]) (concat [[0x20]; [0x02; 0x00; 0x00]])))) = [])
    by (vm_compute; reflexivity).
  split; [exact H1|]. split; [exact H2|].
  exact (proj1 (parser_chunking_independent w_connecting [[0x20]; [0x02; 0x00; 0x00]] H1 H2)).
Defined.

(** C4 as stated fails: a frame of seven bytes and an rx buffer of four.  Fed
    whole, the frame is dispatched in place; split after its length byte, it
    is dropped. *)
Lemma parser_chunking_counterexample :
  dispatches (trace (feed_chunks w_small_rx
     [[0x30; 0x07]; [0x00; 0x03; 0x61; 0x2F; 0x62; 0x58; 0x59]])) = [] /\
  dispatches (trace (feed_chunks w_small_rx
     [[0x30; 0x07; 0x00; 0x03; 0x61; 0x2F; 0x62; 0x58; 0x59]])) =
    [(0x30, 7, [0x00; 0x03; 0x61; 0x2F; 0x62; 0x58; 0x59])].
Proof. split; vm_compute; reflexivity. Qed.

(** C5, as the code has it: the encoder takes a 16-bit remaining length.
    For every value in 0..65,535 it writes, after the header byte, 1 byte
    for 0..127, 2 bytes for 128..16,383 and 3 bytes above, and the parser
    reads the value back from these bytes. *)
Theorem rem_len_codec_u16 (v : Z) :
  0 <= v <= 65535 ->
  (forall c type dup qos retain,
     write_fixed_header c type dup qos retain v =
     tx_write c (fixed_header_byte type dup qos retain :: rem_len_bytes v)) /\
  zlen (rem_len_bytes v) = (if v <=? 127 then 1 else if v <=? 16383 then 2 else 3) /\
  (forall w h,
     parser_state (cl w) = MQTT_PARSER_STATE_INIT ->
     msg_rem_len (cl (parse_block w (h :: rem_len_bytes v))) = v /\
     msg_hdr_byte (cl (parse_block w (h :: rem_len_bytes v))) = h /\
     parser_state (cl (parse_block w (h :: rem_len_bytes v))) =
       (if v =? 0 then MQTT_PARSER_STATE_INIT else MQTT_PARSER_STATE_READ_REM)).
Proof.
  intros Hv. split; [|split].
  - intros. rewrite write_fixed_header_bytes. unfold GSM_U16.
    rewrite Z.mod_small by lia. reflexivity.
  - destruct (v <=? 127) eqn:E1; [|destruct (v <=? 16383) eqn:E2].
    + apply Z.leb_le in E1. rewrite rem_len_bytes_1 by lia. reflexivity.
    + apply Z.leb_gt in E1. apply Z.leb_le in E2. rewrite rem_len_bytes_2 by lia. reflexivity.
    + apply Z.leb_gt in E1, E2. rewrite rem_len_bytes_3 by lia. reflexivity.
  - intros w h Hs.
    pose proof (parse_block_pure w (h :: rem_len_bytes v)) as Hp.
    rewrite pure_block_acc in Hp. injection Hp as Hp _.
    destruct (decode_rem_len_bytes (parser_view (cl w)) h v Hs Hv) as (H1 & H2 & H3).
    rewrite <- Hp in H1, H2, H3. exact (conj H1 (conj H2 H3)).
Qed.

Lemma rem_len_codec_u16_witness :
  0 <= 300 <= 65535 /\ zlen (rem_len_bytes 300) = 2.
Proof.
  assert (H : 0 <= 300 <= 65535) by lia.
  split; [exact H|]. exact (proj1 (proj2 (rem_len_codec_u16 300 H))).
Defined.

(** C5 as stated fails above 65,535: for 2,097,152 the encoder writes the
    single length byte 00 (not four bytes), which the parser reads as 0. *)
Lemma rem_len_codec_counterexample :
  0 <= 2097152 <= 268435455 /\
  tx_data (write_fixed_header (gsm_mqtt_client_new env_ok 8 64 64)
             MQTT_MSG_TYPE_PUBLISH 0 0 0 2097152)
    = [0x30; 0x00] /\
  msg_rem_len (cl (parse_block (world_new env_ok 8 64 64) [0x30; 0x00])) = 0.
Proof. split; [lia|]. split; vm_compute; reflexivity. Qed.

(** ** The claims on connecting and closing *)

Lemma U16_small (x : Z) : 0 <= x < 65536 -> GSM_U16 x = x.
Proof. intros H. unfold GSM_U16. apply Z.mod_small. exact H. Qed.



(** One turn of the parser, as an equation on [parse_block]. *)
Lemma parse_block_step (w w' : world) (ch k : Z) (rest : list Z) :
  parser_step w ch rest = (w', k) ->
  parse_block w (ch :: rest) = parse_block w' (skipn (Z.to_nat k) rest).
Proof. intros H. rewrite parse_block_equation_2, H. reflexivity. Qed.

Lemma parser_step_init (w : world) (ch : Z) (rest : list Z) :
  parser_state (cl w) = MQTT_PARSER_STATE_INIT ->
  parser_step w ch rest =
  (on_cl (fun c =>
     set_parser_state MQTT_PARSER_STATE_CALC_REM_LEN
       (set_msg_curr_pos 0 (set_msg_rem_len_mult 0 (set_msg_rem_len 0
          (set_msg_hdr_byte ch c))))) w, 0).
Proof. intros H. unfold parser_step. rewrite H. reflexivity. Qed.

(** The last byte of the length field when the frame is whole in the block. *)
Lemma parser_step_in_place (w : world) (ch rem : Z) (rest : list Z) :
  parser_state (cl w) = MQTT_PARSER_STATE_CALC_REM_LEN ->
  Z.land ch 0x80 = 0 ->
  GSM_U32 (Z.lor (msg_rem_len (cl w))
             (shl32 (Z.land ch 0x7F) (7 * msg_rem_len_mult (cl w)))) = rem ->
  0 < rem <= zlen rest ->
  parser_step w ch rest =
  (on_cl (fun c =>
     set_parser_state MQTT_PARSER_STATE_INIT
       (set_rx_buff_len (rx_buff_len (cl w)) (set_rx_buff (rx_buff (cl w)) c)))
     (snd (mqtt_process_incoming_message
        (on_cl (fun c =>
           set_rx_buff_len rem (set_rx_buff rest
             (set_msg_rem_len_mult (GSM_U8 (msg_rem_len_mult c + 1))
                (set_msg_rem_len rem c)))) w))),
   rem).
Proof.
  intros Hs Hch Hrem Hb. subst rem. unfold parser_step. rewrite Hs.
  change (MQTT_PARSER_STATE_CALC_REM_LEN =? MQTT_PARSER_STATE_INIT) with false.
  change (MQTT_PARSER_STATE_CALC_REM_LEN =? MQTT_PARSER_STATE_CALC_REM_LEN) with true.
  cbv iota.
  cbn [on_cl set_cl cl msg_rem_len set_msg_rem_len_mult set_msg_rem_len rx_buff rx_buff_len].
  set (rem := GSM_U32 _) in *.
  rewrite Hch. change (0 =? 0) with true. cbv iota.
  replace (0 <? rem) with true by (symmetry; apply Z.ltb_lt; lia).
  replace (rem <? zlen rest + 1) with true by (symmetry; apply Z.ltb_lt; lia).
  cbv iota.
  apply f_equal2; [reflexivity|].
  match goal with |- context [mqtt_process_incoming_message ?x] =>
    pose proof (f_equal p_rem (process_parser_view x)) as Hv;
    generalize dependent (snd (mqtt_process_incoming_message x)); intros w1 Hv
  end.
  cbn [parser_view p_rem on_cl set_cl cl msg_rem_len set_parser_state set_rx_buff_len
       set_rx_buff set_msg_rem_len_mult set_msg_rem_len] in Hv |- *.
  exact Hv.
Qed.







Lemma closed_cb_effect (w : world) (res : bool) (forced : Z) :
  events (trace (snd (mqtt_closed_cb w res forced))) =
    events (trace w) ++
    GSM_MQTT_EVT_DISCONNECT
      (state_eqb (conn_state (cl w)) GSM_MQTT_CONNECTED
       || state_eqb (conn_state (cl w)) GSM_MQTT_CONN_DISCONNECTING)
    :: map err_event (filter is_pending (requests (cl w))) /\
  conn_state (cl (snd (mqtt_closed_cb w res forced))) = GSM_MQTT_CONN_DISCONNECTED /\
  Forall (fun r => r = request_zero) (requests (cl (snd (mqtt_closed_cb w res forced)))) /\
  sent_total (cl (snd (mqtt_closed_cb w res forced))) = 0 /\
  written_total (cl (snd (mqtt_closed_cb w res forced))) = 0.
Proof.
  unfold mqtt_closed_cb. cbv zeta. cbn [snd].
  match goal with |- context [closed_requests_loop ?w1] =>
    destruct (closed_requests_loop_log _ w1 eq_refl) as (Hl & Hc);
    set (w2 := closed_requests_loop w1) in *
  end.
  cbn [on_cl set_cl cl log evt_fn emit requests set_conn set_conn_state] in Hl, Hc.
  cbn [on_cl set_cl cl log conn_state requests sent_total written_total set_tx_buff
       set_parser_state set_is_sending set_sent_total set_written_total set_requests].
  split; [|split; [|split; [|split; reflexivity]]].
  - unfold trace. cbn [log on_cl set_cl]. rewrite Hl, rev_app_distr, rev_involutive.
    cbn [rev]. rewrite <- (map_map err_event CallEvtFn).
    rewrite !events_app, events_map_evt. cbn [events app].
    rewrite <- app_assoc. reflexivity.
  - rewrite Hc. reflexivity.
  - apply Forall_forall. intros r Hr. apply in_map_iff in Hr as (x & <- & _). reflexivity.
Qed.

(** C3, as the code has it: on CLOSE the engine first gives the event
    DISCONNECT (accepted when the state was CONNECTED or DISCONNECTING), then a
    failure event for every pending request in table order; afterwards the
    state is DISCONNECTED, the request table is zeroed and both counters are
    zero.  With two QoS-1 publishes (ids 1, 2) and a subscribe (id 3) pending
    the events are DISCONNECT{true}, PUBLISH{ERR}, PUBLISH{ERR},
    SUBSCRIBE{ERR}. *)
Theorem close_fanout (w : world) (res : bool) (forced : Z) :
  events (trace (snd (mqtt_closed_cb w res forced))) =
    events (trace w) ++
    GSM_MQTT_EVT_DISCONNECT
      (state_eqb (conn_state (cl w)) GSM_MQTT_CONNECTED
       || state_eqb (conn_state (cl w)) GSM_MQTT_CONN_DISCONNECTING)
    :: map err_event (filter is_pending (requests (cl w))) /\
  conn_state (cl (snd (mqtt_closed_cb w res forced))) = GSM_MQTT_CONN_DISCONNECTED /\
  Forall (fun r => r = request_zero) (requests (cl (snd (mqtt_closed_cb w res forced)))) /\
  map packet_id (filter is_pending (requests (cl w_three_pending))) = [1; 2; 3] /\
  events (trace (snd (mqtt_conn_cb w_three_pending (GSM_EVT_CONN_CLOSE gsmOK 0)))) =
    [GSM_MQTT_EVT_DISCONNECT true; GSM_MQTT_EVT_PUBLISH 11 gsmERR;
     GSM_MQTT_EVT_PUBLISH 12 gsmERR; GSM_MQTT_EVT_SUBSCRIBE 13 gsmERR].
Proof.
  destruct (closed_cb_effect w res forced) as (H1 & H2 & H3 & _).
  split; [exact H1|]. split; [exact H2|]. split; [exact H3|].
  split; vm_compute; reflexivity.
Qed.

(** C3 as stated fails: DISCONNECT is the first event of the close, not the
    last. *)
Lemma close_fanout_counterexample :
  events (trace (snd (mqtt_conn_cb w_three_pending (GSM_EVT_CONN_CLOSE gsmOK 0)))) <>
    [GSM_MQTT_EVT_PUBLISH 11 gsmERR; GSM_MQTT_EVT_PUBLISH 12 gsmERR;
     GSM_MQTT_EVT_SUBSCRIBE 13 gsmERR; GSM_MQTT_EVT_DISCONNECT true].
Proof. vm_compute. discriminate. Qed.

(** ** The claim on packet ids *)

Lemma create_packet_id_closed (c : gsm_mqtt_client_t) :
  0 <= last_packet_id c <= 65535 ->
  fst (create_packet_id c) = last_packet_id c mod 65535 + 1 /\
  last_packet_id (snd (create_packet_id c)) = last_packet_id c mod 65535 + 1.
Proof.
  intros H. unfold create_packet_id. cbv zeta.
  cbn [last_packet_id set_last_packet_id]. unfold GSM_U16.
  destruct (Z.eq_dec (last_packet_id c) 65535) as [E|E].
  - rewrite E. cbn. auto.
  - rewrite (Z.mod_small (last_packet_id c + 1)) by lia.
    rewrite (Z.mod_small (last_packet_id c) 65535) by lia.
    replace (last_packet_id c + 1 =? 0) with false by (symmetry; apply Z.eqb_neq; lia).
    cbn. auto.
Qed.

Lemma packet_id_seq_closed (n : nat) :
  forall c, 0 <= last_packet_id c <= 65535 ->
  packet_id_seq c n = (last_packet_id c + Z.of_nat n) mod 65535 + 1.
Proof.
  induction n as [|n IH]; intros c H.
  - cbn [packet_id_seq]. rewrite Z.add_0_r. apply create_packet_id_closed. exact H.
  - cbn [packet_id_seq].
    destruct (create_packet_id_closed c H) as (_ & Hl).
    pose proof (Z.mod_pos_bound (last_packet_id c) 65535 ltac:(lia)) as Hb.
    rewrite IH by (rewrite Hl; lia). rewrite Hl. f_equal.
    rewrite <- Z.add_assoc, Z.add_mod_idemp_l by lia. f_equal. lia.
Qed.

(** C6, as the code has it: the generator never returns 0, it wraps from
    0xFFFF to 1, and an id does not come back within 65,535 consecutive
    calls.  It does not look at the request table. *)
Theorem packet_id_generator (c : gsm_mqtt_client_t) :
  0 <= last_packet_id c <= 65535 ->
  (forall n, 1 <= packet_id_seq c n <= 65535) /\
  (last_packet_id c = 0xFFFF -> fst (create_packet_id c) = 1) /\
  (forall i j : nat, 0 < Z.of_nat j - Z.of_nat i < 65535 ->
     packet_id_seq c i <> packet_id_seq c j).
Proof.
  intros H. split; [|split].
  - intros n. rewrite packet_id_seq_closed by exact H.
    pose proof (Z.mod_pos_bound (last_packet_id c + Z.of_nat n) 65535 ltac:(lia)). lia.
  - intros E. destruct (create_packet_id_closed c H) as (-> & _). rewrite E. reflexivity.
  - intros i j Hij. rewrite !packet_id_seq_closed by exact H. intros E.
    assert (E' : (last_packet_id c + Z.of_nat i) mod 65535 =
                 (last_packet_id c + Z.of_nat j) mod 65535) by lia.
    clear E. revert E'.
    replace (last_packet_id c + Z.of_nat j)
      with (last_packet_id c + Z.of_nat i + (Z.of_nat j - Z.of_nat i)) by lia.
    set (a := last_packet_id c + Z.of_nat i).
    set (d := Z.of_nat j - Z.of_nat i).
    assert (Hd : 0 < d < 65535) by (subst d; lia).
    clearbody a d. intros E.
    Z.div_mod_to_equations. lia.
Qed.

Lemma packet_id_generator_witness :
  0 <= last_packet_id (cl w_connected) <= 65535 /\
  1 <= packet_id_seq (cl w_connected) 0 <= 65535.
Proof.
  assert (H : 0 <= last_packet_id (cl w_connected) <= 65535)
    by (vm_compute; split; discriminate).
  split; [exact H|]. exact (proj1 (packet_id_generator (cl w_connected) H) O).
Defined.

(** C6 as stated fails: after the run of [w_ids_wrapped] two pending requests
    hold the packet id 1. *)
Lemma packet_id_reuse_counterexample :
  map packet_id (filter is_pending (requests (cl w_ids_wrapped))) = [1; 1; 3; 4; 5; 6; 7; 8] /\
  ~ NoDup (map packet_id (filter is_pending (requests (cl w_ids_wrapped)))).
Proof.
  assert (H : map packet_id (filter is_pending (requests (cl w_ids_wrapped)))
              = [1; 1; 3; 4; 5; 6; 7; 8]) by (vm_compute; reflexivity).
  split; [exact H|]. rewrite H. intros Hn. inversion Hn as [|x l Hx _]. apply Hx. left. reflexivity.
Qed.

(** ** The claims on publish *)

Lemma zlen_rem_len_bytes (r : Z) :
  0 <= r <= 65535 ->
  zlen (rem_len_bytes r) = (if r <=? 127 then 1 else if r <=? 16383 then 2 else 3).
Proof.
  intros H. destruct (r <=? 127) eqn:E1; [|destruct (r <=? 16383) eqn:E2].
  - apply Z.leb_le in E1. rewrite rem_len_bytes_1 by lia. reflexivity.
  - apply Z.leb_gt in E1. apply Z.leb_le in E2. rewrite rem_len_bytes_2 by lia. reflexivity.
  - apply Z.leb_gt in E1, E2. rewrite rem_len_bytes_3 by lia. reflexivity.
Qed.

Lemma count_rem_len_eq (t r : Z) :
  0 <= r <= 65535 -> 0 <= t -> t + 3 < 65536 ->
  count_rem_len t r = t + zlen (rem_len_bytes r).
Proof.
  intros Hr Ht Hb. rewrite zlen_rem_len_bytes by lia.
  rewrite count_rem_len_step, shiftr_7.
  destruct (r <=? 127) eqn:E1.
  { apply Z.leb_le in E1. rewrite Z.div_small by lia. cbn. apply U16_small. lia. }
  apply Z.leb_gt in E1.
  assert (1 <= r / 128 <= 511) by (Z.div_mod_to_equations; lia).
  replace (0 <? r / 128) with true by (symmetry; apply Z.ltb_lt; lia).
  rewrite (U16_small (t + 1)) by lia.
  rewrite count_rem_len_step, shiftr_7, Z.div_div by lia. change (128 * 128) with 16384.
  destruct (r <=? 16383) eqn:E2.
  { apply Z.leb_le in E2. rewrite Z.div_small by lia. cbn. rewrite U16_small by lia. lia. }
  apply Z.leb_gt in E2.
  assert (1 <= r / 16384 <= 3) by (Z.div_mod_to_equations; lia).
  replace (0 <? r / 16384) with true by (symmetry; apply Z.ltb_lt; lia).
  rewrite (U16_small (t + 1 + 1)) by lia.
  rewrite count_rem_len_small by lia. rewrite U16_small by lia. lia.
Qed.

(** Within 16-bit arithmetic the memory check compares the raw size of the
    packet with the free space. *)
Lemma output_check_enough_memory_eq (c : gsm_mqtt_client_t) (r : Z) :
  0 <= r <= 65531 -> 0 <= tx_free c < 65536 ->
  output_check_enough_memory c r = if raw_len r <=? tx_free c then raw_len r else 0.
Proof.
  intros Hr Hf. unfold output_check_enough_memory, raw_len. cbv zeta.
  rewrite (U16_small r) by lia. rewrite (U16_small (r + 1)) by lia.
  rewrite count_rem_len_eq by lia. fold (tx_free c).
  rewrite (U16_small (tx_free c)) by lia. reflexivity.
Qed.

Lemma raw_len_pos (r : Z) : 0 <= r <= 65535 -> 2 <= raw_len r.
Proof.
  intros H. unfold raw_len. rewrite zlen_rem_len_bytes by lia.
  destruct (r <=? 127); [|destruct (r <=? 16383)]; lia.
Qed.

Lemma find_not_in_use_none (l : list gsm_mqtt_request_t) :
  find_not_in_use l = None <->
  forallb (fun r => has_flag (status r) MQTT_REQUEST_FLAG_IN_USE) l = true.
Proof.
  induction l as [|r t IH]; cbn; [tauto|].
  destruct (has_flag (status r) MQTT_REQUEST_FLAG_IN_USE); cbn.
  - destruct (find_not_in_use t); cbn in *; split; intros H; try discriminate.
    + apply IH in H. discriminate.
    + apply IH. reflexivity.
    + reflexivity.
  - split; discriminate.
Qed.

Lemma request_create_none (c : gsm_mqtt_client_t) (p a : Z) :
  fst (request_create c p a) = None <-> find_not_in_use (requests c) = None.
Proof.
  unfold request_create. destruct (find_not_in_use (requests c)); cbn; split; congruence.
Qed.

Lemma U8_bound (x : Z) : 0 <= GSM_U8 x < 256.
Proof. unfold GSM_U8. apply Z.mod_pos_bound. lia. Qed.

Lemma U16_bound (x : Z) : 0 <= GSM_U16 x < 65536.
Proof. unfold GSM_U16. apply Z.mod_pos_bound. lia. Qed.

Lemma create_packet_id_requests (c : gsm_mqtt_client_t) :
  requests (snd (create_packet_id c)) = requests c.
Proof.
  unfold create_packet_id. cbv zeta. cbn [snd].
  destruct (last_packet_id _ =? 0); reflexivity.
Qed.

(** The result of [gsm_mqtt_client_publish] for a topic that is not empty,
    within 16-bit arithmetic. *)
Lemma publish_result (w : world) (topic : string) (payload : option (list Z))
    (payload_len qos retain a : Z) :
  GSM_U16 (strlen topic) <> 0 ->
  publish_rem_len topic payload payload_len qos <= 65531 ->
  0 <= tx_free (cl w) < 65536 ->
  fst (gsm_mqtt_client_publish w topic payload payload_len qos retain a) =
  if negb (state_eqb (conn_state (cl w)) GSM_MQTT_CONNECTED) then gsmCLOSED
  else if raw_len (publish_rem_len topic payload payload_len qos) <=? tx_free (cl w)
       then if table_full (cl w) then gsmERRMEM else gsmOK
       else gsmERRMEM.
Proof.
  intros Ht Hr Hf. unfold gsm_mqtt_client_publish. cbv zeta.
  apply Z.eqb_neq in Ht. rewrite Ht.
  destruct (negb (state_eqb (conn_state (cl w)) GSM_MQTT_CONNECTED)); [reflexivity|].
  pose proof (U16_bound (strlen topic)) as Hb1.
  pose proof (U16_bound payload_len) as Hb2.
  assert (Hrem : (if 0 <? GSM_U8 qos
                  then GSM_U32 (GSM_U32 (2 + GSM_U16 (strlen topic) +
                         match payload with Some _ => GSM_U16 payload_len | None => 0 end) + 2)
                  else GSM_U32 (2 + GSM_U16 (strlen topic) +
                         match payload with Some _ => GSM_U16 payload_len | None => 0 end))
                 = publish_rem_len topic payload payload_len qos).
  { unfold publish_rem_len in *.
    set (pl := match payload with Some _ => GSM_U16 payload_len | None => 0 end) in *.
    assert (Hpl : 0 <= pl < 65536) by (subst pl; destruct payload; lia).
    assert (E1 : GSM_U32 (2 + GSM_U16 (strlen topic) + pl) = 2 + GSM_U16 (strlen topic) + pl)
      by (unfold GSM_U32; apply Z.mod_small; lia).
    rewrite E1.
    destruct (0 <? GSM_U8 qos); [|lia].
    unfold GSM_U32. apply Z.mod_small. lia. }
  rewrite Hrem.
  assert (Hr0 : 0 <= publish_rem_len topic payload payload_len qos).
  { unfold publish_rem_len. destruct (0 <? GSM_U8 qos); destruct payload; lia. }
  rewrite output_check_enough_memory_eq by lia.
  pose proof (raw_len_pos (publish_rem_len topic payload payload_len qos) ltac:(lia)) as Hp.
  destruct (raw_len _ <=? tx_free (cl w)) eqn:E; [|reflexivity].
  replace (negb (raw_len (publish_rem_len topic payload payload_len qos) =? 0)) with true
    by (symmetry; apply negb_true_iff; apply Z.eqb_neq; lia).
  unfold table_full.
  destruct (if 0 <? GSM_U8 qos then create_packet_id (cl w) else (0, cl w)) as [pkt_id c] eqn:Ec.
  assert (Hreq : requests c = requests (cl w)).
  { destruct (0 <? GSM_U8 qos); [|congruence].
    rewrite <- (create_packet_id_requests (cl w)), Ec. reflexivity. }
  pose proof (request_create_none c pkt_id a) as Hn.
  destruct (request_create c pkt_id a) as [[i|] c'] eqn:Erc; cbn [fst] in *.
  - destruct (forallb _ (requests (cl w))) eqn:Ef; [|reflexivity].
    rewrite <- Hreq in Ef. apply find_not_in_use_none in Ef. apply Hn in Ef. discriminate.
  - replace (forallb _ (requests (cl w))) with true; [reflexivity|].
    symmetry. rewrite <- Hreq. apply find_not_in_use_none. apply Hn. reflexivity.
Qed.

Lemma publish_empty_topic (w : world) (topic : string) (payload : option (list Z))
    (payload_len qos retain a : Z) :
  GSM_U16 (strlen topic) = 0 ->
  fst (gsm_mqtt_client_publish w topic payload payload_len qos retain a) = gsmERR.
Proof.
  intros H. unfold gsm_mqtt_client_publish. cbv zeta. rewrite H. reflexivity.
Qed.

(** Within 16-bit sizes a publish that returns [gsmOK] leaves the whole
    packet in the transmit buffer: a number of bytes equal to its raw size
    is appended. *)
Lemma publish_writes_whole_packet (w : world) (topic : string) (payload : option (list Z))
    (payload_len qos retain a : Z) :
  publish_rem_len topic payload payload_len qos <= 65531 ->
  0 <= tx_free (cl w) < 65536 ->
  buff_ok (tx_buff (cl w)) ->
  strlen topic < 65536 ->
  (forall data, payload = Some data -> GSM_U16 payload_len <= zlen data) ->
  fst (gsm_mqtt_client_publish w topic payload payload_len qos retain a) = gsmOK ->
  exists pkt,
    tx_data (cl (snd (gsm_mqtt_client_publish w topic payload payload_len qos retain a))) =
      tx_data (cl w) ++ pkt /\
    zlen pkt = raw_len (publish_rem_len topic payload payload_len qos).
Proof.
  intros Hr Hf Hok Hts Hp.
  unfold gsm_mqtt_client_publish. cbv zeta.
  destruct (GSM_U16 (strlen topic) =? 0) eqn:Ht; [discriminate|].
  destruct (negb (state_eqb (conn_state (cl w)) GSM_MQTT_CONNECTED)); [discriminate|].
  pose proof (U16_bound (strlen topic)) as Hb1.
  pose proof (U16_bound payload_len) as Hb2.
  assert (Hrem : (if 0 <? GSM_U8 qos
                  then GSM_U32 (GSM_U32 (2 + GSM_U16 (strlen topic) +
                         match payload with Some _ => GSM_U16 payload_len | None => 0 end) + 2)
                  else GSM_U32 (2 + GSM_U16 (strlen topic) +
                         match payload with Some _ => GSM_U16 payload_len | None => 0 end))
                 = publish_rem_len topic payload payload_len qos).
  { unfold publish_rem_len in *.
    set (pl := match payload with Some _ => GSM_U16 payload_len | None => 0 end) in *.
    assert (Hpl : 0 <= pl < 65536) by (subst pl; destruct payload; lia).
    assert (E1 : GSM_U32 (2 + GSM_U16 (strlen topic) + pl) = 2 + GSM_U16 (strlen topic) + pl)
      by (unfold GSM_U32; apply Z.mod_small; lia).
    rewrite E1.
    destruct (0 <? GSM_U8 qos); [|lia].
    unfold GSM_U32. apply Z.mod_small. lia. }
  rewrite Hrem.
  assert (Hr0 : 0 <= publish_rem_len topic payload payload_len qos).
  { unfold publish_rem_len. destruct (0 <? GSM_U8 qos); destruct payload; lia. }
  rewrite output_check_enough_memory_eq by lia.
  destruct (raw_len _ <=? tx_free (cl w)) eqn:E; [|discriminate].
  apply Z.leb_le in E.
  destruct (negb (raw_len _ =? 0)); [|discriminate].
  destruct (if 0 <? GSM_U8 qos then create_packet_id (cl w) else (0, cl w)) as [pkt_id c] eqn:Ec.
  assert (Htx : tx_buff c = tx_buff (cl w)).
  { destruct (0 <? GSM_U8 qos); [|congruence].
    replace c with (snd (create_packet_id (cl w))) by (rewrite Ec; reflexivity).
    unfold create_packet_id. cbv zeta. cbn [snd]. destruct (last_packet_id _ =? 0); reflexivity. }
  assert (Htx' : tx_buff (snd (request_create c pkt_id a)) = tx_buff c).
  { unfold request_create. destruct (find_not_in_use (requests c)); reflexivity. }
  destruct (request_create c pkt_id a) as [[i|] c'] eqn:Erc; [|discriminate].
  cbn [snd] in Htx'. intros _. cbn [snd].
  assert (Hq : negb (GSM_U8 qos =? 0) = (0 <? GSM_U8 qos)).
  { pose proof (U8_bound qos). destruct (GSM_U8 qos =? 0) eqn:E0.
    - apply Z.eqb_eq in E0. rewrite E0. reflexivity.
    - apply Z.eqb_neq in E0. symmetry. apply Z.ltb_lt. lia. }
  rewrite Hq.
  set (rem := publish_rem_len topic payload payload_len qos) in *.
  assert (Hraw : raw_len rem = rem + 1 + zlen (rem_len_bytes (GSM_U16 rem)))
    by (rewrite U16_small by lia; reflexivity).
  pose (c0 := set_requests
                (update_request (requests c') i
                   (set_expected_sent_len (GSM_U32 (written_total c' + raw_len rem)))) c').
  assert (Hc0 : on_cl (fun c1 => set_requests
                  (update_request (requests c1) i
                     (set_expected_sent_len (GSM_U32 (written_total c1 + raw_len rem)))) c1)
                  (set_cl c' w) = set_cl c0 w) by reflexivity.
  rewrite Hc0.
  assert (Hfree : tx_free c0 = tx_free (cl w))
    by (unfold tx_free; subst c0; cbn [tx_buff set_requests]; congruence).
  assert (Hdata : tx_data c0 = tx_data (cl w))
    by (unfold tx_data; subst c0; cbn [tx_buff set_requests]; congruence).
  assert (Hok0 : forall l, buff_ok (tx_buff (tx_write c0 l))).
  { intros l. apply buff_ok_write. subst c0. cbn [tx_buff set_requests].
    rewrite Htx', Htx. exact Hok. }
  assert (Hfin : forall pkt, zlen pkt = raw_len rem ->
            exists pkt0,
              tx_data (cl (send_data (request_set_pending (set_cl (tx_write c0 pkt) w) i))) =
                tx_data (cl w) ++ pkt0 /\ zlen pkt0 = raw_len rem).
  { intros pkt Hz. exists pkt. split; [|exact Hz].
    rewrite send_data_tx_data
      by (unfold request_set_pending, gsm_sys_now; cbn [on_cl set_cl cl tick tx_buff set_requests];
          apply Hok0).
    unfold request_set_pending, gsm_sys_now.
    cbn [on_cl set_cl cl tick]. unfold tx_data at 1. cbn [tx_buff set_requests].
    fold (tx_data (tx_write c0 pkt)). rewrite tx_data_write_fits by lia.
    rewrite Hdata. reflexivity. }
  assert (Htop : zlen (firstn (Z.to_nat (GSM_U16 (GSM_U16 (strlen topic)))) (str_bytes topic))
                 = GSM_U16 (strlen topic)).
  { pose proof (zlen_nonneg (str_bytes topic)) as Hn. fold (strlen topic) in Hn.
    rewrite !(U16_small (strlen topic)) by lia.
    unfold strlen, zlen. rewrite length_firstn. lia. }
  assert (Hu16 : forall n, zlen (u16_bytes n) = 2) by reflexivity.
  pose proof (zlen_nonneg (rem_len_bytes (GSM_U16 rem))) as Hrl.
  unfold publish_rem_len in rem.
  destruct payload as [data|];
    [destruct (negb (GSM_U16 payload_len =? 0)) eqn:El|];
    destruct (0 <? GSM_U8 qos);
    unfold on_cl; cbn [set_cl cl];
    rewrite ?write_fixed_header_bytes, ?write_string_bytes, ?write_u16_bytes;
    unfold write_data; rewrite ?tx_write_app;
    apply Hfin; rewrite ?zlen_app; cbn [zlen length] ; fold (@zlen Z);
    rewrite ?Hu16, ?Htop, Hraw;
    change (zlen (?x :: ?l)) with (Z.of_nat (S (length l)));
    rewrite Nat2Z.inj_succ; fold (zlen (rem_len_bytes (GSM_U16 rem)));
    try (apply negb_false_iff, Z.eqb_eq in El);
    try (pose proof (Hp data eq_refl) as Hd;
         assert (Hfd : zlen (firstn (Z.to_nat (GSM_U16 payload_len)) data) = GSM_U16 payload_len)
           by (unfold zlen in *; rewrite length_firstn; lia);
         rewrite Hfd);
    subst rem; lia.
Qed.

(** C7 fails at a publish of 65,535 payload bytes on topic "a": the remaining
    length 65,538 does not fit the 16-bit parameter of the memory check, which
    sees 2 and asks for 4 free bytes instead of 65,542; the call returns
    [gsmOK] with the 256-byte buffer filled by the start of a packet whose
    header announces a remaining length of 2. *)
Theorem publish_leaves_partial_packet :
  publish_rem_len "a" (Some (repeat 0x41 (Z.to_nat 65535))) 65535 0 = 65538 /\
  raw_len 65538 = 65542 /\
  tx_free (cl w_connected) = 256 /\
  output_check_enough_memory (cl w_connected) 65538 = 4 /\
  fst publish_big = gsmOK /\
  tx_data (cl (snd publish_big)) = [0x30; 0x02; 0x00; 0x01; 0x61] ++ repeat 0x41 251.
Proof. vm_compute. repeat split; reflexivity. Qed.

(** C9, as the code has it: a publish on an empty topic returns the generic
    error whatever the state of the client; for a topic that is not empty
    and a packet within 16-bit sizes, the result is CLOSED exactly when the
    client is not connected, OUT-OF-MEMORY exactly when it is connected and
    the transmit buffer is too small for the packet or the request table is
    full, and OK exactly when it is connected and neither holds. *)
Theorem publish_result_taxonomy (w : world) (topic : string) (payload : option (list Z))
    (payload_len qos retain a : Z) :
  publish_rem_len topic payload payload_len qos <= 65531 ->
  0 <= tx_free (cl w) < 65536 ->
  let r := fst (gsm_mqtt_client_publish w topic payload payload_len qos retain a) in
  let connected := state_eqb (conn_state (cl w)) GSM_MQTT_CONNECTED in
  let too_small :=
    tx_free (cl w) <? raw_len (publish_rem_len topic payload payload_len qos) in
  (r = gsmERR <-> GSM_U16 (strlen topic) = 0) /\
  (GSM_U16 (strlen topic) <> 0 ->
   (r = gsmCLOSED <-> connected = false) /\
   (r = gsmERRMEM <-> connected = true /\ (too_small = true \/ table_full (cl w) = true)) /\
   (r = gsmOK <-> connected = true /\ too_small = false /\ table_full (cl w) = false)).
Proof.
  intros Hr Hf r connected too_small.
  destruct (Z.eq_dec (GSM_U16 (strlen topic)) 0) as [E|E].
  - subst r. rewrite publish_empty_topic by exact E. split; [tauto|]. intros H. contradiction.
  - subst r connected too_small. rewrite publish_result by assumption.
    rewrite (Z.ltb_antisym (raw_len _) (tx_free (cl w))).
    destruct (state_eqb (conn_state (cl w)) GSM_MQTT_CONNECTED);
      destruct (raw_len _ <=? tx_free (cl w));
      destruct (table_full (cl w)); cbn; intuition congruence.
Qed.

Lemma publish_result_taxonomy_witness :
  fst (gsm_mqtt_client_publish w_connected "a/b" (Some [0x68; 0x69]) 2 1 0 0) = gsmOK <->
  state_eqb (conn_state (cl w_connected)) GSM_MQTT_CONNECTED = true /\
  (tx_free (cl w_connected) <? raw_len (publish_rem_len "a/b" (Some [0x68; 0x69]) 2 1)) = false /\
  table_full (cl w_connected) = false.
Proof.
  refine (proj2 (proj2 (proj2
    (publish_result_taxonomy w_connected "a/b" (Some [0x68; 0x69]) 2 1 0 0 _ _) _))).
  - vm_compute. discriminate.
  - vm_compute. split; [discriminate | reflexivity].
  - vm_compute. discriminate.
Defined.

(** C9 fails on the empty topic: a connected client with a free table and an
    empty buffer answers with the generic error. *)
Lemma publish_empty_topic_counterexample :
  state_eqb (conn_state (cl w_connected)) GSM_MQTT_CONNECTED = true /\
  table_full (cl w_connected) = false /\
  fst (gsm_mqtt_client_publish w_connected "" None 0 0 0 0) = gsmERR /\
  ~ In (fst (gsm_mqtt_client_publish w_connected "" None 0 0 0 0))
       [gsmOK; gsmCLOSED; gsmERRMEM].
Proof.
  vm_compute. repeat split; try reflexivity.
  intros [H|[H|[H|[]]]]; discriminate.
Qed.

(** ** The claim on the reads of the dispatcher *)

Lemma Forall_offsets (r off len : Z) :
  0 <= off ->
  Forall (fun i => 0 <= i < r) (offsets off len) <-> (len <= 0 \/ off + len <= r).
Proof.
  intros Hoff. unfold offsets. rewrite Forall_forall. split.
  - intros H. destruct (Z_le_gt_dec len 0) as [Hl|Hl]; [left; exact Hl|right].
    specialize (H (off + Z.of_nat (Z.to_nat len - 1))).
    assert (Hin : In (off + Z.of_nat (Z.to_nat len - 1))
                    (map (fun k => off + Z.of_nat k) (seq 0 (Z.to_nat len)))).
    { apply in_map_iff. exists (Z.to_nat len - 1)%nat. split; [reflexivity|].
      apply in_seq. lia. }
    apply H in Hin. lia.
  - intros H i Hi. apply in_map_iff in Hi. destruct Hi as (k & <- & Hk).
    apply in_seq in Hk. lia.
Qed.

(** When the remaining length is in the range of its field, the offsets of
    [rx_reads] lie inside the frame exactly when the remaining length is at
    least [needed_rem_len]. *)
Lemma rx_reads_frame_iff (c : gsm_mqtt_client_t) :
  0 <= msg_rem_len c < 4294967296 ->
  Forall (in_frame c) (flat_map access_offsets (rx_reads c)) <->
  needed_rem_len c <= msg_rem_len c.
Proof.
  intros Hrem. unfold rx_reads, needed_rem_len, required_rem_len, in_frame. cbv zeta.
  pose proof (land_15_bound (Z.shiftr (msg_hdr_byte c) 4)) as Hty.
  pose proof (land_3_bound (Z.shiftr (msg_hdr_byte c) 1)) as Hq.
  pose proof (rx_u16_bound c 0) as Htl.
  unfold MQTT_RCV_GET_PACKET_TYPE, MQTT_RCV_GET_PACKET_QOS.
  set (ty := Z.land (Z.shiftr (msg_hdr_byte c) 4) 15) in *.
  set (qos := Z.land (Z.shiftr (msg_hdr_byte c) 1) 3) in *.
  set (tl := rx_u16 c 0) in *.
  set (rem := msg_rem_len c) in *.
  set (rq := request_get_pending c tl).
  assert (Hty' : ty = 0 \/ ty = 1 \/ ty = 2 \/ ty = 3 \/ ty = 4 \/ ty = 5 \/ ty = 6 \/
                 ty = 7 \/ ty = 8 \/ ty = 9 \/ ty = 10 \/ ty = 11 \/ ty = 12 \/ ty = 13 \/
                 ty = 14 \/ ty = 15) by lia.
  clearbody ty qos tl rem rq.
  repeat (destruct Hty' as [->|Hty']); try subst ty;
    cbn [Z.eqb Pos.eqb orb MQTT_MSG_TYPE_CONNACK MQTT_MSG_TYPE_PUBLISH MQTT_MSG_TYPE_PINGRESP
         MQTT_MSG_TYPE_SUBACK MQTT_MSG_TYPE_UNSUBACK MQTT_MSG_TYPE_PUBREC
         MQTT_MSG_TYPE_PUBREL MQTT_MSG_TYPE_PUBACK MQTT_MSG_TYPE_PUBCOMP];
    cbn [flat_map access_offsets app];
    try (split; [intros _; lia | intros _; constructor]);
    try (split; [intros H; repeat (apply Forall_cons_iff in H; destruct H as [? H]); lia
                | intros H; repeat constructor; lia]).
  - (* PUBLISH *)
    destruct (0 <? qos) eqn:E0; cbn [flat_map access_offsets app]; rewrite ?app_nil_r.
    + assert (Hd : 0 <= (rem - (2 + tl + 2)) mod 65536 < 65536)
        by (apply Z.mod_pos_bound; lia).
      split.
      * intros H. do 4 (apply Forall_cons_iff in H; destruct H as [? H]). lia.
      * intros H.
        pose proof (Z.mod_le (rem - (2 + tl + 2)) 65536 ltac:(lia) ltac:(lia)).
        do 4 (apply Forall_cons; [lia|]).
        apply Forall_app; split; apply Forall_offsets; unfold GSM_U16; lia.
    + assert (Hd : 0 <= (rem - (2 + tl)) mod 65536 < 65536)
        by (apply Z.mod_pos_bound; lia).
      split.
      * intros H. do 2 (apply Forall_cons_iff in H; destruct H as [? H]).
        apply Forall_app in H. destruct H as [Ht _].
        apply Forall_offsets in Ht; lia.
      * intros H.
        pose proof (Z.mod_le (rem - (2 + tl)) 65536 ltac:(lia) ltac:(lia)).
        do 2 (apply Forall_cons; [lia|]).
        apply Forall_app; split; apply Forall_offsets; unfold GSM_U16; lia.
  - (* SUBACK *)
    destruct rq as [i|]; cbn [flat_map access_offsets app];
      (split; [intros H; repeat (apply Forall_cons_iff in H; destruct H as [? H]); lia
              | intros H; repeat constructor; lia]).
  - (* UNSUBACK *)
    destruct rq as [i|]; cbn [flat_map access_offsets app];
      (split; [intros H; repeat (apply Forall_cons_iff in H; destruct H as [? H]); lia
              | intros H; repeat constructor; lia]).
Qed.

(** What the code needs is what the claim asks, but for a SUBACK or UNSUBACK
    that answers no pending request. *)
Lemma needed_required (c : gsm_mqtt_client_t) :
  needed_rem_len c = required_rem_len c \/
  (needed_rem_len c = 2 /\ required_rem_len c = 3 /\
   (MQTT_RCV_GET_PACKET_TYPE (msg_hdr_byte c) = MQTT_MSG_TYPE_SUBACK \/
    MQTT_RCV_GET_PACKET_TYPE (msg_hdr_byte c) = MQTT_MSG_TYPE_UNSUBACK) /\
   request_get_pending c (rx_u16 c 0) = None).
Proof.
  unfold needed_rem_len, required_rem_len. cbv zeta.
  pose proof (land_15_bound (Z.shiftr (msg_hdr_byte c) 4)) as Hty.
  unfold MQTT_RCV_GET_PACKET_TYPE in *.
  set (ty := Z.land (Z.shiftr (msg_hdr_byte c) 4) 15) in *.
  assert (Hty' : ty = 0 \/ ty = 1 \/ ty = 2 \/ ty = 3 \/ ty = 4 \/ ty = 5 \/ ty = 6 \/
                 ty = 7 \/ ty = 8 \/ ty = 9 \/ ty = 10 \/ ty = 11 \/ ty = 12 \/ ty = 13 \/
                 ty = 14 \/ ty = 15) by lia.
  clearbody ty.
  repeat (destruct Hty' as [->|Hty']); try subst ty;
    cbn [Z.eqb Pos.eqb orb MQTT_MSG_TYPE_CONNACK MQTT_MSG_TYPE_PUBLISH MQTT_MSG_TYPE_PINGRESP
         MQTT_MSG_TYPE_SUBACK MQTT_MSG_TYPE_UNSUBACK MQTT_MSG_TYPE_PUBREC
         MQTT_MSG_TYPE_PUBREL MQTT_MSG_TYPE_PUBACK MQTT_MSG_TYPE_PUBCOMP];
    try (left; reflexivity);
    (destruct (request_get_pending c (rx_u16 c 0));
     [left; reflexivity | right; repeat split; auto]).
Qed.

(** C10: the accesses the dispatcher makes to the rx buffer are those of
    [rx_reads], whatever the remaining length of the frame: rx_buff[1] for
    CONNACK, rx_buff[0..1] for the packet id of the six acknowledgements,
    rx_buff[2] for a SUBACK or UNSUBACK once a pending request with that
    packet id is found, and for PUBLISH the topic length, the packet id
    behind the topic when the QoS is not 0, the topic and the payload.  The
    dispatcher looks nowhere else (two runs on buffers that agree at these
    offsets return the same value, make the same calls and leave the same
    client).  For a remaining length in the range of its field the offsets
    all lie inside the frame of [msg_rem_len] bytes exactly when the
    remaining length is at least [needed_rem_len]; the remaining length of
    the claim, [required_rem_len], is enough, and it is the needed one but
    for a SUBACK or UNSUBACK that answers no pending request, which needs 2
    and not 3. *)
Theorem rx_accesses_in_frame (w : world) :
  0 <= msg_rem_len (cl w) < 4294967296 ->
  rx_accesses w = rx_reads (cl w) /\
  (forall w1,
     agree_but_rx w1 w ->
     length (rx_buff (cl w1)) = length (rx_buff (cl w)) ->
     (forall i, In i (rx_offsets w) ->
                byte_at (rx_buff (cl w1)) i = byte_at (rx_buff (cl w)) i) ->
     fst (mqtt_process_incoming_message w1) = fst (mqtt_process_incoming_message w) /\
     agree_but_rx (snd (mqtt_process_incoming_message w1))
                  (snd (mqtt_process_incoming_message w))) /\
  (Forall (in_frame (cl w)) (rx_offsets w) <->
   needed_rem_len (cl w) <= msg_rem_len (cl w)) /\
  (required_rem_len (cl w) <= msg_rem_len (cl w) ->
   Forall (in_frame (cl w)) (rx_offsets w)) /\
  (needed_rem_len (cl w) = required_rem_len (cl w) \/
   (needed_rem_len (cl w) = 2 /\ required_rem_len (cl w) = 3 /\
    (MQTT_RCV_GET_PACKET_TYPE (msg_hdr_byte (cl w)) = MQTT_MSG_TYPE_SUBACK \/
     MQTT_RCV_GET_PACKET_TYPE (msg_hdr_byte (cl w)) = MQTT_MSG_TYPE_UNSUBACK) /\
    request_get_pending (cl w) (rx_u16 (cl w) 0) = None)).
Proof.
  intros Hrem.
  assert (Hiff : Forall (in_frame (cl w)) (rx_offsets w) <->
                 needed_rem_len (cl w) <= msg_rem_len (cl w)).
  { unfold rx_offsets. rewrite rx_accesses_eq. apply rx_reads_frame_iff. exact Hrem. }
  split; [apply rx_accesses_eq|]. split; [|split; [exact Hiff|split]].
  - intros w1. apply process_reads_only.
  - intros H. apply Hiff. destruct (needed_required (cl w)) as [E|(E1 & E2 & _)]; lia.
  - apply needed_required.
Qed.

Lemma rx_accesses_in_frame_witness :
  let w := snd (mqtt_conn_cb w_connected
                 (GSM_EVT_CONN_RECV [[0x34; 0x09; 0x00];
                                     [0x03; 0x61; 0x2F; 0x62; 0x00; 0x07; 0x58; 0x59]])) in
  msg_rem_len (cl w) = 9 /\
  rx_accesses w = rx_reads (cl w) /\
  rx_reads (cl w) =
    [RxRead 0; RxRead 1; RxRead 5; RxRead 6; RxRegion 2 3; RxRegion 7 2] /\
  (Forall (in_frame (cl w)) (rx_offsets w) <->
   needed_rem_len (cl w) <= msg_rem_len (cl w)).
Proof.
  cbv zeta.
  split; [reflexivity|].
  match goal with
  | |- rx_accesses ?w = _ /\ _ =>
      assert (Hrem : 0 <= msg_rem_len (cl w) < 4294967296)
        by (vm_compute; split; [discriminate | reflexivity]);
      pose proof (rx_accesses_in_frame w Hrem) as (H1 & _ & H3 & _)
  end.
  split; [exact H1|]. split; [vm_compute; reflexivity|exact H3].
Defined.

(** C10 as stated fails for an acknowledgement no request waits for: the
    SUBACK [90 02 00 05] reaches a connected client that has no pending
    request.  The dispatcher reads rx_buff[0] and rx_buff[1] and, finding no
    request with packet id 5, nothing else: its reads stay within the frame
    of two bytes although the remaining length is below the 3 the claim
    asks of a SUBACK. *)
Lemma suback_unknown_id_counterexample :
  let w := snd (mqtt_conn_cb w_connected
                 (GSM_EVT_CONN_RECV [[0x90; 0x02; 0x00]; [0x05]])) in
  MQTT_RCV_GET_PACKET_TYPE (msg_hdr_byte (cl w)) = MQTT_MSG_TYPE_SUBACK /\
  msg_rem_len (cl w) = 2 /\
  firstn 2 (rx_buff (cl w)) = [0x00; 0x05] /\
  rx_accesses w = [RxRead 0; RxRead 1] /\
  Forall (in_frame (cl w)) (rx_offsets w) /\
  required_rem_len (cl w) = 3 /\
  ~ required_rem_len (cl w) <= msg_rem_len (cl w).
Proof.
  cbv zeta. repeat split; try (vm_compute; reflexivity).
  - assert (E : forall l, l = [0; 1] -> Forall (fun i => 0 <= i < 2) l)
      by (intros l ->; repeat constructor; lia).
    apply E. vm_compute. reflexivity.
  - vm_compute. intros H. apply H. reflexivity.
Qed.

(** A read outside the frame at work: a CONNACK with remaining length 0 is
    dispatched with an empty frame; the dispatcher still reads rx_buff[1],
    here the byte A6 the allocator left in the rx buffer, and hands it to
    the application as the status of the connection. *)
Lemma connack_without_body :
  let w := snd (mqtt_conn_cb w_connecting (GSM_EVT_CONN_RECV [[0x20; 0x00]])) in
  msg_rem_len (cl w) = 0 /\
  rx_accesses w = [RxRead 1] /\
  events (trace w) = [GSM_MQTT_EVT_CONNECT (CONN_STATUS 0xA6)] /\
  conn_state (cl w) = GSM_MQTT_CONNECTING.
Proof. vm_compute. repeat split; reflexivity. Qed.

(** ** The claim on the byte counters *)

Lemma run_reachable (ops : list operation) :
  forall w, reachable w ->
  (forall n, (n < length ops)%nat ->
     valid_operation (run w (firstn n ops)) (nth n ops OpDisconnect) /\
     handed (log (run w (firstn (S n) ops))) < 4294967296) ->
  reachable (run w ops).
Proof.
  induction ops as [|o ops IH]; intros w Hr H; [exact Hr|].
  cbn [run fold_left]. apply IH.
  - destruct (H O) as (Hv & Hb); [cbn; lia|]. apply reachable_step; assumption.
  - intros n Hn. apply (H (S n)). cbn. lia.
Qed.

Lemma session_reachable : reachable (run (world_new env_ok 8 256 256) session).
Proof.
  apply run_reachable; [apply reachable_new|].
  intros n Hn. cbn [length session] in Hn.
  do 5 (destruct n as [|n]; [vm_compute; repeat split; congruence|]).
  lia.
Qed.

(** C8, as the code has it: in every state reached with a transport that
    reports no more bytes sent than the write in flight had, and fewer than
    2^32 bytes accepted since the last close, [sent_total] is at most
    [written_total]; [written_total] does not decrease across any operation
    other than the close callback; and after the close callback both
    counters are zero. *)
Theorem counters_invariant (w : world) :
  reachable w ->
  sent_total (cl w) <= written_total (cl w) /\
  (forall o, valid_operation w o -> is_close o = false ->
     handed (log (step w o)) < 4294967296 ->
     written_total (cl w) <= written_total (cl (step w o))) /\
  (forall res forced,
     sent_total (cl (step w (OpEvt (GSM_EVT_CONN_CLOSE res forced)))) = 0 /\
     written_total (cl (step w (OpEvt (GSM_EVT_CONN_CLOSE res forced)))) = 0).
Proof.
  intros Hr. pose proof (reachable_counters_ok w Hr) as Hok.
  split; [|split].
  - destruct Hok as (_ & _ & H). unfold in_flight in H.
    pose proof (last_send_nonneg (log w)). destruct (is_sending (cl w) =? 0); lia.
  - intros o Hv Hc Hb.
    destruct (step_advances w o Hv Hc) as (Hle & Hnext).
    destruct (Hnext Hok Hb) as (Hw' & _). destruct Hok as (Hw & _). lia.
  - intros res forced. cbn [step mqtt_conn_cb snd].
    destruct (closed_cb_effect w (gsmr_eqb res gsmOK) forced) as (_ & _ & _ & H1 & H2).
    split; assumption.
Qed.

Lemma counters_invariant_witness :
  sent_total (cl (run (world_new env_ok 8 256 256) session))
    <= written_total (cl (run (world_new env_ok 8 256 256) session)).
Proof.
  refine (proj1 (counters_invariant (run (world_new env_ok 8 256 256) session) _)).
  apply run_reachable; [apply reachable_new|].
  intros n Hn. cbn [length session] in Hn.
  do 5 (destruct n as [|n]; [vm_compute; repeat split; congruence|]).
  lia.
Defined.

(** * Further properties *)

(** ** The header byte and the 16-bit fields *)

Lemma tx_data_write_cons (c : gsm_mqtt_client_t) (b : Z) (l : list Z) :
  1 <= tx_free c ->
  tx_data (tx_write c (b :: l)) =
  tx_data c ++ b :: firstn (Z.to_nat (tx_free c - 1)) l.
Proof.
  intros H. rewrite tx_data_write. f_equal.
  replace (Z.to_nat (tx_free c)) with (S (Z.to_nat (tx_free c - 1))) by lia.
  reflexivity.
Qed.

Lemma fixed_header_byte_fields (type dup qos retain : Z) :
  0 <= type <= 15 -> 0 <= qos <= 3 ->
  MQTT_RCV_GET_PACKET_TYPE (fixed_header_byte type dup qos retain) = type /\
  MQTT_RCV_GET_PACKET_QOS (fixed_header_byte type dup qos retain) = qos /\
  MQTT_RCV_GET_PACKET_DUP (fixed_header_byte type dup qos retain) = bool_norm (GSM_U8 dup) /\
  Z.land (fixed_header_byte type dup qos retain) 1 = bool_norm (GSM_U8 retain).
Proof.
  intros Ht Hq.
  assert (Ht' : type = 0 \/ type = 1 \/ type = 2 \/ type = 3 \/ type = 4 \/ type = 5 \/
                type = 6 \/ type = 7 \/ type = 8 \/ type = 9 \/ type = 10 \/ type = 11 \/
                type = 12 \/ type = 13 \/ type = 14 \/ type = 15) by lia.
  assert (Hq' : qos = 0 \/ qos = 1 \/ qos = 2 \/ qos = 3) by lia.
  unfold fixed_header_byte, bool_norm.
  destruct (GSM_U8 dup =? 0); destruct (GSM_U8 retain =? 0);
    repeat (destruct Hq' as [->|Hq']); try subst qos;
    repeat (destruct Ht' as [->|Ht']); try subst type;
    vm_compute; repeat split; reflexivity.
Qed.

(** X1: the first byte [write_fixed_header] puts into a transmit buffer with
    room for it is read back by the receive macros: the packet type, the QoS
    and the DUP and RETAIN bits it was given, a bit being set when the
    argument, narrowed to the eight bits of its parameter, is not 0. *)
Theorem fixed_header_round_trip (c : gsm_mqtt_client_t) (type dup qos retain rem_len : Z) :
  0 <= type <= 15 -> 0 <= qos <= 3 -> 1 <= tx_free c ->
  exists b rest,
    tx_data (write_fixed_header c type dup qos retain rem_len) = tx_data c ++ b :: rest /\
    MQTT_RCV_GET_PACKET_TYPE b = type /\
    MQTT_RCV_GET_PACKET_QOS b = qos /\
    MQTT_RCV_GET_PACKET_DUP b = bool_norm (GSM_U8 dup) /\
    Z.land b 1 = bool_norm (GSM_U8 retain).
Proof.
  intros Ht Hq Hf. rewrite write_fixed_header_bytes, tx_data_write_cons by exact Hf.
  eexists. eexists. split; [reflexivity|].
  apply fixed_header_byte_fields; assumption.
Qed.

Lemma fixed_header_round_trip_witness :
  exists b rest,
    tx_data (write_fixed_header (cl w_connected) MQTT_MSG_TYPE_PUBLISH 256 1 1 9) =
      tx_data (cl w_connected) ++ b :: rest /\
    MQTT_RCV_GET_PACKET_TYPE b = MQTT_MSG_TYPE_PUBLISH /\
    MQTT_RCV_GET_PACKET_QOS b = 1 /\
    MQTT_RCV_GET_PACKET_DUP b = bool_norm (GSM_U8 256) /\
    Z.land b 1 = bool_norm (GSM_U8 1).
Proof.
  apply (fixed_header_round_trip (cl w_connected) MQTT_MSG_TYPE_PUBLISH 256 1 1 9);
    vm_compute; try split; discriminate.
Defined.

Lemma u16_bytes_read (n : Z) (rest : list Z) (c : gsm_mqtt_client_t) :
  rx_buff c = u16_bytes n ++ rest -> rx_u16 c 0 = GSM_U16 n.
Proof.
  intros H. unfold rx_u16, byte_at. rewrite H. cbn [Z.ltb Z.compare Z.to_nat Z.add nth app u16_bytes].
  change (Pos.to_nat 1) with 1%nat. cbn [nth].
  pose proof (U16_bound n) as Hb. set (m := GSM_U16 n) in *.
  rewrite Z.shiftr_div_pow2 by lia. change (2 ^ 8) with 256.
  change 255 with (Z.ones 8). rewrite Z.land_ones by lia. change (2 ^ 8) with 256.
  assert (0 <= m / 256 < 256) by (Z.div_mod_to_equations; lia).
  pose proof (Z.mod_pos_bound m 256 ltac:(lia)).
  unfold GSM_U8. rewrite !(Z.mod_small (m / 256)) by lia.
  rewrite !(Z.mod_small (m mod 256) 256) by lia.
  rewrite Z.lor_comm, lor_shiftl_add by (change (2 ^ 8) with 256; lia).
  change (2 ^ 8) with 256. unfold GSM_U16 at 1.
  rewrite Z.mod_small by lia. rewrite (Z.div_mod m 256) at 3 by lia. lia.
Qed.

(** X2: the two bytes [write_u16] puts into a transmit buffer with room for
    them, read by the dispatcher as a 16-bit field, give the number written,
    modulo 2^16. *)
Theorem write_u16_round_trip (c c' : gsm_mqtt_client_t) (n : Z) :
  2 <= tx_free c ->
  rx_buff c' = skipn (length (tx_data c)) (tx_data (write_u16 c n)) ->
  rx_u16 c' 0 = GSM_U16 n.
Proof.
  intros Hf Hrx. rewrite write_u16_bytes, tx_data_write_fits in Hrx
    by (change (zlen (u16_bytes n)) with 2; lia).
  rewrite skipn_app, skipn_all, Nat.sub_diag in Hrx. cbn [skipn app] in Hrx.
  apply (u16_bytes_read n []). rewrite app_nil_r. exact Hrx.
Qed.

Lemma write_u16_round_trip_witness :
  rx_u16 (set_rx_buff (skipn (length (tx_data (cl w_connected)))
                         (tx_data (write_u16 (cl w_connected) 0x1234)))
            (cl w_connected)) 0 = GSM_U16 0x1234.
Proof.
  apply (write_u16_round_trip (cl w_connected)); [vm_compute; discriminate | reflexivity].
Defined.

(** ** The request table *)

Lemma find_not_in_use_split (l : list gsm_mqtt_request_t) (i : nat) :
  find_not_in_use l = Some i ->
  exists l1 r l2,
    l = l1 ++ r :: l2 /\ length l1 = i /\ forallb in_use l1 = true /\ in_use r = false.
Proof.
  revert i. induction l as [|r t IH]; intros i H; [discriminate|].
  cbn [find_not_in_use] in H. fold (in_use r) in H.
  destruct (in_use r) eqn:Eu; cbn [negb] in H.
  - destruct (find_not_in_use t) as [j|]; [|discriminate].
    injection H as <-.
    destruct (IH j eq_refl) as (l1 & r' & l2 & -> & Hl & Hf & Hu).
    exists (r :: l1), r', l2. cbn. rewrite Eu, Hl. auto.
  - injection H as <-. exists [], r, t. auto.
Qed.

Lemma find_not_in_use_app (l1 l : list gsm_mqtt_request_t) :
  forallb in_use l1 = true ->
  find_not_in_use (l1 ++ l) = option_map (Nat.add (length l1)) (find_not_in_use l).
Proof.
  induction l1 as [|x l1 IH]; intros H; cbn [app length].
  - destruct (find_not_in_use l); reflexivity.
  - cbn [forallb] in H. apply andb_true_iff in H. destruct H as (Hx & Hl).
    cbn [find_not_in_use]. fold (in_use x). rewrite Hx. cbn [negb].
    rewrite IH by exact Hl. destruct (find_not_in_use l); reflexivity.
Qed.

Lemma find_pending_app (l1 l : list gsm_mqtt_request_t) (p : Z) :
  0 <= p < 65536 ->
  forallb (fun r => negb (pending_with p r)) l1 = true ->
  find_pending (l1 ++ l) p = option_map (Nat.add (length l1)) (find_pending l p).
Proof.
  intros Hp. induction l1 as [|x l1 IH]; intros H; cbn [app length].
  - destruct (find_pending l p); reflexivity.
  - cbn [forallb] in H. apply andb_true_iff in H. destruct H as (Hx & Hl).
    cbn [find_pending]. unfold pending_with, is_pending in Hx.
    replace (p =? -1) with false by (symmetry; apply Z.eqb_neq; lia).
    rewrite U16_small by lia. cbn [orb].
    apply negb_true_iff in Hx. rewrite Hx.
    rewrite IH by exact Hl. destruct (find_pending l p); reflexivity.
Qed.

Lemma find_pending_none (l : list gsm_mqtt_request_t) (p : Z) :
  0 <= p < 65536 ->
  forallb (fun r => negb (pending_with p r)) l = true -> find_pending l p = None.
Proof.
  intros Hp H. rewrite <- (app_nil_r l), find_pending_app by assumption. reflexivity.
Qed.

Lemma not_pending_with (l : list gsm_mqtt_request_t) (p : Z) :
  (forall r, In r l -> is_pending r = true -> packet_id r <> p) ->
  forallb (fun r => negb (pending_with p r)) l = true.
Proof.
  intros H. apply forallb_forall. intros r Hr. unfold pending_with.
  destruct (is_pending r) eqn:Ep; [|reflexivity].
  cbn [andb]. apply negb_true_iff, Z.eqb_neq. auto.
Qed.

(** X3: a request created in the first free slot and set pending is the one
    [request_get_pending] finds under its packet id, as long as no other
    pending request holds that id; it carries the argument it was given;
    once deleted it is found no more, and its slot is the one the next
    [request_create] takes. *)
Theorem request_create_lookup_delete (w : world) (p a : Z) (i : nat) :
  fst (request_create (cl w) p a) = Some i ->
  0 <= p < 65536 ->
  (forall r, In r (requests (cl w)) -> is_pending r = true -> packet_id r <> p) ->
  let w1 := request_set_pending (set_cl (snd (request_create (cl w) p a)) w) i in
  request_get_pending (cl w1) p = Some i /\
  arg (get_request (cl w1) i) = a /\
  request_get_pending (request_delete (cl w1) i) p = None /\
  fst (request_create (request_delete (cl w1) i) p a) = Some i.
Proof.
  intros Hc Hp Hu w1. subst w1.
  unfold request_create in *.
  destruct (find_not_in_use (requests (cl w))) as [j|] eqn:Hf; [|discriminate].
  cbn [fst snd] in *. injection Hc as ->.
  destruct (find_not_in_use_split _ _ Hf) as (l1 & r & l2 & Hl & Hi & Hin & Hr).
  subst i. pose proof (not_pending_with _ _ Hu) as Hn.
  rewrite Hl, forallb_app in Hn. apply andb_true_iff in Hn. destruct Hn as (Hn1 & Hn2).
  cbn [forallb] in Hn2. apply andb_true_iff in Hn2. destruct Hn2 as (_ & Hn2).
  unfold request_set_pending, gsm_sys_now, request_get_pending, request_delete, get_request.
  cbn [on_cl set_cl cl tick requests set_requests].
  rewrite Hl, !update_request_at.
  cbn [set_status status packet_id arg set_timeout_start_time].
  repeat split.
  - rewrite find_pending_app by assumption. cbn [find_pending].
    replace (p =? -1) with false by (symmetry; apply Z.eqb_neq; lia).
    rewrite U16_small by lia.
    cbn [status packet_id set_status set_timeout_start_time]. rewrite Z.eqb_refl.
    change (has_flag (Z.lor MQTT_REQUEST_FLAG_IN_USE MQTT_REQUEST_FLAG_PENDING)
              MQTT_REQUEST_FLAG_PENDING) with true.
    cbn [andb orb option_map]. f_equal. lia.
  - rewrite app_nth2 by lia. rewrite Nat.sub_diag. reflexivity.
  - apply find_pending_none; [exact Hp|].
    rewrite forallb_app, Hn1. cbn [forallb andb]. rewrite Hn2. reflexivity.
  - rewrite find_not_in_use_app by exact Hin. cbn [find_not_in_use status set_status].
    change (has_flag 0 MQTT_REQUEST_FLAG_IN_USE) with false. cbn [negb option_map fst].
    f_equal. lia.
Qed.

Lemma request_create_lookup_delete_witness :
  request_get_pending
    (cl (request_set_pending (set_cl (snd (request_create (cl w_connected) 5 77)) w_connected) 0))
    5 = Some 0%nat.
Proof.
  refine (proj1 (request_create_lookup_delete w_connected 5 77 0 _ _ _)).
  - reflexivity.
  - lia.
  - intros r Hr Hpend. exfalso. revert Hpend.
    vm_compute in Hr.
    repeat (destruct Hr as [<-|Hr]; [vm_compute; discriminate|]). destruct Hr.
Defined.

(** ** Subscribe and unsubscribe *)

Lemma nth_update_request_same (l : list gsm_mqtt_request_t) (i : nat)
    (f : gsm_mqtt_request_t -> gsm_mqtt_request_t) (d : gsm_mqtt_request_t) :
  (i < length l)%nat -> nth i (update_request l i f) d = f (nth i l d).
Proof.
  revert i. induction l as [|r t IH]; intros i H; cbn in H; [lia|].
  destruct i as [|i]; cbn; [reflexivity|]. apply IH. lia.
Qed.

Lemma nth_update_request_other (l : list gsm_mqtt_request_t) (i j : nat)
    (f : gsm_mqtt_request_t -> gsm_mqtt_request_t) (d : gsm_mqtt_request_t) :
  j <> i -> nth j (update_request l i f) d = nth j l d.
Proof.
  revert i j. induction l as [|r t IH]; intros i j H; [destruct i; reflexivity|].
  destruct i as [|i], j as [|j]; cbn; try reflexivity; try congruence.
  apply IH. congruence.
Qed.

Lemma length_update_request (l : list gsm_mqtt_request_t) (i : nat)
    (f : gsm_mqtt_request_t -> gsm_mqtt_request_t) :
  length (update_request l i f) = length l.
Proof.
  revert i. induction l as [|r t IH]; intros i; [destruct i; reflexivity|].
  destruct i; cbn; [reflexivity|]. rewrite IH. reflexivity.
Qed.

Lemma find_not_in_use_lt (l : list gsm_mqtt_request_t) (i : nat) :
  find_not_in_use l = Some i -> (i < length l)%nat.
Proof.
  intros H. destruct (find_not_in_use_split _ _ H) as (l1 & r & l2 & -> & <- & _).
  rewrite length_app. cbn. lia.
Qed.

Lemma send_data_requests (w : world) : requests (cl (send_data w)) = requests (cl w).
Proof. unfold send_data, gsm_conn_send. split_ifs; reflexivity. Qed.

Lemma send_data_requests_get (w : world) (i : nat) :
  get_request (cl (send_data w)) i = get_request (cl w) i.
Proof. unfold get_request. rewrite send_data_requests. reflexivity. Qed.

Lemma send_data_conn_state (w : world) : conn_state (cl (send_data w)) = conn_state (cl w).
Proof. unfold send_data, gsm_conn_send. split_ifs; reflexivity. Qed.

Lemma create_packet_id_tx_buff (c : gsm_mqtt_client_t) :
  tx_buff (snd (create_packet_id c)) = tx_buff c.
Proof.
  unfold create_packet_id. cbv zeta. cbn [snd].
  destruct (last_packet_id _ =? 0); reflexivity.
Qed.

Lemma zlen_topic_bytes (topic : string) :
  strlen topic < 65536 ->
  zlen (firstn (Z.to_nat (GSM_U16 (strlen topic))) (str_bytes topic)) = GSM_U16 (strlen topic).
Proof.
  intros H. pose proof (zlen_nonneg (str_bytes topic)) as Hn. fold (strlen topic) in Hn.
  rewrite (U16_small (strlen topic)) by lia.
  unfold strlen, zlen. rewrite length_firstn. lia.
Qed.

Lemma zlen_cons {A : Type} (x : A) (l : list A) : zlen (x :: l) = 1 + zlen l.
Proof. unfold zlen. cbn [length]. lia. Qed.

Lemma zlen_sub_unsub_packet (topic : string) (qos sub pid : Z) :
  strlen topic <= 65526 ->
  zlen (sub_unsub_packet topic qos sub pid) = raw_len (sub_unsub_rem_len topic sub).
Proof.
  intros H. pose proof (U16_bound (strlen topic)) as Hb.
  pose proof (zlen_nonneg (str_bytes topic)) as Hn. fold (strlen topic) in Hn.
  assert (Hr : 0 <= sub_unsub_rem_len topic sub <= 65531).
  { unfold sub_unsub_rem_len. rewrite (U16_small (strlen topic)) by lia.
    destruct (sub =? 0); lia. }
  unfold sub_unsub_packet, raw_len.
  rewrite (U16_small (sub_unsub_rem_len topic sub)) by lia.
  rewrite zlen_cons, !zlen_app, zlen_topic_bytes by lia.
  change (zlen (u16_bytes pid)) with 2.
  change (zlen (u16_bytes (GSM_U16 (strlen topic)))) with 2.
  unfold sub_unsub_rem_len at 2.
  destruct (sub =? 0); [change (zlen (@nil Z)) with 0 | rewrite zlen_cons; change (zlen (@nil Z)) with 0];
    lia.
Qed.

(** What a successful [sub_unsub] leaves: the packet in the transmit buffer,
    the request in the first free slot. *)
Lemma sub_unsub_done (w : world) (topic : string) (qos a sub : Z) :
  strlen topic <= 65526 ->
  0 <= tx_free (cl w) < 65536 ->
  buff_ok (tx_buff (cl w)) ->
  fst (sub_unsub w topic qos a sub) = 1 ->
  exists i,
    find_not_in_use (requests (cl w)) = Some i /\
    tx_data (cl (snd (sub_unsub w topic qos a sub))) =
      tx_data (cl w) ++ sub_unsub_packet topic qos sub (fst (create_packet_id (cl w))) /\
    status (get_request (cl (snd (sub_unsub w topic qos a sub))) i) =
      Z.lor (Z.lor MQTT_REQUEST_FLAG_IN_USE
               (if sub =? 0 then MQTT_REQUEST_FLAG_UNSUBSCRIBE else MQTT_REQUEST_FLAG_SUBSCRIBE))
            MQTT_REQUEST_FLAG_PENDING /\
    packet_id (get_request (cl (snd (sub_unsub w topic qos a sub))) i) =
      fst (create_packet_id (cl w)) /\
    arg (get_request (cl (snd (sub_unsub w topic qos a sub))) i) = a /\
    (forall j, j <> i ->
       get_request (cl (snd (sub_unsub w topic qos a sub))) j = get_request (cl w) j).
Proof.
  intros Ht Hf Hok.
  pose proof (zlen_sub_unsub_packet topic qos sub (fst (create_packet_id (cl w))) Ht) as Hz.
  pose proof (U16_bound (strlen topic)) as Hb.
  pose proof (zlen_nonneg (str_bytes topic)) as Hn. fold (strlen topic) in Hn.
  assert (Hr : 0 <= sub_unsub_rem_len topic sub <= 65531).
  { unfold sub_unsub_rem_len. rewrite (U16_small (strlen topic)) by lia.
    destruct (sub =? 0); lia. }
  assert (Hrem : (if negb (sub =? 0) then GSM_U32 (GSM_U32 (2 + GSM_U16 (strlen topic) + 2) + 1)
                  else GSM_U32 (2 + GSM_U16 (strlen topic) + 2))
                 = sub_unsub_rem_len topic sub).
  { unfold sub_unsub_rem_len in *. unfold GSM_U32.
    rewrite (Z.mod_small (2 + GSM_U16 (strlen topic) + 2)) by lia.
    destruct (sub =? 0); cbn [negb]; rewrite ?Z.mod_small by lia; lia. }
  unfold sub_unsub. cbv zeta. rewrite Hrem.
  destruct (GSM_U16 (strlen topic) =? 0); [discriminate|].
  rewrite output_check_enough_memory_eq by lia.
  destruct (state_eqb (conn_state (cl w)) GSM_MQTT_CONNECTED); [|discriminate].
  destruct (raw_len _ <=? tx_free (cl w)) eqn:E; cbn [andb negb].
  2: { change (0 =? 0) with true. discriminate. }
  apply Z.leb_le in E.
  pose proof (raw_len_pos (sub_unsub_rem_len topic sub) ltac:(lia)) as Hp.
  replace (raw_len (sub_unsub_rem_len topic sub) =? 0) with false
    by (symmetry; apply Z.eqb_neq; lia).
  cbn [negb].
  pose proof (create_packet_id_tx_buff (cl w)) as Htx.
  pose proof (create_packet_id_requests (cl w)) as Hrq.
  destruct (create_packet_id (cl w)) as [pid c1]. cbn [fst snd] in *.
  unfold request_create. rewrite Hrq.
  destruct (find_not_in_use (requests (cl w))) as [i|] eqn:Hfi; [|discriminate].
  intros _. exists i. split; [reflexivity|].
  pose proof (find_not_in_use_lt _ _ Hfi) as Hlt.
  cbn [snd].
  set (c0 := set_requests (update_request (requests (cl w)) i _) c1).
  match goal with |- context [request_set_pending (on_cl ?f ?X) i] =>
    assert (Hw : X = set_cl (tx_write c0 (sub_unsub_packet topic qos sub pid)) w);
    [|rewrite Hw; clear Hw]
  end.
  { unfold sub_unsub_packet.
    destruct (sub =? 0); cbn [negb]; unfold on_cl; cbn [set_cl cl];
      rewrite ?write_fixed_header_bytes, ?write_string_bytes, ?write_u16_bytes, ?write_u8_bytes,
        ?tx_write_app;
      rewrite <- ?app_assoc; cbn [app]; rewrite ?app_nil_r;
      rewrite (U16_small (GSM_U16 (strlen topic))) by lia; reflexivity. }
  assert (Hfree : tx_free c0 = tx_free (cl w))
    by (unfold tx_free; subst c0; cbn [tx_buff set_requests]; congruence).
  assert (Hdata : tx_data c0 = tx_data (cl w))
    by (unfold tx_data; subst c0; cbn [tx_buff set_requests]; congruence).
  assert (Hok0 : forall l, buff_ok (tx_buff (tx_write c0 l))).
  { intros l. apply buff_ok_write. subst c0. cbn [tx_buff set_requests].
    rewrite Htx. exact Hok. }
  rewrite send_data_requests_get.
  split.
  { rewrite send_data_tx_data
      by (unfold request_set_pending, gsm_sys_now;
          cbn [on_cl set_cl cl tick tx_buff set_requests]; apply Hok0).
    unfold request_set_pending, gsm_sys_now.
    cbn [on_cl set_cl cl tick]. unfold tx_data at 1. cbn [tx_buff set_requests].
    fold (tx_data (tx_write c0 (sub_unsub_packet topic qos sub pid))).
    rewrite tx_data_write_fits by lia. rewrite Hdata. reflexivity. }
  unfold request_set_pending, gsm_sys_now, get_request.
  cbn [on_cl set_cl cl tick requests set_requests tx_write set_tx_buff].
  subst c0. cbn [requests set_requests].
  repeat split.
  - rewrite !nth_update_request_same by (rewrite ?length_update_request; exact Hlt).
    cbn [status set_status set_timeout_start_time].
    destruct (sub =? 0); reflexivity.
  - rewrite !nth_update_request_same by (rewrite ?length_update_request; exact Hlt).
    reflexivity.
  - rewrite !nth_update_request_same by (rewrite ?length_update_request; exact Hlt).
    reflexivity.
  - intros j Hj. rewrite send_data_requests.
    cbn [on_cl set_cl cl tick requests set_requests tx_write set_tx_buff].
    rewrite !nth_update_request_other by exact Hj. reflexivity.
Qed.

Lemma subscribe_unfold (w : world) (topic : string) (qos a : Z) :
  fst (gsm_mqtt_client_subscribe w topic qos a) =
    (if fst (sub_unsub w topic qos a 1) =? 1 then gsmOK else gsmERR) /\
  snd (gsm_mqtt_client_subscribe w topic qos a) = snd (sub_unsub w topic qos a 1).
Proof.
  unfold gsm_mqtt_client_subscribe. destruct (sub_unsub w topic qos a 1). split; reflexivity.
Qed.

Lemma unsubscribe_unfold (w : world) (topic : string) (a : Z) :
  fst (gsm_mqtt_client_unsubscribe w topic a) =
    (if fst (sub_unsub w topic 0 a 0) =? 1 then gsmOK else gsmERR) /\
  snd (gsm_mqtt_client_unsubscribe w topic a) = snd (sub_unsub w topic 0 a 0).
Proof.
  unfold gsm_mqtt_client_unsubscribe. destruct (sub_unsub w topic 0 a 0). split; reflexivity.
Qed.

Lemma firstn_topic (topic : string) :
  strlen topic < 65536 ->
  firstn (Z.to_nat (GSM_U16 (strlen topic))) (str_bytes topic) = str_bytes topic.
Proof.
  intros H. pose proof (zlen_nonneg (str_bytes topic)) as Hn. fold (strlen topic) in Hn.
  rewrite U16_small by lia. apply firstn_all2. unfold strlen, zlen. lia.
Qed.

(** X4: a subscribe that returns [gsmOK] has appended to the transmit buffer
    the SUBSCRIBE packet 82, the remaining length (topic length + 5), the
    packet id just generated, the topic with its two-byte length and the QoS
    byte clamped to 2; and the first free request holds that packet id and
    the argument, with the flags IN_USE, SUBSCRIBE and PENDING, the other
    requests being as before. *)
Theorem subscribe_packet_and_request (w : world) (topic : string) (qos a : Z) :
  strlen topic <= 65526 ->
  0 <= tx_free (cl w) < 65536 ->
  buff_ok (tx_buff (cl w)) ->
  fst (gsm_mqtt_client_subscribe w topic qos a) = gsmOK ->
  exists i,
    find_not_in_use (requests (cl w)) = Some i /\
    tx_data (cl (snd (gsm_mqtt_client_subscribe w topic qos a))) =
      tx_data (cl w) ++
      0x82 :: rem_len_bytes (strlen topic + 5)
      ++ u16_bytes (fst (create_packet_id (cl w)))
      ++ u16_bytes (strlen topic) ++ str_bytes topic
      ++ [GSM_MIN (GSM_U8 qos) 2] /\
    status (get_request (cl (snd (gsm_mqtt_client_subscribe w topic qos a))) i) = 7 /\
    packet_id (get_request (cl (snd (gsm_mqtt_client_subscribe w topic qos a))) i) =
      fst (create_packet_id (cl w)) /\
    arg (get_request (cl (snd (gsm_mqtt_client_subscribe w topic qos a))) i) = a /\
    (forall j, j <> i ->
       get_request (cl (snd (gsm_mqtt_client_subscribe w topic qos a))) j =
       get_request (cl w) j).
Proof.
  intros Ht Hf Hok Hr.
  destruct (subscribe_unfold w topic qos a) as (E1 & E2). rewrite E2. rewrite E1 in Hr.
  destruct (fst (sub_unsub w topic qos a 1) =? 1) eqn:E; [|discriminate].
  apply Z.eqb_eq in E.
  destruct (sub_unsub_done w topic qos a 1 Ht Hf Hok E) as (i & H1 & H2 & H3 & H4 & H5 & H6).
  exists i. split; [exact H1|]. split; [|auto].
  rewrite H2. f_equal. unfold sub_unsub_packet, sub_unsub_rem_len.
  pose proof (zlen_nonneg (str_bytes topic)) as Hn. fold (strlen topic) in Hn.
  rewrite firstn_topic by lia. rewrite !(U16_small (strlen topic)) by lia.
  change (1 =? 0) with false. cbv iota.
  rewrite (U16_small (2 + strlen topic + 2 + 1)) by lia.
  replace (2 + strlen topic + 2 + 1) with (strlen topic + 5) by lia.
  change (fixed_header_byte MQTT_MSG_TYPE_SUBSCRIBE 0 1 0) with 0x82.
  change (GSM_U8 GSM_MQTT_QOS_EXACTLY_ONCE) with 2.
  assert (Hm : GSM_U8 (GSM_MIN (GSM_U8 qos) 2) = GSM_MIN (GSM_U8 qos) 2).
  { pose proof (U8_bound qos). unfold GSM_MIN. destruct (GSM_U8 qos <? 2) eqn:Eq;
      unfold GSM_U8 at 1; apply Z.mod_small; [apply Z.ltb_lt in Eq|]; lia. }
  rewrite Hm. reflexivity.
Qed.

Lemma subscribe_packet_and_request_witness :
  exists i,
    find_not_in_use (requests (cl w_connected)) = Some i /\
    tx_data (cl (snd (gsm_mqtt_client_subscribe w_connected "a/b" 1 13))) =
      tx_data (cl w_connected) ++
      0x82 :: rem_len_bytes (strlen "a/b" + 5)
      ++ u16_bytes (fst (create_packet_id (cl w_connected)))
      ++ u16_bytes (strlen "a/b") ++ str_bytes "a/b"
      ++ [GSM_MIN (GSM_U8 1) 2].
Proof.
  destruct (subscribe_packet_and_request w_connected "a/b" 1 13) as (i & H1 & H2 & _).
  - vm_compute. discriminate.
  - vm_compute. split; [discriminate | reflexivity].
  - vm_compute. repeat split; discriminate.
  - reflexivity.
  - exists i. split; assumption.
Defined.



(** When [sub_unsub] succeeds, within 16-bit sizes. *)
Lemma sub_unsub_ok_iff (w : world) (topic : string) (qos a sub : Z) :
  strlen topic <= 65526 ->
  0 <= tx_free (cl w) < 65536 ->
  fst (sub_unsub w topic qos a sub) = 1 <->
  strlen topic <> 0 /\
  state_eqb (conn_state (cl w)) GSM_MQTT_CONNECTED = true /\
  raw_len (sub_unsub_rem_len topic sub) <= tx_free (cl w) /\
  table_full (cl w) = false.
Proof.
  intros Ht Hf.
  pose proof (U16_bound (strlen topic)) as Hb.
  pose proof (zlen_nonneg (str_bytes topic)) as Hn. fold (strlen topic) in Hn.
  assert (Hr : 0 <= sub_unsub_rem_len topic sub <= 65531).
  { unfold sub_unsub_rem_len. rewrite (U16_small (strlen topic)) by lia.
    destruct (sub =? 0); lia. }
  assert (Hrem : (if negb (sub =? 0) then GSM_U32 (GSM_U32 (2 + GSM_U16 (strlen topic) + 2) + 1)
                  else GSM_U32 (2 + GSM_U16 (strlen topic) + 2))
                 = sub_unsub_rem_len topic sub).
  { unfold sub_unsub_rem_len in *. unfold GSM_U32.
    rewrite (Z.mod_small (2 + GSM_U16 (strlen topic) + 2)) by lia.
    destruct (sub =? 0); cbn [negb]; rewrite ?Z.mod_small by lia; lia. }
  unfold sub_unsub. cbv zeta. rewrite Hrem.
  rewrite (U16_small (strlen topic)) by lia.
  destruct (strlen topic =? 0) eqn:E0.
  { apply Z.eqb_eq in E0. cbn [fst]. split; [discriminate | intros (H & _); contradiction]. }
  apply Z.eqb_neq in E0.
  rewrite output_check_enough_memory_eq by lia.
  pose proof (raw_len_pos (sub_unsub_rem_len topic sub) ltac:(lia)) as Hp.
  destruct (state_eqb (conn_state (cl w)) GSM_MQTT_CONNECTED); cbn [andb].
  2: { cbn [fst]. split; [discriminate | intros (_ & H & _); discriminate]. }
  destruct (raw_len _ <=? tx_free (cl w)) eqn:E.
  2: { apply Z.leb_gt in E. change (0 =? 0) with true. cbn [negb fst].
       split; [discriminate | intros (_ & _ & H & _); lia]. }
  apply Z.leb_le in E.
  replace (raw_len (sub_unsub_rem_len topic sub) =? 0) with false
    by (symmetry; apply Z.eqb_neq; lia).
  cbn [negb].
  pose proof (create_packet_id_requests (cl w)) as Hrq.
  destruct (create_packet_id (cl w)) as [pid c1]. cbn [snd] in Hrq.
  pose proof (request_create_none c1 pid a) as Hnone.
  pose proof (find_not_in_use_none (requests (cl w))) as Hfull. fold (table_full (cl w)) in Hfull.
  rewrite Hrq in Hnone.
  destruct (request_create c1 pid a) as [[i|] c2]; cbn [fst] in *.
  - split; [|reflexivity]. intros _. repeat split; try assumption.
    destruct (table_full (cl w)); [|reflexivity].
    assert (Some i = None) by (apply Hnone, Hfull; reflexivity). discriminate.
  - split; [discriminate|]. intros (_ & _ & _ & H).
    assert (table_full (cl w) = true) by (apply Hfull, Hnone; reflexivity). congruence.
Qed.

(** A [sub_unsub] that does not succeed returns 0 and leaves the log, the
    transmit buffer, the requests and the state as they were. *)
Lemma sub_unsub_failed (w : world) (topic : string) (qos a sub : Z) :
  fst (sub_unsub w topic qos a sub) <> 1 ->
  fst (sub_unsub w topic qos a sub) = 0 /\
  log (snd (sub_unsub w topic qos a sub)) = log w /\
  tx_buff (cl (snd (sub_unsub w topic qos a sub))) = tx_buff (cl w) /\
  requests (cl (snd (sub_unsub w topic qos a sub))) = requests (cl w) /\
  conn_state (cl (snd (sub_unsub w topic qos a sub))) = conn_state (cl w).
Proof.
  unfold sub_unsub. cbv zeta.
  destruct (_ =? 0); [intros _; repeat split|].
  destruct (_ && _); [|intros _; repeat split].
  pose proof (create_packet_id_requests (cl w)) as Hrq.
  pose proof (create_packet_id_tx_buff (cl w)) as Htx.
  assert (Hcs : conn_state (snd (create_packet_id (cl w))) = conn_state (cl w)).
  { unfold create_packet_id. cbv zeta. cbn [snd]. destruct (last_packet_id _ =? 0); reflexivity. }
  destruct (create_packet_id (cl w)) as [pid c1]. cbn [snd] in *.
  unfold request_create.
  destruct (find_not_in_use (requests c1)); cbn [fst snd]; [intros H; contradiction|].
  intros _. cbn [set_cl cl log]. repeat split; assumption.
Qed.

(** X6: within 16-bit sizes [gsm_mqtt_client_subscribe] and
    [gsm_mqtt_client_unsubscribe] return [gsmOK] exactly when the topic is
    not empty, the client is connected, the transmit buffer has room for the
    packet and a request is free; otherwise they return [gsmERR] (never
    CLOSED or OUT-OF-MEMORY) and leave the log, the transmit buffer and the
    requests as they were. *)
Theorem subscribe_unsubscribe_result (w : world) (topic : string) (qos a : Z) :
  strlen topic <= 65526 ->
  0 <= tx_free (cl w) < 65536 ->
  let ok := fun extra : Z =>
    strlen topic <> 0 /\
    state_eqb (conn_state (cl w)) GSM_MQTT_CONNECTED = true /\
    raw_len (strlen topic + extra) <= tx_free (cl w) /\
    table_full (cl w) = false in
  let same := fun w' : world =>
    log w' = log w /\ tx_buff (cl w') = tx_buff (cl w) /\ requests (cl w') = requests (cl w) in
  (fst (gsm_mqtt_client_subscribe w topic qos a) = gsmOK <-> ok 5) /\
  (fst (gsm_mqtt_client_subscribe w topic qos a) <> gsmOK ->
   fst (gsm_mqtt_client_subscribe w topic qos a) = gsmERR /\
   same (snd (gsm_mqtt_client_subscribe w topic qos a))) /\
  (fst (gsm_mqtt_client_unsubscribe w topic a) = gsmOK <-> ok 4) /\
  (fst (gsm_mqtt_client_unsubscribe w topic a) <> gsmOK ->
   fst (gsm_mqtt_client_unsubscribe w topic a) = gsmERR /\
   same (snd (gsm_mqtt_client_unsubscribe w topic a))).
Proof.
  intros Ht Hf ok same. subst ok same. cbv beta.
  pose proof (zlen_nonneg (str_bytes topic)) as Hn. fold (strlen topic) in Hn.
  destruct (subscribe_unfold w topic qos a) as (S1 & S2).
  destruct (unsubscribe_unfold w topic a) as (U1 & U2).
  rewrite S1, S2, U1, U2.
  pose proof (sub_unsub_ok_iff w topic qos a 1 Ht Hf) as I1.
  pose proof (sub_unsub_ok_iff w topic 0 a 0 Ht Hf) as I0.
  unfold sub_unsub_rem_len in I1, I0. rewrite (U16_small (strlen topic)) in I1, I0 by lia.
  change (1 =? 0) with false in I1. change (0 =? 0) with true in I0. cbv iota in I1, I0.
  replace (2 + strlen topic + 2 + 1) with (strlen topic + 5) in I1 by lia.
  replace (2 + strlen topic + 2 + 0) with (strlen topic + 4) in I0 by lia.
  pose proof (sub_unsub_failed w topic qos a 1) as F1.
  pose proof (sub_unsub_failed w topic 0 a 0) as F0.
  split; [|split; [|split]].
  - rewrite <- I1. destruct (fst (sub_unsub w topic qos a 1) =? 1) eqn:E; [apply Z.eqb_eq in E|apply Z.eqb_neq in E];
      cbv iota; split; intros H; first [assumption | reflexivity | discriminate | contradiction].
  - destruct (fst (sub_unsub w topic qos a 1) =? 1) eqn:E; [intros H; contradiction H; reflexivity|].
    apply Z.eqb_neq in E. intros _.
    split; [reflexivity|]. destruct (F1 E) as (_ & H1 & H2 & H3 & _). auto.
  - rewrite <- I0. destruct (fst (sub_unsub w topic 0 a 0) =? 1) eqn:E; [apply Z.eqb_eq in E|apply Z.eqb_neq in E];
      cbv iota; split; intros H; first [assumption | reflexivity | discriminate | contradiction].
  - destruct (fst (sub_unsub w topic 0 a 0) =? 1) eqn:E; [intros H; contradiction H; reflexivity|].
    apply Z.eqb_neq in E. intros _.
    split; [reflexivity|]. destruct (F0 E) as (_ & H1 & H2 & H3 & _). auto.
Qed.

Lemma subscribe_unsubscribe_result_witness :
  fst (gsm_mqtt_client_subscribe w_tcp_connecting "a/b" 1 13) = gsmERR /\
  (log (snd (gsm_mqtt_client_subscribe w_tcp_connecting "a/b" 1 13)) = log w_tcp_connecting /\
   tx_buff (cl (snd (gsm_mqtt_client_subscribe w_tcp_connecting "a/b" 1 13))) =
     tx_buff (cl w_tcp_connecting) /\
   requests (cl (snd (gsm_mqtt_client_subscribe w_tcp_connecting "a/b" 1 13))) =
     requests (cl w_tcp_connecting)).
Proof.
  refine (proj1 (proj2 (subscribe_unsubscribe_result w_tcp_connecting "a/b" 1 13 _ _)) _).
  - vm_compute. discriminate.
  - vm_compute. split; [discriminate | reflexivity].
  - vm_compute. discriminate.
Defined.

(** ** Publish *)

Lemma qos_positive (qos : Z) : negb (GSM_U8 qos =? 0) = (0 <? GSM_U8 qos).
Proof.
  pose proof (U8_bound qos). destruct (GSM_U8 qos =? 0) eqn:E0.
  - apply Z.eqb_eq in E0. rewrite E0. reflexivity.
  - apply Z.eqb_neq in E0. symmetry. apply Z.ltb_lt. lia.
Qed.

Lemma publish_rem_len_u32 (topic : string) (payload : option (list Z)) (payload_len qos : Z) :
  (if 0 <? GSM_U8 qos
   then GSM_U32 (GSM_U32 (2 + GSM_U16 (strlen topic) +
          match payload with Some _ => GSM_U16 payload_len | None => 0 end) + 2)
   else GSM_U32 (2 + GSM_U16 (strlen topic) +
          match payload with Some _ => GSM_U16 payload_len | None => 0 end))
  = publish_rem_len topic payload payload_len qos.
Proof.
  pose proof (U16_bound (strlen topic)) as Hb1.
  pose proof (U16_bound payload_len) as Hb2.
  unfold publish_rem_len.
  set (pl := match payload with Some _ => GSM_U16 payload_len | None => 0 end).
  assert (Hpl : 0 <= pl < 65536) by (subst pl; destruct payload; lia).
  assert (E1 : GSM_U32 (2 + GSM_U16 (strlen topic) + pl) = 2 + GSM_U16 (strlen topic) + pl)
    by (unfold GSM_U32; apply Z.mod_small; lia).
  rewrite E1.
  destruct (0 <? GSM_U8 qos); [|lia].
  unfold GSM_U32. apply Z.mod_small. lia.
Qed.

Lemma publish_rem_len_nonneg (topic : string) (payload : option (list Z)) (payload_len qos : Z) :
  2 <= publish_rem_len topic payload payload_len qos.
Proof.
  pose proof (U16_bound (strlen topic)) as Hb1.
  pose proof (U16_bound payload_len) as Hb2.
  unfold publish_rem_len. destruct (0 <? GSM_U8 qos); destruct payload; lia.
Qed.

Lemma zlen_publish_packet (topic : string) (payload : option (list Z))
    (payload_len qos retain pid : Z) :
  publish_rem_len topic payload payload_len qos <= 65531 ->
  strlen topic < 65536 ->
  (forall data, payload = Some data -> GSM_U16 payload_len <= zlen data) ->
  zlen (publish_packet topic payload payload_len qos retain pid) =
  raw_len (publish_rem_len topic payload payload_len qos).
Proof.
  intros Hr Ht Hp.
  pose proof (publish_rem_len_nonneg topic payload payload_len qos) as Hr0.
  pose proof (U16_bound payload_len) as Hb2.
  unfold publish_packet, raw_len.
  rewrite (U16_small (publish_rem_len topic payload payload_len qos)) by lia.
  rewrite zlen_cons, !zlen_app, zlen_topic_bytes by lia.
  change (zlen (u16_bytes (GSM_U16 (strlen topic)))) with 2.
  unfold publish_rem_len at 2.
  assert (Hd : zlen match payload with
                    | Some data => firstn (Z.to_nat (GSM_U16 payload_len)) data
                    | None => []
                    end
               = match payload with Some _ => GSM_U16 payload_len | None => 0 end).
  { destruct payload as [data|]; [|reflexivity].
    pose proof (Hp data eq_refl). unfold zlen in *. rewrite length_firstn. lia. }
  rewrite Hd.
  destruct (0 <? GSM_U8 qos);
    [change (zlen (u16_bytes pid)) with 2 | change (zlen (@nil Z)) with 0]; lia.
Qed.

(** What a successful publish leaves: the packet in the transmit buffer and
    the request in the first free slot. *)
Lemma publish_done (w : world) (topic : string) (payload : option (list Z))
    (payload_len qos retain a : Z) :
  publish_rem_len topic payload payload_len qos <= 65531 ->
  0 <= tx_free (cl w) < 65536 ->
  buff_ok (tx_buff (cl w)) ->
  strlen topic < 65536 ->
  (forall data, payload = Some data -> GSM_U16 payload_len <= zlen data) ->
  fst (gsm_mqtt_client_publish w topic payload payload_len qos retain a) = gsmOK ->
  exists i,
    find_not_in_use (requests (cl w)) = Some i /\
    let w' := snd (gsm_mqtt_client_publish w topic payload payload_len qos retain a) in
    let pid := if 0 <? GSM_U8 qos then fst (create_packet_id (cl w)) else 0 in
    tx_data (cl w') =
      tx_data (cl w) ++ publish_packet topic payload payload_len qos retain pid /\
    status (get_request (cl w') i) =
      Z.lor MQTT_REQUEST_FLAG_IN_USE MQTT_REQUEST_FLAG_PENDING /\
    packet_id (get_request (cl w') i) = pid /\
    arg (get_request (cl w') i) = a /\
    expected_sent_len (get_request (cl w') i) =
      GSM_U32 (written_total (cl w) +
               raw_len (publish_rem_len topic payload payload_len qos)) /\
    (forall j, j <> i -> get_request (cl w') j = get_request (cl w) j).
Proof.
  intros Hr Hf Hok Hts Hp.
  pose proof (publish_rem_len_nonneg topic payload payload_len qos) as Hr0.
  unfold gsm_mqtt_client_publish. cbv zeta.
  destruct (GSM_U16 (strlen topic) =? 0) eqn:Ht; [discriminate|].
  destruct (negb (state_eqb (conn_state (cl w)) GSM_MQTT_CONNECTED)); [discriminate|].
  rewrite publish_rem_len_u32.
  rewrite output_check_enough_memory_eq by lia.
  destruct (raw_len _ <=? tx_free (cl w)) eqn:E; [|discriminate].
  apply Z.leb_le in E.
  destruct (negb (raw_len _ =? 0)); [|discriminate].
  rewrite qos_positive.
  set (pid := if 0 <? GSM_U8 qos then fst (create_packet_id (cl w)) else 0).
  pose proof (zlen_publish_packet topic payload payload_len qos retain pid Hr Hts Hp) as Hz.
  assert (Hc : exists c,
             (if 0 <? GSM_U8 qos then create_packet_id (cl w) else (0, cl w)) = (pid, c) /\
             tx_buff c = tx_buff (cl w) /\ requests c = requests (cl w) /\
             written_total c = written_total (cl w)).
  { subst pid. destruct (0 <? GSM_U8 qos).
    - exists (snd (create_packet_id (cl w))). split; [destruct (create_packet_id (cl w)); reflexivity|].
      split; [apply create_packet_id_tx_buff|]. split; [apply create_packet_id_requests|].
      apply create_packet_id_keeps.
    - exists (cl w). repeat split. }
  destruct Hc as (c & Ec & Htx & Hrq & Hwt). rewrite Ec.
  unfold request_create. rewrite Hrq.
  destruct (find_not_in_use (requests (cl w))) as [i|] eqn:Hfi; [|discriminate].
  intros _. exists i. split; [reflexivity|].
  pose proof (find_not_in_use_lt _ _ Hfi) as Hlt.
  cbv zeta. cbn [snd].
  set (rem := publish_rem_len topic payload payload_len qos) in *.
  pose (c1 := set_requests
                (update_request (requests (cl w)) i
                   (fun r => {| status := MQTT_REQUEST_FLAG_IN_USE; packet_id := pid;
                                arg := a; expected_sent_len := expected_sent_len r;
                                timeout_start_time := timeout_start_time r |})) c).
  pose (c0 := set_requests
                (update_request (requests c1) i
                   (set_expected_sent_len (GSM_U32 (written_total c1 + raw_len rem)))) c1).
  assert (Htx0 : tx_buff c0 = tx_buff (cl w)) by exact Htx.
  assert (Hrq0 : requests c0 =
                 update_request
                   (update_request (requests (cl w)) i
                      (fun r => {| status := MQTT_REQUEST_FLAG_IN_USE; packet_id := pid;
                                   arg := a; expected_sent_len := expected_sent_len r;
                                   timeout_start_time := timeout_start_time r |}))
                   i (set_expected_sent_len (GSM_U32 (written_total (cl w) + raw_len rem))))
    by (subst c0 c1; cbn [requests set_requests written_total]; rewrite Hwt; reflexivity).
  match goal with |- context [request_set_pending ?X i] =>
    assert (Hw : X = set_cl (tx_write c0
                       (publish_packet topic payload payload_len qos retain pid)) w)
  end.
  { unfold publish_packet. fold rem. clear Hz.
    destruct payload as [data|];
      [destruct (negb (GSM_U16 payload_len =? 0)) eqn:El|];
      destruct (0 <? GSM_U8 qos);
      unfold on_cl; cbn [set_cl cl];
      rewrite ?write_fixed_header_bytes, ?write_string_bytes, ?write_u16_bytes;
      unfold write_data; rewrite ?tx_write_app;
      rewrite <- ?app_assoc; cbn [app]; rewrite ?app_nil_r;
      rewrite (U16_small (GSM_U16 (strlen topic))) by apply U16_bound;
      try (apply negb_false_iff, Z.eqb_eq in El; rewrite El;
           change (Z.to_nat 0) with O; cbn [firstn]; rewrite ?app_nil_r);
      reflexivity. }
  rewrite Hw. clear Hw. clearbody c0.
  assert (Hfree : tx_free c0 = tx_free (cl w)) by (unfold tx_free; congruence).
  assert (Hdata : tx_data c0 = tx_data (cl w)) by (unfold tx_data; congruence).
  assert (Hok0 : forall l, buff_ok (tx_buff (tx_write c0 l))).
  { intros l. apply buff_ok_write. rewrite Htx0. exact Hok. }
  rewrite send_data_requests_get.
  split.
  { rewrite send_data_tx_data
      by (unfold request_set_pending, gsm_sys_now;
          cbn [on_cl set_cl cl tick tx_buff set_requests]; apply Hok0).
    unfold request_set_pending, gsm_sys_now.
    cbn [on_cl set_cl cl tick]. unfold tx_data at 1. cbn [tx_buff set_requests].
    fold (tx_data (tx_write c0 (publish_packet topic payload payload_len qos retain pid))).
    rewrite tx_data_write_fits by lia. rewrite Hdata. reflexivity. }
  unfold request_set_pending, gsm_sys_now, get_request.
  cbn [on_cl set_cl cl tick requests set_requests tx_write set_tx_buff].
  rewrite Hrq0.
  repeat split.
  - rewrite !nth_update_request_same by (rewrite ?length_update_request; exact Hlt).
    reflexivity.
  - rewrite !nth_update_request_same by (rewrite ?length_update_request; exact Hlt).
    reflexivity.
  - rewrite !nth_update_request_same by (rewrite ?length_update_request; exact Hlt).
    reflexivity.
  - rewrite !nth_update_request_same by (rewrite ?length_update_request; exact Hlt).
    reflexivity.
  - intros j Hj. rewrite send_data_requests.
    cbn [on_cl set_cl cl tick requests set_requests tx_write set_tx_buff].
    rewrite Hrq0. rewrite !nth_update_request_other by exact Hj. reflexivity.
Qed.

(** X7: within 16-bit sizes, a publish that returns [gsmOK] has appended to
    the transmit buffer the header byte (type PUBLISH, the QoS clamped to 2,
    the retain bit), the remaining length, the topic with its two-byte
    length, the packet id when the QoS is not 0 and the payload; and the
    first free request holds the packet id (0 for QoS 0), the argument, the
    flags IN_USE and PENDING and, as [expected_sent_len], [written_total]
    plus the raw size of the packet. *)
Theorem publish_packet_and_request (w : world) (topic : string) (payload : option (list Z))
    (payload_len qos retain a : Z) :
  publish_rem_len topic payload payload_len qos <= 65531 ->
  0 <= tx_free (cl w) < 65536 ->
  buff_ok (tx_buff (cl w)) ->
  strlen topic < 65536 ->
  (forall data, payload = Some data -> GSM_U16 payload_len <= zlen data) ->
  fst (gsm_mqtt_client_publish w topic payload payload_len qos retain a) = gsmOK ->
  exists i,
    find_not_in_use (requests (cl w)) = Some i /\
    let w' := snd (gsm_mqtt_client_publish w topic payload payload_len qos retain a) in
    let pid := if 0 <? GSM_U8 qos then fst (create_packet_id (cl w)) else 0 in
    tx_data (cl w') =
      tx_data (cl w) ++
      fixed_header_byte MQTT_MSG_TYPE_PUBLISH 0 (GSM_MIN (GSM_U8 qos) 2) (GSM_U8 retain)
      :: rem_len_bytes (publish_rem_len topic payload payload_len qos)
      ++ u16_bytes (strlen topic) ++ str_bytes topic
      ++ (if 0 <? GSM_U8 qos then u16_bytes pid else [])
      ++ match payload with
         | Some data => firstn (Z.to_nat (GSM_U16 payload_len)) data
         | None => []
         end /\
    status (get_request (cl w') i) = 3 /\
    packet_id (get_request (cl w') i) = pid /\
    arg (get_request (cl w') i) = a /\
    expected_sent_len (get_request (cl w') i) =
      GSM_U32 (written_total (cl w) +
               raw_len (publish_rem_len topic payload payload_len qos)).
Proof.
  intros Hr Hf Hok Hts Hp Hres.
  destruct (publish_done w topic payload payload_len qos retain a Hr Hf Hok Hts Hp Hres)
    as (i & H1 & H2 & H3 & H4 & H5 & H6 & _).
  exists i. split; [exact H1|]. cbv zeta. split; [|auto].
  rewrite H2. unfold publish_packet.
  pose proof (publish_rem_len_nonneg topic payload payload_len qos) as Hr0.
  pose proof (zlen_nonneg (str_bytes topic)) as Hn. fold (strlen topic) in Hn.
  rewrite firstn_topic by lia. rewrite (U16_small (strlen topic)) by lia.
  rewrite (U16_small (publish_rem_len topic payload payload_len qos)) by lia.
  reflexivity.
Qed.

Lemma publish_packet_and_request_witness :
  exists i,
    find_not_in_use (requests (cl w_connected)) = Some i /\
    status (get_request
              (cl (snd (gsm_mqtt_client_publish w_connected "a/b" (Some [0x68; 0x69]) 2 1 0 11)))
              i) = 3.
Proof.
  destruct (publish_packet_and_request w_connected "a/b" (Some [0x68; 0x69]) 2 1 0 11)
    as (i & H1 & _ & H3 & _).
  - vm_compute. discriminate.
  - vm_compute. split; [discriminate | reflexivity].
  - vm_compute. repeat split; discriminate.
  - vm_compute. reflexivity.
  - intros data Hd. injection Hd as <-. vm_compute. discriminate.
  - reflexivity.
  - exists i. split; assumption.
Defined.

(** X8: a publish that does not return [gsmOK] returns the generic error,
    CLOSED or OUT-OF-MEMORY and leaves the log (no call to the transport, no
    event), the transmit buffer, the requests and the connection state as
    they were; only the packet-id counter may have advanced. *)
Theorem publish_failed (w : world) (topic : string) (payload : option (list Z))
    (payload_len qos retain a : Z) :
  fst (gsm_mqtt_client_publish w topic payload payload_len qos retain a) <> gsmOK ->
  In (fst (gsm_mqtt_client_publish w topic payload payload_len qos retain a))
     [gsmERR; gsmCLOSED; gsmERRMEM] /\
  snd (gsm_mqtt_client_publish w topic payload payload_len qos retain a) =
    on_cl (set_last_packet_id
             (last_packet_id
                (cl (snd (gsm_mqtt_client_publish w topic payload payload_len qos retain a)))))
          w.
Proof.
  unfold gsm_mqtt_client_publish. cbv zeta.
  assert (Hsame : w = on_cl (set_last_packet_id (last_packet_id (cl w))) w)
    by (destruct w as [c l e k]; destruct c; reflexivity).
  destruct (_ =? 0); [intros _; split; [cbn; auto | exact Hsame]|].
  destruct (negb (state_eqb _ _)); [intros _; split; [cbn; auto | exact Hsame]|].
  destruct (negb (_ =? 0)); [|intros _; split; [cbn; auto | exact Hsame]].
  assert (Hc : forall pc : Z * gsm_mqtt_client_t,
             pc = (if 0 <? GSM_U8 qos then create_packet_id (cl w) else (0, cl w)) ->
             snd pc = set_last_packet_id (last_packet_id (snd pc)) (cl w)).
  { intros pc ->. destruct (0 <? GSM_U8 qos); cbn [snd].
    - unfold create_packet_id. cbv zeta. cbn [snd].
      destruct (last_packet_id _ =? 0); destruct (cl w); reflexivity.
    - destruct (cl w); reflexivity. }
  specialize (Hc _ eq_refl).
  destruct (if 0 <? GSM_U8 qos then create_packet_id (cl w) else (0, cl w)) as [pid c].
  cbn [snd] in Hc. unfold request_create.
  destruct (find_not_in_use (requests c)); cbn [fst snd]; [intros H; contradiction|].
  intros _. split; [cbn; auto|].
  cbn [set_cl cl on_cl]. rewrite Hc at 1. reflexivity.
Qed.

Lemma publish_failed_witness :
  snd (gsm_mqtt_client_publish w_tcp_connecting "a/b" (Some [0x68; 0x69]) 2 1 0 11) =
    on_cl (set_last_packet_id
             (last_packet_id
                (cl (snd (gsm_mqtt_client_publish w_tcp_connecting "a/b"
                            (Some [0x68; 0x69]) 2 1 0 11)))))
          w_tcp_connecting.
Proof.
  refine (proj2 (publish_failed w_tcp_connecting "a/b" (Some [0x68; 0x69]) 2 1 0 11 _)).
  vm_compute. discriminate.
Defined.

(** ** A frame in one block *)

Lemma acc_first (b : Z) :
  0 <= b < 256 -> GSM_U32 (Z.lor 0 (shl32 (Z.land b 127) (7 * 0))) = b mod 128.
Proof.
  intros H. shl_small. change (7 * 0) with 0. rewrite Z.shiftl_0_r, Z.lor_0_l, land_127.
  pose proof (Z.mod_pos_bound b 128 ltac:(lia)). unfold GSM_U32. apply Z.mod_small. lia.
Qed.

Lemma acc_second (a b : Z) :
  0 <= a < 128 -> 0 <= b < 256 ->
  GSM_U32 (Z.lor a (shl32 (Z.land b 127) (7 * 1))) = a + 128 * (b mod 128).
Proof.
  intros Ha Hb. shl_small. change (7 * 1) with 7. rewrite land_127.
  pose proof (Z.mod_pos_bound b 128 ltac:(lia)).
  rewrite lor_shiftl_add by (change (2 ^ 7) with 128; lia). change (2 ^ 7) with 128.
  unfold GSM_U32. rewrite Z.mod_small by lia. lia.
Qed.

Lemma acc_third (a b : Z) :
  0 <= a < 16384 -> 0 <= b < 256 ->
  GSM_U32 (Z.lor a (shl32 (Z.land b 127) (7 * 2))) = a + 16384 * (b mod 128).
Proof.
  intros Ha Hb. shl_small. change (7 * 2) with 14. rewrite land_127.
  pose proof (Z.mod_pos_bound b 128 ltac:(lia)).
  rewrite lor_shiftl_add by (change (2 ^ 14) with 16384; lia). change (2 ^ 14) with 16384.
  unfold GSM_U32. rewrite Z.mod_small by lia. lia.
Qed.

(** A byte of the length field that announces a further one. *)
Lemma parser_step_more (w : world) (ch : Z) (rest : list Z) :
  parser_state (cl w) = MQTT_PARSER_STATE_CALC_REM_LEN ->
  Z.land ch 0x80 <> 0 ->
  parser_step w ch rest =
  (on_cl (fun c =>
     set_msg_rem_len_mult (GSM_U8 (msg_rem_len_mult c + 1))
       (set_msg_rem_len
          (GSM_U32 (Z.lor (msg_rem_len c)
                      (shl32 (Z.land ch 0x7F) (7 * msg_rem_len_mult c)))) c)) w, 0).
Proof.
  intros Hs Hch. unfold parser_step. rewrite Hs.
  change (MQTT_PARSER_STATE_CALC_REM_LEN =? MQTT_PARSER_STATE_INIT) with false.
  change (MQTT_PARSER_STATE_CALC_REM_LEN =? MQTT_PARSER_STATE_CALC_REM_LEN) with true.
  cbv iota zeta. apply Z.eqb_neq in Hch. rewrite Hch. reflexivity.
Qed.

(** The in-place step in terms of [frame_dispatch]. *)
Lemma parser_step_frame (w0 w : world) (ch h rem mult : Z) (rest : list Z) :
  parser_state (cl w) = MQTT_PARSER_STATE_CALC_REM_LEN ->
  Z.land ch 0x80 = 0 ->
  GSM_U32 (Z.lor (msg_rem_len (cl w))
             (shl32 (Z.land ch 0x7F) (7 * msg_rem_len_mult (cl w)))) = rem ->
  0 < rem <= zlen rest ->
  GSM_U8 (msg_rem_len_mult (cl w) + 1) = mult ->
  on_cl (fun c =>
     set_msg_rem_len_mult mult (set_msg_rem_len rem
       (set_parser_state MQTT_PARSER_STATE_CALC_REM_LEN
          (set_msg_curr_pos 0 (set_msg_hdr_byte h c))))) w0
  = on_cl (fun c => set_msg_rem_len_mult mult (set_msg_rem_len rem c)) w ->
  parser_step w ch rest = (frame_dispatch w0 h rem mult rest, rem).
Proof.
  intros Hs Hch Hrem Hb Hm Hw.
  rewrite (parser_step_in_place w ch rem rest Hs Hch Hrem Hb).
  apply f_equal2; [|reflexivity]. unfold frame_dispatch.
  assert (Hrx : rx_buff (cl w) = rx_buff (cl w0) /\ rx_buff_len (cl w) = rx_buff_len (cl w0)).
  { pose proof (f_equal (fun x => rx_buff (cl x)) Hw) as H1.
    pose proof (f_equal (fun x => rx_buff_len (cl x)) Hw) as H2.
    cbn in H1, H2. split; congruence. }
  destruct Hrx as (-> & ->).
  assert (Hin :
    on_cl (fun c => set_rx_buff_len rem (set_rx_buff rest
             (set_msg_rem_len_mult (GSM_U8 (msg_rem_len_mult c + 1)) (set_msg_rem_len rem c)))) w
    = on_cl (fun c => set_rx_buff_len rem (set_rx_buff rest
               (set_msg_rem_len_mult mult (set_msg_rem_len rem
                  (set_parser_state MQTT_PARSER_STATE_CALC_REM_LEN
                     (set_msg_curr_pos 0 (set_msg_hdr_byte h c))))))) w0).
  { change (on_cl (fun c => set_rx_buff_len rem (set_rx_buff rest
               (set_msg_rem_len_mult mult (set_msg_rem_len rem
                  (set_parser_state MQTT_PARSER_STATE_CALC_REM_LEN
                     (set_msg_curr_pos 0 (set_msg_hdr_byte h c))))))) w0)
      with (on_cl (fun c => set_rx_buff_len rem (set_rx_buff rest c))
              (on_cl (fun c => set_msg_rem_len_mult mult (set_msg_rem_len rem
                  (set_parser_state MQTT_PARSER_STATE_CALC_REM_LEN
                     (set_msg_curr_pos 0 (set_msg_hdr_byte h c))))) w0)).
    rewrite Hw. unfold on_cl. cbn [set_cl cl]. rewrite Hm. reflexivity. }
  rewrite Hin. reflexivity.
Qed.

Lemma land_128_of_high (x : Z) : 0 <= x < 128 -> Z.land (x + 128) 0x80 <> 0.
Proof. intros H. rewrite land_128_high by lia. discriminate. Qed.

(** A frame of [v] bytes that lies whole in the block after its header byte
    and its length field is dispatched in place; the parser goes on with
    what follows the frame. *)
Lemma frame_in_block (w : world) (h v : Z) (tail : list Z) :
  parser_state (cl w) = MQTT_PARSER_STATE_INIT ->
  0 < v <= 65535 -> v <= zlen tail ->
  parse_block w (h :: rem_len_bytes v ++ tail) =
  parse_block (frame_dispatch w h v (zlen (rem_len_bytes v)) tail) (skipn (Z.to_nat v) tail).
Proof.
  intros Hs Hv Ht.
  rewrite (parse_block_step _ _ _ _ _ (parser_step_init w h (rem_len_bytes v ++ tail) Hs)).
  change (skipn (Z.to_nat 0) (rem_len_bytes v ++ tail)) with (rem_len_bytes v ++ tail).
  set (w1 := on_cl _ w).
  assert (F1 : parser_state (cl w1) = MQTT_PARSER_STATE_CALC_REM_LEN) by reflexivity.
  pose proof (Z.mod_pos_bound v 128 ltac:(lia)) as Hm.
  destruct (Z_le_dec v 127) as [H1|H1]; [|destruct (Z_le_dec v 16383) as [H2|H2]].
  - rewrite rem_len_bytes_1 by lia. cbn [app].
    rewrite (parse_block_step w1 (frame_dispatch w h v (zlen [v]) tail) v v tail);
      [reflexivity|].
    apply parser_step_frame.
    + exact F1.
    + apply land_128_low. lia.
    + change (msg_rem_len (cl w1)) with 0. change (msg_rem_len_mult (cl w1)) with 0.
      rewrite acc_first by lia. apply Z.mod_small. lia.
    + lia.
    + reflexivity.
    + reflexivity.
  - rewrite rem_len_bytes_2 by lia. cbn [app].
    assert (Hd : 1 <= v / 128 <= 127) by (Z.div_mod_to_equations; lia).
    rewrite (parse_block_step _ _ _ _ _
               (parser_step_more w1 (v mod 128 + 128) (v / 128 :: tail) F1
                  (land_128_of_high _ Hm))).
    change (skipn (Z.to_nat 0) (v / 128 :: tail)) with (v / 128 :: tail).
    set (w2 := on_cl _ w1).
    assert (F2 : parser_state (cl w2) = MQTT_PARSER_STATE_CALC_REM_LEN) by reflexivity.
    assert (R2 : msg_rem_len (cl w2) = v mod 128).
    { subst w2. cbn [on_cl set_cl cl msg_rem_len set_msg_rem_len_mult set_msg_rem_len].
      change (msg_rem_len (cl w1)) with 0. change (msg_rem_len_mult (cl w1)) with 0.
      rewrite acc_first by lia.
      rewrite <- Z.add_mod_idemp_r, Z.add_0_r, Z.mod_mod by lia. reflexivity. }
    assert (M2 : msg_rem_len_mult (cl w2) = 1) by reflexivity.
    rewrite (parse_block_step w2
               (frame_dispatch w h v (zlen [v mod 128 + 128; v / 128]) tail) (v / 128) v tail);
      [reflexivity|].
    apply parser_step_frame.
    + exact F2.
    + apply land_128_low. lia.
    + rewrite R2, M2, acc_second by lia. rewrite (Z.mod_small (v / 128)) by lia.
      rewrite (Z.div_mod v 128) at 3 by lia. lia.
    + lia.
    + rewrite M2. reflexivity.
    + reflexivity.
  - rewrite rem_len_bytes_3 by lia. cbn [app].
    assert (Hd : 128 <= v / 128 <= 511) by (Z.div_mod_to_equations; lia).
    assert (Hd3 : 1 <= v / 16384 <= 3) by (Z.div_mod_to_equations; lia).
    pose proof (Z.mod_pos_bound (v / 128) 128 ltac:(lia)) as Hm2.
    rewrite (parse_block_step _ _ _ _ _
               (parser_step_more w1 (v mod 128 + 128) (_ :: _ :: tail) F1
                  (land_128_of_high _ Hm))).
    change (skipn (Z.to_nat 0) ?l) with l.
    set (w2 := on_cl _ w1).
    assert (F2 : parser_state (cl w2) = MQTT_PARSER_STATE_CALC_REM_LEN) by reflexivity.
    assert (R2 : msg_rem_len (cl w2) = v mod 128).
    { subst w2. cbn [on_cl set_cl cl msg_rem_len set_msg_rem_len_mult set_msg_rem_len].
      change (msg_rem_len (cl w1)) with 0. change (msg_rem_len_mult (cl w1)) with 0.
      rewrite acc_first by lia.
      rewrite <- Z.add_mod_idemp_r, Z.add_0_r, Z.mod_mod by lia. reflexivity. }
    assert (M2 : msg_rem_len_mult (cl w2) = 1) by reflexivity.
    rewrite (parse_block_step _ _ _ _ _
               (parser_step_more w2 ((v / 128) mod 128 + 128) (_ :: tail) F2
                  (land_128_of_high _ Hm2))).
    change (skipn (Z.to_nat 0) ?l) with l.
    set (w3 := on_cl _ w2).
    assert (F3 : parser_state (cl w3) = MQTT_PARSER_STATE_CALC_REM_LEN) by reflexivity.
    assert (R3 : msg_rem_len (cl w3) = v mod 128 + 128 * ((v / 128) mod 128)).
    { subst w3. cbn [on_cl set_cl cl msg_rem_len set_msg_rem_len_mult set_msg_rem_len].
      rewrite R2, M2, acc_second by lia.
      rewrite <- (Z.add_mod_idemp_r ((v / 128) mod 128) 128), Z.add_0_r, Z.mod_mod by lia.
      reflexivity. }
    assert (M3 : msg_rem_len_mult (cl w3) = 2).
    { subst w3. cbn [on_cl set_cl cl msg_rem_len_mult set_msg_rem_len_mult]. rewrite M2.
      reflexivity. }
    rewrite (parse_block_step w3
               (frame_dispatch w h v
                  (zlen [v mod 128 + 128; (v / 128) mod 128 + 128; v / 16384]) tail)
               (v / 16384) v tail);
      [reflexivity|].
    apply parser_step_frame.
    + exact F3.
    + apply land_128_low. lia.
    + rewrite R3, M3, acc_third by lia. rewrite (Z.mod_small (v / 16384)) by lia.
      assert (Hv3 : v / 16384 = v / 128 / 128) by (rewrite Z.div_div by lia; reflexivity).
      rewrite Hv3. Z.div_mod_to_equations. lia.
    + lia.
    + rewrite M3. reflexivity.
    + reflexivity.
Qed.

(** ** The dispatcher by message type *)

Ltac type_cases :=
  cbn [Z.eqb Pos.eqb orb MQTT_MSG_TYPE_CONNECT MQTT_MSG_TYPE_CONNACK MQTT_MSG_TYPE_PUBLISH
       MQTT_MSG_TYPE_PINGRESP MQTT_MSG_TYPE_SUBACK MQTT_MSG_TYPE_UNSUBACK MQTT_MSG_TYPE_PUBREC
       MQTT_MSG_TYPE_PUBREL MQTT_MSG_TYPE_PUBACK MQTT_MSG_TYPE_PUBCOMP].

Lemma process_ack_found (w : world) (i : nat) :
  MQTT_RCV_GET_PACKET_TYPE (msg_hdr_byte (cl w)) = MQTT_MSG_TYPE_PUBACK \/
  MQTT_RCV_GET_PACKET_TYPE (msg_hdr_byte (cl w)) = MQTT_MSG_TYPE_PUBCOMP ->
  request_get_pending (cl w) (rx_u16 (cl w) 0) = Some i ->
  mqtt_process_incoming_message w =
  (1, on_cl (fun c => request_delete c i)
        (evt_fn (GSM_MQTT_EVT_PUBLISH (arg (get_request (cl w) i)) gsmOK)
           (emit (Dispatch (msg_hdr_byte (cl w)) (msg_rem_len (cl w))
                    (firstn (Z.to_nat (msg_rem_len (cl w))) (rx_buff (cl w)))) w))).
Proof.
  intros Ht Hp. rewrite process_unfold. unfold dispatch_result. cbv zeta. cbn [emit cl].
  destruct Ht as [Ht|Ht]; rewrite Ht; type_cases; rewrite Hp; reflexivity.
Qed.

Lemma process_suback_found (w : world) (i : nat) :
  MQTT_RCV_GET_PACKET_TYPE (msg_hdr_byte (cl w)) = MQTT_MSG_TYPE_SUBACK \/
  MQTT_RCV_GET_PACKET_TYPE (msg_hdr_byte (cl w)) = MQTT_MSG_TYPE_UNSUBACK ->
  request_get_pending (cl w) (rx_u16 (cl w) 0) = Some i ->
  mqtt_process_incoming_message w =
  (1, on_cl (fun c => request_delete c i)
        (evt_fn
           ((if MQTT_RCV_GET_PACKET_TYPE (msg_hdr_byte (cl w)) =? MQTT_MSG_TYPE_SUBACK
             then GSM_MQTT_EVT_SUBSCRIBE else GSM_MQTT_EVT_UNSUBSCRIBE)
              (arg (get_request (cl w) i))
              (if byte_at (rx_buff (cl w)) 2 <? 3 then gsmOK else gsmERR))
           (emit (Dispatch (msg_hdr_byte (cl w)) (msg_rem_len (cl w))
                    (firstn (Z.to_nat (msg_rem_len (cl w))) (rx_buff (cl w)))) w))).
Proof.
  intros Ht Hp. rewrite process_unfold. unfold dispatch_result. cbv zeta. cbn [emit cl].
  destruct Ht as [Ht|Ht]; rewrite Ht; type_cases; rewrite Hp; reflexivity.
Qed.

Lemma process_ack_missing (w : world) :
  MQTT_RCV_GET_PACKET_TYPE (msg_hdr_byte (cl w)) = MQTT_MSG_TYPE_PUBACK \/
  MQTT_RCV_GET_PACKET_TYPE (msg_hdr_byte (cl w)) = MQTT_MSG_TYPE_PUBCOMP \/
  MQTT_RCV_GET_PACKET_TYPE (msg_hdr_byte (cl w)) = MQTT_MSG_TYPE_SUBACK \/
  MQTT_RCV_GET_PACKET_TYPE (msg_hdr_byte (cl w)) = MQTT_MSG_TYPE_UNSUBACK ->
  request_get_pending (cl w) (rx_u16 (cl w) 0) = None ->
  mqtt_process_incoming_message w =
  (1, emit (Dispatch (msg_hdr_byte (cl w)) (msg_rem_len (cl w))
              (firstn (Z.to_nat (msg_rem_len (cl w))) (rx_buff (cl w)))) w).
Proof.
  intros Ht Hp. rewrite process_unfold. unfold dispatch_result. cbv zeta. cbn [emit cl].
  destruct Ht as [Ht|[Ht|[Ht|Ht]]]; rewrite Ht; type_cases; rewrite Hp; reflexivity.
Qed.

Lemma process_pingresp (w : world) :
  MQTT_RCV_GET_PACKET_TYPE (msg_hdr_byte (cl w)) = MQTT_MSG_TYPE_PINGRESP ->
  mqtt_process_incoming_message w =
  (1, evt_fn GSM_MQTT_EVT_KEEP_ALIVE
        (emit (Dispatch (msg_hdr_byte (cl w)) (msg_rem_len (cl w))
                 (firstn (Z.to_nat (msg_rem_len (cl w))) (rx_buff (cl w)))) w)).
Proof.
  intros Ht. rewrite process_unfold. unfold dispatch_result. cbv zeta. cbn [emit cl].
  rewrite Ht. reflexivity.
Qed.

Lemma process_connack (w : world) :
  MQTT_RCV_GET_PACKET_TYPE (msg_hdr_byte (cl w)) = MQTT_MSG_TYPE_CONNACK ->
  mqtt_process_incoming_message w =
  (1, let w1 := emit (Dispatch (msg_hdr_byte (cl w)) (msg_rem_len (cl w))
                        (firstn (Z.to_nat (msg_rem_len (cl w))) (rx_buff (cl w)))) w in
      if state_eqb (conn_state (cl w)) GSM_MQTT_CONNECTING then
        evt_fn (GSM_MQTT_EVT_CONNECT (CONN_STATUS (byte_at (rx_buff (cl w)) 1)))
          (if byte_at (rx_buff (cl w)) 1 =? 0
           then on_cl (set_conn_state GSM_MQTT_CONNECTED) w1 else w1)
      else w1).
Proof.
  intros Ht. rewrite process_unfold. unfold dispatch_result. cbv zeta. cbn [emit cl].
  rewrite Ht. type_cases.
  destruct (state_eqb _ _); [|reflexivity].
  unfold conn_status_accepted. reflexivity.
Qed.


Lemma process_ignored (w : world) :
  ignored_type (MQTT_RCV_GET_PACKET_TYPE (msg_hdr_byte (cl w))) = true ->
  mqtt_process_incoming_message w =
  (0, emit (Dispatch (msg_hdr_byte (cl w)) (msg_rem_len (cl w))
              (firstn (Z.to_nat (msg_rem_len (cl w))) (rx_buff (cl w)))) w).
Proof.
  rewrite process_unfold. unfold ignored_type, dispatch_result. cbv zeta. cbn [emit cl].
  pose proof (land_15_bound (Z.shiftr (msg_hdr_byte (cl w)) 4)) as Hty.
  unfold MQTT_RCV_GET_PACKET_TYPE.
  set (ty := Z.land (Z.shiftr (msg_hdr_byte (cl w)) 4) 15) in *.
  assert (Hty' : ty = 0 \/ ty = 1 \/ ty = 2 \/ ty = 3 \/ ty = 4 \/ ty = 5 \/ ty = 6 \/
                 ty = 7 \/ ty = 8 \/ ty = 9 \/ ty = 10 \/ ty = 11 \/ ty = 12 \/ ty = 13 \/
                 ty = 14 \/ ty = 15) by lia.
  clearbody ty.
  repeat (destruct Hty' as [->|Hty']); try subst ty; type_cases;
    intros H; try discriminate H; reflexivity.
Qed.

(** ** Received frames *)

Lemma recv_one_frame (w : world) (h v : Z) (frame : list Z) :
  parser_state (cl w) = MQTT_PARSER_STATE_INIT ->
  0 < v <= 65535 -> zlen frame = v ->
  snd (mqtt_conn_cb w (GSM_EVT_CONN_RECV [h :: rem_len_bytes v ++ frame])) =
  emit CallConnRecved
    (frame_dispatch (on_cl (set_poll_time 0) w) h v (zlen (rem_len_bytes v)) frame).
Proof.
  intros Hs Hv Hz. cbn [mqtt_conn_cb snd]. unfold mqtt_data_recv_cb, mqtt_parse_incoming.
  cbn [snd fold_left].
  rewrite frame_in_block by (try exact Hs; lia).
  rewrite skipn_all2 by (unfold zlen in Hz; lia).
  rewrite parse_block_equation_1. reflexivity.
Qed.

(** A frame of length 0: the dispatcher runs on the rx buffer as it is. *)
Lemma recv_empty_frame (w : world) (h : Z) :
  parser_state (cl w) = MQTT_PARSER_STATE_INIT ->
  snd (mqtt_conn_cb w (GSM_EVT_CONN_RECV [[h; 0]])) =
  emit CallConnRecved
    (on_cl (set_parser_state MQTT_PARSER_STATE_INIT)
       (snd (mqtt_process_incoming_message
          (on_cl (fun c =>
             set_msg_rem_len_mult 1 (set_msg_rem_len 0
               (set_parser_state MQTT_PARSER_STATE_CALC_REM_LEN
                  (set_msg_curr_pos 0 (set_msg_hdr_byte h (set_poll_time 0 c)))))) w)))).
Proof.
  intros Hs. cbn [mqtt_conn_cb snd]. unfold mqtt_data_recv_cb, mqtt_parse_incoming.
  cbn [snd fold_left].
  rewrite (parse_block_step _ _ _ _ _
             (parser_step_init (on_cl (set_poll_time 0) w) h [0] Hs)).
  change (skipn (Z.to_nat 0) [0]) with [0].
  rewrite parse_block_equation_2.
  set (w1 := on_cl _ (on_cl (set_poll_time 0) w)).
  assert (E : parser_step w1 0 [] =
              (on_cl (set_parser_state MQTT_PARSER_STATE_INIT)
                 (snd (mqtt_process_incoming_message
                    (on_cl (fun c =>
                       set_msg_rem_len_mult 1 (set_msg_rem_len 0
                         (set_parser_state MQTT_PARSER_STATE_CALC_REM_LEN
                            (set_msg_curr_pos 0 (set_msg_hdr_byte h (set_poll_time 0 c))))))
                       w))), 0)).
  { unfold parser_step.
    change (parser_state (cl w1)) with MQTT_PARSER_STATE_CALC_REM_LEN.
    change (MQTT_PARSER_STATE_CALC_REM_LEN =? MQTT_PARSER_STATE_INIT) with false.
    change (MQTT_PARSER_STATE_CALC_REM_LEN =? MQTT_PARSER_STATE_CALC_REM_LEN) with true.
    cbv iota zeta. change (Z.land 0 128 =? 0) with true. cbv iota.
    cbn [on_cl set_cl cl msg_rem_len set_msg_rem_len_mult set_msg_rem_len].
    change (msg_rem_len (cl w1)) with 0. change (msg_rem_len_mult (cl w1)) with 0.
    change (GSM_U32 (Z.lor 0 (shl32 (Z.land 0 127) (7 * 0)))) with 0.
    change (0 <? 0) with false. cbv iota. reflexivity. }
  rewrite E. cbn [fst snd]. change (skipn (Z.to_nat 0) (@nil Z)) with (@nil Z).
  rewrite parse_block_equation_1. reflexivity.
Qed.

(** ** Acknowledgements received *)

Lemma rem_len_bytes_2_is : rem_len_bytes 2 = [2].
Proof. apply rem_len_bytes_1. lia. Qed.

Lemma rem_len_bytes_3_is : rem_len_bytes 3 = [3].
Proof. apply rem_len_bytes_1. lia. Qed.

Ltac fields :=
  cbn [on_cl set_cl cl log env clock emit evt_fn tick fst snd
       conn info conn_state poll_time tx_buff is_sending sent_total written_total
       last_packet_id requests rx_buff rx_buff_len parser_state msg_hdr_byte
       msg_rem_len msg_rem_len_mult msg_curr_pos client_arg
       set_conn set_info set_conn_state set_poll_time set_tx_buff set_is_sending
       set_sent_total set_written_total set_last_packet_id set_requests set_rx_buff
       set_rx_buff_len set_parser_state set_msg_hdr_byte set_msg_rem_len
       set_msg_rem_len_mult set_msg_curr_pos set_client_arg
       request_delete get_request request_get_pending events sends].

(** X9: a PUBACK or PUBCOMP received in one block, with the parser between
    frames, for a packet id a pending request holds: the application gets
    the event PUBLISH with the argument of that request and the result OK,
    the request is freed, and nothing is written or sent. *)
Theorem publish_ack_completes_request (w : world) (h p : Z) (i : nat) :
  parser_state (cl w) = MQTT_PARSER_STATE_INIT ->
  MQTT_RCV_GET_PACKET_TYPE h = MQTT_MSG_TYPE_PUBACK \/
  MQTT_RCV_GET_PACKET_TYPE h = MQTT_MSG_TYPE_PUBCOMP ->
  0 <= p < 65536 ->
  request_get_pending (cl w) p = Some i ->
  let w' := snd (mqtt_conn_cb w (GSM_EVT_CONN_RECV [h :: 2 :: u16_bytes p])) in
  events (log w') = GSM_MQTT_EVT_PUBLISH (arg (get_request (cl w) i)) gsmOK :: events (log w) /\
  requests (cl w') = update_request (requests (cl w)) i (set_status 0) /\
  sends (log w') = sends (log w) /\
  tx_buff (cl w') = tx_buff (cl w) /\
  parser_state (cl w') = MQTT_PARSER_STATE_INIT.
Proof.
  intros Hs Ht Hp Hr w'. subst w'.
  change (h :: 2 :: u16_bytes p) with (h :: [2] ++ u16_bytes p).
  rewrite <- rem_len_bytes_2_is.
  rewrite recv_one_frame by (try exact Hs; try reflexivity; lia).
  unfold frame_dispatch.
  match goal with |- context [mqtt_process_incoming_message ?x] =>
    rewrite (process_ack_found x i);
    [ | fields; exact Ht
      | rewrite (u16_bytes_read p []) by (fields; rewrite app_nil_r; reflexivity);
        rewrite U16_small by exact Hp; fields; exact Hr ]
  end.
  fields. repeat split; reflexivity.
Qed.

Lemma publish_ack_completes_request_witness :
  events (log (snd (mqtt_conn_cb (publish_hi w_connected)
                      (GSM_EVT_CONN_RECV [0x40 :: 2 :: u16_bytes 1])))) =
  GSM_MQTT_EVT_PUBLISH (arg (get_request (cl (publish_hi w_connected)) 0)) gsmOK
    :: events (log (publish_hi w_connected)).
Proof.
  refine (proj1 (publish_ack_completes_request (publish_hi w_connected) 0x40 1 0 _ _ _ _)).
  - reflexivity.
  - left. reflexivity.
  - lia.
  - reflexivity.
Defined.

(** ** The log only grows *)

Lemma grows_refl (w : world) : grows w w.
Proof. exists []. reflexivity. Qed.

Lemma grows_trans (w1 w2 w3 : world) : grows w1 w2 -> grows w2 w3 -> grows w1 w3.
Proof.
  intros (l1 & H1) (l2 & H2). exists (l2 ++ l1). rewrite H2, H1, app_assoc. reflexivity.
Qed.

Lemma grows_emit (w x : world) (o : output) : grows w x -> grows w (emit o x).
Proof. intros (l & H). exists (o :: l). cbn [emit log]. rewrite H. reflexivity. Qed.

Lemma grows_on_cl (w x : world) (f : gsm_mqtt_client_t -> gsm_mqtt_client_t) :
  grows w x -> grows w (on_cl f x).
Proof. intros H. exact H. Qed.

Lemma grows_set_cl (w x : world) (c : gsm_mqtt_client_t) : grows w x -> grows w (set_cl c x).
Proof. intros H. exact H. Qed.

Lemma grows_tick (w x : world) : grows w x -> grows w (tick x).
Proof. intros H. exact H. Qed.

Lemma grows_send_data (w x : world) : grows w x -> grows w (send_data x).
Proof.
  intros H. unfold send_data, gsm_conn_send. cbv zeta.
  destruct (negb _); [exact H|]. destruct (0 <? _); [|exact H].
  destruct (gsmr_eqb _ _); apply grows_emit; exact H.
Qed.

Lemma grows_write_ack (w x : world) (t p q : Z) :
  grows w x -> grows w (snd (write_ack_rec_rel_resp x t p q)).
Proof.
  intros H. unfold write_ack_rec_rel_resp. cbv zeta.
  destruct (negb _); cbn [snd]; [|exact H]. apply grows_send_data. exact H.
Qed.

Ltac grows_step :=
  match goal with
  | |- grows ?w ?w => apply grows_refl
  | |- grows _ (fst (_, _)) => cbn [fst]
  | |- grows _ (snd (_, _)) => cbn [snd]
  | |- grows _ (send_data _) => apply grows_send_data
  | |- grows _ (snd (write_ack_rec_rel_resp _ _ _ _)) => apply grows_write_ack
  | |- grows _ (evt_fn _ _) => apply grows_emit
  | |- grows _ (emit _ _) => apply grows_emit
  | |- grows _ (tick _) => apply grows_tick
  | |- grows _ (on_cl _ _) => apply grows_on_cl
  | |- grows _ (set_cl _ _) => apply grows_set_cl
  | |- grows _ (if ?b then _ else _) => destruct b
  | |- grows _ (snd (if ?b then _ else _)) => destruct b
  | |- grows _ (fst (if ?b then _ else _)) => destruct b
  | |- grows _ (match ?x with Some _ => _ | None => _ end) => destruct x
  | |- grows _ (snd (match ?x with Some _ => _ | None => _ end)) => destruct x
  end.

Lemma grows_process (w x : world) :
  grows w x -> grows w (snd (mqtt_process_incoming_message x)).
Proof.
  intros H. rewrite process_unfold. unfold dispatch_result. cbv zeta.
  repeat grows_step; exact H.
Qed.

Lemma grows_parser_step (w x : world) (ch : Z) (rest : list Z) :
  grows w x -> grows w (fst (parser_step x ch rest)).
Proof.
  intros H. unfold parser_step. cbv zeta.
  repeat first [ grows_step | apply grows_process ]; exact H.
Qed.

Lemma grows_parse_block (d : list Z) :
  forall w x, grows w x -> grows w (parse_block x d).
Proof.
  remember (length d) as n eqn:Hn. revert d Hn.
  induction n as [n IH] using lt_wf_ind. intros d Hn w x H.
  destruct d as [|ch rest].
  - rewrite parse_block_equation_1. exact H.
  - rewrite parse_block_equation_2.
    apply (IH (length (skipn (Z.to_nat (snd (parser_step x ch rest))) rest))).
    + subst n. rewrite length_skipn. cbn. lia.
    + reflexivity.
    + apply grows_parser_step. exact H.
Qed.

Lemma grows_events (w w' : world) :
  grows w w' -> exists l, events (log w') = l ++ events (log w).
Proof. intros (l & H). exists (events l). rewrite H, events_app. reflexivity. Qed.

(** ** More received frames *)

(** X10: a SUBACK received in one block with a return code, for a packet id
    a pending request holds: the application gets the event SUBSCRIBE with
    the argument of that request, the result being OK when the return code
    is below 3 and ERR otherwise; the request is freed and nothing is
    sent. *)
Theorem suback_reports_return_code (w : world) (h p rc : Z) (i : nat) :
  parser_state (cl w) = MQTT_PARSER_STATE_INIT ->
  MQTT_RCV_GET_PACKET_TYPE h = MQTT_MSG_TYPE_SUBACK ->
  0 <= p < 65536 ->
  request_get_pending (cl w) p = Some i ->
  let w' := snd (mqtt_conn_cb w (GSM_EVT_CONN_RECV [h :: 3 :: u16_bytes p ++ [rc]])) in
  events (log w') =
    GSM_MQTT_EVT_SUBSCRIBE (arg (get_request (cl w) i)) (if rc <? 3 then gsmOK else gsmERR)
    :: events (log w) /\
  requests (cl w') = update_request (requests (cl w)) i (set_status 0) /\
  sends (log w') = sends (log w) /\
  parser_state (cl w') = MQTT_PARSER_STATE_INIT.
Proof.
  intros Hs Ht Hp Hr w'. subst w'.
  change (h :: 3 :: u16_bytes p ++ [rc]) with (h :: [3] ++ u16_bytes p ++ [rc]).
  rewrite <- rem_len_bytes_3_is.
  rewrite recv_one_frame by (try exact Hs; try reflexivity; lia).
  unfold frame_dispatch.
  match goal with |- context [mqtt_process_incoming_message ?x] =>
    rewrite (process_suback_found x i);
    [ | left; fields; exact Ht
      | rewrite (u16_bytes_read p [rc]) by (fields; reflexivity);
        rewrite U16_small by exact Hp; fields; exact Hr ]
  end.
  fields. rewrite Ht. repeat split; reflexivity.
Qed.

Lemma suback_reports_return_code_witness :
  events (log (snd (mqtt_conn_cb w_three_pending
                      (GSM_EVT_CONN_RECV [0x90 :: 3 :: u16_bytes 3 ++ [0x80]])))) =
    GSM_MQTT_EVT_SUBSCRIBE (arg (get_request (cl w_three_pending) 2))
      (if 0x80 <? 3 then gsmOK else gsmERR)
    :: events (log w_three_pending).
Proof.
  refine (proj1 (suback_reports_return_code w_three_pending 0x90 3 0x80 2 _ _ _ _)).
  - reflexivity.
  - reflexivity.
  - lia.
  - reflexivity.
Defined.

(** X11: an UNSUBACK whose frame holds the packet id only (remaining length
    2) and is followed by a further byte in the received block: the result
    given with the event UNSUBSCRIBE is decided by that following byte, OK
    when it is below 3 and ERR otherwise. *)
Theorem unsuback_result_from_next_byte (w : world) (h p next : Z) (more : list Z) (i : nat) :
  parser_state (cl w) = MQTT_PARSER_STATE_INIT ->
  MQTT_RCV_GET_PACKET_TYPE h = MQTT_MSG_TYPE_UNSUBACK ->
  0 <= p < 65536 ->
  request_get_pending (cl w) p = Some i ->
  exists l,
    events (log (snd (mqtt_conn_cb w
                        (GSM_EVT_CONN_RECV [h :: 2 :: u16_bytes p ++ next :: more])))) =
    l ++ GSM_MQTT_EVT_UNSUBSCRIBE (arg (get_request (cl w) i))
           (if next <? 3 then gsmOK else gsmERR)
      :: events (log w).
Proof.
  intros Hs Ht Hp Hr.
  cbn [mqtt_conn_cb snd]. unfold mqtt_data_recv_cb, mqtt_parse_incoming.
  cbn [snd fold_left].
  change (h :: 2 :: u16_bytes p ++ next :: more)
    with (h :: [2] ++ u16_bytes p ++ next :: more).
  rewrite <- rem_len_bytes_2_is.
  rewrite frame_in_block
    by (try exact Hs; try lia; rewrite zlen_app, zlen_cons;
        change (zlen (u16_bytes p)) with 2; pose proof (zlen_nonneg more); lia).
  match goal with |- context [parse_block ?x ?d] =>
    destruct (grows_events x (parse_block x d) (grows_parse_block d x x (grows_refl x)))
      as (l & Hl);
    assert (Hx : events (log x) =
                 GSM_MQTT_EVT_UNSUBSCRIBE (arg (get_request (cl w) i))
                   (if next <? 3 then gsmOK else gsmERR) :: events (log w))
  end.
  { unfold frame_dispatch.
    match goal with |- context [mqtt_process_incoming_message ?x] =>
      rewrite (process_suback_found x i);
      [ | right; fields; exact Ht
        | rewrite (u16_bytes_read p (next :: more)) by (fields; reflexivity);
          rewrite U16_small by exact Hp; fields; exact Hr ]
    end.
    fields. rewrite Ht. reflexivity. }
  exists l. cbn [emit log events]. rewrite Hl, Hx. reflexivity.
Qed.

Lemma unsuback_result_from_next_byte_witness :
  exists l,
    events (log (snd (mqtt_conn_cb w_three_pending
                        (GSM_EVT_CONN_RECV [0xB0 :: 2 :: u16_bytes 3 ++ 0xD0 :: [0x00]])))) =
    l ++ GSM_MQTT_EVT_UNSUBSCRIBE (arg (get_request (cl w_three_pending) 2))
           (if 0xD0 <? 3 then gsmOK else gsmERR)
      :: events (log w_three_pending).
Proof.
  apply (unsuback_result_from_next_byte w_three_pending 0xB0 3 0xD0 [0x00] 2).
  - reflexivity.
  - reflexivity.
  - lia.
  - reflexivity.
Defined.

(** X12: an acknowledgement (PUBACK, PUBCOMP, SUBACK or UNSUBACK) for a
    packet id no pending request holds is dropped: no event, no write, the
    requests stay as they are. *)
Theorem unmatched_ack_ignored (w : world) (h p : Z) :
  parser_state (cl w) = MQTT_PARSER_STATE_INIT ->
  MQTT_RCV_GET_PACKET_TYPE h = MQTT_MSG_TYPE_PUBACK \/
  MQTT_RCV_GET_PACKET_TYPE h = MQTT_MSG_TYPE_PUBCOMP \/
  MQTT_RCV_GET_PACKET_TYPE h = MQTT_MSG_TYPE_SUBACK \/
  MQTT_RCV_GET_PACKET_TYPE h = MQTT_MSG_TYPE_UNSUBACK ->
  0 <= p < 65536 ->
  request_get_pending (cl w) p = None ->
  let w' := snd (mqtt_conn_cb w (GSM_EVT_CONN_RECV [h :: 2 :: u16_bytes p])) in
  calls (log w') = CallConnRecved :: calls (log w) /\
  requests (cl w') = requests (cl w) /\
  tx_buff (cl w') = tx_buff (cl w) /\
  conn_state (cl w') = conn_state (cl w).
Proof.
  intros Hs Ht Hp Hr w'. subst w'.
  change (h :: 2 :: u16_bytes p) with (h :: [2] ++ u16_bytes p).
  rewrite <- rem_len_bytes_2_is.
  rewrite recv_one_frame by (try exact Hs; try reflexivity; lia).
  unfold frame_dispatch.
  match goal with |- context [mqtt_process_incoming_message ?x] =>
    rewrite (process_ack_missing x);
    [ | fields; exact Ht
      | rewrite (u16_bytes_read p []) by (fields; rewrite app_nil_r; reflexivity);
        rewrite U16_small by exact Hp; fields; exact Hr ]
  end.
  fields. repeat split; reflexivity.
Qed.

Lemma unmatched_ack_ignored_witness :
  calls (log (snd (mqtt_conn_cb w_connected (GSM_EVT_CONN_RECV [0x40 :: 2 :: u16_bytes 9])))) =
  CallConnRecved :: calls (log w_connected).
Proof.
  refine (proj1 (unmatched_ack_ignored w_connected 0x40 9 _ _ _ _)).
  - reflexivity.
  - left. reflexivity.
  - lia.
  - reflexivity.
Defined.

Lemma state_eqb_eq (a b : gsm_mqtt_state_t) : state_eqb a b = true <-> a = b.
Proof. destruct a, b; cbn; split; intros H; try reflexivity; discriminate. Qed.

Lemma state_eqb_refl (a : gsm_mqtt_state_t) : state_eqb a a = true.
Proof. apply state_eqb_eq. reflexivity. Qed.

(** X13: a PINGRESP received with the parser between frames gives the
    application the event KEEP_ALIVE and nothing else: nothing is sent, the
    requests and the connection state stay as they are. *)
Theorem pingresp_keep_alive (w : world) (h : Z) :
  parser_state (cl w) = MQTT_PARSER_STATE_INIT ->
  MQTT_RCV_GET_PACKET_TYPE h = MQTT_MSG_TYPE_PINGRESP ->
  let w' := snd (mqtt_conn_cb w (GSM_EVT_CONN_RECV [[h; 0]])) in
  calls (log w') = CallConnRecved :: CallEvtFn GSM_MQTT_EVT_KEEP_ALIVE :: calls (log w) /\
  requests (cl w') = requests (cl w) /\
  tx_buff (cl w') = tx_buff (cl w) /\
  conn_state (cl w') = conn_state (cl w).
Proof.
  intros Hs Ht w'. subst w'. rewrite recv_empty_frame by exact Hs.
  match goal with |- context [mqtt_process_incoming_message ?x] =>
    rewrite (process_pingresp x) by (fields; exact Ht)
  end.
  fields. repeat split; reflexivity.
Qed.

Lemma pingresp_keep_alive_witness :
  calls (log (snd (mqtt_conn_cb w_connected (GSM_EVT_CONN_RECV [[0xD0; 0]])))) =
  CallConnRecved :: CallEvtFn GSM_MQTT_EVT_KEEP_ALIVE :: calls (log w_connected).
Proof.
  refine (proj1 (pingresp_keep_alive w_connected 0xD0 _ _)); reflexivity.
Defined.

(** X14: a frame of a type the client has no use for (CONNECT, SUBSCRIBE,
    UNSUBSCRIBE, PINGREQ, DISCONNECT and the reserved 0 and 15), received
    whole in one block, is dropped: no event, nothing written or sent, the
    requests and the connection state stay as they are. *)
Theorem foreign_frame_dropped (w : world) (h : Z) (frame : list Z) :
  parser_state (cl w) = MQTT_PARSER_STATE_INIT ->
  ignored_type (MQTT_RCV_GET_PACKET_TYPE h) = true ->
  zlen frame <= 65535 ->
  let w' := snd (mqtt_conn_cb w (GSM_EVT_CONN_RECV [h :: rem_len_bytes (zlen frame) ++ frame])) in
  calls (log w') = CallConnRecved :: calls (log w) /\
  requests (cl w') = requests (cl w) /\
  tx_buff (cl w') = tx_buff (cl w) /\
  conn_state (cl w') = conn_state (cl w) /\
  parser_state (cl w') = MQTT_PARSER_STATE_INIT.
Proof.
  intros Hs Ht Hz w'. subst w'.
  destruct frame as [|b frame].
  - change (zlen (@nil Z)) with 0. rewrite rem_len_bytes_1 by lia. cbn [app].
    rewrite recv_empty_frame by exact Hs.
    match goal with |- context [mqtt_process_incoming_message ?x] =>
      rewrite (process_ignored x) by (fields; exact Ht)
    end.
    fields. repeat split; reflexivity.
  - rewrite recv_one_frame
      by (try exact Hs; try reflexivity; rewrite zlen_cons in *;
          pose proof (zlen_nonneg frame); lia).
    unfold frame_dispatch.
    match goal with |- context [mqtt_process_incoming_message ?x] =>
      rewrite (process_ignored x) by (fields; exact Ht)
    end.
    fields. repeat split; reflexivity.
Qed.

Lemma foreign_frame_dropped_witness :
  calls (log (snd (mqtt_conn_cb w_connected
                     (GSM_EVT_CONN_RECV [0xC0 :: rem_len_bytes (zlen (@nil Z)) ++ []])))) =
  CallConnRecved :: calls (log w_connected).
Proof.
  refine (proj1 (foreign_frame_dropped w_connected 0xC0 [] _ _ _)).
  - reflexivity.
  - reflexivity.
  - vm_compute. discriminate.
Defined.

(** X15: a CONNACK received while CONNECTING gives the application the event
    CONNECT with the return code of the broker; the state becomes CONNECTED
    when the code is 0 and stays CONNECTING otherwise (the connection is not
    closed).  In any other state a CONNACK gives no event and changes no
    state. *)
Theorem connack_by_state (w : world) (h sp rc : Z) :
  parser_state (cl w) = MQTT_PARSER_STATE_INIT ->
  MQTT_RCV_GET_PACKET_TYPE h = MQTT_MSG_TYPE_CONNACK ->
  let w' := snd (mqtt_conn_cb w (GSM_EVT_CONN_RECV [[h; 2; sp; rc]])) in
  (conn_state (cl w) = GSM_MQTT_CONNECTING ->
   events (log w') = GSM_MQTT_EVT_CONNECT (CONN_STATUS rc) :: events (log w) /\
   conn_state (cl w') = (if rc =? 0 then GSM_MQTT_CONNECTED else GSM_MQTT_CONNECTING)) /\
  (conn_state (cl w) <> GSM_MQTT_CONNECTING ->
   events (log w') = events (log w) /\ conn_state (cl w') = conn_state (cl w)) /\
  sends (log w') = sends (log w).
Proof.
  intros Hs Ht w'. subst w'.
  change [h; 2; sp; rc] with (h :: [2] ++ [sp; rc]).
  rewrite <- rem_len_bytes_2_is.
  rewrite recv_one_frame by (try exact Hs; try reflexivity; lia).
  unfold frame_dispatch.
  match goal with |- context [mqtt_process_incoming_message ?x] =>
    rewrite (process_connack x) by (fields; exact Ht)
  end.
  cbv zeta. fields.
  change (byte_at [sp; rc] 1) with rc.
  split; [|split].
  - intros Hc. rewrite Hc. cbn [state_eqb]. destruct (rc =? 0); fields; rewrite ?Hc;
      split; reflexivity.
  - intros Hc. destruct (state_eqb (conn_state (cl w)) GSM_MQTT_CONNECTING) eqn:E.
    + apply state_eqb_eq in E. contradiction.
    + fields. split; reflexivity.
  - destruct (state_eqb (conn_state (cl w)) GSM_MQTT_CONNECTING);
      [destruct (rc =? 0)|]; reflexivity.
Qed.

Lemma connack_by_state_witness :
  events (log (snd (mqtt_conn_cb w_connecting (GSM_EVT_CONN_RECV [[0x20; 2; 0; 5]])))) =
    GSM_MQTT_EVT_CONNECT (CONN_STATUS 5) :: events (log w_connecting) /\
  conn_state (cl (snd (mqtt_conn_cb w_connecting (GSM_EVT_CONN_RECV [[0x20; 2; 0; 5]])))) =
    (if 5 =? 0 then GSM_MQTT_CONNECTED else GSM_MQTT_CONNECTING).
Proof.
  refine (proj1 (connack_by_state w_connecting 0x20 0 5 _ _) _); reflexivity.
Defined.

(** ** A PUBLISH from one client to another *)

Lemma send_data_events (w : world) : events (log (send_data w)) = events (log w).
Proof. unfold send_data, gsm_conn_send. split_ifs; reflexivity. Qed.








(** ** Data sent *)

Lemma find_pending_zero_split (l : list gsm_mqtt_request_t) (i : nat) :
  find_pending l 0 = Some i ->
  exists l1 r l2,
    l = l1 ++ r :: l2 /\ length l1 = i /\
    filter (pending_with 0) l1 = [] /\ pending_with 0 r = true.
Proof.
  revert i. induction l as [|r t IH]; intros i H; [discriminate|].
  cbn [find_pending] in H. change (0 =? -1) with false in H. cbn [orb] in H.
  change (GSM_U16 0) with 0 in H. fold (is_pending r) in H. fold (pending_with 0 r) in H.
  destruct (pending_with 0 r) eqn:Ep.
  - injection H as <-. exists [], r, t. auto.
  - destruct (find_pending t 0) as [j|]; [|discriminate].
    injection H as <-.
    destruct (IH j eq_refl) as (l1 & r' & l2 & -> & Hl & Hf & Hp).
    exists (r :: l1), r', l2. cbn. rewrite Ep, Hl. auto.
Qed.

Lemma find_pending_zero_none (l : list gsm_mqtt_request_t) :
  find_pending l 0 = None -> filter (pending_with 0) l = [].
Proof.
  induction l as [|r t IH]; intros H; [reflexivity|].
  cbn [find_pending] in H. change (0 =? -1) with false in H. cbn [orb] in H.
  change (GSM_U16 0) with 0 in H. fold (is_pending r) in H. fold (pending_with 0 r) in H.
  cbn. destruct (pending_with 0 r); [discriminate|].
  destruct (find_pending t 0); [discriminate|]. auto.
Qed.

Lemma nth_app_cons_other (l1 l2 : list gsm_mqtt_request_t) (r r' : gsm_mqtt_request_t)
    (j : nat) :
  j <> length l1 ->
  nth j (l1 ++ r :: l2) request_zero = nth j (l1 ++ r' :: l2) request_zero.
Proof.
  intros Hj. destruct (Nat.lt_ge_cases j (length l1)) as [H|H].
  - rewrite !app_nth1 by exact H. reflexivity.
  - rewrite !app_nth2 by exact H.
    destruct (j - length l1)%nat eqn:E; [lia|]. reflexivity.
Qed.

(** The loop of the sent callback: the requests pending with packet id 0 are
    completed in table order up to the first one whose packet is not yet
    sent; nothing but the table and the log changes. *)
Lemma sent_requests_loop_log (n : nat) :
  forall w, pending_count (requests (cl w)) = n ->
  let done := take_while (fun r => expected_sent_len r <=? sent_total (cl w))
                (filter (pending_with 0) (requests (cl w))) in
  log (sent_requests_loop w) =
    rev (map (fun r => CallEvtFn (GSM_MQTT_EVT_PUBLISH (arg r) gsmOK)) done) ++ log w /\
  cl (sent_requests_loop w) = set_requests (requests (cl (sent_requests_loop w))) (cl w) /\
  filter (pending_with 0) (requests (cl (sent_requests_loop w))) =
    skipn (length done) (filter (pending_with 0) (requests (cl w))) /\
  (forall j, pending_with 0 (get_request (cl w) j) = false ->
             get_request (cl (sent_requests_loop w)) j = get_request (cl w) j).
Proof.
  induction n as [n IH] using lt_wf_ind. intros w Hn. cbv zeta.
  rewrite sent_requests_loop_step.
  unfold request_get_pending.
  destruct (find_pending (requests (cl w)) 0) as [i|] eqn:Hf.
  - destruct (find_pending_zero_split _ _ Hf) as (l1 & r & l2 & Hl & Hi & Hnone & Hp).
    subst i. rewrite (get_request_at _ _ _ _ Hl).
    assert (Hz : pending_with 0 (set_status 0 r) = false) by reflexivity.
    destruct (expected_sent_len r <=? sent_total (cl w)) eqn:Ee.
    + pose proof (pending_count_delete _ _ _ Hf) as Hlt.
      match goal with |- context [sent_requests_loop ?x] =>
        destruct (IH _ (eq_ind _ (fun k => (_ < k)%nat) Hlt _ Hn) x eq_refl)
          as (H1 & H2 & H3 & H4);
        set (w1 := sent_requests_loop x) in *
      end.
      clearbody w1. cbv zeta in H1, H3. unfold evt_fn, get_request in *.
      cbn [emit cl log on_cl set_cl request_delete requests set_requests sent_total] in *.
      rewrite Hl in *. rewrite update_request_at in *.
      rewrite !filter_app in *. cbn [filter] in *.
      rewrite Hnone, Hp, ?Hz in *. cbn [app take_while] in *. rewrite Ee.
      rewrite H1. cbn [map rev length skipn]. rewrite <- app_assoc. cbn [app].
      split; [reflexivity|]. split; [|split].
      * rewrite H2 at 1. destruct (cl w); reflexivity.
      * exact H3.
      * intros j Hj.
        destruct (Nat.eq_dec j (length l1)) as [->|Hne].
        -- rewrite app_nth2, Nat.sub_diag in Hj by lia. cbn in Hj. congruence.
        -- rewrite H4.
           ++ apply nth_app_cons_other. exact Hne.
           ++ rewrite <- Hj. f_equal. apply nth_app_cons_other. exact Hne.
    + rewrite Hl, !filter_app. cbn [filter].
      rewrite Hnone, Hp. cbn [app take_while]. rewrite Ee.
      cbn [map rev app length skipn].
      repeat split; try reflexivity. rewrite <- Hl. destruct (cl w); reflexivity.
  - rewrite (find_pending_zero_none _ Hf). cbn [take_while map rev app length skipn].
    repeat split; try reflexivity. destruct (cl w); reflexivity.
Qed.



(** ** The CONNECT packet *)


Lemma string_field_written (s : list Z) :
  zlen s < 65536 ->
  u16_bytes (GSM_U16 (GSM_U16 (zlen s)))
    ++ firstn (Z.to_nat (GSM_U16 (GSM_U16 (zlen s)))) s = string_field s.
Proof.
  intros H. pose proof (zlen_nonneg s).
  rewrite !U16_small by (rewrite ?U16_small; lia).
  unfold string_field. f_equal. apply firstn_all2. unfold zlen. lia.
Qed.









(** ** The connection state *)

Lemma connack_move_refl (s : gsm_mqtt_state_t) : connack_move s s.
Proof. left. reflexivity. Qed.

Lemma connack_move_trans (s1 s2 s3 : gsm_mqtt_state_t) :
  connack_move s1 s2 -> connack_move s2 s3 -> connack_move s1 s3.
Proof.
  unfold connack_move. intros [H1|(H1 & H2)] [H3|(H3 & H4)]; subst;
    try discriminate; auto.
Qed.

Lemma write_ack_conn_state (w : world) (t p q : Z) :
  conn_state (cl (snd (write_ack_rec_rel_resp w t p q))) = conn_state (cl w).
Proof.
  unfold write_ack_rec_rel_resp. split_ifs; [|reflexivity].
  cbn [snd]. rewrite send_data_conn_state. reflexivity.
Qed.

Ltac branch :=
  match goal with
  | |- context [if ?b then _ else _] => destruct b eqn:?
  | |- context [match ?x with Some _ => _ | None => _ end] => destruct x eqn:?
  end.

Lemma process_move (w : world) :
  connack_move (conn_state (cl w)) (conn_state (cl (snd (mqtt_process_incoming_message w)))).
Proof.
  rewrite process_unfold. unfold dispatch_result. cbv zeta.
  repeat branch; fields; rewrite ?write_ack_conn_state; fields;
    try (left; reflexivity).
  all: right; split; [|reflexivity].
  all: match goal with
       | H : state_eqb _ GSM_MQTT_CONNECTING = true |- _ => apply state_eqb_eq in H; exact H
       end.
Qed.

Lemma parser_step_move (w : world) (ch : Z) (rest : list Z) :
  connack_move (conn_state (cl w)) (conn_state (cl (fst (parser_step w ch rest)))).
Proof.
  unfold parser_step. cbv zeta.
  repeat branch; fields; try (left; reflexivity);
    match goal with
    | |- context [mqtt_process_incoming_message ?x] => exact (process_move x)
    end.
Qed.

Lemma parse_block_move (d : list Z) :
  forall w, connack_move (conn_state (cl w)) (conn_state (cl (parse_block w d))).
Proof.
  remember (length d) as n eqn:Hn. revert d Hn.
  induction n as [n IH] using lt_wf_ind. intros d Hn w.
  destruct d as [|ch rest].
  - rewrite parse_block_equation_1. apply connack_move_refl.
  - rewrite parse_block_equation_2.
    eapply connack_move_trans; [apply parser_step_move|].
    apply (IH (length (skipn (Z.to_nat (snd (parser_step w ch rest))) rest))).
    + subst n. rewrite length_skipn. cbn. lia.
    + reflexivity.
Qed.

Lemma data_recv_move (w : world) (pbuf : gsm_pbuf_t) :
  connack_move (conn_state (cl w)) (conn_state (cl (snd (mqtt_data_recv_cb w pbuf)))).
Proof.
  unfold mqtt_data_recv_cb, mqtt_parse_incoming. cbv zeta. fields.
  change (conn_state (cl w)) with (conn_state (cl (on_cl (set_poll_time 0) w))).
  generalize (on_cl (set_poll_time 0) w). clear w.
  induction pbuf as [|d pbuf IH]; intros w; cbn [fold_left].
  - apply connack_move_refl.
  - eapply connack_move_trans; [apply parse_block_move|]. apply IH.
Qed.

Ltac writes_to_bytes :=
  rewrite ?write_fixed_header_bytes, ?write_string_bytes, ?write_u8_bytes,
    ?write_u16_bytes; unfold write_data, tx_write.


Lemma cs_on_cl (x : world) (f : gsm_mqtt_client_t -> gsm_mqtt_client_t)
    (s : gsm_mqtt_state_t) :
  (forall c, conn_state (f c) = conn_state c) ->
  conn_state (cl x) = s -> conn_state (cl (on_cl f x)) = s.
Proof. intros Hf H. unfold on_cl. cbn [set_cl cl]. rewrite Hf. exact H. Qed.

Lemma cs_set_cl (x : world) (c : gsm_mqtt_client_t) (s : gsm_mqtt_state_t) :
  conn_state c = s -> conn_state (cl (set_cl c x)) = s.
Proof. intros H. exact H. Qed.

Lemma cs_request_set_pending (x : world) (i : nat) (s : gsm_mqtt_state_t) :
  conn_state (cl x) = s -> conn_state (cl (request_set_pending x i)) = s.
Proof. intros H. unfold request_set_pending, gsm_sys_now. cbv zeta. exact H. Qed.

Lemma create_packet_id_conn_state (c : gsm_mqtt_client_t) :
  conn_state (snd (create_packet_id c)) = conn_state c.
Proof.
  unfold create_packet_id. cbv zeta. cbn [snd]. destruct (last_packet_id _ =? 0); reflexivity.
Qed.

Lemma request_create_conn_state (c : gsm_mqtt_client_t) (p a : Z) :
  conn_state (snd (request_create c p a)) = conn_state c.
Proof. unfold request_create. destruct (find_not_in_use (requests c)); reflexivity. Qed.

Ltac cs_step :=
  match goal with
  | |- conn_state (cl (snd (_, _))) = _ => cbn [snd]
  | |- conn_state (cl (send_data _)) = _ => rewrite send_data_conn_state
  | |- conn_state (cl (request_set_pending _ _)) = _ => apply cs_request_set_pending
  | |- conn_state (cl (on_cl _ _)) = _ =>
      apply cs_on_cl;
      [intros ?; cbv beta;
       rewrite ?write_fixed_header_bytes, ?write_string_bytes, ?write_u16_bytes;
       reflexivity|]
  | |- conn_state (cl (set_cl _ _)) = _ => apply cs_set_cl
  | |- conn_state (cl (if ?b then _ else _)) = _ => destruct b
  | |- conn_state (cl (match ?x with Some _ => _ | None => _ end)) = _ => destruct x
  end.

Lemma sub_unsub_conn_state (w : world) (topic : string) (qos a sub : Z) :
  conn_state (cl (snd (sub_unsub w topic qos a sub))) = conn_state (cl w).
Proof.
  unfold sub_unsub. cbv zeta.
  destruct (_ =? 0); [reflexivity|].
  destruct (_ && _); [|reflexivity].
  pose proof (create_packet_id_conn_state (cl w)) as H1.
  destruct (create_packet_id (cl w)) as [pkt_id c]. cbn [snd] in *.
  pose proof (request_create_conn_state c pkt_id a) as H2.
  destruct (request_create c pkt_id a) as [[i|] c']; cbn [snd] in *;
    repeat cs_step; congruence.
Qed.

Lemma publish_conn_state (w : world) (topic : string) (payload : option (list Z))
    (payload_len qos retain a : Z) :
  conn_state (cl (snd (gsm_mqtt_client_publish w topic payload payload_len qos retain a))) =
  conn_state (cl w).
Proof.
  unfold gsm_mqtt_client_publish. cbv zeta.
  destruct (_ =? 0); [reflexivity|].
  destruct (negb (state_eqb _ _)); [reflexivity|].
  destruct (negb (_ =? 0)); [|reflexivity].
  assert (H1 : conn_state (snd (if 0 <? GSM_U8 qos then create_packet_id (cl w)
                                else (0, cl w))) = conn_state (cl w)).
  { destruct (0 <? GSM_U8 qos); [apply create_packet_id_conn_state|reflexivity]. }
  destruct (if 0 <? GSM_U8 qos then create_packet_id (cl w) else (0, cl w)) as [pkt_id c].
  cbn [snd] in *.
  pose proof (request_create_conn_state c pkt_id a) as H2.
  destruct (request_create c pkt_id a) as [[i|] c']; cbn [snd] in *;
    repeat cs_step; congruence.
Qed.

Lemma mqtt_close_conn_state (w : world) :
  conn_state (cl (snd (mqtt_close w))) = conn_state (cl w) \/
  (conn_state (cl w) <> GSM_MQTT_CONN_DISCONNECTED /\
   conn_state (cl (snd (mqtt_close w))) = GSM_MQTT_CONN_DISCONNECTING).
Proof.
  unfold mqtt_close, gsm_conn_close. cbv zeta.
  destruct (state_eqb (conn_state (cl w)) GSM_MQTT_CONN_DISCONNECTED) eqn:E;
    cbn [negb andb]; [left; reflexivity|].
  destruct (negb _); [|left; reflexivity].
  destruct (gsmr_eqb _ _); [right|left; reflexivity].
  split; [|reflexivity]. intros H. rewrite H in E. discriminate.
Qed.

Lemma connect_conn_state (w : world) (host : option string) (port : Z)
    (inf : option gsm_mqtt_client_info_t) :
  conn_state (cl (snd (gsm_mqtt_client_connect w host port inf))) = conn_state (cl w) \/
  (conn_state (cl w) = GSM_MQTT_CONN_DISCONNECTED /\
   conn_state (cl (snd (gsm_mqtt_client_connect w host port inf))) =
     GSM_MQTT_CONN_CONNECTING).
Proof.
  unfold gsm_mqtt_client_connect, gsm_network_is_attached, gsm_conn_start. cbv zeta.
  destruct host as [host|]; [|left; reflexivity].
  destruct (negb _); [left; reflexivity|].
  destruct inf as [inf|]; [|left; reflexivity].
  cbn [tick cl].
  destruct (env_network_is_attached _ _); cbn [andb]; [|left; reflexivity].
  destruct (state_eqb (conn_state (cl w)) GSM_MQTT_CONN_DISCONNECTED) eqn:E;
    [|left; reflexivity].
  apply state_eqb_eq in E.
  destruct (gsmr_eqb _ _); [right; split; [exact E|reflexivity]|left; reflexivity].
Qed.

Lemma connected_cb_conn_state (w : world) :
  conn_state (cl (mqtt_connected_cb w)) = conn_state (cl w) \/
  conn_state (cl (mqtt_connected_cb w)) = GSM_MQTT_CONNECTING.
Proof.
  unfold mqtt_connected_cb. destruct (info (cl w)); [|left; reflexivity].
  cbv zeta. destruct (_ =? 0); [left; reflexivity|].
  right. rewrite send_data_conn_state. reflexivity.
Qed.

Lemma sent_requests_loop_conn_state (w : world) :
  conn_state (cl (sent_requests_loop w)) = conn_state (cl w).
Proof.
  destruct (sent_requests_loop_log _ w eq_refl) as (_ & H & _).
  rewrite H. reflexivity.
Qed.

Lemma data_sent_conn_state (w : world) (len : Z) (successful : bool) :
  conn_state (cl (snd (mqtt_data_sent_cb w len successful))) = conn_state (cl w) \/
  (successful = false /\ conn_state (cl w) <> GSM_MQTT_CONN_DISCONNECTED /\
   conn_state (cl (snd (mqtt_data_sent_cb w len successful))) = GSM_MQTT_CONN_DISCONNECTING).
Proof.
  unfold mqtt_data_sent_cb. cbv zeta. destruct successful; cbn [negb snd].
  - left. rewrite send_data_conn_state, sent_requests_loop_conn_state. reflexivity.
  - match goal with |- context [mqtt_close ?x] =>
      destruct (mqtt_close_conn_state x) as [H|(H1 & H2)]
    end.
    + left. exact H.
    + right. split; [reflexivity|]. split; assumption.
Qed.

Lemma poll_conn_state (w : world) :
  conn_state (cl (snd (mqtt_poll_cb w))) = conn_state (cl w).
Proof.
  unfold mqtt_poll_cb. cbv zeta.
  destruct (state_eqb _ _); [reflexivity|].
  cbn [on_cl set_cl cl info set_poll_time].
  destruct (info (cl w)); [|reflexivity].
  destruct (_ && _); [|reflexivity].
  destruct (negb _); [|reflexivity].
  cbn [snd]. repeat cs_step. reflexivity.
Qed.

(** X19: how each operation moves the connection state.  Subscribe,
    unsubscribe, publish and the poll event never change it; connect changes
    it only from DISCONNECTED, to the state of the transport connecting;
    disconnect and a failed send change it only to DISCONNECTING; the error
    and close events end in DISCONNECTED; the active event leaves it or makes
    it CONNECTING; received data leave it or take it from CONNECTING to
    CONNECTED.  So the client is CONNECTED after an operation only if it was
    before, or if it was CONNECTING and the operation is a receive event. *)
Theorem state_transitions (w : world) (o : operation) :
  let s := conn_state (cl w) in
  let s' := conn_state (cl (step w o)) in
  match o with
  | OpConnect _ _ _ =>
      s' = s \/ (s = GSM_MQTT_CONN_DISCONNECTED /\ s' = GSM_MQTT_CONN_CONNECTING)
  | OpDisconnect =>
      s' = s \/ (s <> GSM_MQTT_CONN_DISCONNECTED /\ s' = GSM_MQTT_CONN_DISCONNECTING)
  | OpSubscribe _ _ _ | OpUnsubscribe _ _ | OpPublish _ _ _ _ _ _ => s' = s
  | OpEvt GSM_EVT_CONN_ERROR => s' = GSM_MQTT_CONN_DISCONNECTED
  | OpEvt GSM_EVT_CONN_ACTIVE => s' = s \/ s' = GSM_MQTT_CONNECTING
  | OpEvt (GSM_EVT_CONN_RECV _) => connack_move s s'
  | OpEvt (GSM_EVT_CONN_SEND _ res) =>
      s' = s \/
      (res <> gsmOK /\ s <> GSM_MQTT_CONN_DISCONNECTED /\ s' = GSM_MQTT_CONN_DISCONNECTING)
  | OpEvt GSM_EVT_CONN_POLL | OpEvt GSM_EVT_OTHER => s' = s
  | OpEvt (GSM_EVT_CONN_CLOSE _ _) => s' = GSM_MQTT_CONN_DISCONNECTED
  end /\
  (s' = GSM_MQTT_CONNECTED ->
   s = GSM_MQTT_CONNECTED \/
   (s = GSM_MQTT_CONNECTING /\ exists pbuf, o = OpEvt (GSM_EVT_CONN_RECV pbuf))).
Proof.
  cbv zeta.
  assert (H : match o with
    | OpConnect _ _ _ =>
        conn_state (cl (step w o)) = conn_state (cl w) \/
        (conn_state (cl w) = GSM_MQTT_CONN_DISCONNECTED /\
         conn_state (cl (step w o)) = GSM_MQTT_CONN_CONNECTING)
    | OpDisconnect =>
        conn_state (cl (step w o)) = conn_state (cl w) \/
        (conn_state (cl w) <> GSM_MQTT_CONN_DISCONNECTED /\
         conn_state (cl (step w o)) = GSM_MQTT_CONN_DISCONNECTING)
    | OpSubscribe _ _ _ | OpUnsubscribe _ _ | OpPublish _ _ _ _ _ _ =>
        conn_state (cl (step w o)) = conn_state (cl w)
    | OpEvt GSM_EVT_CONN_ERROR => conn_state (cl (step w o)) = GSM_MQTT_CONN_DISCONNECTED
    | OpEvt GSM_EVT_CONN_ACTIVE =>
        conn_state (cl (step w o)) = conn_state (cl w) \/
        conn_state (cl (step w o)) = GSM_MQTT_CONNECTING
    | OpEvt (GSM_EVT_CONN_RECV _) =>
        connack_move (conn_state (cl w)) (conn_state (cl (step w o)))
    | OpEvt (GSM_EVT_CONN_SEND _ res) =>
        conn_state (cl (step w o)) = conn_state (cl w) \/
        (res <> gsmOK /\ conn_state (cl w) <> GSM_MQTT_CONN_DISCONNECTED /\
         conn_state (cl (step w o)) = GSM_MQTT_CONN_DISCONNECTING)
    | OpEvt GSM_EVT_CONN_POLL | OpEvt GSM_EVT_OTHER =>
        conn_state (cl (step w o)) = conn_state (cl w)
    | OpEvt (GSM_EVT_CONN_CLOSE _ _) =>
        conn_state (cl (step w o)) = GSM_MQTT_CONN_DISCONNECTED
    end).
  { destruct o as [host port inf| |topic qos a|topic a|topic payload len qos retain a|evt];
      cbn [step].
    - apply connect_conn_state.
    - unfold gsm_mqtt_client_disconnect.
      destruct (_ && _); [apply mqtt_close_conn_state|left; reflexivity].
    - unfold gsm_mqtt_client_subscribe.
      pose proof (sub_unsub_conn_state w topic qos a 1) as H.
      destruct (sub_unsub w topic qos a 1). exact H.
    - unfold gsm_mqtt_client_unsubscribe.
      pose proof (sub_unsub_conn_state w topic 0 a 0) as H.
      destruct (sub_unsub w topic 0 a 0). exact H.
    - apply publish_conn_state.
    - destruct evt as [| |pbuf|len res| |res forced|]; cbn [mqtt_conn_cb snd].
      + reflexivity.
      + apply connected_cb_conn_state.
      + apply data_recv_move.
      + destruct (data_sent_conn_state w len (gsmr_eqb res gsmOK)) as [H|(H1 & H2 & H3)].
        * left. exact H.
        * right. split; [|split; assumption]. intros ->. discriminate.
      + apply poll_conn_state.
      + apply (closed_cb_effect w (gsmr_eqb res gsmOK) forced).
      + reflexivity. }
  split; [exact H|]. intros Hc. rewrite Hc in H.
  destruct o as [host port inf| |topic qos a|topic a|topic payload len qos retain a|evt].
  - destruct H as [H|(_ & H)]; [left; congruence|discriminate].
  - destruct H as [H|(_ & H)]; [left; congruence|discriminate].
  - left. congruence.
  - left. congruence.
  - left. congruence.
  - destruct evt as [| |pbuf|len res| |res forced|].
    + discriminate.
    + destruct H as [H|H]; [left; congruence|discriminate].
    + destruct H as [H|(H1 & _)]; [left; congruence|].
      right. split; [exact H1|]. exists pbuf. reflexivity.
    + destruct H as [H|(_ & _ & H)]; [left; congruence|discriminate].
    + left. congruence.
    + discriminate.
    + left. congruence.
Qed.

(** ** From connect to CONNECTED, and from disconnect to DISCONNECTED *)





(** X21: from disconnect to DISCONNECTED.  On a client that is neither
    disconnected nor disconnecting, with a transport that accepts the close,
    [gsm_mqtt_client_disconnect] returns OK after one call to close the
    transport; it writes no packet and leaves the requests as they are, and a
    second disconnect is refused with the generic error.  When the transport
    then reports the connection closed, the application is given the event
    DISCONNECT marked as accepted, whatever the state was before the
    disconnect, followed by the failure of every pending request in table
    order; the client ends DISCONNECTED with an empty transmit buffer. *)
Theorem disconnect_then_closed (w : world) (res : gsmr_t) (forced : Z) :
  conn_state (cl w) <> GSM_MQTT_CONN_DISCONNECTED ->
  conn_state (cl w) <> GSM_MQTT_CONN_DISCONNECTING ->
  env_conn_close (env w) (clock w) = gsmOK ->
  let r := gsm_mqtt_client_disconnect w in
  let w2 := snd (mqtt_conn_cb (snd r) (GSM_EVT_CONN_CLOSE res forced)) in
  fst r = gsmOK /\
  log (snd r) = CallConnClose gsmOK :: log w /\
  tx_buff (cl (snd r)) = tx_buff (cl w) /\
  requests (cl (snd r)) = requests (cl w) /\
  fst (gsm_mqtt_client_disconnect (snd r)) = gsmERR /\
  events (trace w2) =
    events (trace w) ++
    GSM_MQTT_EVT_DISCONNECT true :: map err_event (filter is_pending (requests (cl w))) /\
  conn_state (cl w2) = GSM_MQTT_CONN_DISCONNECTED /\
  tx_data (cl w2) = [].
Proof.
  intros H1 H2 Hc. cbv zeta.
  assert (E : gsm_mqtt_client_disconnect w =
              (gsmOK, on_cl (set_conn_state GSM_MQTT_CONN_DISCONNECTING)
                        (tick (emit (CallConnClose gsmOK) w)))).
  { unfold gsm_mqtt_client_disconnect, mqtt_close, gsm_conn_close. cbv zeta.
    destruct (state_eqb (conn_state (cl w)) GSM_MQTT_CONN_DISCONNECTED) eqn:E1;
      [apply state_eqb_eq in E1; contradiction|].
    destruct (state_eqb (conn_state (cl w)) GSM_MQTT_CONN_DISCONNECTING) eqn:E2;
      [apply state_eqb_eq in E2; contradiction|].
    cbn [negb andb]. rewrite Hc. reflexivity. }
  rewrite E. cbn [fst snd]. set (w1 := on_cl _ _).
  assert (F1 : conn_state (cl w1) = GSM_MQTT_CONN_DISCONNECTING) by reflexivity.
  assert (F2 : requests (cl w1) = requests (cl w)) by reflexivity.
  assert (F3 : events (trace w1) = events (trace w)).
  { unfold trace. subst w1. cbn [on_cl set_cl tick emit log rev].
    rewrite events_app. cbn [events]. apply app_nil_r. }
  assert (F4 : log w1 = CallConnClose gsmOK :: log w) by reflexivity.
  assert (F5 : tx_buff (cl w1) = tx_buff (cl w)) by reflexivity.
  clearbody w1.
  split; [reflexivity|]. split; [exact F4|]. split; [exact F5|]. split; [exact F2|].
  split.
  { unfold gsm_mqtt_client_disconnect. rewrite F1. reflexivity. }
  cbn [mqtt_conn_cb snd].
  destruct (closed_cb_effect w1 (gsmr_eqb res gsmOK) forced) as (G1 & G2 & _).
  rewrite G1, G2, F1, F2, F3. cbn [state_eqb orb].
  split; [reflexivity|]. split; [reflexivity|].
  unfold mqtt_closed_cb. cbv zeta. cbn [snd].
  unfold on_cl at 1. cbn [set_cl cl]. reflexivity.
Qed.

Lemma disconnect_then_closed_witness :
  events (trace (snd (mqtt_conn_cb (snd (gsm_mqtt_client_disconnect w_three_pending))
                        (GSM_EVT_CONN_CLOSE gsmOK 0)))) =
    events (trace w_three_pending) ++
    GSM_MQTT_EVT_DISCONNECT true
    :: map err_event (filter is_pending (requests (cl w_three_pending))).
Proof.
  refine (proj1 (proj2 (proj2 (proj2 (proj2 (proj2
    (disconnect_then_closed w_three_pending gsmOK 0 _ _ _))))))).
  - vm_compute. discriminate.
  - vm_compute. discriminate.
  - reflexivity.
Defined.

(** ** Keep-alive *)










(** ** Frames in a block *)

(** A frame of length 0 in a block: the dispatcher runs, the parser goes on. *)
Lemma empty_frame_in_block (w : world) (h : Z) (tail : list Z) :
  parser_state (cl w) = MQTT_PARSER_STATE_INIT ->
  parse_block w (h :: 0 :: tail) =
  parse_block
    (on_cl (set_parser_state MQTT_PARSER_STATE_INIT)
       (snd (mqtt_process_incoming_message
          (on_cl (fun c =>
             set_msg_rem_len_mult 1 (set_msg_rem_len 0
               (set_parser_state MQTT_PARSER_STATE_CALC_REM_LEN
                  (set_msg_curr_pos 0 (set_msg_hdr_byte h c))))) w))))
    tail.
Proof.
  intros Hs.
  rewrite (parse_block_step _ _ _ _ _ (parser_step_init w h (0 :: tail) Hs)).
  change (skipn (Z.to_nat 0) (0 :: tail)) with (0 :: tail).
  rewrite parse_block_equation_2.
  set (w1 := on_cl _ w).
  assert (E : parser_step w1 0 tail =
              (on_cl (set_parser_state MQTT_PARSER_STATE_INIT)
                 (snd (mqtt_process_incoming_message
                    (on_cl (fun c =>
                       set_msg_rem_len_mult 1 (set_msg_rem_len 0
                         (set_parser_state MQTT_PARSER_STATE_CALC_REM_LEN
                            (set_msg_curr_pos 0 (set_msg_hdr_byte h c)))))
                       w))), 0)).
  { unfold parser_step.
    change (parser_state (cl w1)) with MQTT_PARSER_STATE_CALC_REM_LEN.
    change (MQTT_PARSER_STATE_CALC_REM_LEN =? MQTT_PARSER_STATE_INIT) with false.
    change (MQTT_PARSER_STATE_CALC_REM_LEN =? MQTT_PARSER_STATE_CALC_REM_LEN) with true.
    cbv iota zeta. change (Z.land 0 128 =? 0) with true. cbv iota.
    cbn [on_cl set_cl cl msg_rem_len set_msg_rem_len_mult set_msg_rem_len].
    change (msg_rem_len (cl w1)) with 0. change (msg_rem_len_mult (cl w1)) with 0.
    change (GSM_U32 (Z.lor 0 (shl32 (Z.land 0 127) (7 * 0)))) with 0.
    change (0 <? 0) with false. cbv iota. reflexivity. }
  rewrite E. cbn [fst snd]. change (skipn (Z.to_nat 0) tail) with tail. reflexivity.
Qed.

Lemma log_on_cl (f : gsm_mqtt_client_t -> gsm_mqtt_client_t) (x : world) :
  log (on_cl f x) = log x.
Proof. reflexivity. Qed.

Lemma frame_dispatch_parser_state (w : world) (h v m : Z) (t : list Z) :
  parser_state (cl (frame_dispatch w h v m t)) = MQTT_PARSER_STATE_INIT.
Proof.
  unfold frame_dispatch. generalize (snd (mqtt_process_incoming_message
    (on_cl (fun c => set_rx_buff_len v (set_rx_buff t (set_msg_rem_len_mult m
       (set_msg_rem_len v (set_parser_state MQTT_PARSER_STATE_CALC_REM_LEN
          (set_msg_curr_pos 0 (set_msg_hdr_byte h c))))))) w))).
  intros x. reflexivity.
Qed.

Lemma frame_dispatch_pevents (w : world) (h v m : Z) (t : list Z) :
  pevents (log (frame_dispatch w h v m t)) =
  PDispatch h v (firstn (Z.to_nat v) t) :: pevents (log w).
Proof.
  unfold frame_dispatch. rewrite log_on_cl, process_pevents. reflexivity.
Qed.

Lemma empty_dispatch_parser_state (x : world) :
  parser_state (cl (on_cl (set_parser_state MQTT_PARSER_STATE_INIT) x)) =
  MQTT_PARSER_STATE_INIT.
Proof. reflexivity. Qed.

(** One whole frame at the head of a block. *)
Lemma frame_then_rest (w : world) (f : Z * list Z) (rest : list Z) :
  parser_state (cl w) = MQTT_PARSER_STATE_INIT ->
  zlen (snd f) <= 65535 ->
  exists w',
    parse_block w (frame_bytes f ++ rest) = parse_block w' rest /\
    parser_state (cl w') = MQTT_PARSER_STATE_INIT /\
    pevents (log w') = PDispatch (fst f) (zlen (snd f)) (snd f) :: pevents (log w).
Proof.
  intros Hs Hv. destruct f as [h body]. cbn [fst snd] in *. unfold frame_bytes.
  cbn [fst snd app]. rewrite <- app_assoc.
  pose proof (zlen_nonneg body) as Hn.
  destruct (Z.eq_dec (zlen body) 0) as [E|E].
  - assert (body = []) by (destruct body; [reflexivity|rewrite zlen_cons in E;
      pose proof (zlen_nonneg body); lia]).
    subst body. change (zlen (@nil Z)) with 0. rewrite rem_len_bytes_1 by lia.
    cbn [app]. rewrite (empty_frame_in_block w h rest Hs).
    match goal with |- exists w', parse_block ?x rest = _ /\ _ => exists x end.
    split; [reflexivity|]. split; [apply empty_dispatch_parser_state|].
    rewrite log_on_cl, process_pevents. reflexivity.
  - rewrite frame_in_block by (try exact Hs; rewrite ?zlen_app; pose proof (zlen_nonneg rest); lia).
    rewrite skipn_app, skipn_all2 by (unfold zlen in *; lia).
    replace (Z.to_nat (zlen body) - length body)%nat with O by (unfold zlen; lia).
    cbn [skipn app].
    match goal with |- exists w', parse_block ?x rest = _ /\ _ => exists x end.
    split; [reflexivity|]. split; [apply frame_dispatch_parser_state|].
    rewrite frame_dispatch_pevents.
    rewrite firstn_app, firstn_all2 by (unfold zlen; lia).
    replace (Z.to_nat (zlen body) - length body)%nat with O by (unfold zlen; lia).
    cbn [firstn]. rewrite app_nil_r. reflexivity.
Qed.

(** Whole frames in a block are dispatched one after the other. *)
Lemma frames_parse_block (frames : list (Z * list Z)) :
  forall w,
  parser_state (cl w) = MQTT_PARSER_STATE_INIT ->
  Forall (fun f => zlen (snd f) <= 65535) frames ->
  parser_state (cl (parse_block w (concat (map frame_bytes frames)))) =
    MQTT_PARSER_STATE_INIT /\
  pevents (log (parse_block w (concat (map frame_bytes frames)))) =
    rev (map (fun f => PDispatch (fst f) (zlen (snd f)) (snd f)) frames) ++ pevents (log w).
Proof.
  induction frames as [|f frames IH]; intros w Hs Hall.
  - cbn [map concat rev app]. rewrite parse_block_equation_1. auto.
  - inversion Hall as [|? ? Hf Hrest]; subst.
    cbn [map concat].
    destruct (frame_then_rest w f (concat (map frame_bytes frames)) Hs Hf)
      as (w' & E & Hs' & Hp).
    rewrite E. destruct (IH w' Hs' Hrest) as (I1 & I2).
    split; [exact I1|]. rewrite I2, Hp. cbn [rev]. rewrite <- app_assoc. reflexivity.
Qed.

Lemma pdispatches_app (x y : list pevent) :
  pdispatches (x ++ y) = pdispatches x ++ pdispatches y.
Proof.
  induction x as [|e x IH]; [reflexivity|]. destruct e; cbn; rewrite IH; reflexivity.
Qed.

Lemma pdispatches_frames (frames : list (Z * list Z)) :
  pdispatches (map (fun f => PDispatch (fst f) (zlen (snd f)) (snd f)) frames) =
  map (fun f => (fst f, zlen (snd f), snd f)) frames.
Proof. induction frames as [|f frames IH]; [reflexivity|]. cbn. rewrite IH. reflexivity. Qed.

Lemma discards_pevents (l : list output) : discards l = pdiscards (pevents l).
Proof.
  induction l as [|o l IH]; [reflexivity|]. destruct o; cbn; rewrite IH; reflexivity.
Qed.

Lemma pdiscards_app (x y : list pevent) : pdiscards (x ++ y) = pdiscards x ++ pdiscards y.
Proof.
  induction x as [|e x IH]; [reflexivity|]. destruct e; cbn; rewrite IH; reflexivity.
Qed.

Lemma pdiscards_frames (l : list pevent) :
  Forall (fun e => is_dispatch e = true) l -> pdiscards l = [].
Proof.
  induction 1 as [|e l He _ IH]; [reflexivity|].
  destruct e; [exact IH|discriminate].
Qed.

(** X23: whole frames in one block.  A received block made of any number of
    frames, each a header byte, the remaining length as the encoder writes
    it and a body of at most 65,535 bytes, given to a client whose parser is
    between frames, is cut into exactly these frames: the dispatcher is
    called once for each, in order, with its header byte, its length and its
    body, no frame is dropped, and the parser is between frames again. *)
Theorem frames_in_block (w : world) (frames : list (Z * list Z)) :
  parser_state (cl w) = MQTT_PARSER_STATE_INIT ->
  Forall (fun f => zlen (snd f) <= 65535) frames ->
  let w' := snd (mqtt_conn_cb w (GSM_EVT_CONN_RECV [concat (map frame_bytes frames)])) in
  dispatches (trace w') =
    dispatches (trace w) ++ map (fun f => (fst f, zlen (snd f), snd f)) frames /\
  discards (log w') = discards (log w) /\
  parser_state (cl w') = MQTT_PARSER_STATE_INIT.
Proof.
  intros Hs Hall. cbv zeta. cbn [mqtt_conn_cb snd].
  unfold mqtt_data_recv_cb, mqtt_parse_incoming. cbv zeta. cbn [snd fold_left].
  destruct (frames_parse_block frames (on_cl (set_poll_time 0) w) Hs Hall) as (H1 & H2).
  set (w1 := parse_block _ _) in *. clearbody w1.
  cbn [on_cl set_cl log] in H2.
  split; [|split].
  - unfold trace. cbn [emit log rev]. rewrite !dispatches_pevents, pevents_app, !pevents_rev.
    cbn [pevents]. rewrite app_nil_r, H2, rev_app_distr, rev_involutive, pdispatches_app,
      pdispatches_frames. reflexivity.
  - cbn [emit log discards]. rewrite !discards_pevents, H2. 
    rewrite pdiscards_app, pdiscards_frames; [reflexivity|].
    apply Forall_rev, Forall_map, Forall_forall. intros f _. reflexivity.
  - exact H1.
Qed.

Lemma frames_in_block_witness :
  dispatches (trace (snd (mqtt_conn_cb w_connected
     (GSM_EVT_CONN_RECV [concat (map frame_bytes [(0xD0, []); (0x40, [0; 9])])])))) =
  dispatches (trace w_connected) ++
  map (fun f => (fst f, zlen (snd f), snd f)) [(0xD0, []); (0x40, [0; 9])].
Proof.
  refine (proj1 (frames_in_block w_connected [(0xD0, []); (0x40, [0; 9])] _ _)).
  - reflexivity.
  - repeat constructor; vm_compute; discriminate.
Defined.

(** ** What a request leaves alone *)

Section Untouched.

(** A field of the client that no write to the transmit buffer, to the
    requests or to the counters changes. *)
Variable A : Type.
Variable p : gsm_mqtt_client_t -> A.
Hypothesis p_tx_buff : forall b c, p (set_tx_buff b c) = p c.
Hypothesis p_requests : forall r c, p (set_requests r c) = p c.
Hypothesis p_last_packet_id : forall n c, p (set_last_packet_id n c) = p c.
Hypothesis p_is_sending : forall n c, p (set_is_sending n c) = p c.
Hypothesis p_written_total : forall n c, p (set_written_total n c) = p c.

Lemma un_tx_write (c : gsm_mqtt_client_t) (d : list Z) : p (tx_write c d) = p c.
Proof. unfold tx_write. apply p_tx_buff. Qed.

Lemma un_send_data (w : world) : p (cl (send_data w)) = p (cl w).
Proof.
  unfold send_data, gsm_conn_send. split_ifs; cbn [on_cl set_cl cl tick emit];
    rewrite ?p_is_sending, ?p_written_total, ?p_tx_buff; reflexivity.
Qed.

Lemma un_create_packet_id (c : gsm_mqtt_client_t) : p (snd (create_packet_id c)) = p c.
Proof.
  unfold create_packet_id. cbv zeta. cbn [snd].
  destruct (last_packet_id _ =? 0); rewrite ?p_last_packet_id; reflexivity.
Qed.

Lemma un_request_create (c : gsm_mqtt_client_t) (n a : Z) :
  p (snd (request_create c n a)) = p c.
Proof.
  unfold request_create. destruct (find_not_in_use (requests c)); cbn [snd];
    rewrite ?p_requests; reflexivity.
Qed.

Lemma un_on_cl (x : world) (f : gsm_mqtt_client_t -> gsm_mqtt_client_t) (v : A) :
  (forall c, p (f c) = p c) -> p (cl x) = v -> p (cl (on_cl f x)) = v.
Proof. intros Hf H. unfold on_cl. cbn [set_cl cl]. rewrite Hf. exact H. Qed.

Lemma un_set_cl (x : world) (c : gsm_mqtt_client_t) (v : A) :
  p c = v -> p (cl (set_cl c x)) = v.
Proof. intros H. exact H. Qed.

Lemma un_request_set_pending (x : world) (i : nat) (v : A) :
  p (cl x) = v -> p (cl (request_set_pending x i)) = v.
Proof.
  intros H. unfold request_set_pending, gsm_sys_now. cbv zeta.
  unfold on_cl. cbn [set_cl cl tick]. rewrite p_requests. exact H.
Qed.

Ltac un_step :=
  match goal with
  | |- p (cl (snd (_, _))) = _ => cbn [snd]
  | |- p (cl (send_data _)) = _ => rewrite un_send_data
  | |- p (cl (request_set_pending _ _)) = _ => apply un_request_set_pending
  | |- p (cl (on_cl _ _)) = _ =>
      apply un_on_cl;
      [intros ?; cbv beta;
       rewrite ?write_fixed_header_bytes, ?write_string_bytes, ?write_u16_bytes,
         ?write_u8_bytes;
       unfold write_data; rewrite ?un_tx_write, ?p_requests; reflexivity|]
  | |- p (cl (set_cl _ _)) = _ => apply un_set_cl
  | |- p (cl (if ?b then _ else _)) = _ => destruct b
  | |- p (cl (match ?x with Some _ => _ | None => _ end)) = _ => destruct x
  end.

Lemma un_sub_unsub (w : world) (topic : string) (qos a sub : Z) :
  p (cl (snd (sub_unsub w topic qos a sub))) = p (cl w).
Proof.
  unfold sub_unsub. cbv zeta.
  destruct (_ =? 0); [reflexivity|].
  destruct (_ && _); [|reflexivity].
  pose proof (un_create_packet_id (cl w)) as H1.
  destruct (create_packet_id (cl w)) as [pkt_id c]. cbn [snd] in *.
  pose proof (un_request_create c pkt_id a) as H2.
  destruct (request_create c pkt_id a) as [[i|] c']; cbn [snd] in *;
    repeat un_step; congruence.
Qed.

Lemma un_publish (w : world) (topic : string) (payload : option (list Z))
    (payload_len qos retain a : Z) :
  p (cl (snd (gsm_mqtt_client_publish w topic payload payload_len qos retain a))) =
  p (cl w).
Proof.
  unfold gsm_mqtt_client_publish. cbv zeta.
  destruct (_ =? 0); [reflexivity|].
  destruct (negb (state_eqb _ _)); [reflexivity|].
  destruct (negb (_ =? 0)); [|reflexivity].
  assert (H1 : p (snd (if 0 <? GSM_U8 qos then create_packet_id (cl w)
                       else (0, cl w))) = p (cl w)).
  { destruct (0 <? GSM_U8 qos); [apply un_create_packet_id|reflexivity]. }
  destruct (if 0 <? GSM_U8 qos then create_packet_id (cl w) else (0, cl w)) as [pkt_id c].
  cbn [snd] in *.
  pose proof (un_request_create c pkt_id a) as H2.
  destruct (request_create c pkt_id a) as [[i|] c']; cbn [snd] in *;
    repeat un_step; congruence.
Qed.

End Untouched.

(** The events given to the application so far are a matter of the log. *)
Lemma ev_on_cl (x : world) (f : gsm_mqtt_client_t -> gsm_mqtt_client_t) :
  events (log (on_cl f x)) = events (log x).
Proof. reflexivity. Qed.

Lemma ev_request_set_pending (x : world) (i : nat) :
  events (log (request_set_pending x i)) = events (log x).
Proof. reflexivity. Qed.

Ltac ev_step :=
  match goal with
  | |- events (log (snd (_, _))) = _ => cbn [snd]
  | |- events (log (send_data _)) = _ => rewrite send_data_events
  | |- events (log (request_set_pending _ _)) = _ => rewrite ev_request_set_pending
  | |- events (log (on_cl _ _)) = _ => rewrite ev_on_cl
  | |- events (log (set_cl _ _)) = _ => change (events (log (set_cl ?c ?x))) with (events (log x))
  | |- events (log (if ?b then _ else _)) = _ => destruct b
  | |- events (log (match ?x with Some _ => _ | None => _ end)) = _ => destruct x
  end.

Lemma sub_unsub_events (w : world) (topic : string) (qos a sub : Z) :
  events (log (snd (sub_unsub w topic qos a sub))) = events (log w).
Proof.
  unfold sub_unsub. cbv zeta.
  destruct (_ =? 0); [reflexivity|].
  destruct (_ && _); [|reflexivity].
  destruct (create_packet_id (cl w)) as [pkt_id c].
  destruct (request_create c pkt_id a) as [[i|] c']; repeat ev_step; reflexivity.
Qed.

Lemma publish_events (w : world) (topic : string) (payload : option (list Z))
    (payload_len qos retain a : Z) :
  events (log (snd (gsm_mqtt_client_publish w topic payload payload_len qos retain a))) =
  events (log w).
Proof.
  unfold gsm_mqtt_client_publish. cbv zeta.
  destruct (_ =? 0); [reflexivity|].
  destruct (negb (state_eqb _ _)); [reflexivity|].
  destruct (negb (_ =? 0)); [|reflexivity].
  destruct (if 0 <? GSM_U8 qos then create_packet_id (cl w) else (0, cl w)) as [pkt_id c].
  destruct (request_create c pkt_id a) as [[i|] c']; repeat ev_step; reflexivity.
Qed.

(** ** A request and its acknowledgement *)

Lemma find_pending_first (l : list gsm_mqtt_request_t) (n : Z) (i : nat) :
  0 <= n < 65536 ->
  pending_with n (nth i l request_zero) = true ->
  (forall j, (j < i)%nat -> pending_with n (nth j l request_zero) = false) ->
  find_pending l n = Some i.
Proof.
  intros Hn. revert i. induction l as [|r t IH]; intros i Hi Hlt.
  - destruct i; discriminate.
  - cbn [find_pending]. rewrite (U16_small n) by exact Hn.
    replace (n =? -1) with false by (symmetry; apply Z.eqb_neq; lia). cbn [orb].
    fold (is_pending r). fold (pending_with n r).
    destruct i as [|i].
    + cbn [nth] in Hi. rewrite Hi. reflexivity.
    + pose proof (Hlt O ltac:(lia)) as H0. cbn [nth] in H0, Hi. rewrite H0.
      rewrite (IH i Hi); [reflexivity|].
      intros j Hj. apply (Hlt (S j)). lia.
Qed.

(** A PUBACK or PUBCOMP for a packet id a pending request holds. *)
Lemma ack_frame_found (w : world) (h n : Z) (i : nat) :
  parser_state (cl w) = MQTT_PARSER_STATE_INIT ->
  MQTT_RCV_GET_PACKET_TYPE h = MQTT_MSG_TYPE_PUBACK \/
  MQTT_RCV_GET_PACKET_TYPE h = MQTT_MSG_TYPE_PUBCOMP ->
  0 <= n < 65536 ->
  request_get_pending (cl w) n = Some i ->
  events (log (snd (mqtt_conn_cb w (GSM_EVT_CONN_RECV [h :: 2 :: u16_bytes n])))) =
    GSM_MQTT_EVT_PUBLISH (arg (get_request (cl w) i)) gsmOK :: events (log w) /\
  requests (cl (snd (mqtt_conn_cb w (GSM_EVT_CONN_RECV [h :: 2 :: u16_bytes n])))) =
    update_request (requests (cl w)) i (set_status 0).
Proof.
  intros Hs Ht Hp Hr.
  change (h :: 2 :: u16_bytes n) with (h :: [2] ++ u16_bytes n).
  rewrite <- rem_len_bytes_2_is.
  rewrite recv_one_frame by (try exact Hs; try reflexivity; lia).
  unfold frame_dispatch.
  match goal with |- context [mqtt_process_incoming_message ?x] =>
    rewrite (process_ack_found x i);
    [ | fields; exact Ht
      | rewrite (u16_bytes_read n []) by (fields; rewrite app_nil_r; reflexivity);
        rewrite U16_small by exact Hp; fields; exact Hr ]
  end.
  fields. split; reflexivity.
Qed.

Lemma create_packet_id_bound (c : gsm_mqtt_client_t) :
  0 <= fst (create_packet_id c) < 65536.
Proof.
  unfold create_packet_id. cbv zeta. cbn [fst].
  cbn [last_packet_id set_last_packet_id].
  pose proof (U16_bound (last_packet_id c + 1)).
  destruct (GSM_U16 (last_packet_id c + 1) =? 0); cbn [last_packet_id set_last_packet_id]; lia.
Qed.

(** X24: publish, then the acknowledgement.  After a publish with a QoS
    above 0 that returned OK, when no request pending before holds the packet
    id the publish was given, the PUBACK (or PUBCOMP) carrying that packet id
    completes this publish: the application is given the event PUBLISH with
    the argument passed to the publish and the result OK, as the only event
    since before the publish, and the request taken by the publish is free
    again. *)
Theorem publish_then_ack (w : world) (topic : string) (payload : option (list Z))
    (payload_len qos retain a h : Z) :
  publish_rem_len topic payload payload_len qos <= 65531 ->
  0 <= tx_free (cl w) < 65536 ->
  buff_ok (tx_buff (cl w)) ->
  strlen topic < 65536 ->
  (forall data, payload = Some data -> GSM_U16 payload_len <= zlen data) ->
  fst (gsm_mqtt_client_publish w topic payload payload_len qos retain a) = gsmOK ->
  0 < GSM_U8 qos ->
  parser_state (cl w) = MQTT_PARSER_STATE_INIT ->
  MQTT_RCV_GET_PACKET_TYPE h = MQTT_MSG_TYPE_PUBACK \/
  MQTT_RCV_GET_PACKET_TYPE h = MQTT_MSG_TYPE_PUBCOMP ->
  (forall r, In r (requests (cl w)) -> is_pending r = true ->
             packet_id r <> fst (create_packet_id (cl w))) ->
  let pid := fst (create_packet_id (cl w)) in
  let w1 := snd (gsm_mqtt_client_publish w topic payload payload_len qos retain a) in
  let w2 := snd (mqtt_conn_cb w1 (GSM_EVT_CONN_RECV [h :: 2 :: u16_bytes pid])) in
  events (log w2) = GSM_MQTT_EVT_PUBLISH a gsmOK :: events (log w) /\
  exists i,
    find_not_in_use (requests (cl w)) = Some i /\
    packet_id (get_request (cl w1) i) = pid /\
    is_pending (get_request (cl w1) i) = true /\
    status (get_request (cl w2) i) = 0.
Proof.
  intros Hr Hf Hok Hts Hp Hres Hq Hs Ht Hfresh. cbv zeta.
  destruct (publish_done w topic payload payload_len qos retain a Hr Hf Hok Hts Hp Hres)
    as (i & Hi & _ & Hst & Hpid & Harg & _ & Hoth).
  cbv zeta in *.
  replace (0 <? GSM_U8 qos) with true in * by (symmetry; apply Z.ltb_lt; exact Hq).
  pose proof (create_packet_id_bound (cl w)) as Hb.
  pose proof (publish_events w topic payload payload_len qos retain a) as Hev.
  pose proof (un_publish _ parser_state ltac:(reflexivity) ltac:(reflexivity)
                ltac:(reflexivity) ltac:(reflexivity) ltac:(reflexivity)
                w topic payload payload_len qos retain a) as Hps.
  set (pid := fst (create_packet_id (cl w))) in *.
  set (w1 := snd (gsm_mqtt_client_publish w topic payload payload_len qos retain a)) in *.
  clearbody w1.
  assert (Hfind : request_get_pending (cl w1) pid = Some i).
  { unfold request_get_pending. apply find_pending_first; [exact Hb| |].
    - fold (get_request (cl w1) i). unfold pending_with, is_pending, has_flag.
      rewrite Hst, Hpid, Z.eqb_refl. reflexivity.
    - intros j Hj. fold (get_request (cl w1) j). rewrite Hoth by lia.
      unfold pending_with. destruct (is_pending (get_request (cl w) j)) eqn:Ep;
        [|reflexivity].
      cbn [andb]. apply Z.eqb_neq. apply Hfresh; [|exact Ep].
      unfold get_request in *.
      destruct (Nat.lt_ge_cases j (length (requests (cl w)))) as [Hl|Hl].
      + apply nth_In. exact Hl.
      + rewrite nth_overflow in Ep by exact Hl. discriminate. }
  destruct (ack_frame_found w1 h pid i (eq_trans Hps Hs) Ht Hb Hfind) as (E1 & E2).
  split.
  - rewrite E1, Harg, Hev. reflexivity.
  - exists i. split; [exact Hi|]. split; [exact Hpid|]. split.
    + unfold is_pending, has_flag. rewrite Hst. reflexivity.
    + unfold get_request in *. rewrite E2.
      destruct (Nat.lt_ge_cases i (length (requests (cl w1)))) as [Hl|Hl].
      * rewrite nth_update_request_same by exact Hl. reflexivity.
      * rewrite nth_overflow in Hst by exact Hl. discriminate.
Qed.

Lemma publish_then_ack_witness :
  events (log (snd (mqtt_conn_cb
                      (snd (gsm_mqtt_client_publish w_connected "a/b" (Some [0x68; 0x69])
                              2 1 0 11))
                      (GSM_EVT_CONN_RECV
                         [0x40 :: 2 :: u16_bytes (fst (create_packet_id (cl w_connected)))])))) =
  GSM_MQTT_EVT_PUBLISH 11 gsmOK :: events (log w_connected).
Proof.
  refine (proj1 (publish_then_ack w_connected "a/b" (Some [0x68; 0x69]) 2 1 0 11 0x40
                   _ _ _ _ _ _ _ _ _ _)).
  - vm_compute. discriminate.
  - vm_compute. split; [discriminate | reflexivity].
  - vm_compute. repeat split; discriminate.
  - vm_compute. reflexivity.
  - intros data Hd. injection Hd as <-. vm_compute. discriminate.
  - reflexivity.
  - reflexivity.
  - reflexivity.
  - left. reflexivity.
  - intros r Hr Hpend. exfalso. revert Hpend.
    vm_compute in Hr.
    repeat (destruct Hr as [<-|Hr]; [vm_compute; discriminate|]). destruct Hr.
Defined.

(** A SUBACK with a return code for a packet id a pending request holds. *)
Lemma suback_frame_found (w : world) (h n rc : Z) (i : nat) :
  parser_state (cl w) = MQTT_PARSER_STATE_INIT ->
  MQTT_RCV_GET_PACKET_TYPE h = MQTT_MSG_TYPE_SUBACK ->
  0 <= n < 65536 ->
  request_get_pending (cl w) n = Some i ->
  events (log (snd (mqtt_conn_cb w (GSM_EVT_CONN_RECV [h :: 3 :: u16_bytes n ++ [rc]])))) =
    GSM_MQTT_EVT_SUBSCRIBE (arg (get_request (cl w) i)) (if rc <? 3 then gsmOK else gsmERR)
    :: events (log w) /\
  requests (cl (snd (mqtt_conn_cb w (GSM_EVT_CONN_RECV [h :: 3 :: u16_bytes n ++ [rc]])))) =
    update_request (requests (cl w)) i (set_status 0).
Proof.
  intros Hs Ht Hp Hr.
  change (h :: 3 :: u16_bytes n ++ [rc]) with (h :: [3] ++ u16_bytes n ++ [rc]).
  rewrite <- rem_len_bytes_3_is.
  rewrite recv_one_frame by (try exact Hs; try reflexivity; lia).
  unfold frame_dispatch.
  match goal with |- context [mqtt_process_incoming_message ?x] =>
    rewrite (process_suback_found x i);
    [ | left; fields; exact Ht
      | rewrite (u16_bytes_read n [rc]) by (fields; reflexivity);
        rewrite U16_small by exact Hp; fields; exact Hr ]
  end.
  fields. rewrite Ht. split; reflexivity.
Qed.

(** X25: subscribe, then the acknowledgement.  After a subscribe that
    returned OK, when no request pending before holds the packet id the
    subscribe was given, the SUBACK carrying that packet id and a return code
    completes this subscribe: the application is given the event SUBSCRIBE
    with the argument passed to the subscribe, the result being OK when the
    return code is below 3 and ERR otherwise, as the only event since before
    the subscribe, and the request taken by the subscribe is free again. *)
Theorem subscribe_then_suback (w : world) (topic : string) (qos a h rc : Z) :
  strlen topic <= 65526 ->
  0 <= tx_free (cl w) < 65536 ->
  buff_ok (tx_buff (cl w)) ->
  fst (gsm_mqtt_client_subscribe w topic qos a) = gsmOK ->
  parser_state (cl w) = MQTT_PARSER_STATE_INIT ->
  MQTT_RCV_GET_PACKET_TYPE h = MQTT_MSG_TYPE_SUBACK ->
  (forall r, In r (requests (cl w)) -> is_pending r = true ->
             packet_id r <> fst (create_packet_id (cl w))) ->
  let pid := fst (create_packet_id (cl w)) in
  let w1 := snd (gsm_mqtt_client_subscribe w topic qos a) in
  let w2 := snd (mqtt_conn_cb w1 (GSM_EVT_CONN_RECV [h :: 3 :: u16_bytes pid ++ [rc]])) in
  events (log w2) =
    GSM_MQTT_EVT_SUBSCRIBE a (if rc <? 3 then gsmOK else gsmERR) :: events (log w) /\
  exists i,
    find_not_in_use (requests (cl w)) = Some i /\
    packet_id (get_request (cl w1) i) = pid /\
    is_pending (get_request (cl w1) i) = true /\
    status (get_request (cl w2) i) = 0.
Proof.
  intros Hts Hf Hok Hres Hs Ht Hfresh. cbv zeta.
  destruct (subscribe_unfold w topic qos a) as (E1 & E2). rewrite E2. rewrite E1 in Hres.
  destruct (fst (sub_unsub w topic qos a 1) =? 1) eqn:E; [|discriminate].
  apply Z.eqb_eq in E.
  destruct (sub_unsub_done w topic qos a 1 Hts Hf Hok E)
    as (i & Hi & _ & Hst & Hpid & Harg & Hoth).
  change (1 =? 0) with false in Hst. cbv iota in Hst.
  pose proof (create_packet_id_bound (cl w)) as Hb.
  pose proof (sub_unsub_events w topic qos a 1) as Hev.
  pose proof (un_sub_unsub _ parser_state ltac:(reflexivity) ltac:(reflexivity)
                ltac:(reflexivity) ltac:(reflexivity) ltac:(reflexivity)
                w topic qos a 1) as Hps.
  set (pid := fst (create_packet_id (cl w))) in *.
  set (w1 := snd (sub_unsub w topic qos a 1)) in *.
  clearbody w1.
  assert (Hfind : request_get_pending (cl w1) pid = Some i).
  { unfold request_get_pending. apply find_pending_first; [exact Hb| |].
    - fold (get_request (cl w1) i). unfold pending_with, is_pending, has_flag.
      rewrite Hst, Hpid, Z.eqb_refl. reflexivity.
    - intros j Hj. fold (get_request (cl w1) j). rewrite Hoth by lia.
      unfold pending_with. destruct (is_pending (get_request (cl w) j)) eqn:Ep;
        [|reflexivity].
      cbn [andb]. apply Z.eqb_neq. apply Hfresh; [|exact Ep].
      unfold get_request in *.
      destruct (Nat.lt_ge_cases j (length (requests (cl w)))) as [Hl|Hl].
      + apply nth_In. exact Hl.
      + rewrite nth_overflow in Ep by exact Hl. discriminate. }
  destruct (suback_frame_found w1 h pid rc i (eq_trans Hps Hs) Ht Hb Hfind) as (F1 & F2).
  split.
  - rewrite F1, Harg, Hev. reflexivity.
  - exists i. split; [exact Hi|]. split; [exact Hpid|]. split.
    + unfold is_pending, has_flag. rewrite Hst. reflexivity.
    + unfold get_request in *. rewrite F2.
      destruct (Nat.lt_ge_cases i (length (requests (cl w1)))) as [Hl|Hl].
      * rewrite nth_update_request_same by exact Hl. reflexivity.
      * rewrite nth_overflow in Hst by exact Hl. discriminate.
Qed.

Lemma subscribe_then_suback_witness :
  events (log (snd (mqtt_conn_cb
                      (snd (gsm_mqtt_client_subscribe w_connected "a/b" 1 13))
                      (GSM_EVT_CONN_RECV
                         [0x90 :: 3 :: u16_bytes (fst (create_packet_id (cl w_connected)))
                                       ++ [0x80]])))) =
  GSM_MQTT_EVT_SUBSCRIBE 13 (if 0x80 <? 3 then gsmOK else gsmERR)
    :: events (log w_connected).
Proof.
  refine (proj1 (subscribe_then_suback w_connected "a/b" 1 13 0x90 0x80 _ _ _ _ _ _ _)).
  - vm_compute. discriminate.
  - vm_compute. split; [discriminate | reflexivity].
  - vm_compute. repeat split; discriminate.
  - reflexivity.
  - reflexivity.
  - reflexivity.
  - intros r Hr Hpend. exfalso. revert Hpend.
    vm_compute in Hr.
    repeat (destruct Hr as [<-|Hr]; [vm_compute; discriminate|]). destruct Hr.
Defined.

(** ** A publish without acknowledgement and the data sent *)




(** ** The byte counters past 2^32 bytes *)

Lemma publish_shape (w : world) (topic : string) (payload : option (list Z))
    (payload_len qos retain a : Z) :
  publish_rem_len topic payload payload_len qos <= 65531 ->
  0 <= tx_free (cl w) < 65536 ->
  strlen topic < 65536 ->
  (forall data, payload = Some data -> GSM_U16 payload_len <= zlen data) ->
  fst (gsm_mqtt_client_publish w topic payload payload_len qos retain a) = gsmOK ->
  exists i c,
    find_not_in_use (requests (cl w)) = Some i /\
    let pid := if 0 <? GSM_U8 qos then fst (create_packet_id (cl w)) else 0 in
    c = (if 0 <? GSM_U8 qos then snd (create_packet_id (cl w)) else cl w) /\
    snd (gsm_mqtt_client_publish w topic payload payload_len qos retain a) =
    send_data
      (request_set_pending
         (set_cl
            (tx_write
               (set_requests
                  (update_request
                     (update_request (requests (cl w)) i
                        (fun r => {| status := MQTT_REQUEST_FLAG_IN_USE; packet_id := pid;
                                     arg := a; expected_sent_len := expected_sent_len r;
                                     timeout_start_time := timeout_start_time r |}))
                     i (set_expected_sent_len
                          (GSM_U32 (written_total (cl w) +
                                    raw_len (publish_rem_len topic payload payload_len qos)))))
                  c)
               (publish_packet topic payload payload_len qos retain pid)) w) i).
Proof.
  intros Hr Hf Hts Hp.
  pose proof (publish_rem_len_nonneg topic payload payload_len qos) as Hr0.
  unfold gsm_mqtt_client_publish. cbv zeta.
  destruct (GSM_U16 (strlen topic) =? 0) eqn:Ht; [discriminate|].
  destruct (negb (state_eqb (conn_state (cl w)) GSM_MQTT_CONNECTED)); [discriminate|].
  rewrite publish_rem_len_u32.
  rewrite output_check_enough_memory_eq by lia.
  destruct (raw_len _ <=? tx_free (cl w)) eqn:E; [|discriminate].
  apply Z.leb_le in E.
  destruct (negb (raw_len _ =? 0)); [|discriminate].
  rewrite qos_positive.
  set (pid := if 0 <? GSM_U8 qos then fst (create_packet_id (cl w)) else 0).
  assert (Hc : exists c,
             (if 0 <? GSM_U8 qos then create_packet_id (cl w) else (0, cl w)) = (pid, c) /\
             c = (if 0 <? GSM_U8 qos then snd (create_packet_id (cl w)) else cl w) /\
             requests c = requests (cl w) /\
             written_total c = written_total (cl w)).
  { subst pid. destruct (0 <? GSM_U8 qos).
    - exists (snd (create_packet_id (cl w))).
      split; [destruct (create_packet_id (cl w)); reflexivity|].
      split; [reflexivity|]. split; [apply create_packet_id_requests|].
      apply create_packet_id_keeps.
    - exists (cl w). repeat split. }
  destruct Hc as (c & Ec & Hcc & Hrq & Hwt). rewrite Ec.
  unfold request_create. rewrite Hrq.
  destruct (find_not_in_use (requests (cl w))) as [i|] eqn:Hfi; [|discriminate].
  intros _. exists i, c. split; [reflexivity|]. split; [exact Hcc|].
  cbv zeta. cbn [snd].
  set (rem := publish_rem_len topic payload payload_len qos) in *.
  f_equal. f_equal.
  unfold publish_packet. fold rem.
  destruct payload as [data|];
    [destruct (negb (GSM_U16 payload_len =? 0)) eqn:El|];
    destruct (0 <? GSM_U8 qos);
    unfold on_cl; cbn [set_cl cl requests set_requests written_total];
    rewrite ?write_fixed_header_bytes, ?write_string_bytes, ?write_u16_bytes;
    unfold write_data; rewrite ?tx_write_app;
    rewrite <- ?app_assoc; cbn [app]; rewrite ?app_nil_r;
    rewrite (U16_small (GSM_U16 (strlen topic))) by apply U16_bound;
    rewrite ?Hwt;
    try (apply negb_false_iff, Z.eqb_eq in El; rewrite El;
         change (Z.to_nat 0) with O; cbn [firstn]; rewrite ?app_nil_r);
    reflexivity.
Qed.

Lemma run_app (w : world) (a b : list operation) : run w (a ++ b) = run (run w a) b.
Proof. unfold run. apply fold_left_app. Qed.

(** The publish of [publish_hi_qos0] on an idle client hands its packet of
    9 bytes to the transport. *)
Lemma idle_publish (T : Z) (w : world) :
  idle T w ->
  exists c s,
    step w publish_hi_qos0 =
    {| cl := set_is_sending 1
               (set_written_total (GSM_U32 (T + 9))
                  (set_tx_buff {| buff_size := 256; buff_r := 0;
                                  buff_data := [0x30; 0x07; 0x00; 0x03; 0x61; 0x2F; 0x62;
                                                0x68; 0x69] |}
                     (set_requests
                        ({| status := 3; packet_id := 0; arg := 0;
                            expected_sent_len := GSM_U32 (T + 9);
                            timeout_start_time := s |} :: repeat request_zero 7) c)));
       log := CallConnSend [0x30; 0x07; 0x00; 0x03; 0x61; 0x2F; 0x62; 0x68; 0x69] gsmOK
              :: log w;
       env := env_ok; clock := S (S (clock w)) |} /\
    conn_state c = GSM_MQTT_CONNECTED /\ sent_total c = T.
Proof.
  intros (Hcs & His & Htx & Hst & Hwt & (r & Hrq & Hr0) & Henv).
  assert (Hfree : tx_free (cl w) = 256) by (unfold tx_free; rewrite Htx; reflexivity).
  assert (Hres : fst (gsm_mqtt_client_publish w "a/b" (Some [0x68; 0x69]) 2 0 0 0) = gsmOK).
  { rewrite publish_result;
      [|vm_compute; discriminate|vm_compute; discriminate|rewrite Hfree; lia].
    rewrite Hcs, Hfree. cbn [state_eqb negb].
    change (raw_len (publish_rem_len "a/b" (Some [104; 105]) 2 0) <=? 256) with true.
    cbv iota. unfold table_full. rewrite Hrq. cbn [forallb]. rewrite Hr0. reflexivity. }
  destruct (publish_shape w "a/b" (Some [0x68; 0x69]) 2 0 0 0) as (i & c & Hi & Hc & Hw).
  - vm_compute. discriminate.
  - rewrite Hfree. lia.
  - vm_compute. reflexivity.
  - intros data Hd. injection Hd as <-. vm_compute. discriminate.
  - exact Hres.
  - cbv zeta in Hc, Hw. change (0 <? GSM_U8 0) with false in Hc, Hw. cbv iota in Hc, Hw.
    subst c. rewrite Hrq in Hi, Hw. cbn [find_not_in_use] in Hi.
    rewrite Hr0 in Hi. injection Hi as <-.
    unfold step, publish_hi_qos0. rewrite Hw. clear Hw Hres.
    change (publish_packet "a/b" (Some [104; 105]) 2 0 0 0)
      with [0x30; 0x07; 0x00; 0x03; 0x61; 0x2F; 0x62; 0x68; 0x69].
    change (raw_len (publish_rem_len "a/b" (Some [104; 105]) 2 0)) with 9.
    rewrite Hwt.
    destruct w as [c l e k]. cbn [cl log env clock] in *. subst e.
    unfold send_data, request_set_pending, gsm_sys_now, gsm_conn_send, tx_write, on_cl.
    cbv zeta.
    cbn [set_cl cl tick emit log env clock is_sending tx_buff set_requests set_tx_buff
         update_request set_expected_sent_len].
    rewrite His, Htx.
    change (negb (0 =? 0)) with false. cbv iota.
    change (gsm_buff_write (gsm_buff_init 256) [48; 7; 0; 3; 97; 47; 98; 104; 105])
      with {| buff_size := 256; buff_r := 0;
              buff_data := [48; 7; 0; 3; 97; 47; 98; 104; 105] |}.
    cbn [requests tx_buff set_tx_buff set_requests update_request set_cl cl tick].
    change (gsm_buff_get_linear_block_read_length
              {| buff_size := 256; buff_r := 0;
                 buff_data := [48; 7; 0; 3; 97; 47; 98; 104; 105] |}) with 9.
    change (gsm_buff_get_linear_block_read
              {| buff_size := 256; buff_r := 0;
                 buff_data := [48; 7; 0; 3; 97; 47; 98; 104; 105] |})
      with [48; 7; 0; 3; 97; 47; 98; 104; 105].
    change (0 <? 9) with true. cbv iota.
    cbn [env_ok env_conn_send env_sys_now set_cl cl tick emit log env clock gsmr_eqb
         written_total set_requests set_tx_buff].
    rewrite Hwt.
    exists c, (Z.of_nat k). split; [|split; assumption].
    destruct c. cbn in *. subst. reflexivity.
Qed.

(** The report that the 9 bytes are sent completes the publish and leaves
    the client idle again. *)
Lemma busy_sent (T s : Z) (c : gsm_mqtt_client_t) (l : list output) (k : nat) :
  conn_state c = GSM_MQTT_CONNECTED ->
  sent_total c = T ->
  let w1 :=
       {| cl := set_is_sending 1
                  (set_written_total (GSM_U32 (T + 9))
                     (set_tx_buff {| buff_size := 256; buff_r := 0;
                                     buff_data := [0x30; 0x07; 0x00; 0x03; 0x61; 0x2F; 0x62;
                                                   0x68; 0x69] |}
                        (set_requests
                           ({| status := 3; packet_id := 0; arg := 0;
                               expected_sent_len := GSM_U32 (T + 9);
                               timeout_start_time := s |} :: repeat request_zero 7) c)));
          log := l; env := env_ok; clock := k |} in
  idle (GSM_U32 (T + 9)) (step w1 (OpEvt (GSM_EVT_CONN_SEND 9 gsmOK))) /\
  log (step w1 (OpEvt (GSM_EVT_CONN_SEND 9 gsmOK))) =
    CallEvtFn (GSM_MQTT_EVT_PUBLISH 0 gsmOK) :: l.
Proof.
  intros Hcs Hst. cbv zeta.
  unfold step. cbn [mqtt_conn_cb snd]. unfold mqtt_data_sent_cb. cbv zeta.
  change (gsmr_eqb gsmOK gsmOK) with true. cbn [negb snd].
  rewrite sent_requests_loop_step.
  unfold request_get_pending, get_request, on_cl.
  cbn [set_cl cl log env clock requests sent_total tx_buff is_sending written_total
       set_is_sending set_written_total set_tx_buff set_requests set_sent_total
       set_poll_time].
  match goal with |- context [find_pending ?r 0] =>
    change (find_pending r 0) with (Some 0%nat)
  end.
  cbv iota beta. cbn [nth expected_sent_len arg]. rewrite Hst, Z.leb_refl.
  change (gsm_buff_skip {| buff_size := 256; buff_r := 0;
                           buff_data := [48; 7; 0; 3; 97; 47; 98; 104; 105] |} 9)
    with {| buff_size := 256; buff_r := 9; buff_data := [] |}.
  rewrite sent_requests_loop_step.
  unfold request_get_pending, get_request, evt_fn, request_delete.
  cbn [emit set_cl cl log env clock requests sent_total tx_buff is_sending written_total
       set_is_sending set_written_total set_tx_buff set_requests set_sent_total
       set_poll_time update_request set_status].
  match goal with |- context [find_pending ?r 0] =>
    change (find_pending r 0) with (@None nat)
  end.
  cbv iota.
  unfold send_data. cbv zeta.
  cbn [cl is_sending set_is_sending set_written_total set_tx_buff set_requests set_sent_total
       set_poll_time tx_buff].
  change (negb (0 =? 0)) with false. cbv iota.
  change (gsm_buff_get_linear_block_read_length
            {| buff_size := 256; buff_r := 9; buff_data := [] |}) with 0.
  change (0 <? 0) with false. cbv iota.
  unfold idle, on_cl.
  cbn [set_cl cl log env clock requests sent_total tx_buff is_sending written_total
       conn_state set_is_sending set_written_total set_tx_buff set_requests set_sent_total
       set_poll_time status].
  repeat split; try reflexivity; try assumption.
  eexists. split; reflexivity.
Qed.

(** One publish and its report: the client is idle again, nine bytes on. *)
Lemma publish_sent_cycle (T : Z) (w : world) :
  idle T w ->
  let w1 := step w publish_hi_qos0 in
  let w2 := step w1 (OpEvt (GSM_EVT_CONN_SEND 9 gsmOK)) in
  valid_operation w1 (OpEvt (GSM_EVT_CONN_SEND 9 gsmOK)) /\
  handed (log w1) = 9 + handed (log w) /\
  handed (log w2) = 9 + handed (log w) /\
  sent_total (cl w1) = T /\
  written_total (cl w1) = GSM_U32 (T + 9) /\
  idle (GSM_U32 (T + 9)) w2.
Proof.
  intros H. cbv zeta.
  destruct (idle_publish T w H) as (c & s & Hw & Hcs & Hst).
  rewrite Hw.
  destruct (busy_sent T s c
              (CallConnSend [0x30; 0x07; 0x00; 0x03; 0x61; 0x2F; 0x62; 0x68; 0x69] gsmOK
               :: log w) (S (S (clock w))) Hcs Hst) as (Hi & Hl).
  cbv zeta in Hi, Hl. rewrite Hl.
  split; [|split; [|split; [|split; [|split]]]].
  - cbn [valid_operation cl is_sending set_is_sending log last_send gsmr_eqb].
    change (zlen [48; 7; 0; 3; 97; 47; 98; 104; 105]) with 9. split; [discriminate|lia].
  - reflexivity.
  - reflexivity.
  - exact Hst.
  - reflexivity.
  - exact Hi.
Qed.

Lemma concat_repeat_S {A : Type} (x : list A) (n : nat) :
  concat (repeat x (S n)) = concat (repeat x n) ++ x.
Proof.
  induction n as [|n IH]; [cbn; rewrite app_nil_r; reflexivity|].
  change (concat (repeat x (S (S n)))) with (x ++ concat (repeat x (S n))).
  rewrite IH at 1. rewrite app_assoc. reflexivity.
Qed.

(** The long run stays within the reachable states as long as fewer than
    2^32 bytes are written, and leaves the client idle. *)
Lemma long_run_idle (n : nat) :
  16 + 9 * Z.of_nat n < 4294967296 ->
  reachable (run (world_new env_ok 8 256 256) (long_run n)) /\
  idle (16 + 9 * Z.of_nat n) (run (world_new env_ok 8 256 256) (long_run n)) /\
  handed (log (run (world_new env_ok 8 256 256) (long_run n))) = 16 + 9 * Z.of_nat n.
Proof.
  induction n as [|n IH]; intros Hb.
  - unfold long_run. cbn [repeat concat]. rewrite app_nil_r. split; [|split].
    + apply run_reachable; [apply reachable_new|].
      intros n Hn. change (length (firstn 4 session)) with 4%nat in Hn.
      do 4 (destruct n as [|n]; [vm_compute; repeat split; congruence|]).
      lia.
    + unfold idle. repeat split; try (vm_compute; reflexivity).
      eexists. split; vm_compute; reflexivity.
    + vm_compute. reflexivity.
  - destruct IH as (Hr & Hi & Hh); [lia|].
    unfold long_run in *. rewrite concat_repeat_S, app_assoc, run_app.
    set (w := run (world_new env_ok 8 256 256)
                (firstn 4 session ++ concat (repeat publish_sent n))) in *.
    clearbody w.
    destruct (publish_sent_cycle _ w Hi) as (Hv & H1 & H2 & _ & _ & Hi2).
    cbv zeta in *. unfold publish_sent. cbn [run fold_left].
    assert (E : GSM_U32 (16 + 9 * Z.of_nat n + 9) = 16 + 9 * Z.of_nat (S n))
      by (unfold GSM_U32; rewrite Z.mod_small by lia; lia).
    rewrite E in Hi2.
    split; [|split].
    + apply reachable_step; [apply reachable_step; [exact Hr|exact I|]|exact Hv|]; lia.
    + exact Hi2.
    + lia.
Qed.

Lemma wrap_at (n : nat) :
  16 + 9 * Z.of_nat n = 4294967290 ->
  let w := run (world_new env_ok 8 256 256) (long_run n) in
  reachable w /\
  valid_operation w publish_hi_qos0 /\
  is_close publish_hi_qos0 = false /\
  handed (log (step w publish_hi_qos0)) = 4294967299 /\
  sent_total (cl w) = 4294967290 /\
  written_total (cl w) = 4294967290 /\
  sent_total (cl (step w publish_hi_qos0)) = 4294967290 /\
  written_total (cl (step w publish_hi_qos0)) = 3.
Proof.
  intros E. cbv zeta.
  destruct (long_run_idle n) as (Hr & Hi & Hh); [lia|].
  rewrite E in Hi, Hh.
  set (w := run (world_new env_ok 8 256 256) (long_run n)) in *. clearbody w.
  destruct (publish_sent_cycle _ w Hi) as (_ & H1 & _ & H3 & H4 & _).
  cbv zeta in *.
  destruct Hi as (_ & _ & _ & Hs & Hw & _).
  repeat split; try assumption.
  - lia.
Qed.

(** C8 as stated fails once 2^32 bytes are written.  A client connects and
    publishes "hi" on "a/b" with QoS 0 again and again, the transport
    reporting the 9 bytes of each packet as sent before the next publish;
    no connection is closed.  After 477,218,586 publishes both counters are
    at 4,294,967,290, and the state is one of [reachable].  The next
    publish, a valid operation that is not a close, brings the bytes
    accepted to 4,294,967,299: [written_total] wraps to 3, so it has
    decreased, and [sent_total] is above it. *)
Lemma counters_wrap_counterexample :
  let w := run (world_new env_ok 8 256 256) (long_run wrap_cycles) in
  reachable w /\
  valid_operation w publish_hi_qos0 /\
  is_close publish_hi_qos0 = false /\
  handed (log (step w publish_hi_qos0)) = 4294967299 /\
  sent_total (cl w) = 4294967290 /\
  written_total (cl w) = 4294967290 /\
  sent_total (cl (step w publish_hi_qos0)) = 4294967290 /\
  written_total (cl (step w publish_hi_qos0)) = 3.
Proof.
  apply (wrap_at wrap_cycles).
  unfold wrap_cycles. rewrite Z2Nat.id by lia. reflexivity.
Qed.
